(** * flora_textileBI: line calculators, numbering, aggregates, listings

    A shallow embedding of the parts of [app.py] that carry the
    order/invoice numbering and the line-item arithmetic, followed by the
    properties established about them.

    Conventions of the embedding.
    - A Python [float] is an IEEE-754 binary64 value; it is modelled by
      [spec_float] at precision 53 and maximal exponent 1024, with the
      correctly rounded operations of the Standard Library.
    - A Python [int] is a [Z].
    - A Python [str] is a [string]; the model reads its characters as ASCII
      code points (characters above 127 are treated as ordinary symbols).
    - A raised exception is a value of [exn]; a handler that raises leaves
      the database as it was, because [db.commit()] is not reached. *)

From Stdlib Require Import ZArith List Bool Ascii String Lia SpecFloat.
From Stdlib Require Import DecimalString.
From Stdlib Require DecimalPos.
Import ListNotations.
Local Open Scope Z_scope.

(* ================================================================== *)
(** * Part I: the embedding                                            *)
(* ================================================================== *)

(** ** Exceptions and results *)

(** The exceptions the modelled code can raise. *)
Inductive exn : Type :=
| TypeError | ValueError | IndexError | OverflowError
| RecursionError | ZeroDivisionError | AttributeError | IntegrityError.

Inductive result (A : Type) : Type :=
| Ok (a : A)
| Raise (e : exn).

Arguments Ok {A} a.
Arguments Raise {A} e.

Definition bind {A B : Type} (c : result A) (k : A -> result B) : result B :=
  match c with
  | Ok a => k a
  | Raise e => Raise e
  end.

Declare Scope py_scope.
Delimit Scope py_scope with py.
Notation "x <- c ;; k" := (bind c (fun x => k))
  (at level 100, c at next level, right associativity) : py_scope.
Notation "' p <- c ;; k" := (bind c (fun p => k))
  (at level 100, p pattern, c at next level, right associativity) : py_scope.
Local Open Scope py_scope.

(** [l[i]] for an index [0 <= i]; out of range raises [IndexError]. *)
Definition getitem {A : Type} (l : list A) (i : nat) : result A :=
  match nth_error l i with
  | Some x => Ok x
  | None => Raise IndexError
  end.

(** [for i in idx: st = body(st, i)], stopping at the first exception. *)
Fixpoint for_each {S : Type} (body : S -> nat -> result S)
         (idx : list nat) (st : S) : result S :=
  match idx with
  | [] => Ok st
  | i :: rest => st' <- body st i ;; for_each body rest st'
  end.

(** [range(n)] *)
Definition range (n : nat) : list nat := seq 0 n.

(** ** Python floats: binary64 *)

Module B64.

Definition prec : Z := 53.
Definition emax : Z := 1024.

Definition float : Type := spec_float.

Definition add : float -> float -> float := SFadd prec emax.
Definition sub : float -> float -> float := SFsub prec emax.
Definition mul : float -> float -> float := SFmul prec emax.
Definition div : float -> float -> float := SFdiv prec emax.
Definition ltb : float -> float -> bool := SFltb.
Definition leb : float -> float -> bool := SFleb.
Definition valid : float -> bool := valid_binary prec emax.

(** [float(z)] for an integer [z]: the nearest binary64 value. *)
Definition of_Z (z : Z) : float := binary_normalize prec emax z 0 false.

Definition zero : float := S754_zero false.
Definition one : float := of_Z 1.
Definition hundred : float := of_Z 100.

(** The binary64 value nearest to [(-1)^neg * m * 10^e10] (ties to even),
    which is what CPython's [strtod] returns for a decimal literal. *)
Definition of_decimal (neg : bool) (m e10 : Z) : float :=
  match m with
  | Z0 => S754_zero neg
  | Zpos p =>
      if 0 <=? e10 then
        binary_round prec emax neg (p * Z.to_pos (10 ^ e10)) 0
      else
        let '(q, e2, l) :=
          SFdiv_core_binary prec emax (Zpos p) 0 (10 ^ (- e10)) 0 in
        binary_round_aux prec emax neg q e2 l
  | Zneg _ => S754_nan
  end.

Definition is_finite (f : float) : bool :=
  match f with
  | S754_zero _ | S754_finite _ _ _ => true
  | _ => false
  end.

(** [int(f)]: truncation towards zero; NaN raises [ValueError] and an
    infinity [OverflowError]. *)
Definition trunc (f : float) : result Z :=
  match f with
  | S754_zero _ => Ok 0
  | S754_finite s m e =>
      let a := match e with
               | Zneg k => Z.shiftr (Zpos m) (Zpos k)
               | _ => Z.shiftl (Zpos m) e
               end in
      Ok (if s then - a else a)
  | S754_nan => Raise ValueError
  | S754_infinity _ => Raise OverflowError
  end.

(** Nearest integer to [n / d] for [0 <= n], [0 < d], ties to even. *)
Definition div_half_even (n d : Z) : Z :=
  let q := n / d in
  let r := n mod d in
  match 2 * r ?= d with
  | Lt => q
  | Gt => q + 1
  | Eq => if Z.even q then q else q + 1
  end.

(** Nearest integer to [|f| * scale], ties to even, for finite [f]. *)
Definition scaled_half_even (scale : Z) (m : positive) (e : Z) : Z :=
  match e with
  | Zneg k => div_half_even (Zpos m * scale) (2 ^ Zpos k)
  | _ => Zpos m * scale * 2 ^ e
  end.

(** [round(f)] with one argument: an [int], ties to even. *)
Definition round_int (f : float) : result Z :=
  match f with
  | S754_zero _ => Ok 0
  | S754_finite s m e =>
      let a := scaled_half_even 1 m e in
      Ok (if s then - a else a)
  | S754_nan => Raise ValueError
  | S754_infinity _ => Raise OverflowError
  end.

(** [round(f, 2)]: the float nearest to the two-place decimal nearest to
    the exact value of [f]; NaN and the infinities round to themselves. *)
Definition round2 (f : float) : float :=
  match f with
  | S754_finite s m e => of_decimal s (scaled_half_even 100 m e) (-2)
  | _ => f
  end.

End B64.

(** ** Python strings *)

Module PyStr.

Definition code (c : ascii) : Z := Z.of_nat (nat_of_ascii c).

(** [str.isspace] on ASCII: TAB..CR, FS..US and the blank. *)
Definition isspace (c : ascii) : bool :=
  let n := code c in
  ((9 <=? n) && (n <=? 13)) || ((28 <=? n) && (n <=? 32)).

(** C [isspace] in the "C" locale ([Py_ISSPACE]): TAB..CR and the blank. *)
Definition c_isspace (c : ascii) : bool :=
  let n := code c in
  ((9 <=? n) && (n <=? 13)) || (n =? 32).

Definition isdigit (c : ascii) : bool :=
  let n := code c in (48 <=? n) && (n <=? 57).

Definition digit_val (c : ascii) : Z := code c - 48.

Definition lower (c : ascii) : ascii :=
  let n := code c in
  if (65 <=? n) && (n <=? 90) then ascii_of_nat (Z.to_nat (n + 32)) else c.

Fixpoint lstrip (sp : ascii -> bool) (l : list ascii) : list ascii :=
  match l with
  | c :: r => if sp c then lstrip sp r else l
  | [] => []
  end.

Definition strip_with (sp : ascii -> bool) (l : list ascii) : list ascii :=
  rev (lstrip sp (rev (lstrip sp l))).

(** [s.strip()] *)
Definition strip (s : string) : string :=
  string_of_list_ascii (strip_with isspace (list_ascii_of_string s)).

(** [s.replace(a, b)] for one-character [a] and [b]. *)
Definition replace (a b : ascii) (s : string) : string :=
  string_of_list_ascii
    (map (fun c => if Ascii.eqb c a then b else c) (list_ascii_of_string s)).

Definition lower_str (l : list ascii) : list ascii := map lower l.

(** [str(n)] for an [int]. *)
Definition of_Z (z : Z) : string := NilZero.string_of_int (Z.to_int z).

(** Left padding with zeros up to [width] characters, as [{n:0wd}] does
    for a non-negative [n]. *)
Definition zfill (width : nat) (s : string) : string :=
  string_of_list_ascii (repeat "0"%char (width - String.length s)) ++ s.

(** Case-insensitive (ASCII) prefix test: SQLite's [s LIKE p || '%'] for a
    pattern prefix [p] without wildcards. *)
Fixpoint iprefix (p s : list ascii) : bool :=
  match p, s with
  | [], _ => true
  | a :: p', b :: s' => Ascii.eqb (lower a) (lower b) && iprefix p' s'
  | _ :: _, [] => false
  end.

Definition like_prefix (p s : string) : bool :=
  iprefix (list_ascii_of_string p) (list_ascii_of_string s).

(** [s.startswith(p)] *)
Definition startswith (p s : string) : bool := String.prefix p s.

End PyStr.

(** ** [float(s)] for a string [s]

    The grammar CPython accepts: optional surrounding C whitespace, an
    optional sign, then either [inf], [infinity] or [nan] in any case, or a
    decimal number with an optional exponent; single underscores may separate
    digits.  [None] stands for the [ValueError] of a rejected string. *)

Module FloatParse.

Import PyStr.

(** Underscores must stand between two digits. *)
Fixpoint underscores_ok (prev : option ascii) (l : list ascii) : bool :=
  match l with
  | [] => match prev with
          | Some p => negb (Ascii.eqb p "_"%char)
          | None => true
          end
  | c :: r =>
      let prev_digit := match prev with Some p => isdigit p | None => false end in
      let prev_us := match prev with Some p => Ascii.eqb p "_"%char | None => false end in
      (if Ascii.eqb c "_"%char then prev_digit
       else if prev_us then isdigit c else true)
      && underscores_ok (Some c) r
  end.

Definition drop_underscores (l : list ascii) : list ascii :=
  filter (fun c => negb (Ascii.eqb c "_"%char)) l.

Definition parse_sign (l : list ascii) : bool * list ascii :=
  match l with
  | "-"%char :: r => (true, r)
  | "+"%char :: r => (false, r)
  | _ => (false, l)
  end.

(** Reads a maximal run of digits: accumulated value, digit count, rest. *)
Fixpoint take_digits (l : list ascii) (acc cnt : Z) : Z * Z * list ascii :=
  match l with
  | c :: r => if isdigit c then take_digits r (10 * acc + digit_val c) (cnt + 1)
              else (acc, cnt, l)
  | [] => (acc, cnt, [])
  end.

(** A decimal number: sign, decimal mantissa, decimal exponent. *)
Definition parse_decimal (l : list ascii) : option (bool * Z * Z) :=
  let '(neg, l1) := parse_sign l in
  let '(mi, ni, l2) := take_digits l1 0 0 in
  let '(m, nf, l3) :=
    match l2 with
    | "."%char :: r => take_digits r mi 0
    | _ => (mi, 0, l2)
    end in
  if ni + nf =? 0 then None
  else
    match l3 with
    | [] => Some (neg, m, - nf)
    | c :: r =>
        if Ascii.eqb (lower c) "e"%char then
          let '(eneg, r1) := parse_sign r in
          let '(ev, en, r2) := take_digits r1 0 0 in
          if en =? 0 then None
          else
            match r2 with
            | [] => Some (neg, m, (if eneg then - ev else ev) - nf)
            | _ :: _ => None
            end
        else None
    end.

Definition list_eqb (a b : list ascii) : bool :=
  String.eqb (string_of_list_ascii a) (string_of_list_ascii b).

Definition parse_inf_nan (l : list ascii) : option B64.float :=
  let '(neg, r) := parse_sign l in
  let w := lower_str r in
  if list_eqb w (list_ascii_of_string "inf")
     || list_eqb w (list_ascii_of_string "infinity")
  then Some (S754_infinity neg)
  else if list_eqb w (list_ascii_of_string "nan") then Some S754_nan
  else None.

Definition float_of_string (s : string) : option B64.float :=
  let l := strip_with c_isspace (list_ascii_of_string s) in
  if underscores_ok None l then
    let l' := drop_underscores l in
    match parse_decimal l' with
    | Some (neg, m, e) => Some (B64.of_decimal neg m e)
    | None => parse_inf_nan l'
    end
  else None.

End FloatParse.

(** ** Python numbers *)

Module PyNum.

(** A number is an [int] or a [float]. *)
Inductive num : Type :=
| PInt (z : Z)
| PFloat (f : B64.float).

(** Conversion of an operand to [float] in mixed arithmetic.  The integers
    met here are 0, 1, 100 and truncations of floats, all of which binary64
    represents exactly. *)
Definition to_float (x : num) : B64.float :=
  match x with
  | PInt z => B64.of_Z z
  | PFloat f => f
  end.

Definition add (a b : num) : num :=
  match a, b with
  | PInt x, PInt y => PInt (x + y)
  | _, _ => PFloat (B64.add (to_float a) (to_float b))
  end.

Definition sub (a b : num) : num :=
  match a, b with
  | PInt x, PInt y => PInt (x - y)
  | _, _ => PFloat (B64.sub (to_float a) (to_float b))
  end.

Definition mul (a b : num) : num :=
  match a, b with
  | PInt x, PInt y => PInt (x * y)
  | _, _ => PFloat (B64.mul (to_float a) (to_float b))
  end.

(** [a < b] *)
Definition ltb (a b : num) : bool :=
  match a, b with
  | PInt x, PInt y => x <? y
  | _, _ => B64.ltb (to_float a) (to_float b)
  end.

(** [max(a, b)]: [b] when [b > a], otherwise [a]. *)
Definition max (a b : num) : num := if ltb a b then b else a.

(** [x / 100] for a float [x]: true division by the literal 100, which
    cannot raise [ZeroDivisionError]. *)
Definition div100 (x : B64.float) : B64.float := B64.div x B64.hundred.

End PyNum.

Import PyNum.

(** ** Amount in words (lines 57-119) *)

Module Words.

Local Open Scope string_scope.
Local Open Scope Z_scope.

Definition ones : list string :=
  ["zero"; "one"; "two"; "three"; "four"; "five"; "six"; "seven"; "eight";
   "nine"; "ten"; "eleven"; "twelve"; "thirteen"; "fourteen"; "fifteen";
   "sixteen"; "seventeen"; "eighteen"; "nineteen"].

Definition tens : list string :=
  [""; ""; "twenty"; "thirty"; "forty"; "fifty"; "sixty"; "seventy";
   "eighty"; "ninety"].

(** [l[i]] with Python's negative indices. *)
Definition index (l : list string) (i : Z) : result string :=
  let n := Z.of_nat (List.length l) in
  if (0 <=? i) && (i <? n) then getitem l (Z.to_nat i)
  else if (- n <=? i) && (i <? 0) then getitem l (Z.to_nat (n + i))
  else Raise IndexError.

Definition two_digits (num : Z) : result string :=
  if num <? 20 then index ones num
  else
    let t := num / 10 in
    let o := num mod 10 in
    ts <- index tens t ;;
    os <- (if o =? 0 then Ok "" else (w <- index ones o ;; Ok (" " ++ w))) ;;
    Ok (PyStr.strip (ts ++ os)).

Definition three_digits (num : Z) : result string :=
  let h := num / 100 in
  let rem := num mod 100 in
  p1 <- (if h =? 0 then Ok []
         else (w <- index ones h ;; Ok [w ++ " hundred"])) ;;
  p2 <- (if rem =? 0 then Ok [] else (w <- two_digits rem ;; Ok [w])) ;;
  let parts := (p1 ++ p2)%list in
  Ok (match parts with [] => "zero" | _ => String.concat " " parts end).

(** [fuel] is the number of nested calls the interpreter still allows;
    running out of it is Python's [RecursionError]. *)
Fixpoint _inr_number_to_words (fuel : nat) (n : Z) : result string :=
  match fuel with
  | O => Raise RecursionError
  | S fuel' =>
      if n =? 0 then Ok "zero"
      else
        let crore := n / 10000000 in
        let rem := n mod 10000000 in
        p1 <- (if crore =? 0 then Ok []
               else (w <- _inr_number_to_words fuel' crore ;;
                     Ok [w ++ " crore"])) ;;
        let lakh := rem / 100000 in
        let rem := rem mod 100000 in
        p2 <- (if lakh =? 0 then Ok []
               else (w <- _inr_number_to_words fuel' lakh ;;
                     Ok [w ++ " lakh"])) ;;
        let thousand := rem / 1000 in
        let rem := rem mod 1000 in
        p3 <- (if thousand =? 0 then Ok []
               else (w <- _inr_number_to_words fuel' thousand ;;
                     Ok [w ++ " thousand"])) ;;
        p4 <- (if rem =? 0 then Ok []
               else (w <- three_digits rem ;; Ok [w])) ;;
        Ok (String.concat " " (p1 ++ p2 ++ p3 ++ p4)%list)
  end.

(** The values a template can hand to the filter. *)
Inductive pyval : Type :=
| VNone
| VInt (z : Z)
| VFloat (f : B64.float)
| VStr (s : string).

Definition truthy (v : pyval) : bool :=
  match v with
  | VNone => false
  | VInt z => negb (z =? 0)
  | VFloat (S754_zero _) => false
  | VFloat _ => true
  | VStr s => negb (String.eqb s "")
  end.

(** [float(v)] *)
Definition to_float (v : pyval) : result B64.float :=
  match v with
  | VNone => Raise TypeError
  | VInt z =>
      let f := B64.of_Z z in
      if B64.is_finite f then Ok f else Raise OverflowError
  | VFloat f => Ok f
  | VStr s =>
      match FloatParse.float_of_string s with
      | Some f => Ok f
      | None => Raise ValueError
      end
  end.

Section InrWords.

(** The optional [num2words] package: [None] when its import failed,
    otherwise what [num2words(n, lang='en_IN')] returns or raises. *)
Variable num2words : option (Z -> result string).

Definition with_num2words (rupees paise : Z) : result string :=
  match num2words with
  | None => Raise ValueError
  | Some f =>
      w <- f rupees ;;
      let words := PyStr.replace "-" " " w ++ " rupees" in
      words <- (if paise =? 0 then Ok words
                else (p <- f paise ;;
                      Ok (words ++ " and " ++ PyStr.replace "-" " " p
                                ++ " paise"))) ;;
      Ok (words ++ " only")
  end.

Definition inr_words (fuel : nat) (amount : pyval) : result string :=
  let n :=
    match to_float (if truthy amount then amount else VInt 0) with
    | Ok f => B64.round2 f
    | Raise _ => B64.zero
    end in
  rupees <- B64.trunc n ;;
  paise <- B64.round_int
             (B64.mul (B64.sub n (B64.of_Z rupees)) B64.hundred) ;;
  match (match num2words with
         | Some _ => with_num2words rupees paise
         | None => Raise ValueError
         end) with
  | Ok words => Ok words
  | Raise _ =>
      w <- _inr_number_to_words fuel rupees ;;
      let words := w ++ " rupees" in
      words <- (if paise =? 0 then Ok words
                else (p <- _inr_number_to_words fuel paise ;;
                      Ok (words ++ " and " ++ p ++ " paise"))) ;;
      Ok (words ++ " only")
  end.

End InrWords.

End Words.

(** ** Line calculators *)

(** The sales-order helpers (lines 1601-1617). *)
Module Sales.

(** [safe_float(val)]: [val] is [None] or a string. *)
Definition safe_float (val : option string) : B64.float :=
  match val with
  | None => B64.zero
  | Some s =>
      if String.eqb (PyStr.strip s) "" then B64.zero
      else
        match FloatParse.float_of_string (PyStr.replace "," "." s) with
        | Some f => f
        | None => B64.zero
        end
  end.

(** [calculate_line(qty, rate, disc)] returns
    [(qty, rate, disc, line_total)]. *)
Definition calculate_line (qty rate disc : option string)
  : B64.float * B64.float * B64.float * num :=
  let qty := safe_float qty in
  let rate := safe_float rate in
  let disc := safe_float disc in
  let base := B64.mul qty rate in
  let line_total :=
    PyNum.max
      (PFloat (B64.mul base (B64.sub B64.one (div100 disc))))
      (PInt 0) in
  (qty, rate, disc, line_total).

End Sales.

(** The purchase-order helpers (lines 2089-2109). *)
Module Purchase.

Definition safe_float (val : option string) : B64.float :=
  match val with
  | None => B64.zero
  | Some s =>
      if String.eqb (PyStr.strip s) "" then B64.zero
      else
        match FloatParse.float_of_string (PyStr.replace "," "." s) with
        | Some f => f
        | None => B64.zero
        end
  end.

Record line : Type := {
  l_qty : B64.float;
  l_rate : B64.float;
  l_disc : B64.float;
  l_gst : B64.float;
  l_net : num;
  l_tax : num;
  l_line_total : num
}.

(** [calculate_line(qty, rate, disc, gst)] returns
    [(qty, rate, disc, gst, net, tax, line_total)]. *)
Definition calculate_line (qty rate disc gst : option string) : line :=
  let qty := safe_float qty in
  let rate := safe_float rate in
  let disc := safe_float disc in
  let gst := safe_float gst in
  let base := B64.mul qty rate in
  let net := PyNum.max (PFloat (B64.sub base disc)) (PInt 0) in
  let tax := PyNum.mul net (PFloat (div100 gst)) in
  let line_total := PyNum.add net tax in
  {| l_qty := qty; l_rate := rate; l_disc := disc; l_gst := gst;
     l_net := net; l_tax := tax; l_line_total := line_total |}.

End Purchase.

(** The module namespace of [app.py].  Both pairs of helpers are defined at
    module level under the same names, so once the module is imported the
    names [safe_float] and [calculate_line] denote the later definitions
    (lines 2089 and 2098).  A function body looks a global name up when it
    runs: every call of [calculate_line] in a request handler reaches the
    four-parameter function. *)
Module Globals.

Inductive line_function : Type :=
| Line3 (f : option string -> option string -> option string
             -> B64.float * B64.float * B64.float * num)
| Line4 (f : option string -> option string -> option string
             -> option string -> Purchase.line).

Definition calculate_line : line_function := Line4 Purchase.calculate_line.

(** A call with three positional arguments. *)
Definition call3 (g : line_function) (a b c : option string)
  : result (B64.float * B64.float * B64.float * num) :=
  match g with
  | Line3 f => Ok (f a b c)
  | Line4 _ => Raise TypeError
  end.

(** A call with four positional arguments. *)
Definition call4 (g : line_function) (a b c d : option string)
  : result Purchase.line :=
  match g with
  | Line3 _ => Raise TypeError
  | Line4 f => Ok (f a b c d)
  end.

End Globals.

(** ** The persisted rows

    Rows carry the columns the handlers' statements name, with the Python
    values bound to them.  [CURRENT_TIMESTAMP] columns, [status] defaults and
    the row ids of line tables play no part below and are left out.  Of the
    schema, the model keeps what [init_db] declares for [sales_orders]
    ([customer_id NOT NULL], [so_no UNIQUE], [AUTOINCREMENT]) and for
    [sales_invoices] ([customer_id NOT NULL], the invoice number [UNIQUE],
    [AUTOINCREMENT]); no table of purchase orders is declared in [app.py],
    so no constraint is assumed for it beyond an auto-incremented id. *)

Module Db.

Record sales_order : Type := {
  so_id : Z;
  so_customer_id : option string;
  so_no : option string;
  so_date : option string;
  so_expected_delivery_date : option string;
  so_notes : option string;
  so_total : num;
  so_grand_total : num
}.

Record sales_order_item : Type := {
  soi_sales_order_id : Z;
  soi_item_id : string;
  soi_qty : B64.float;
  soi_rate : B64.float;
  soi_discount : B64.float;
  soi_line_total : num
}.

Record sales_invoice : Type := {
  si_id : Z;
  si_invoice_no : string;
  si_sales_order_id : option string;
  si_customer_id : option string;
  si_date : option string;
  si_due_date : option string;
  si_notes : option string;
  si_total : num;
  si_grand_total : num
}.

Record sales_invoice_item : Type := {
  sii_sales_invoice_id : Z;
  sii_item_id : string;
  sii_qty : B64.float;
  sii_rate : B64.float;
  sii_discount : B64.float;
  sii_line_total : num
}.

Record purchase_order : Type := {
  po_id : Z;
  po_supplier_id : option string;
  po_no : option string;
  po_date : option string;
  po_notes : option string;
  po_total : num;
  po_tax_total : num;
  po_grand_total : num
}.

Record purchase_order_item : Type := {
  poi_purchase_order_id : Z;
  poi_item_id : string;
  poi_qty : B64.float;
  poi_rate : B64.float;
  poi_discount : B64.float;
  poi_gst_rate : B64.float;
  poi_net : num;
  poi_tax : num;
  poi_line_total : num
}.

(** Tables list their rows in insertion order; [*_seq] is the largest id
    the table has ever issued ([sqlite_sequence]). *)
Record db : Type := {
  sales_orders : list sales_order;
  sales_orders_seq : Z;
  sales_order_items : list sales_order_item;
  sales_invoices : list sales_invoice;
  sales_invoices_seq : Z;
  sales_invoice_items : list sales_invoice_item;
  purchase_orders : list purchase_order;
  purchase_orders_seq : Z;
  purchase_order_items : list purchase_order_item
}.

Definition empty : db :=
  {| sales_orders := []; sales_orders_seq := 0; sales_order_items := [];
     sales_invoices := []; sales_invoices_seq := 0; sales_invoice_items := [];
     purchase_orders := []; purchase_orders_seq := 0;
     purchase_order_items := [] |}.

(** The id an [AUTOINCREMENT] key gives the next row. *)
Definition next_id (seq : Z) (ids : list Z) : Z :=
  fold_left Z.max ids seq + 1.

Definition opt_eqb (a : option string) (b : string) : bool :=
  match a with
  | Some s => String.eqb s b
  | None => false
  end.

(** ** Statements on [sales_orders] *)

(** [INSERT INTO sales_orders (customer_id, so_no, date,
    expected_delivery_date, notes, total, grand_total)
    VALUES (?, '', ?, ?, ?, 0, 0)]; yields [lastrowid]. *)
Definition insert_sales_order_placeholder
           (customer_id date expected notes : option string) (d : db)
  : result (Z * db) :=
  match customer_id with
  | None => Raise IntegrityError
  | Some _ =>
      if existsb (fun r => opt_eqb (so_no r) "") (sales_orders d)
      then Raise IntegrityError
      else
        let id := next_id (sales_orders_seq d) (map so_id (sales_orders d)) in
        let row := {| so_id := id; so_customer_id := customer_id;
                      so_no := Some ""%string; so_date := date;
                      so_expected_delivery_date := expected;
                      so_notes := notes;
                      so_total := PInt 0; so_grand_total := PInt 0 |} in
        Ok (id,
            {| sales_orders := sales_orders d ++ [row];
               sales_orders_seq := id;
               sales_order_items := sales_order_items d;
               sales_invoices := sales_invoices d;
               sales_invoices_seq := sales_invoices_seq d;
               sales_invoice_items := sales_invoice_items d;
               purchase_orders := purchase_orders d;
               purchase_orders_seq := purchase_orders_seq d;
               purchase_order_items := purchase_order_items d |})
  end.

(** [SELECT COUNT( * ) FROM sales_orders WHERE so_no LIKE ?] for a pattern
    [prefix || '%'] whose prefix holds no wildcard. *)
Definition count_so_no_like (prefix : string) (d : db) : Z :=
  Z.of_nat
    (List.length
       (filter (fun r => match so_no r with
                         | Some s => PyStr.like_prefix prefix s
                         | None => false
                         end) (sales_orders d))).

Definition with_sales_orders (d : db) (rows : list sales_order) : db :=
  {| sales_orders := rows;
     sales_orders_seq := sales_orders_seq d;
     sales_order_items := sales_order_items d;
     sales_invoices := sales_invoices d;
     sales_invoices_seq := sales_invoices_seq d;
     sales_invoice_items := sales_invoice_items d;
     purchase_orders := purchase_orders d;
     purchase_orders_seq := purchase_orders_seq d;
     purchase_order_items := purchase_order_items d |}.

Definition with_sales_order_items (d : db) (rows : list sales_order_item)
  : db :=
  {| sales_orders := sales_orders d;
     sales_orders_seq := sales_orders_seq d;
     sales_order_items := rows;
     sales_invoices := sales_invoices d;
     sales_invoices_seq := sales_invoices_seq d;
     sales_invoice_items := sales_invoice_items d;
     purchase_orders := purchase_orders d;
     purchase_orders_seq := purchase_orders_seq d;
     purchase_order_items := purchase_order_items d |}.

(** A [UNIQUE] clash of [so_no = v] with a row other than [id]. *)
Definition so_no_taken (id : Z) (v : option string) (d : db) : bool :=
  match v with
  | None => false
  | Some s =>
      existsb (fun r => negb (so_id r =? id) && opt_eqb (so_no r) s)
              (sales_orders d)
  end.

(** [UPDATE sales_orders SET so_no=? WHERE id=?] *)
Definition update_so_no (id : Z) (v : string) (d : db) : result db :=
  if existsb (fun r => so_id r =? id) (sales_orders d)
     && so_no_taken id (Some v) d
  then Raise IntegrityError
  else
    Ok (with_sales_orders d
          (map (fun r =>
                  if so_id r =? id then
                    {| so_id := so_id r; so_customer_id := so_customer_id r;
                       so_no := Some v; so_date := so_date r;
                       so_expected_delivery_date := so_expected_delivery_date r;
                       so_notes := so_notes r; so_total := so_total r;
                       so_grand_total := so_grand_total r |}
                  else r) (sales_orders d))).

(** [UPDATE sales_orders SET total=?, grand_total=? WHERE id=?] *)
Definition update_so_totals (id : Z) (total grand_total : num) (d : db) : db :=
  with_sales_orders d
    (map (fun r =>
            if so_id r =? id then
              {| so_id := so_id r; so_customer_id := so_customer_id r;
                 so_no := so_no r; so_date := so_date r;
                 so_expected_delivery_date := so_expected_delivery_date r;
                 so_notes := so_notes r; so_total := total;
                 so_grand_total := grand_total |}
            else r) (sales_orders d)).

(** [UPDATE sales_orders SET customer_id=?, so_no=?, date=?,
    expected_delivery_date=?, notes=?, total=?, grand_total=?, ...
    WHERE id=?] *)
Definition update_sales_order
           (id : Z) (customer_id no date expected notes : option string)
           (total grand_total : num) (d : db) : result db :=
  if existsb (fun r => so_id r =? id) (sales_orders d)
     && (match customer_id with None => true | Some _ => false end
         || so_no_taken id no d)
  then Raise IntegrityError
  else
    Ok (with_sales_orders d
          (map (fun r =>
                  if so_id r =? id then
                    {| so_id := id; so_customer_id := customer_id;
                       so_no := no; so_date := date;
                       so_expected_delivery_date := expected;
                       so_notes := notes; so_total := total;
                       so_grand_total := grand_total |}
                  else r) (sales_orders d))).

(** [INSERT INTO sales_order_items (...) VALUES (...)] *)
Definition insert_sales_order_item (row : sales_order_item) (d : db) : db :=
  with_sales_order_items d (sales_order_items d ++ [row]).

(** [DELETE FROM sales_order_items WHERE sales_order_id=?] *)
Definition delete_sales_order_items (id : Z) (d : db) : db :=
  with_sales_order_items d
    (filter (fun r => negb (soi_sales_order_id r =? id))
            (sales_order_items d)).

(** ** Statements on [sales_invoices] *)

Definition with_sales_invoices (d : db) (rows : list sales_invoice)
           (seq : Z) : db :=
  {| sales_orders := sales_orders d;
     sales_orders_seq := sales_orders_seq d;
     sales_order_items := sales_order_items d;
     sales_invoices := rows;
     sales_invoices_seq := seq;
     sales_invoice_items := sales_invoice_items d;
     purchase_orders := purchase_orders d;
     purchase_orders_seq := purchase_orders_seq d;
     purchase_order_items := purchase_order_items d |}.

Definition with_sales_invoice_items (d : db)
           (rows : list sales_invoice_item) : db :=
  {| sales_orders := sales_orders d;
     sales_orders_seq := sales_orders_seq d;
     sales_order_items := sales_order_items d;
     sales_invoices := sales_invoices d;
     sales_invoices_seq := sales_invoices_seq d;
     sales_invoice_items := rows;
     purchase_orders := purchase_orders d;
     purchase_orders_seq := purchase_orders_seq d;
     purchase_order_items := purchase_order_items d |}.

(** The table declares the invoice number [UNIQUE] and [customer_id]
    [NOT NULL] (lines 461-464; the number is the column [si_no], renamed
    [invoice_no] by migration 53ce73508678). *)

(** A [UNIQUE] clash of the number [no] with a row other than [id]. *)
Definition invoice_no_taken (id : Z) (no : string) (d : db) : bool :=
  existsb (fun r => negb (si_id r =? id) && String.eqb (si_invoice_no r) no)
          (sales_invoices d).

(** The table with the row an accepted [INSERT] adds, and its id. *)
Definition add_sales_invoice
           (no : string) (so customer date due notes : option string)
           (total grand_total : num) (d : db) : Z * db :=
  let id := next_id (sales_invoices_seq d) (map si_id (sales_invoices d)) in
  let row := {| si_id := id; si_invoice_no := no; si_sales_order_id := so;
                si_customer_id := customer; si_date := date;
                si_due_date := due; si_notes := notes;
                si_total := total; si_grand_total := grand_total |} in
  (id, with_sales_invoices d (sales_invoices d ++ [row]) id).

(** [INSERT INTO sales_invoices (invoice_no, sales_order_id, customer_id,
    date, due_date, notes, total, grand_total) VALUES (...)]; yields
    [lastrowid]. *)
Definition insert_sales_invoice
           (no : string) (so customer date due notes : option string)
           (total grand_total : num) (d : db) : result (Z * db) :=
  match customer with
  | None => Raise IntegrityError
  | Some _ =>
      if existsb (fun r => String.eqb (si_invoice_no r) no) (sales_invoices d)
      then Raise IntegrityError
      else Ok (add_sales_invoice no so customer date due notes
                 total grand_total d)
  end.

(** The table with the rows of id [id] rewritten by an accepted
    [UPDATE]. *)
Definition set_sales_invoice
           (id : Z) (no : string) (so customer date due notes : option string)
           (total grand_total : num) (d : db) : db :=
  with_sales_invoices d
    (map (fun r =>
            if si_id r =? id then
              {| si_id := id; si_invoice_no := no; si_sales_order_id := so;
                 si_customer_id := customer; si_date := date;
                 si_due_date := due; si_notes := notes;
                 si_total := total; si_grand_total := grand_total |}
            else r) (sales_invoices d))
    (sales_invoices_seq d).

(** [UPDATE sales_invoices SET sales_order_id=?, customer_id=?, date=?,
    due_date=?, invoice_no=?, notes=?, total=?, grand_total=?, ...
    WHERE id=?]: the constraints are tested when a row has that id. *)
Definition update_sales_invoice
           (id : Z) (no : string) (so customer date due notes : option string)
           (total grand_total : num) (d : db) : result db :=
  if existsb (fun r => si_id r =? id) (sales_invoices d)
     && (match customer with None => true | Some _ => false end
         || invoice_no_taken id no d)
  then Raise IntegrityError
  else Ok (set_sales_invoice id no so customer date due notes
             total grand_total d).

Definition insert_sales_invoice_item (row : sales_invoice_item) (d : db)
  : db :=
  with_sales_invoice_items d (sales_invoice_items d ++ [row]).

Definition delete_sales_invoice_items (id : Z) (d : db) : db :=
  with_sales_invoice_items d
    (filter (fun r => negb (sii_sales_invoice_id r =? id))
            (sales_invoice_items d)).

(** ** Statements on [purchase_orders] *)

Definition with_purchase_orders (d : db) (rows : list purchase_order)
           (seq : Z) : db :=
  {| sales_orders := sales_orders d;
     sales_orders_seq := sales_orders_seq d;
     sales_order_items := sales_order_items d;
     sales_invoices := sales_invoices d;
     sales_invoices_seq := sales_invoices_seq d;
     sales_invoice_items := sales_invoice_items d;
     purchase_orders := rows;
     purchase_orders_seq := seq;
     purchase_order_items := purchase_order_items d |}.

Definition with_purchase_order_items (d : db)
           (rows : list purchase_order_item) : db :=
  {| sales_orders := sales_orders d;
     sales_orders_seq := sales_orders_seq d;
     sales_order_items := sales_order_items d;
     sales_invoices := sales_invoices d;
     sales_invoices_seq := sales_invoices_seq d;
     sales_invoice_items := sales_invoice_items d;
     purchase_orders := purchase_orders d;
     purchase_orders_seq := purchase_orders_seq d;
     purchase_order_items := rows |}.

(** [INSERT INTO purchase_orders (supplier_id, po_no, date, notes, total,
    tax_total, grand_total) VALUES (?, '', ?, ?, 0, 0, 0)] *)
Definition insert_purchase_order_placeholder
           (supplier date notes : option string) (d : db) : Z * db :=
  let id := next_id (purchase_orders_seq d) (map po_id (purchase_orders d)) in
  let row := {| po_id := id; po_supplier_id := supplier;
                po_no := Some ""%string; po_date := date; po_notes := notes;
                po_total := PInt 0; po_tax_total := PInt 0;
                po_grand_total := PInt 0 |} in
  (id, with_purchase_orders d (purchase_orders d ++ [row]) id).

(** [SELECT COUNT( * ) FROM purchase_orders WHERE po_no LIKE ?] *)
Definition count_po_no_like (prefix : string) (d : db) : Z :=
  Z.of_nat
    (List.length
       (filter (fun r => match po_no r with
                         | Some s => PyStr.like_prefix prefix s
                         | None => false
                         end) (purchase_orders d))).

(** [UPDATE purchase_orders SET po_no=? WHERE id=?] *)
Definition update_po_no (id : Z) (v : option string) (d : db) : db :=
  with_purchase_orders d
    (map (fun r =>
            if po_id r =? id then
              {| po_id := po_id r; po_supplier_id := po_supplier_id r;
                 po_no := v; po_date := po_date r; po_notes := po_notes r;
                 po_total := po_total r; po_tax_total := po_tax_total r;
                 po_grand_total := po_grand_total r |}
            else r) (purchase_orders d))
    (purchase_orders_seq d).

(** [UPDATE purchase_orders SET total=?, tax_total=?, grand_total=?
    WHERE id=?] *)
Definition update_po_totals (id : Z) (total tax_total grand_total : num)
           (d : db) : db :=
  with_purchase_orders d
    (map (fun r =>
            if po_id r =? id then
              {| po_id := po_id r; po_supplier_id := po_supplier_id r;
                 po_no := po_no r; po_date := po_date r;
                 po_notes := po_notes r;
                 po_total := total; po_tax_total := tax_total;
                 po_grand_total := grand_total |}
            else r) (purchase_orders d))
    (purchase_orders_seq d).

(** [UPDATE purchase_orders SET supplier_id=?, po_no=?, date=?, notes=?,
    total=?, tax_total=?, grand_total=?, ... WHERE id=?] *)
Definition update_purchase_order
           (id : Z) (supplier no date notes : option string)
           (total tax_total grand_total : num) (d : db) : db :=
  with_purchase_orders d
    (map (fun r =>
            if po_id r =? id then
              {| po_id := id; po_supplier_id := supplier;
                 po_no := no; po_date := date; po_notes := notes;
                 po_total := total; po_tax_total := tax_total;
                 po_grand_total := grand_total |}
            else r) (purchase_orders d))
    (purchase_orders_seq d).

Definition insert_purchase_order_item (row : purchase_order_item) (d : db)
  : db :=
  with_purchase_order_items d (purchase_order_items d ++ [row]).

Definition delete_purchase_order_items (id : Z) (d : db) : db :=
  with_purchase_order_items d
    (filter (fun r => negb (poi_purchase_order_id r =? id))
            (purchase_order_items d)).

End Db.

(** ** Request handlers that create or replace a document *)

Module Handlers.

Import Db.
Local Open Scope string_scope.
Local Open Scope Z_scope.

(** One reading of the server clock: the calendar date of
    [datetime.now()] and its [timestamp()]. *)
Record clock : Type := {
  year : Z;
  month : Z;
  day : Z;
  timestamp : B64.float
}.

(** [strftime("%Y%m%d")] *)
Definition strftime_Ymd (c : clock) : string :=
  PyStr.zfill 4 (PyStr.of_Z (year c)) ++ PyStr.zfill 2 (PyStr.of_Z (month c))
    ++ PyStr.zfill 2 (PyStr.of_Z (day c)).

(** [strftime("%Y-%m-%d")] *)
Definition strftime_Y_m_d (c : clock) : string :=
  PyStr.zfill 4 (PyStr.of_Z (year c)) ++ "-"
    ++ PyStr.zfill 2 (PyStr.of_Z (month c)) ++ "-"
    ++ PyStr.zfill 2 (PyStr.of_Z (day c)).

(** [not v] for what [form.get] returns. *)
Definition falsy (v : option string) : bool :=
  match v with
  | None => true
  | Some s => String.eqb s ""
  end.

(** [f"{n:05d}"] for [0 <= n]. *)
Definition fmt_05d (n : Z) : string := PyStr.zfill 5 (PyStr.of_Z n).

(** *** Sales orders (lines 1689-1799) *)

Record order_form : Type := {
  of_customer_id : option string;
  of_so_no : option string;
  of_date : option string;
  of_expected_delivery_date : option string;
  of_notes : option string;
  of_qtys : list string;
  of_rates : list string;
  of_discounts : list string;
  of_item_ids : list string
}.

(** The body of [for i in range(len(item_ids))] in both sales-order
    handlers. *)
Definition so_line (so_id : Z) (form : order_form) (st : num * db) (i : nat)
  : result (num * db) :=
  let '(total, d) := st in
  item <- getitem (of_item_ids form) i ;;
  if String.eqb item "" then Ok st
  else
    q <- getitem (of_qtys form) i ;;
    r <- getitem (of_rates form) i ;;
    dsc <- getitem (of_discounts form) i ;;
    '(qty, rate, disc, line_total) <-
      Globals.call3 Globals.calculate_line (Some q) (Some r) (Some dsc) ;;
    let total := PyNum.add total line_total in
    Ok (total,
        insert_sales_order_item
          {| soi_sales_order_id := so_id; soi_item_id := item;
             soi_qty := qty; soi_rate := rate; soi_discount := disc;
             soi_line_total := line_total |} d).

(** [salesorder_new], the POST branch: the new order's id and number and
    the committed database. *)
Definition salesorder_new (now : clock) (form : order_form) (d : db)
  : result (Z * string * db) :=
  let customer_id := of_customer_id form in
  let date := if falsy (of_date form) then Some (strftime_Y_m_d now)
              else of_date form in
  '(so_id, d) <-
    insert_sales_order_placeholder customer_id date
      (of_expected_delivery_date form) (of_notes form) d ;;
  let today_str := strftime_Ymd now in
  let count_today := count_so_no_like ("SO" ++ today_str ++ "-") d in
  let next_seq := count_today + 1 in
  let so_no := "SO" ++ today_str ++ "-" ++ fmt_05d next_seq in
  d <- update_so_no so_id so_no d ;;
  '(total, d) <-
    for_each (so_line so_id form) (range (List.length (of_item_ids form)))
             (PFloat B64.zero, d) ;;
  let d := update_so_totals so_id total total d in
  Ok (so_id, so_no, d).

(** [salesorder_edit], the POST branch. *)
Definition salesorder_edit (so_id : Z) (form : order_form) (d : db)
  : result db :=
  if negb (existsb (fun r => Db.so_id r =? so_id) (sales_orders d)) then Ok d
  else
    let d := delete_sales_order_items so_id d in
    '(total, d) <-
      for_each (so_line so_id form) (range (List.length (of_item_ids form)))
               (PFloat B64.zero, d) ;;
    update_sales_order so_id (of_customer_id form) (of_so_no form)
      (of_date form) (of_expected_delivery_date form) (of_notes form)
      total total d.

(** *** Sales invoices (lines 1954-2001) *)

Record invoice_form : Type := {
  if_customer_id : option string;
  if_date : option string;
  if_due_date : option string;
  if_invoice_no : option string;
  if_notes : option string;
  if_sales_order_id : option string;
  if_item_ids : list string;
  if_qtys : list string;
  if_rates : list string;
  if_discounts : list string
}.

(** [float(s or 0)] *)
Definition float_or_zero (s : string) : result B64.float :=
  if String.eqb s "" then Ok (B64.of_Z 0)
  else
    match FloatParse.float_of_string s with
    | Some f => Ok f
    | None => Raise ValueError
    end.

Definition invoice_line_item : Type :=
  string * B64.float * B64.float * B64.float * num.

(** The body of the first loop of [save_invoice]. *)
Definition invoice_line (form : invoice_form)
           (st : num * list invoice_line_item) (i : nat)
  : result (num * list invoice_line_item) :=
  let '(total, line_items) := st in
  q <- getitem (if_qtys form) i ;;
  qty <- float_or_zero q ;;
  r <- getitem (if_rates form) i ;;
  rate <- float_or_zero r ;;
  dsc <- getitem (if_discounts form) i ;;
  disc <- float_or_zero dsc ;;
  let base := B64.mul qty rate in
  let line_total :=
    PyNum.max (PFloat (B64.mul base (B64.sub B64.one (div100 disc))))
              (PInt 0) in
  let total := PyNum.add total line_total in
  item <- getitem (if_item_ids form) i ;;
  Ok (total, (line_items ++ [(item, qty, rate, disc, line_total)])%list).

Definition insert_invoice_lines (invoice_id : Z)
           (line_items : list invoice_line_item) (d : db) : db :=
  fold_left
    (fun d (li : invoice_line_item) =>
       let '(item_id, qty, rate, disc, line_total) := li in
       insert_sales_invoice_item
         {| sii_sales_invoice_id := invoice_id; sii_item_id := item_id;
            sii_qty := qty; sii_rate := rate; sii_discount := disc;
            sii_line_total := line_total |} d)
    line_items d.

(** [save_invoice(db, form, id)]: the invoice's id and the committed
    database. *)
Definition save_invoice (now : clock) (d : db) (form : invoice_form)
           (id : option Z) : result (Z * db) :=
  invoice_no <-
    (match if_invoice_no form with
     | Some s => if String.eqb s "" then
                   (t <- B64.trunc (timestamp now) ;; Ok ("INV" ++ PyStr.of_Z t))
                 else Ok s
     | None => t <- B64.trunc (timestamp now) ;; Ok ("INV" ++ PyStr.of_Z t)
     end) ;;
  '(total, line_items) <-
    for_each (invoice_line form) (range (List.length (if_item_ids form)))
             (PInt 0, []) ;;
  '(invoice_id, d) <-
    match id with
    | None =>
        insert_sales_invoice invoice_no (if_sales_order_id form)
          (if_customer_id form) (if_date form) (if_due_date form)
          (if_notes form) total total d
    | Some id =>
        d <- update_sales_invoice id invoice_no (if_sales_order_id form)
               (if_customer_id form) (if_date form) (if_due_date form)
               (if_notes form) total total d ;;
        Ok (id, delete_sales_invoice_items id d)
    end ;;
  Ok (invoice_id, insert_invoice_lines invoice_id line_items d).

(** *** Purchase orders (lines 2209-2328) *)

Record purchase_form : Type := {
  pf_supplier_id : option string;
  pf_date : option string;
  pf_po_no : option string;
  pf_notes : option string;
  pf_qtys : list string;
  pf_rates : list string;
  pf_discounts : list string;
  pf_gst_rates : list string;
  pf_item_ids : list string
}.

Record po_totals : Type := {
  t_total : num;
  t_tax_total : num;
  t_grand_total : num
}.

(** The body of [for i in range(len(item_ids))] in both purchase-order
    handlers. *)
Definition po_line (po_id : Z) (form : purchase_form)
           (st : po_totals * db) (i : nat) : result (po_totals * db) :=
  let '(t, d) := st in
  item <- getitem (pf_item_ids form) i ;;
  if String.eqb item "" then Ok st
  else
    q <- getitem (pf_qtys form) i ;;
    r <- getitem (pf_rates form) i ;;
    dsc <- getitem (pf_discounts form) i ;;
    g <- getitem (pf_gst_rates form) i ;;
    l <- Globals.call4 Globals.calculate_line
           (Some q) (Some r) (Some dsc) (Some g) ;;
    let t := {| t_total := PyNum.add (t_total t) (Purchase.l_net l);
                t_tax_total := PyNum.add (t_tax_total t) (Purchase.l_tax l);
                t_grand_total :=
                  PyNum.add (t_grand_total t) (Purchase.l_line_total l) |} in
    Ok (t,
        insert_purchase_order_item
          {| poi_purchase_order_id := po_id; poi_item_id := item;
             poi_qty := Purchase.l_qty l; poi_rate := Purchase.l_rate l;
             poi_discount := Purchase.l_disc l;
             poi_gst_rate := Purchase.l_gst l;
             poi_net := Purchase.l_net l; poi_tax := Purchase.l_tax l;
             poi_line_total := Purchase.l_line_total l |} d).

Definition zero_totals : po_totals :=
  {| t_total := PFloat B64.zero; t_tax_total := PFloat B64.zero;
     t_grand_total := PFloat B64.zero |}.

(** [po_new], the POST branch. *)
Definition po_new (now : clock) (form : purchase_form) (d : db)
  : result (Z * option string * db) :=
  let date := if falsy (pf_date form) then Some (strftime_Y_m_d now)
              else pf_date form in
  let '(po_id, d) :=
    insert_purchase_order_placeholder (pf_supplier_id form) date
      (pf_notes form) d in
  let po_no :=
    if falsy (pf_po_no form) then
      let today_str := strftime_Ymd now in
      let count_today := count_po_no_like ("PO" ++ today_str ++ "-") d in
      Some ("PO" ++ today_str ++ "-" ++ fmt_05d (count_today + 1))
    else pf_po_no form in
  let d := update_po_no po_id po_no d in
  '(t, d) <-
    for_each (po_line po_id form) (range (List.length (pf_item_ids form)))
             (zero_totals, d) ;;
  let d := update_po_totals po_id (t_total t) (t_tax_total t)
             (t_grand_total t) d in
  Ok (po_id, po_no, d).

(** [po_edit], the POST branch. *)
Definition po_edit (po_id : Z) (form : purchase_form) (d : db) : result db :=
  if negb (existsb (fun r => Db.po_id r =? po_id) (purchase_orders d))
  then Ok d
  else
    let d := delete_purchase_order_items po_id d in
    '(t, d) <-
      for_each (po_line po_id form) (range (List.length (pf_item_ids form)))
               (zero_totals, d) ;;
    Ok (update_purchase_order po_id (pf_supplier_id form) (pf_po_no form)
          (pf_date form) (pf_notes form)
          (t_total t) (t_tax_total t) (t_grand_total t) d).

End Handlers.

(** ** Paginated listings (lines 703-747 and 838-865)

    [matching] stands for the rows the listing's [WHERE] clause selects, in
    its [ORDER BY] order; [per_page] and [page] are the parsed query
    parameters. *)

Module Listing.

(** [a // b] *)
Definition floordiv (a b : Z) : result Z :=
  if b =? 0 then Raise ZeroDivisionError else Ok (a / b).

(** Whether an [int] fits SQLite's INTEGER, a signed 64-bit number. *)
Definition int64 (z : Z) : bool :=
  (-9223372036854775808 <=? z) && (z <=? 9223372036854775807).

Section Rows.

Variable row : Type.

(** SQLite's [LIMIT limit OFFSET offset] on the rows of a query: a negative
    limit means no limit, a negative offset means offset zero. *)
Definition window (limit offset : Z) (rows : list row) : list row :=
  let rest := skipn (Z.to_nat offset) rows in
  if limit <? 0 then rest else firstn (Z.to_nat limit) rest.

(** [db.execute(sql + " LIMIT ? OFFSET ?", params + [limit, offset])]: the
    two numbers are Python [int]s bound as parameters, and [sqlite3] raises
    [OverflowError] for one outside the signed 64-bit range. *)
Definition limit_offset (limit offset : Z) (rows : list row)
  : result (list row) :=
  if int64 limit && int64 offset then Ok (window limit offset rows)
  else Raise OverflowError.

Record page_view : Type := {
  pv_total : Z;
  pv_pages : Z;
  pv_rows : list row
}.

Definition customer_list (matching : list row) (per_page page : Z)
  : result page_view :=
  let total := Z.of_nat (List.length matching) in
  q <- floordiv (- total) per_page ;;
  let pages := Z.max 1 (- q) in
  customers <- limit_offset per_page ((page - 1) * per_page) matching ;;
  Ok {| pv_total := total; pv_pages := pages; pv_rows := customers |}.

Definition supplier_list (matching : list row) (per_page page : Z)
  : result page_view :=
  let total := Z.of_nat (List.length matching) in
  pages <- floordiv (total + per_page - 1) per_page ;;
  suppliers <- limit_offset per_page ((page - 1) * per_page) matching ;;
  Ok {| pv_total := total; pv_pages := pages; pv_rows := suppliers |}.

End Rows.

End Listing.

(** ** The item-name shrink loop of the barcode sheet (lines 1543-1552) *)

Module Barcode.

(** [font_text] is a TrueType font of a given size or, when the font file
    could not be loaded, Pillow's built-in bitmap font, which has no
    [size] attribute. *)
Inductive font : Type :=
| TrueType (size : Z)
| Bitmap.

Definition font_size (f : font) : result Z :=
  match f with
  | TrueType s => Ok s
  | Bitmap => Raise AttributeError
  end.

Section Shrink.

(** [draw.textsize(name, font=f)[0]] *)
Variable textsize : string -> font -> Z.
Variable max_width : Z.

(** One evaluation of the loop test and, when it holds, of the body:
    [Some] is the state after the body, [None] the exit of the loop. *)
Definition shrink_step (name : string) (st : font * Z)
  : result (option (font * Z)) :=
  let '(font_name, w) := st in
  if w >? max_width then
    s <- font_size font_name ;;
    if s >? 12 then
      let font_name := TrueType (s - 2) in
      Ok (Some (font_name, textsize name font_name))
    else Ok None
  else Ok None.

(** The [while] loop run for at most [fuel] iterations; [None] means the
    loop is still running when the fuel is spent. *)
Fixpoint shrink_loop (fuel : nat) (name : string) (st : font * Z)
  : option (result (font * Z)) :=
  match shrink_step name st with
  | Raise e => Some (Raise e)
  | Ok None => Some (Ok st)
  | Ok (Some st') =>
      match fuel with
      | O => None
      | S fuel' => shrink_loop fuel' name st'
      end
  end.

(** The loop entered from [font_name = font_text]. *)
Definition fit_name (fuel : nat) (font_text : font) (name : string)
  : option (result (font * Z)) :=
  shrink_loop fuel name (font_text, textsize name font_text).

End Shrink.

End Barcode.

(** ** Vocabulary of the statements *)

Module FloatPred.

(** What [k] right shifts keep of a mantissa [q]; [inexact] says that the
    exact value lies strictly above [q]. *)
Definition shr_inv (q : Z) (inexact : Prop) (k : Z) (mrs : shr_record)
  : Prop :=
  0 <= shr_m mrs /\ shr_m mrs * 2 ^ k <= q /\
  (orb (shr_r mrs) (shr_s mrs) = true -> shr_m mrs * 2 ^ k < q \/ inexact).

(** The mantissa kept by [k] right shifts. *)
Definition shr_div (q k : Z) (mrs : shr_record) : Prop :=
  shr_m mrs = q / 2 ^ k.

(** A float between zero and one. *)
Definition le_one (f : B64.float) : Prop :=
  match f with
  | S754_zero _ => True
  | S754_finite false m e => e <= 0 /\ Zpos m <= 2 ^ (- e)
  | _ => False
  end.

(** A float whose sign bit is clear unless it is a zero or NaN: such a
    float is not below zero. *)
Definition nonneg_sign (f : B64.float) : Prop :=
  match f with
  | S754_finite s _ _ | S754_infinity s => s = false
  | _ => True
  end.

End FloatPred.


(** The formulas in the specification's own words, for comparison with the
    code. *)
Module Spec.

(** [tax = net*gst/100]: the product divided by one hundred. *)
Definition purchase_tax (net : num) (gst : B64.float) : num :=
  PFloat (div100 (to_float (PyNum.mul net (PFloat gst)))).

(** The count as the specification words it: the persisted sales orders
    whose number starts with [prefix]. *)
Definition count_so_no_startswith (prefix : string) (d : Db.db) : Z :=
  Z.of_nat
    (List.length
       (filter (fun r => match Db.so_no r with
                         | Some s => PyStr.startswith prefix s
                         | None => false
                         end) (Db.sales_orders d))).

(** ['SO' + YYYYMMDD + '-' + five-digit (1 + that count)] *)
Definition claimed_so_no (now : Handlers.clock) (d : Db.db) : string :=
  ("SO" ++ Handlers.strftime_Ymd now ++ "-"
    ++ Handlers.fmt_05d
         (1 + count_so_no_startswith ("SO" ++ Handlers.strftime_Ymd now) d))%string.

End Spec.

(** ** Documents and their totals *)

Module Totals.

Import Db Handlers.

(** [init + x1 + x2 + ...], summed from left to right. *)
Definition sum_from (init : num) (l : list num) : num :=
  fold_left PyNum.add l init.

Definition so_lines_of (d : db) (id : Z) : list sales_order_item :=
  filter (fun r => soi_sales_order_id r =? id) (sales_order_items d).

Definition si_lines_of (d : db) (id : Z) : list sales_invoice_item :=
  filter (fun r => sii_sales_invoice_id r =? id) (sales_invoice_items d).

Definition po_lines_of (d : db) (id : Z) : list purchase_order_item :=
  filter (fun r => poi_purchase_order_id r =? id) (purchase_order_items d).

Inductive doc : Type :=
| SalesOrder (id : Z)
| SalesInvoice (id : Z)
| PurchaseOrder (id : Z).

(** Every line row references a header id that its table has already
    issued. *)
Definition lines_issued (d : db) : Prop :=
  (forall r, In r (sales_order_items d) ->
             soi_sales_order_id r
             < next_id (sales_orders_seq d) (map so_id (sales_orders d))) /\
  (forall r, In r (sales_invoice_items d) ->
             sii_sales_invoice_id r
             < next_id (sales_invoices_seq d) (map si_id (sales_invoices d))) /\
  (forall r, In r (purchase_order_items d) ->
             poi_purchase_order_id r
             < next_id (purchase_orders_seq d) (map po_id (purchase_orders d))).

(** [saved d doc d']: a create or an edit of [doc] ran to completion on
    [d] and committed [d']. *)
Inductive saved : db -> doc -> db -> Prop :=
| saved_so_new now form d id no d' :
    lines_issued d ->
    salesorder_new now form d = Ok (id, no, d') ->
    saved d (SalesOrder id) d'
| saved_so_edit id form d d' :
    salesorder_edit id form d = Ok d' ->
    saved d (SalesOrder id) d'
| saved_si_new now form d id d' :
    lines_issued d ->
    save_invoice now d form None = Ok (id, d') ->
    saved d (SalesInvoice id) d'
| saved_si_edit now form d id id' d' :
    save_invoice now d form (Some id) = Ok (id', d') ->
    saved d (SalesInvoice id) d'
| saved_po_new now form d id no d' :
    lines_issued d ->
    po_new now form d = Ok (id, no, d') ->
    saved d (PurchaseOrder id) d'
| saved_po_edit id form d d' :
    po_edit id form d = Ok d' ->
    saved d (PurchaseOrder id) d'.

(** The header of [doc] agrees with its persisted lines. *)
Definition totals_match (d : db) (x : doc) : Prop :=
  match x with
  | SalesOrder id =>
      forall h, In h (sales_orders d) -> so_id h = id ->
        so_grand_total h
        = sum_from (PFloat B64.zero) (map soi_line_total (so_lines_of d id))
  | SalesInvoice id =>
      forall h, In h (sales_invoices d) -> si_id h = id ->
        si_grand_total h
        = sum_from (PInt 0) (map sii_line_total (si_lines_of d id))
  | PurchaseOrder id =>
      forall h, In h (purchase_orders d) -> po_id h = id ->
        po_grand_total h
        = sum_from (PFloat B64.zero) (map poi_line_total (po_lines_of d id)) /\
        po_total h
        = sum_from (PFloat B64.zero) (map poi_net (po_lines_of d id)) /\
        po_tax_total h
        = sum_from (PFloat B64.zero) (map poi_tax (po_lines_of d id)) /\
        (forall r, In r (po_lines_of d id) ->
                   poi_line_total r = PyNum.add (poi_net r) (poi_tax r))
  end.

(** The tables of each kind of document. *)
Definition same_orders (d d' : db) : Prop :=
  sales_orders d' = sales_orders d /\
  sales_orders_seq d' = sales_orders_seq d /\
  sales_order_items d' = sales_order_items d.

Definition same_invoices (d d' : db) : Prop :=
  sales_invoices d' = sales_invoices d /\
  sales_invoices_seq d' = sales_invoices_seq d /\
  sales_invoice_items d' = sales_invoice_items d.

Definition same_purchases (d d' : db) : Prop :=
  purchase_orders d' = purchase_orders d /\
  purchase_orders_seq d' = purchase_orders_seq d /\
  purchase_order_items d' = purchase_order_items d.

(** One completed request: a create, or an edit of a document that
    exists. *)
Inductive step : db -> db -> Prop :=
| step_so_new now form d id no d' :
    salesorder_new now form d = Ok (id, no, d') -> step d d'
| step_so_edit id form d d' :
    salesorder_edit id form d = Ok d' -> step d d'
| step_si_new now form d id d' :
    save_invoice now d form None = Ok (id, d') -> step d d'
| step_si_edit now form d id id' d' :
    In id (map si_id (sales_invoices d)) ->
    save_invoice now d form (Some id) = Ok (id', d') -> step d d'
| step_po_new now form d id no d' :
    po_new now form d = Ok (id, no, d') -> step d d'
| step_po_edit id form d d' :
    po_edit id form d = Ok d' -> step d d'.

(** The databases reached from the empty one. *)
Inductive reachable : db -> Prop :=
| reachable_empty : reachable Db.empty
| reachable_step d d' : reachable d -> step d d' -> reachable d'.

(** The [line_total] of a collected invoice line and the row it is
    persisted as. *)
Definition li_total (li : invoice_line_item) : num := snd li.

Definition li_row (id : Z) (li : invoice_line_item) : sales_invoice_item :=
  let '(item_id, qty, rate, disc, line_total) := li in
  {| sii_sales_invoice_id := id; sii_item_id := item_id; sii_qty := qty;
     sii_rate := rate; sii_discount := disc; sii_line_total := line_total |}.


End Totals.

(** ** Deleting a document (lines 1819-1827, 2016-2024 and 2348-2356)

    The line rows go first, then the header.  Foreign keys are declared but
    never switched on for the connection, so neither statement can fail. *)

Module Deletes.

Import Db.

(** [salesorder_delete(id)] *)
Definition salesorder_delete (id : Z) (d : db) : db :=
  let d := delete_sales_order_items id d in
  with_sales_orders d
    (filter (fun r => negb (so_id r =? id)) (sales_orders d)).

(** [salesinvoice_delete(id)] *)
Definition salesinvoice_delete (id : Z) (d : db) : db :=
  let d := delete_sales_invoice_items id d in
  with_sales_invoices d
    (filter (fun r => negb (si_id r =? id)) (sales_invoices d))
    (sales_invoices_seq d).

(** [po_delete(id)] *)
Definition po_delete (id : Z) (d : db) : db :=
  let d := delete_purchase_order_items id d in
  with_purchase_orders d
    (filter (fun r => negb (po_id r =? id)) (purchase_orders d))
    (purchase_orders_seq d).

End Deletes.

(** ** Sequences of requests *)

Module Lifecycle.

Import Db Handlers Deletes Totals.

(** Every line row belongs to a stored header. *)
Definition no_orphans (d : db) : Prop :=
  (forall r, In r (sales_order_items d) ->
             In (soi_sales_order_id r) (map so_id (sales_orders d))) /\
  (forall r, In r (sales_invoice_items d) ->
             In (sii_sales_invoice_id r) (map si_id (sales_invoices d))) /\
  (forall r, In r (purchase_order_items d) ->
             In (poi_purchase_order_id r) (map po_id (purchase_orders d))).

(** One completed request of the nine document routes.  The invoice edit
    route is the only one that does not look its document up first; here
    it is taken on stored invoices only. *)
Inductive request : db -> db -> Prop :=
| so_created now form d id no d' :
    salesorder_new now form d = Ok (id, no, d') -> request d d'
| so_edited id form d d' :
    salesorder_edit id form d = Ok d' -> request d d'
| so_deleted id d :
    request d (salesorder_delete id d)
| si_created now form d id d' :
    save_invoice now d form None = Ok (id, d') -> request d d'
| si_edited now form d id id' d' :
    In id (map si_id (sales_invoices d)) ->
    save_invoice now d form (Some id) = Ok (id', d') -> request d d'
| si_deleted id d :
    request d (salesinvoice_delete id d)
| po_created now form d id no d' :
    po_new now form d = Ok (id, no, d') -> request d d'
| po_edited id form d d' :
    po_edit id form d = Ok d' -> request d d'
| po_deleted id d :
    request d (po_delete id d).

Inductive reached : db -> Prop :=
| reached_empty : reached Db.empty
| reached_request d d' : reached d -> request d d' -> reached d'.

(** The rows of the three document kinds, without the id counters. *)
Definition same_rows (d d' : db) : Prop :=
  sales_orders d' = sales_orders d /\
  sales_order_items d' = sales_order_items d /\
  sales_invoices d' = sales_invoices d /\
  sales_invoice_items d' = sales_invoice_items d /\
  purchase_orders d' = purchase_orders d /\
  purchase_order_items d' = purchase_order_items d.

(** [created d doc d']: the create route of [doc] ran to completion on
    [d] and committed [d']. *)
Inductive created : db -> doc -> db -> Prop :=
| created_so now form d id no d' :
    salesorder_new now form d = Ok (id, no, d') ->
    created d (SalesOrder id) d'
| created_si now form d id d' :
    save_invoice now d form None = Ok (id, d') ->
    created d (SalesInvoice id) d'
| created_po now form d id no d' :
    po_new now form d = Ok (id, no, d') ->
    created d (PurchaseOrder id) d'.

(** The delete route of a document. *)
Definition delete (x : doc) (d : db) : db :=
  match x with
  | SalesOrder id => salesorder_delete id d
  | SalesInvoice id => salesinvoice_delete id d
  | PurchaseOrder id => po_delete id d
  end.

(** Line [i] of a submitted purchase order, if it carries an item
    reference, has a quantity, a rate, a discount and a tax rate. *)
Definition line_complete (form : purchase_form) (i : nat) : Prop :=
  forall item,
    nth_error (pf_item_ids form) i = Some item -> item <> ""%string ->
    (i < List.length (pf_qtys form))%nat /\
    (i < List.length (pf_rates form))%nat /\
    (i < List.length (pf_discounts form))%nat /\
    (i < List.length (pf_gst_rates form))%nat.

Definition complete_lines (form : purchase_form) : Prop :=
  forall i, line_complete form i.

End Lifecycle.

(** ** The other paginated listings (lines 1064-1120, 1622-1684 and
    1903-1925)

    As in [Listing], a listing is given the rows its [WHERE] clause
    selects, in its [ORDER BY] order. *)

Module Listings.

Import Listing.

Section Rows.

Variable row : Type.

(** [items_list]: the count and the page are taken as in
    [customer_list]. *)
Definition items_list (matching : list row) (per_page page : Z)
  : result (page_view row) :=
  let total := Z.of_nat (List.length matching) in
  q <- floordiv (- total) per_page ;;
  let pages := Z.max 1 (- q) in
  items <- limit_offset row per_page ((page - 1) * per_page) matching ;;
  Ok {| pv_total := total; pv_pages := pages; pv_rows := items |}.

(** [salesorder_list]: the page size is fixed at 10. *)
Definition salesorder_list (matching : list row) (page : Z)
  : result (page_view row) :=
  let per_page := 10 in
  let offset := (page - 1) * per_page in
  sales_orders <- limit_offset row per_page offset matching ;;
  let total_count := Z.of_nat (List.length matching) in
  let total_pages := (total_count + per_page - 1) / per_page in
  Ok {| pv_total := total_count; pv_pages := total_pages;
        pv_rows := sales_orders |}.

(** [salesinvoice_list]: the page size is fixed at 20.  The count is taken
    over all invoices, the rows over the inner join with [customers], which
    keeps the invoices whose customer exists. *)
Variable has_customer : row -> bool.

Definition salesinvoice_list (invoices : list row) (page : Z)
  : result (page_view row) :=
  let per_page := 20 in
  let offset := (page - 1) * per_page in
  let total := Z.of_nat (List.length invoices) in
  rows <- limit_offset row per_page offset (filter has_customer invoices) ;;
  let total_pages := (total + per_page - 1) / per_page in
  Ok {| pv_total := total; pv_pages := total_pages; pv_rows := rows |}.

(** The rows shown when the pages [1 .. pages] are fetched in turn. *)
Definition walk (fetch : Z -> list row) (pages : Z) : list row :=
  List.concat (map (fun p => fetch (Z.of_nat p)) (seq 1 (Z.to_nat pages))).

(** The rows a listing shows; none when it raised. *)
Definition shown (r : result (page_view row)) : list row :=
  match r with
  | Ok v => pv_rows row v
  | Raise _ => []
  end.

(** The page count a listing announces. *)
Definition announced (r : result (page_view row)) : Z :=
  match r with
  | Ok v => pv_pages row v
  | Raise _ => 0
  end.

End Rows.

End Listings.

(** ** The pager of the purchase-order listing (lines 2159-2191) *)

Module Pagination.

(** The attributes [iter_pages] and the navigation properties read. *)
Record t : Type := {
  page : Z;
  pages : Z
}.

Definition has_prev (s : t) : bool := page s >? 1.
Definition has_next (s : t) : bool := page s <? pages s.
Definition prev_num (s : t) : Z := page s - 1.
Definition next_num (s : t) : Z := page s + 1.

(** [range(lo, lo + n)] *)
Fixpoint zrange (lo : Z) (n : nat) : list Z :=
  match n with
  | O => []
  | S n' => lo :: zrange (lo + 1) n'
  end.

Section IterPages.

Variable s : t.
Variables left_edge left_current right_current right_edge : Z.

(** The test that decides whether [num] is yielded. *)
Definition listed (num : Z) : bool :=
  (num <=? left_edge)
  || ((page s - left_current <=? num) && (num <=? page s + right_current))
  || (num >? pages s - right_edge).

(** The loop of [iter_pages] over the remaining numbers, [last] being the
    number yielded last: the values yielded, [None] marking a gap. *)
Fixpoint iter_from (last : Z) (nums : list Z) : list (option Z) :=
  match nums with
  | [] => []
  | num :: rest =>
      if listed num then
        ((if last + 1 =? num then [] else [None]) ++ [Some num])
          ++ iter_from num rest
      else iter_from last rest
  end.

(** [list(self.iter_pages(left_edge, left_current, right_current,
    right_edge))] *)
Definition iter_pages : list (option Z) :=
  iter_from 0 (zrange 1 (Z.to_nat (pages s))).

End IterPages.

(** A pager line that starts above [last]: page numbers in increasing
    order, neighbours side by side, and exactly one [None] wherever numbers
    are left out. *)
Inductive gapped : Z -> list (option Z) -> Prop :=
| gapped_nil last : gapped last []
| gapped_next last l :
    gapped (last + 1) l -> gapped last (Some (last + 1) :: l)
| gapped_skip last n l :
    last + 1 < n -> gapped n l -> gapped last (None :: Some n :: l).

End Pagination.

(** ** The label sheet of [items_barcodes] (lines 1496-1531) *)

Module Sheet.

Definition PAGE_W : Z := 2480.
Definition PAGE_H : Z := 3508.
Definition COLS : Z := 5.
Definition MARGIN_X : Z := 50.
Definition MARGIN_Y : Z := 50.
Definition GAP_X : Z := 30.
Definition GAP_Y : Z := 40.
Definition CELL_W : Z := (PAGE_W - 2 * MARGIN_X - (COLS - 1) * GAP_X) / COLS.
Definition CELL_H : Z := 320.
Definition ROWS : Z := (PAGE_H - 2 * MARGIN_Y) / (CELL_H + GAP_Y).
Definition per_page : Z := COLS * ROWS.

(** The corner [(x, y)] of the cell of the [i]-th label of a page. *)
Definition cell (i : Z) : Z * Z :=
  let row := i / COLS in
  let col := i mod COLS in
  (MARGIN_X + col * (CELL_W + GAP_X), MARGIN_Y + row * (CELL_H + GAP_Y)).

(** [text_x = x + (CELL_W - w) // 2] for a text of width [w]. *)
Definition text_x (x w : Z) : Z := x + (CELL_W - w) / 2.

(** [barcodes[start:end]] for page [page_idx]. *)
Definition page_slice {A : Type} (barcodes : list A) (page_idx : Z) : list A :=
  let len := Z.of_nat (List.length barcodes) in
  let start := page_idx * per_page in
  let end_ := Z.min (start + per_page) len in
  firstn (Z.to_nat (end_ - start)) (skipn (Z.to_nat start) barcodes).

End Sheet.

(** ** Requests and responses of the form routes

    A form route answers with a redirect or a rendered template, or fails
    with an exception that nothing catches.  Its model returns that answer
    together with the database as committed: the one it was given when
    [db.commit()] was not reached. *)

Module Web.

Local Open Scope string_scope.

Inductive web_exn : Type :=
| BuildError            (* [url_for] of an endpoint that is not registered *)
| BadRequestKeyError    (* [request.form[key]] of a missing field *)
| ConstraintError       (* [sqlite3.IntegrityError] *)
| LibraryError (e : exn).

Inductive outcome (A : Type) : Type :=
| Done (a : A)
| Fails (e : web_exn).

Arguments Done {A} a.
Arguments Fails {A} e.

Definition then_ {A B : Type} (c : outcome A) (k : A -> outcome B)
  : outcome B :=
  match c with
  | Done a => k a
  | Fails e => Fails e
  end.

Inductive response : Type :=
| Redirect (url : string)
| Render (template : string) (error : option string).

(** The endpoints the module registers with [@app.route]: the name of the
    view function, or the [endpoint=] argument where one is given. *)
Definition endpoints : list string :=
  ["static"; "login"; "logout"; "dashboard"; "register"; "api_customers";
   "customer_list"; "customer_new"; "customer_edit"; "customer_delete";
   "supplier_list"; "supplier_new"; "supplier_edit"; "supplier_delete";
   "supplier_export_csv"; "supplier_export_xlsx"; "supplier_import";
   "supplier_import_template_csv"; "supplier_import_template_xlsx";
   "api_items_search"; "items_list"; "item_new"; "item_edit"; "item_delete";
   "items_export_csv"; "items_export_xlsx"; "items_import_template_csv";
   "items_import_template_xlsx"; "items_import"; "items_barcodes";
   "salesorder_list"; "salesorder_new"; "salesorder_edit";
   "salesorder_delete"; "salesorder_print"; "salesorder_pdf";
   "salesinvoice_list"; "salesinvoice_new"; "salesinvoice_from_so";
   "salesinvoice_edit"; "salesinvoice_delete"; "search_items";
   "search_customers"; "po_list"; "po_new"; "po_edit"; "po_delete";
   "po_print"; "po_pdf"; "search_suppliers"; "po_search_items";
   "reports_outstanding"; "report_customer_ledger";
   "report_supplier_ledger"; "report_stock_balance";
   "print_supplier_ledger"; "settings"; "stock_moves_list";
   "new_stock_move"; "delivery_notes_list"; "new_delivery_note";
   "delivery_note_detail"; "purchase_returns_list"; "new_purchase_return";
   "purchase_return_detail"; "edit_purchase_return"; "print_delivery_note";
   "print_packing_slip"; "print_purchase_return";
   "print_purchase_return_delivery_note";
   "print_purchase_return_packing_slip"; "report_outstanding";
   "report_supplier_outstanding"; "add_payment_to_invoice";
   "add_payment_to_purchase_invoice"; "home"].

(** [url_for(endpoint)] for an endpoint without URL parameters; the
    endpoint's name stands for its URL. *)
Definition url_for (endpoint : string) : outcome string :=
  if existsb (String.eqb endpoint) endpoints then Done endpoint
  else Fails BuildError.

(** [redirect(url_for(endpoint))] *)
Definition redirect (endpoint : string) : outcome response :=
  then_ (url_for endpoint) (fun url => Done (Redirect url)).

(** The endpoints the module passes to [url_for]. *)
Definition redirect_targets : list string :=
  ["login"; "dashboard"; "customers_new"; "customer_list"; "customers_list";
   "supplier_list"; "items_list"; "item_new"; "items_barcodes";
   "salesorder_list"; "salesinvoice_list"; "po_list"; "new_stock_move";
   "stock_moves_list"].

(** [request.form.get(key, default).strip()] *)
Definition get_strip (v : option string) (default : string) : string :=
  PyStr.strip (match v with Some s => s | None => default end).

(** [v or default] for what [form.get] returns. *)
Definition or_else (v : option string) (default : string) : string :=
  match v with
  | Some s => if String.eqb s "" then default else s
  | None => default
  end.

(** [v or None] *)
Definition or_none (v : option string) : option string :=
  match v with
  | Some s => if String.eqb s "" then None else Some s
  | None => None
  end.

End Web.

(** ** Customers (lines 754-829) *)

Module Customers.

Import Web.
Local Open Scope string_scope.
Local Open Scope Z_scope.

Record customer : Type := {
  c_id : Z;
  c_name : string;
  c_email : string;
  c_mobile : string;
  c_phone : string;
  c_address : string;
  c_city : string;
  c_pincode : string;
  c_state : string;
  c_country : string;
  c_notes : string;
  c_status : string
}.

Record customers_db : Type := {
  customers : list customer;
  customers_seq : Z
}.

Record customer_form : Type := {
  cf_name : option string;
  cf_email : option string;
  cf_mobile : option string;
  cf_phone : option string;
  cf_address : option string;
  cf_city : option string;
  cf_pincode : option string;
  cf_state : option string;
  cf_country : option string;
  cf_notes : option string;
  cf_status : option string
}.

(** The row a submitted form describes. *)
Definition row_of (id : Z) (form : customer_form) : customer :=
  {| c_id := id;
     c_name := get_strip (cf_name form) "";
     c_email := get_strip (cf_email form) "";
     c_mobile := get_strip (cf_mobile form) "";
     c_phone := get_strip (cf_phone form) "";
     c_address := get_strip (cf_address form) "";
     c_city := get_strip (cf_city form) "";
     c_pincode := get_strip (cf_pincode form) "";
     c_state := get_strip (cf_state form) "";
     c_country := get_strip (cf_country form) "";
     c_notes := get_strip (cf_notes form) "";
     c_status := get_strip (cf_status form) "active" |}.

(** [customer_new], the POST branch. *)
Definition customer_new (form : customer_form) (d : customers_db)
  : outcome response * customers_db :=
  let name := get_strip (cf_name form) "" in
  if String.eqb name "" then (redirect "customers_new", d)
  else
    let id := Db.next_id (customers_seq d) (map c_id (customers d)) in
    let d := {| customers := (customers d ++ [row_of id form])%list;
                customers_seq := id |} in
    (redirect "customer_list", d).

(** [customer_edit(id)], the POST branch. *)
Definition customer_edit (id : Z) (form : customer_form) (d : customers_db)
  : outcome response * customers_db :=
  if negb (existsb (fun c => c_id c =? id) (customers d)) then
    (redirect "customers_list", d)
  else
    let d := {| customers :=
                  map (fun c => if c_id c =? id then row_of id form else c)
                      (customers d);
                customers_seq := customers_seq d |} in
    (redirect "customer_list", d).

(** [customer_delete(id)] *)
Definition customer_delete (id : Z) (d : customers_db)
  : outcome response * customers_db :=
  let d := {| customers :=
                filter (fun c => negb (c_id c =? id)) (customers d);
              customers_seq := customers_seq d |} in
  (redirect "customer_list", d).

End Customers.

(** ** Items (lines 1128-1239) *)

Module Items.

Import Web.
Local Open Scope string_scope.
Local Open Scope Z_scope.

(** A numeric form field bound as [form.get(key) or 0]. *)
Inductive amount : Type :=
| Given (s : string)
| Zero.

Definition or_zero (v : option string) : amount :=
  match v with
  | Some s => if String.eqb s "" then Zero else Given s
  | None => Zero
  end.

Record item : Type := {
  it_id : Z;
  it_sku : option string;
  it_name : string;
  it_description : option string;
  it_uom : string;
  it_brand : option string;
  it_supplier_id : option string;
  it_hsn_code : option string;
  it_cost_price : amount;
  it_selling_price : amount;
  it_gst_rate : amount;
  it_discount : amount;
  it_stock_qty : amount;
  it_reorder_level : amount;
  it_status : string
}.

Record items_db : Type := {
  items : list item;
  items_seq : Z
}.

Record item_form : Type := {
  f_sku : option string;
  f_name : option string;
  f_description : option string;
  f_uom : option string;
  f_brand : option string;
  f_supplier_id : option string;
  f_hsn_code : option string;
  f_cost_price : option string;
  f_selling_price : option string;
  f_gst_rate : option string;
  f_discount : option string;
  f_stock_qty : option string;
  f_reorder_level : option string;
  f_status : option string
}.

(** The values both statements bind, for a given name. *)
Definition row_of (id : Z) (name : string) (form : item_form) : item :=
  {| it_id := id;
     it_sku := or_none (f_sku form);
     it_name := name;
     it_description := f_description form;
     it_uom := or_else (f_uom form) "Nos";
     it_brand := f_brand form;
     it_supplier_id := or_none (f_supplier_id form);
     it_hsn_code := f_hsn_code form;
     it_cost_price := or_zero (f_cost_price form);
     it_selling_price := or_zero (f_selling_price form);
     it_gst_rate := or_zero (f_gst_rate form);
     it_discount := or_zero (f_discount form);
     it_stock_qty := or_zero (f_stock_qty form);
     it_reorder_level := or_zero (f_reorder_level form);
     it_status := or_else (f_status form) "active" |}.

Definition with_sku (sku : option string) (r : item) : item :=
  {| it_id := it_id r; it_sku := sku; it_name := it_name r;
     it_description := it_description r; it_uom := it_uom r;
     it_brand := it_brand r; it_supplier_id := it_supplier_id r;
     it_hsn_code := it_hsn_code r; it_cost_price := it_cost_price r;
     it_selling_price := it_selling_price r; it_gst_rate := it_gst_rate r;
     it_discount := it_discount r; it_stock_qty := it_stock_qty r;
     it_reorder_level := it_reorder_level r; it_status := it_status r |}.

(** The [UNIQUE] constraint on [sku]: a non-null [sku] carried by a row
    other than [id]. *)
Definition sku_taken (id : Z) (sku : option string) (d : items_db) : bool :=
  match sku with
  | None => false
  | Some s =>
      existsb (fun r => negb (it_id r =? id) && Db.opt_eqb (it_sku r) s)
              (items d)
  end.

(** [INSERT INTO items (...) VALUES (...)]; yields [lastrowid]. *)
Definition insert_item (name : string) (form : item_form) (d : items_db)
  : outcome (Z * items_db) :=
  let id := Db.next_id (items_seq d) (map it_id (items d)) in
  let row := row_of id name form in
  if sku_taken id (it_sku row) d then Fails ConstraintError
  else Done (id, {| items := (items d ++ [row])%list; items_seq := id |}).

(** [UPDATE items SET sku=? WHERE id=?] *)
Definition update_sku (id : Z) (sku : string) (d : items_db)
  : outcome items_db :=
  if existsb (fun r => it_id r =? id) (items d)
     && sku_taken id (Some sku) d
  then Fails ConstraintError
  else
    Done {| items := map (fun r => if it_id r =? id
                                   then with_sku (Some sku) r else r)
                         (items d);
            items_seq := items_seq d |}.

(** [f"{n:04d}"] for [0 <= n]. *)
Definition fmt_04d (n : Z) : string := PyStr.zfill 4 (PyStr.of_Z n).

(** The statements of the [try] block of [item_new], up to the commit. *)
Definition item_new_statements (name : string) (form : item_form)
           (d : items_db) : outcome items_db :=
  then_ (insert_item name form d) (fun '(item_id, d) =>
  if Handlers.falsy (f_sku form)
  then update_sku item_id ("ITEM" ++ fmt_04d item_id) d
  else Done d).

(** The end of a [try] block after its commit: the redirect, or the form
    again when [except Exception] caught something. *)
Definition answer (committed : bool) (endpoint : string) : outcome response :=
  if committed then
    match redirect endpoint with
    | Done r => Done r
    | Fails _ => Done (Render "items/form.html" None)
    end
  else Done (Render "items/form.html" None).

(** [item_new], the POST branch.  Whatever the [try] block raises is
    caught and the form is shown again. *)
Definition item_new (form : item_form) (d : items_db)
  : outcome response * items_db :=
  match f_name form with
  | None => (Fails BadRequestKeyError, d)
  | Some n =>
      let name := PyStr.strip n in
      if String.eqb name "" then (redirect "item_new", d)
      else
        match item_new_statements name form d with
        | Done d' => (answer true "items_list", d')
        | Fails _ => (answer false "items_list", d)
        end
  end.

(** [UPDATE items SET sku=?, name=?, ... WHERE id=?] *)
Definition update_item (id : Z) (name : string) (form : item_form)
           (d : items_db) : outcome items_db :=
  if existsb (fun r => it_id r =? id) (items d)
     && sku_taken id (or_none (f_sku form)) d
  then Fails ConstraintError
  else
    Done {| items := map (fun r => if it_id r =? id
                                   then row_of id name form else r)
                         (items d);
            items_seq := items_seq d |}.

(** The statement of the [try] block of [item_edit]; [form['name']] is
    evaluated inside the block. *)
Definition item_edit_statements (id : Z) (form : item_form) (d : items_db)
  : outcome items_db :=
  match f_name form with
  | None => Fails BadRequestKeyError
  | Some n => update_item id (PyStr.strip n) form d
  end.

(** [item_edit(item_id)], the POST branch. *)
Definition item_edit (id : Z) (form : item_form) (d : items_db)
  : outcome response * items_db :=
  if negb (existsb (fun r => it_id r =? id) (items d)) then
    (redirect "items_list", d)
  else
    match item_edit_statements id form d with
    | Done d' => (answer true "items_list", d')
    | Fails _ => (answer false "items_list", d)
    end.

(** [item_delete(item_id)]: the [DELETE] cannot fail. *)
Definition item_delete (id : Z) (d : items_db)
  : outcome response * items_db :=
  let d := {| items := filter (fun r => negb (it_id r =? id)) (items d);
              items_seq := items_seq d |} in
  (redirect "items_list", d).

End Items.

(** ** Registration, login and the session (lines 556-595, 658-684 and
    2860-2863) *)

Module Auth.

Import Web.
Local Open Scope string_scope.
Local Open Scope Z_scope.

Record user : Type := {
  u_id : Z;
  u_name : string;
  u_email : string;
  u_password_hash : string
}.

Record users_db : Type := {
  users : list user;
  users_seq : Z
}.

(** The session cookie, as far as these routes use it: empty, or holding
    [user_id] and [user_name]. *)
Definition session : Type := option (Z * string).

Record register_form : Type := {
  rf_name : option string;
  rf_email : option string;
  rf_password : option string;
  rf_confirm : option string
}.

Record login_form : Type := {
  lf_email : option string;
  lf_password : option string
}.

(** [SELECT ... FROM users WHERE email = ?], first row. *)
Definition find_by_email (email : string) (d : users_db) : option user :=
  find (fun u => String.eqb (u_email u) email) (users d).

(** [INSERT INTO users (name, email, password_hash) VALUES (?, ?, ?)];
    [email] is [UNIQUE]. *)
Definition insert_user (name email hash : string) (d : users_db)
  : outcome users_db :=
  if existsb (fun u => String.eqb (u_email u) email) (users d)
  then Fails ConstraintError
  else
    let id := Db.next_id (users_seq d) (map u_id (users d)) in
    Done {| users := (users d ++ [{| u_id := id; u_name := name;
                                     u_email := email;
                                     u_password_hash := hash |}])%list;
            users_seq := id |}.

Section Bcrypt.

(** The two calls into [flask_bcrypt]: what they return or raise is the
    library's business. *)
Variable generate_password_hash : string -> result string.
Variable check_password_hash : string -> string -> result bool.

Definition library {A : Type} (r : result A) : outcome A :=
  match r with
  | Ok a => Done a
  | Raise e => Fails (LibraryError e)
  end.

(** [register], the POST branch. *)
Definition register (form : register_form) (d : users_db)
  : outcome response * users_db :=
  let name := get_strip (rf_name form) "" in
  let email := get_strip (rf_email form) "" in
  let password := match rf_password form with Some s => s | None => "" end in
  let confirm := match rf_confirm form with Some s => s | None => "" end in
  if String.eqb name "" || String.eqb email "" || String.eqb password ""
     || String.eqb confirm ""
  then (Done (Render "register.html" (Some "All fields are required.")), d)
  else if negb (String.eqb password confirm)
  then (Done (Render "register.html" (Some "Passwords do not match.")), d)
  else
    match find_by_email email d with
    | Some _ =>
        (Done (Render "register.html" (Some "Email is already registered.")),
         d)
    | None =>
        match library (generate_password_hash password) with
        | Fails e => (Fails e, d)
        | Done password_hash =>
            match insert_user name email password_hash d with
            | Fails e => (Fails e, d)
            | Done d' => (redirect "login", d')
            end
        end
    end.

(** [login], the POST branch: the answer and the session after it. *)
Definition login (form : login_form) (d : users_db) (s : session)
  : outcome response * session :=
  match lf_email form, lf_password form with
  | Some email, Some password =>
      match find_by_email email d with
      | None => (Done (Render "login.html" None), s)
      | Some user =>
          match library (check_password_hash (u_password_hash user) password)
          with
          | Fails e => (Fails e, s)
          | Done true => (redirect "dashboard", Some (u_id user, u_name user))
          | Done false => (Done (Render "login.html" None), s)
          end
      end
  | _, _ => (Fails BadRequestKeyError, s)
  end.

End Bcrypt.

(** [logout] *)
Definition logout (s : session) : outcome response * session :=
  (redirect "login", None).

(** [login_required(f)]: the view, or the redirect to the login page. *)
Definition login_required {A : Type} (view : A -> outcome response)
           (s : session) (a : A) : outcome response :=
  match s with
  | None => redirect "login"
  | Some _ => view a
  end.

(** [home] *)
Definition home (s : session) : outcome response :=
  match s with
  | Some _ => redirect "dashboard"
  | None => redirect "login"
  end.

(** The e-mail addresses of the stored users are pairwise different. *)
Definition emails_unique (d : users_db) : Prop :=
  NoDup (map u_email (users d)).

End Auth.

(** ** [math.ceil] of an integer quotient

    [a / b] on two [int]s is the binary64 value nearest to the exact
    quotient (CPython rounds the quotient once, whatever the size of the
    operands), [ZeroDivisionError] for a zero divisor and [OverflowError]
    when the quotient is too large for a float.  [math.ceil] of a float is
    the least [int] that is not below it. *)

Module PyMath.
Import B64.

(** [a / b] for two [int]s. *)
Definition int_truediv (a b : Z) : result float :=
  if b =? 0 then Raise ZeroDivisionError
  else if a =? 0 then Ok (S754_zero (b <? 0))
  else
    let '(q, e, l) := SFdiv_core_binary prec emax (Z.abs a) 0 (Z.abs b) 0 in
    let f := binary_round_aux prec emax (xorb (a <? 0) (b <? 0)) q e l in
    if is_finite f then Ok f else Raise OverflowError.

(** [math.ceil(f)] *)
Definition ceil (f : float) : result Z :=
  match f with
  | S754_zero _ => Ok 0
  | S754_finite s m e =>
      let v := if s then Zneg m else Zpos m in
      Ok (match e with
          | Zneg k => - ((- v) / 2 ^ Zpos k)
          | _ => v * 2 ^ e
          end)
  | S754_nan => Raise ValueError
  | S754_infinity _ => Raise OverflowError
  end.

(** [ceil(a / b)] *)
Definition ceil_div (a b : Z) : result Z :=
  x <- int_truediv a b ;; ceil x.

End PyMath.

(** ** The purchase-order listing (lines 2116-2205) *)

Module PurchaseListing.

Section Rows.

Variable row : Type.

(** What the template receives: the rows of the page and the pager. *)
Record po_view : Type := {
  purchase_orders : list row;
  pagination : Pagination.t
}.

(** [po_list] for the rows [matching] the filters, in listing order. *)
Definition po_list (matching : list row) (per_page page : Z)
  : result po_view :=
  let offset := (page - 1) * per_page in
  rows <- Listing.limit_offset row per_page offset matching ;;
  let total_count := Z.of_nat (List.length matching) in
  total_pages <- PyMath.ceil_div total_count per_page ;;
  (* Pagination(page, per_page, total_count) *)
  pages <- PyMath.ceil_div total_count per_page ;;
  Ok {| purchase_orders := rows;
        pagination := {| Pagination.page := page; Pagination.pages := pages |} |}.

(** The rows [po_list] shows; none when it raised. *)
Definition shown (r : result po_view) : list row :=
  match r with
  | Ok v => purchase_orders v
  | Raise _ => []
  end.

End Rows.

End PurchaseListing.

(** ** The pages of the label sheet (lines 1506, 1519-1525) *)

Module Sheets.

(** The labels drawn on each page: [barcodes[start:end]] for
    [page_idx in range(total_pages)]. *)
Definition pages {A : Type} (barcodes : list A) : result (list (list A)) :=
  total_pages <-
    PyMath.ceil_div (Z.of_nat (List.length barcodes)) Sheet.per_page ;;
  Ok (map (fun page_idx => Sheet.page_slice barcodes (Z.of_nat page_idx))
          (range (Z.to_nat total_pages))).

End Sheets.

(** ** The item import (lines 1367-1436)

    The rows of an uploaded CSV file as [csv.DictReader] yields them; a
    cell is a [str], and [row.get(column)] is [None] for a column the file
    lacks.  Every row with a name runs one [INSERT ... ON CONFLICT(sku) DO
    UPDATE]; the import is committed once, after the last row. *)

Module ItemImport.

Import Web Items.
Local Open Scope string_scope.
Local Open Scope Z_scope.

Record csv_row : Type := {
  c_sku : option string;
  c_name : option string;
  c_description : option string;
  c_uom : option string;
  c_brand : option string;
  c_hsn_code : option string;
  c_cost_price : option string;
  c_selling_price : option string;
  c_gst_rate : option string;
  c_discount : option string;
  c_stock_qty : option string;
  c_reorder_level : option string;
  c_status : option string
}.

(** The item that holds the values the statement binds for [row]; [id] and
    [supplier_id] are not among them. *)
Definition bound (id : Z) (supplier_id : option string) (name : string)
           (row : csv_row) : item :=
  {| it_id := id;
     it_sku := c_sku row;
     it_name := name;
     it_description := c_description row;
     it_uom := or_else (c_uom row) "Nos";
     it_brand := c_brand row;
     it_supplier_id := supplier_id;
     it_hsn_code := c_hsn_code row;
     it_cost_price := or_zero (c_cost_price row);
     it_selling_price := or_zero (c_selling_price row);
     it_gst_rate := or_zero (c_gst_rate row);
     it_discount := or_zero (c_discount row);
     it_stock_qty := or_zero (c_stock_qty row);
     it_reorder_level := or_zero (c_reorder_level row);
     it_status := or_else (c_status row) "active" |}.

(** The stored item [r] carries the SKU of [row]: the conflict on
    [UNIQUE(sku)], which a NULL never raises. *)
Definition conflicts (row : csv_row) (r : item) : bool :=
  match c_sku row with
  | Some s => Db.opt_eqb (it_sku r) s
  | None => false
  end.

(** [INSERT INTO items (...) VALUES (...) ON CONFLICT(sku) DO UPDATE SET
    ...].  The key of the new row is drawn before the conflict is met, so
    the sequence advances on either path. *)
Definition upsert (name : string) (row : csv_row) (d : items_db) : items_db :=
  let id := Db.next_id (items_seq d) (map it_id (items d)) in
  if existsb (conflicts row) (items d) then
    {| items := map (fun r => if conflicts row r
                              then bound (it_id r) (it_supplier_id r) name row
                              else r)
                    (items d);
       items_seq := id |}
  else
    {| items := (items d ++ [bound id None name row])%list;
       items_seq := id |}.

(** The body of [for row in rows], on the pair of [count] and the
    database. *)
Definition import_row (st : Z * items_db) (row : csv_row) : Z * items_db :=
  let '(count, d) := st in
  match c_name row with
  | None => (count, d)
  | Some name =>
      if String.eqb name "" then (count, d)
      else (count + 1, upsert name row d)
  end.

(** [items_import] on the rows read: the [count] of the flashed message
    and the database committed. *)
Definition items_import (rows : list csv_row) (d : items_db)
  : Z * items_db :=
  fold_left import_row rows (0, d).

End ItemImport.

(** ** Concrete requests used by the examples *)

Module Examples.

Import Handlers.
Local Open Scope string_scope.

(** 4 and 5 January 2025, at midnight UTC. *)
Definition jan4 : clock :=
  {| year := 2025; month := 1; day := 4;
     timestamp := B64.of_Z 1735948800 |}.

Definition jan5 : clock :=
  {| year := 2025; month := 1; day := 5;
     timestamp := B64.of_Z 1736035200 |}.

(** A sales order for customer 1 without lines. *)
Definition order_without_lines : order_form :=
  {| of_customer_id := Some "1"; of_so_no := None; of_date := None;
     of_expected_delivery_date := None; of_notes := None;
     of_qtys := []; of_rates := []; of_discounts := [];
     of_item_ids := [] |}.

(** The same order saved from the edit form with its number typed over. *)
Definition order_renumbered : order_form :=
  {| of_customer_id := Some "1"; of_so_no := Some "SO20250105";
     of_date := Some "2025-01-04";
     of_expected_delivery_date := None; of_notes := None;
     of_qtys := []; of_rates := []; of_discounts := [];
     of_item_ids := [] |}.

(** The two-line order of the specification's end-to-end scenario. *)
Definition order_two_lines : order_form :=
  {| of_customer_id := Some "1"; of_so_no := None; of_date := None;
     of_expected_delivery_date := None; of_notes := None;
     of_qtys := ["3"; "1"]; of_rates := ["100"; "50"];
     of_discounts := ["10"; "0"]; of_item_ids := ["7"; "8"] |}.

(** A purchase order of two lines, each taxed at 5 percent. *)
Definition purchase_two_lines : purchase_form :=
  {| pf_supplier_id := Some "2"; pf_date := Some "2025-01-05";
     pf_po_no := None; pf_notes := None;
     pf_qtys := ["1"; "1"]; pf_rates := ["1"; "2"];
     pf_discounts := ["0"; "0"]; pf_gst_rates := ["5"; "5"];
     pf_item_ids := ["3"; "4"] |}.

(** A purchase order of one line whose tax rate is negative. *)
Definition purchase_negative_tax : purchase_form :=
  {| pf_supplier_id := Some "2"; pf_date := Some "2025-01-05";
     pf_po_no := None; pf_notes := None;
     pf_qtys := ["1"]; pf_rates := ["10"];
     pf_discounts := ["0"]; pf_gst_rates := ["-200"];
     pf_item_ids := ["3"] |}.

(** An invoice whose only line has a comma in its quantity. *)
Definition invoice_comma_qty : invoice_form :=
  {| if_customer_id := Some "1"; if_date := Some "2025-01-05";
     if_due_date := None; if_invoice_no := Some "INV-7"; if_notes := None;
     if_sales_order_id := None;
     if_item_ids := ["7"]; if_qtys := ["1,5"]; if_rates := ["10"];
     if_discounts := ["0"] |}.

(** An invoice whose only line has no item reference. *)
Definition invoice_blank_item : invoice_form :=
  {| if_customer_id := Some "1"; if_date := Some "2025-01-05";
     if_due_date := None; if_invoice_no := Some "INV-8"; if_notes := None;
     if_sales_order_id := None;
     if_item_ids := [""]; if_qtys := ["1"]; if_rates := ["10"];
     if_discounts := ["0"] |}.

(** An invoice of one line, with or without a submitted number. *)
Definition invoice_numbered (no : option string) : invoice_form :=
  {| if_customer_id := Some "1"; if_date := Some "2025-01-05";
     if_due_date := None; if_invoice_no := no; if_notes := None;
     if_sales_order_id := None;
     if_item_ids := ["7"]; if_qtys := ["2"]; if_rates := ["10"];
     if_discounts := ["0"] |}.


End Examples.

(** Forms used by the examples of the form routes. *)

Module FormExamples.

Import Web Customers Items.
Local Open Scope string_scope.

Definition blank_customer : customer_form :=
  {| cf_name := Some "   "; cf_email := Some "a@example.com";
     cf_mobile := None; cf_phone := None; cf_address := None;
     cf_city := None; cf_pincode := None; cf_state := None;
     cf_country := None; cf_notes := None; cf_status := None |}.

Definition no_customers : customers_db :=
  {| customers := []; customers_seq := 0 |}.

(** An item form with a name and, possibly, a SKU. *)
Definition item_named (name : string) (sku : option string) : item_form :=
  {| f_sku := sku; f_name := Some name; f_description := None;
     f_uom := None; f_brand := None; f_supplier_id := None;
     f_hsn_code := None; f_cost_price := Some "10";
     f_selling_price := Some "12,5"; f_gst_rate := None;
     f_discount := None; f_stock_qty := None; f_reorder_level := None;
     f_status := None |}.

Definition no_items : items_db := {| items := []; items_seq := 0 |}.

(** The table after an item was entered with the SKU that the automatic
    numbering will want for the next one. *)
Definition items_with_ITEM0002 : items_db :=
  snd (item_new (item_named "Thread" (Some "ITEM0002")) no_items).

(** A stand-in for the hashing library, used by the examples only: the
    hash is the password behind a tag. *)
Definition tag_hash (password : string) : result string :=
  Ok ("tag$" ++ password).

Definition tag_check (hash password : string) : result bool :=
  Ok (String.eqb hash ("tag$" ++ password)).

Definition registration : Auth.register_form :=
  {| Auth.rf_name := Some " Asha "; Auth.rf_email := Some "asha@example.com ";
     Auth.rf_password := Some "s3cret"; Auth.rf_confirm := Some "s3cret" |}.

Definition no_users : Auth.users_db :=
  {| Auth.users := []; Auth.users_seq := 0 |}.

End FormExamples.

(** ** Files used by the import examples *)

Module ImportExamples.

Import ItemImport.
Local Open Scope string_scope.

(** A row of a file with the columns SKU, Name and Cost Price. *)
Definition csv (sku name cost_price : option string) : csv_row :=
  {| c_sku := sku; c_name := name; c_description := None; c_uom := None;
     c_brand := None; c_hsn_code := None; c_cost_price := cost_price;
     c_selling_price := None; c_gst_rate := None; c_discount := None;
     c_stock_qty := None; c_reorder_level := None; c_status := None |}.

Definition price_list : list csv_row :=
  [csv (Some "B-1") (Some "Button") (Some "2.50");
   csv (Some "Z-9") (Some "Zip") (Some "14");
   csv (Some "B-1") (Some "Button, large") (Some "3")].

Definition names_only : list csv_row :=
  [csv None (Some "Button") None; csv None (Some "Zip") None].

Definition blank_skus : list csv_row :=
  [csv (Some "") (Some "Ribbon") (Some "1");
   csv (Some "") (Some "Lace") (Some "2");
   csv (Some "B-1") (Some "Button") (Some "2.50")].

End ImportExamples.

(* ================================================================== *)
(** * Part II: properties                                              *)
(* ================================================================== *)

Local Open Scope string_scope.
Local Open Scope Z_scope.

(** ** Facts about binary64 rounding *)

Module FloatFacts.
Import B64 FloatPred.

Lemma digits2_pos_upper (m : positive) : Zpos m < 2 ^ Zpos (digits2_pos m).
Proof.
  induction m as [m IH | m IH |]; cbn [digits2_pos].
  - rewrite Pos2Z.inj_succ, Z.pow_succ_r by lia. lia.
  - rewrite Pos2Z.inj_succ, Z.pow_succ_r by lia. lia.
  - reflexivity.
Qed.

Lemma digits2_pos_lower (m : positive) : 2 ^ (Zpos (digits2_pos m) - 1) <= Zpos m.
Proof.
  induction m as [m IH | m IH |]; cbn [digits2_pos].
  - rewrite Pos2Z.inj_succ.
    replace (Z.succ (Zpos (digits2_pos m)) - 1) with (Z.succ (Zpos (digits2_pos m) - 1)) by lia.
    rewrite Z.pow_succ_r by lia. lia.
  - rewrite Pos2Z.inj_succ.
    replace (Z.succ (Zpos (digits2_pos m)) - 1) with (Z.succ (Zpos (digits2_pos m) - 1)) by lia.
    rewrite Z.pow_succ_r by lia. lia.
  - reflexivity.
Qed.

Lemma iter_pos_inv {A : Type} (f : A -> A) (I : Z -> A -> Prop) :
  (forall k x, 0 <= k -> I k x -> I (k + 1) (f x)) ->
  forall p k x, 0 <= k -> I k x -> I (k + Zpos p) (iter_pos f p x).
Proof.
  intros Hstep p.
  induction p as [p IH | p IH |]; intros k x Hk Hx; cbn [iter_pos].
  - replace (k + Zpos p~1) with (k + 1 + Zpos p + Zpos p) by lia.
    apply IH; [lia|]. apply IH; [lia|]. apply Hstep; assumption.
  - replace (k + Zpos p~0) with (k + Zpos p + Zpos p) by lia.
    apply IH; [lia|]. apply IH; assumption.
  - apply Hstep; assumption.
Qed.


Lemma shr_1_inv q inexact k mrs :
  0 <= k -> shr_inv q inexact k mrs -> shr_inv q inexact (k + 1) (shr_1 mrs).
Proof.
  intros Hk (Hm & Hle & Hfl).
  unfold shr_inv.
  rewrite Z.pow_add_r, Z.pow_1_r by lia.
  assert (H2 : 0 < 2 ^ k) by (apply Z.pow_pos_nonneg; lia).
  destruct mrs as [m r s]; cbn [shr_m shr_r shr_s] in *.
  destruct m as [| [p | p |] | p]; cbn [shr_1 shr_m shr_r shr_s]; try lia;
    (split; [lia | split; [lia |]]); intros H; cbn [orb] in H;
    try (left; lia);
    (destruct (Hfl H) as [H' | H']; [left; lia | right; exact H']).
Qed.

Lemma shr_spec q inexact mrs e n :
  shr_inv q inexact 0 mrs ->
  exists k, 0 <= k /\ snd (shr mrs e n) = e + k /\ (k = 0 \/ k = n) /\
            shr_inv q inexact k (fst (shr mrs e n)).
Proof.
  intros H0. destruct n as [| p | p]; cbn [shr fst snd].
  - exists 0. split; [lia|]. split; [lia|]. split; [auto|]. exact H0.
  - exists (Zpos p). split; [lia|]. split; [lia|]. split; [auto|].
    change (Zpos p) with (0 + Zpos p) at 1.
    apply iter_pos_inv; [| lia | exact H0].
    intros k x Hk Hx. apply shr_1_inv; assumption.
  - exists 0. split; [lia|]. split; [lia|]. split; [auto|]. exact H0.
Qed.

Lemma shr_record_of_loc_inv q l :
  0 <= q -> shr_inv q (l <> loc_Exact) 0 (shr_record_of_loc q l).
Proof.
  intros Hq. unfold shr_inv.
  destruct l as [| [| |]]; cbn [shr_record_of_loc shr_m shr_r shr_s orb];
    rewrite Z.pow_0_r; repeat split; try lia; intros; right; discriminate.
Qed.

Lemma round_nearest_even_cases m mrs :
  shr_m mrs = m ->
  round_nearest_even m (loc_of_shr_record mrs) = m \/
  (round_nearest_even m (loc_of_shr_record mrs) = m + 1 /\
   orb (shr_r mrs) (shr_s mrs) = true).
Proof.
  intros <-. destruct mrs as [m [|] [|]]; cbn; auto.
  destruct (Z.even m); auto.
Qed.


Lemma fexp_le_0 d e : d + e <= 53 -> fexp prec emax (d + e) <= 0.
Proof. unfold fexp, emin, prec, emax. lia. Qed.

Lemma Zdigits2_le q t : 0 <= t -> 0 <= q <= 2 ^ t -> Zdigits2 q <= t + 1.
Proof.
  intros Ht [Hq Hle]. destruct q as [| p | p]; cbn [Zdigits2]; try lia.
  pose proof (digits2_pos_lower p) as Hl.
  destruct (Z_le_gt_dec (Zpos (digits2_pos p)) (t + 1)) as [|Hgt]; [assumption|].
  exfalso.
  assert (2 ^ (t + 1) <= 2 ^ (Zpos (digits2_pos p) - 1)) by (apply Z.pow_le_mono_r; lia).
  rewrite Z.pow_add_r, Z.pow_1_r in H by lia.
  assert (0 < 2 ^ t) by (apply Z.pow_pos_nonneg; lia). lia.
Qed.

Lemma binary_round_aux_le_one q e0 l :
  0 <= q -> e0 <= 0 -> q <= 2 ^ (- e0) ->
  (l <> loc_Exact -> q < 2 ^ (- e0)) ->
  le_one (binary_round_aux prec emax false q e0 l).
Proof.
  intros Hq He0 HqT Hin.
  set (T := 2 ^ (- e0)) in *.
  assert (HT : 0 < T) by (apply Z.pow_pos_nonneg; lia).
  unfold binary_round_aux, shr_fexp.
  set (n := fexp prec emax (Zdigits2 q + e0) - e0).
  destruct (shr_spec q (l <> loc_Exact) (shr_record_of_loc q l) e0 n
              (shr_record_of_loc_inv q l Hq))
    as (k & Hk & He1 & Hkn & (Hm1 & Hle1 & Hfl1)).
  destruct (shr (shr_record_of_loc q l) e0 n) as [mrs1 e1].
  cbn [fst snd] in *. subst e1.
  assert (Hk0 : k <= - e0).
  { destruct Hkn as [-> | ->]; [lia|].
    unfold n. pose proof (Zdigits2_le q (- e0) ltac:(lia) (conj Hq HqT)).
    pose proof (fexp_le_0 (Zdigits2 q) e0 ltac:(lia)). lia. }
  set (m1 := shr_m mrs1) in *.
  set (m2 := round_nearest_even m1 (loc_of_shr_record mrs1)).
  assert (H2k : 0 < 2 ^ k) by (apply Z.pow_pos_nonneg; lia).
  assert (HTk : T = 2 ^ (- e0 - k) * 2 ^ k).
  { unfold T. rewrite <- Z.pow_add_r by lia. f_equal. lia. }
  assert (HTk' : 0 < 2 ^ (- e0 - k)) by (apply Z.pow_pos_nonneg; lia).
  assert (Hm2 : 0 <= m2 /\ m2 * 2 ^ k <= T).
  { destruct (round_nearest_even_cases m1 mrs1 eq_refl) as [E | [E Hf]];
      fold m2 in E; rewrite E.
    - split; lia.
    - split; [lia|].
      assert (m1 * 2 ^ k < T) by (destruct (Hfl1 Hf) as [? | Hl]; [lia | specialize (Hin Hl); lia]).
      rewrite HTk in H |- *.
      apply Z.mul_lt_mono_pos_r in H; [| assumption].
      apply Z.mul_le_mono_nonneg_r; lia. }
  destruct Hm2 as [Hm2 Hm2T].
  set (n2 := fexp prec emax (Zdigits2 m2 + (e0 + k)) - (e0 + k)).
  destruct (shr_spec m2 (loc_Exact <> loc_Exact) (shr_record_of_loc m2 loc_Exact)
              (e0 + k) n2 (shr_record_of_loc_inv m2 loc_Exact Hm2))
    as (k2 & Hk2 & He3 & _ & (Hm3 & Hle3 & _)).
  destruct (shr (shr_record_of_loc m2 loc_Exact) (e0 + k) n2) as [mrs3 e3].
  cbn [fst snd] in *. subst e3.
  destruct (shr_m mrs3) as [| p | p] eqn:Em3; cbn [le_one]; try lia; auto.
  assert (H2k2 : 0 < 2 ^ k2) by (apply Z.pow_pos_nonneg; lia).
  assert (Hp : Zpos p * 2 ^ (k + k2) <= T).
  { rewrite Z.pow_add_r by lia. nia. }
  assert (Hkk : k + k2 <= - e0).
  { destruct (Z_le_gt_dec (k + k2) (- e0)) as [|Hgt]; [assumption|]. exfalso.
    assert (2 ^ (- e0 + 1) <= 2 ^ (k + k2)) by (apply Z.pow_le_mono_r; lia).
    rewrite Z.pow_add_r, Z.pow_1_r in H by lia. fold T in H. nia. }
  replace (e0 + k + k2 <=? emax - prec) with true
    by (symmetry; apply Z.leb_le; unfold emax, prec; lia).
  cbn [le_one]. split; [lia|].
  assert (HT3 : T = 2 ^ (- (e0 + k + k2)) * 2 ^ (k + k2)).
  { unfold T. rewrite <- Z.pow_add_r by lia. f_equal. lia. }
  assert (0 < 2 ^ (k + k2)) by (apply Z.pow_pos_nonneg; lia).
  rewrite HT3 in Hp.
  apply Z.mul_le_mono_pos_r in Hp; assumption.
Qed.


Lemma hundred_eq : hundred = S754_finite false 7036874417766400 (-46).
Proof. reflexivity. Qed.

Lemma one_eq : one = S754_finite false 4503599627370496 (-52).
Proof. reflexivity. Qed.

Lemma new_location_inexact m r : new_location m r <> loc_Exact -> r <> 0.
Proof.
  unfold new_location, new_location_even, new_location_odd.
  intros H ->. destruct (Z.even m); cbn in H; congruence.
Qed.

(** The integer quotient that [SFdiv] rounds. *)
Lemma SFdiv_core_binary_spec m1 e1 m2 e2 :
  0 < m1 -> 0 < m2 ->
  exists q e' l r,
    (SFdiv_core_binary prec emax m1 e1 m2 e2 = (q, e', l)) /\
    (e' <= e1 - e2) /\
    (e' <= fexp prec emax (Zdigits2 m1 + e1 - (Zdigits2 m2 + e2))) /\
    (m1 * 2 ^ (e1 - e2 - e') = q * m2 + r) /\
    (0 <= r < m2) /\ (0 <= q) /\ (l <> loc_Exact -> 0 < r).
Proof.
  intros H1 H2. unfold SFdiv_core_binary.
  set (e' := Z.min _ _).
  assert (He' : e' <= e1 - e2) by (unfold e'; lia).
  set (s := e1 - e2 - e').
  set (m' := match s with Z.pos _ => Z.shiftl m1 s | 0 => m1 | Z.neg _ => 0 end).
  assert (Hm' : m' = m1 * 2 ^ s).
  { assert (Hs : 0 <= s) by (unfold s; lia).
    unfold m'. revert Hs. generalize s. intros [| p | p] Hs; try lia.
    rewrite Z.shiftl_mul_pow2 by lia. reflexivity. }
  pose proof (Z.div_eucl_eq m' m2 ltac:(lia)) as Heq.
  pose proof (Z.mod_pos_bound m' m2 H2) as Hr.
  assert (Hq : 0 <= m' / m2).
  { apply Z.div_pos; [|lia]. rewrite Hm'.
    apply Z.mul_nonneg_nonneg; [lia | apply Z.pow_nonneg; lia]. }
  unfold Z.modulo, Z.div in Hr, Hq.
  destruct (Z.div_eucl m' m2) as [q r]. cbn [fst snd] in *.
  exists q, e', (new_location m2 r), r.
  split; [reflexivity|]. split; [exact He'|].
  split; [unfold e'; lia|].
  split; [fold s; rewrite <- Hm'; lia|].
  split; [exact Hr|]. split; [exact Hq|].
  intros Hl. apply new_location_inexact in Hl. lia.
Qed.

Lemma bounded_digits m e :
  bounded prec emax m e = true ->
  Zpos (digits2_pos m) <= 53 /\ -1074 <= e <= 971.
Proof.
  unfold bounded, canonical_mantissa, fexp, emin, prec, emax.
  intros H. apply andb_true_iff in H as [H1 H2].
  apply Z.eqb_eq in H1. apply Z.leb_le in H2. lia.
Qed.

Lemma div_hundred_le_one d :
  valid d = true -> leb zero d = true -> leb d hundred = true ->
  le_one (div d hundred).
Proof.
  intros Hv H0 H100. rewrite hundred_eq in *.
  destruct d as [s | s | | s m e]; try discriminate.
  - exact I.
  - destruct s; discriminate.
  - destruct s; [discriminate|].
    apply bounded_digits in Hv as [Hd He].
    pose proof (digits2_pos_upper m) as Hup.
    assert (Hm53 : Zpos m < 2 ^ 53).
    { eapply Z.lt_le_trans; [exact Hup|]. apply Z.pow_le_mono_r; lia. }
    assert (Hcmp : e < -46 \/ (e = -46 /\ Zpos m <= 7036874417766400)).
    { unfold leb, SFleb, SFcompare in H100.
      destruct (Z.compare_spec e (-46)) as [E | E | E]; try discriminate; [right | left; lia].
      split; [exact E|].
      rewrite Pos.compare_cont_spec in H100.
      destruct (m ?= 7036874417766400)%positive eqn:C; [| | discriminate].
      + apply Pos.compare_eq in C. rewrite C. apply Z.le_refl.
      + apply Pos.compare_lt_iff in C. apply Z.lt_le_incl. exact C. }
    unfold div, SFdiv. cbn [xorb].
    destruct (SFdiv_core_binary_spec (Zpos m) e 7036874417766400 (-46))
      as (q & e' & l & r & Hcore & He' & _ & Heq & Hr & Hq & Hl); try lia.
    rewrite Hcore.
    set (u := - (e + 46)).
    set (s := e - -46 - e') in *.
    assert (Hs : 0 <= s) by (unfold s; lia).
    assert (HT : 2 ^ (- e') = 2 ^ s * 2 ^ u).
    { rewrite <- Z.pow_add_r by (unfold u; lia). f_equal. unfold s, u. lia. }
    assert (H2s : 0 < 2 ^ s) by (apply Z.pow_pos_nonneg; lia).
    assert (Hmu : Zpos m <= 7036874417766400 * 2 ^ u).
    { destruct Hcmp as [E | [E Hle]].
      - assert (2 ^ 1 <= 2 ^ u) by (apply Z.pow_le_mono_r; unfold u; lia).
        change (2 ^ 1) with 2 in H. change (2 ^ 53) with 9007199254740992 in Hm53. lia.
      - replace u with 0 by (unfold u; lia). rewrite Z.pow_0_r. lia. }
    assert (Hbig : q * 7036874417766400 + r <= 7036874417766400 * 2 ^ (- e')).
    { rewrite <- Heq, HT.
      replace (7036874417766400 * (2 ^ s * 2 ^ u)) with ((7036874417766400 * 2 ^ u) * 2 ^ s) by ring.
      apply Z.mul_le_mono_nonneg_r; lia. }
    apply binary_round_aux_le_one; try lia.
    intros Hne. specialize (Hl Hne). lia.
Qed.


Lemma binary_round_aux_sign m e l :
  nonneg_sign (binary_round_aux prec emax false m e l).
Proof.
  unfold binary_round_aux.
  destruct (shr_fexp prec emax m e l) as [mrs1 e1].
  destruct (shr_fexp prec emax
              (round_nearest_even (shr_m mrs1) (loc_of_shr_record mrs1))
              e1 loc_Exact) as [mrs2 e2].
  destruct (shr_m mrs2); [exact I | | exact I].
  destruct (e2 <=? emax - prec); reflexivity.
Qed.

Lemma mul_nonneg_sign a b :
  nonneg_sign a -> nonneg_sign b -> nonneg_sign (mul a b).
Proof.
  unfold mul, SFmul.
  destruct a as [sa | sa | | sa ma ea], b as [sb | sb | | sb mb eb];
    cbn [nonneg_sign]; intros Ha Hb; subst; cbn [xorb]; auto.
  apply binary_round_aux_sign.
Qed.

Lemma leb_zero_nonneg_sign f : leb zero f = true -> nonneg_sign f.
Proof.
  destruct f as [s | [|] | | [|] m e]; cbn; auto; discriminate.
Qed.

Lemma nonneg_sign_not_ltb f : nonneg_sign f -> ltb f zero = false.
Proof.
  destruct f as [s | s | | s m e]; cbn; auto; intros ->; reflexivity.
Qed.

Lemma shl_align_fst m e e' :
  e' <= e -> Zpos (fst (shl_align m e e')) = Zpos m * 2 ^ (e - e').
Proof.
  intros H. unfold shl_align.
  destruct (e' - e) as [| p | p] eqn:E; cbn [fst].
  - replace (e - e') with 0 by lia. rewrite Z.pow_0_r. lia.
  - lia.
  - replace (e - e') with (Zpos p) by lia.
    rewrite (Pos.iter_swap_gen _ _ Zpos xO (Z.mul 2)) by reflexivity.
    change (Z.shiftl (Zpos m) (Zpos p) = Zpos m * 2 ^ Zpos p).
    apply Z.shiftl_mul_pow2. lia.
Qed.

Lemma binary_normalize_sign z e : 0 <= z -> nonneg_sign (binary_normalize prec emax z e false).
Proof.
  intros Hz. destruct z as [| p | p]; cbn [binary_normalize nonneg_sign]; auto; try lia.
  unfold binary_round. destruct (shl_align _ _ _) as [mz ez].
  apply binary_round_aux_sign.
Qed.

Lemma sub_one_nonneg_sign r : le_one r -> nonneg_sign (sub one r).
Proof.
  rewrite one_eq. destruct r as [s | s | | s m e]; cbn [le_one]; try tauto.
  - intros _. cbn. reflexivity.
  - destruct s; [tauto|]. intros [He Hm].
    unfold sub, SFsub. cbn [cond_Zopp].
    apply binary_normalize_sign.
    set (ez := Z.min (-52) e).
    rewrite !shl_align_fst by (unfold ez; lia).
    assert (H1 : 4503599627370496 * 2 ^ (-52 - ez) = 2 ^ (- ez)).
    { change 4503599627370496 with (2 ^ 52). rewrite <- Z.pow_add_r by (unfold ez; lia).
      f_equal. lia. }
    assert (H2 : 2 ^ (- ez) = 2 ^ (- e) * 2 ^ (e - ez)).
    { rewrite <- Z.pow_add_r by (unfold ez; lia). f_equal. lia. }
    rewrite H1, H2.
    assert (0 <= 2 ^ (e - ez)) by (apply Z.pow_nonneg; lia).
    apply Zle_minus_le_0. apply Z.mul_le_mono_nonneg_r; lia.
Qed.

(** [1 - d/100] is not negative when [0 <= d <= 100]. *)
Lemma discount_factor_nonneg d :
  valid d = true -> leb zero d = true -> leb d hundred = true ->
  nonneg_sign (sub one (div d hundred)).
Proof.
  intros Hv H0 H1. apply sub_one_nonneg_sign, div_hundred_le_one; assumption.
Qed.

End FloatFacts.


Module FloatValid.
Import B64 FloatPred FloatFacts.

Lemma Zdigits2_bounds x : 0 < x -> 2 ^ (Zdigits2 x - 1) <= x < 2 ^ Zdigits2 x.
Proof.
  destruct x as [| p | p]; try lia. intros _. cbn [Zdigits2].
  split; [apply digits2_pos_lower | apply digits2_pos_upper].
Qed.

Lemma Zdigits2_nonneg x : 0 <= Zdigits2 x.
Proof. destruct x; cbn; lia. Qed.

Lemma Zdigits2_unique x d : 0 < x -> 2 ^ (d - 1) <= x < 2 ^ d -> Zdigits2 x = d.
Proof.
  intros Hx [Hl Hu]. pose proof (Zdigits2_bounds x Hx) as [Hl' Hu'].
  assert (Hd : 0 < d).
  { destruct (Z_lt_le_dec 0 d); [assumption|]. exfalso.
    destruct (Z.eq_dec d 0) as [-> | ?]; [cbn in Hu; lia|].
    rewrite Z.pow_neg_r in Hu by lia. lia. }
  assert (Hd' : 0 < Zdigits2 x) by (destruct x; cbn; lia).
  destruct (Z.lt_trichotomy (Zdigits2 x) d) as [H | [H | H]]; [exfalso | exact H | exfalso].
  - assert (2 ^ Zdigits2 x <= 2 ^ (d - 1)) by (apply Z.pow_le_mono_r; lia). lia.
  - assert (2 ^ d <= 2 ^ (Zdigits2 x - 1)) by (apply Z.pow_le_mono_r; lia). lia.
Qed.


Lemma shr_1_div q k mrs :
  0 <= q -> 0 <= k -> shr_div q k mrs -> shr_div q (k + 1) (shr_1 mrs).
Proof.
  unfold shr_div. intros Hq Hk H.
  assert (H2k : 0 < 2 ^ k) by (apply Z.pow_pos_nonneg; lia).
  rewrite Z.pow_add_r, Z.pow_1_r, <- Z.div_div by lia. rewrite <- H.
  assert (Hm : 0 <= shr_m mrs) by (rewrite H; apply Z.div_pos; lia).
  destruct mrs as [m r s]; cbn [shr_m] in *.
  destruct m as [| [p | p |] | p]; cbn [shr_1 shr_m]; try lia; try reflexivity.
  - rewrite Pos2Z.inj_xI. apply Z.div_unique with (r := 1); lia.
  - rewrite Pos2Z.inj_xO. apply Z.div_unique with (r := 0); lia.
Qed.

Lemma shr_div_spec q mrs e n :
  0 <= q -> shr_m mrs = q ->
  (0 <= n -> snd (shr mrs e n) = e + n /\ shr_m (fst (shr mrs e n)) = q / 2 ^ n).
Proof.
  intros Hq Hm Hn. destruct n as [| p | p]; cbn [shr fst snd]; try lia.
  - rewrite Z.pow_0_r, Z.div_1_r. split; [lia | exact Hm].
  - split; [reflexivity|].
    change (shr_div q (Zpos p) (iter_pos shr_1 p mrs)).
    change (Zpos p) with (0 + Zpos p).
    apply (iter_pos_inv shr_1 (shr_div q)); [| lia |].
    + intros k x Hk Hx. apply shr_1_div; assumption.
    + unfold shr_div. rewrite Z.pow_0_r, Z.div_1_r. exact Hm.
Qed.

Lemma shr_record_of_loc_m q l : shr_m (shr_record_of_loc q l) = q.
Proof. destruct l as [| [| |]]; reflexivity. Qed.

Lemma Zdigits2_div_pow2 q n :
  0 <= q -> 0 <= n -> Zdigits2 (q / 2 ^ n) = Z.max (Zdigits2 q - n) 0.
Proof.
  intros Hq Hn.
  assert (H2n : 0 < 2 ^ n) by (apply Z.pow_pos_nonneg; lia).
  destruct (Z.eq_dec q 0) as [-> | Hq0].
  { rewrite Z.div_0_l by lia. cbn. lia. }
  pose proof (Zdigits2_bounds q ltac:(lia)) as [Hl Hu].
  pose proof (Zdigits2_nonneg q) as Hd.
  destruct (Z_le_gt_dec (Zdigits2 q) n) as [Hle | Hgt].
  - assert (2 ^ Zdigits2 q <= 2 ^ n) by (apply Z.pow_le_mono_r; lia).
    rewrite Z.div_small by lia. cbn. lia.
  - rewrite Z.max_l by lia.
    assert (Hs1 : 2 ^ (Zdigits2 q - 1) = 2 ^ (Zdigits2 q - n - 1) * 2 ^ n).
    { rewrite <- Z.pow_add_r by lia. f_equal. lia. }
    assert (Hs2 : 2 ^ Zdigits2 q = 2 ^ (Zdigits2 q - n) * 2 ^ n).
    { rewrite <- Z.pow_add_r by lia. f_equal. lia. }
    assert (Hp : 0 < 2 ^ (Zdigits2 q - n - 1)) by (apply Z.pow_pos_nonneg; lia).
    assert (Hlo : 2 ^ (Zdigits2 q - n - 1) <= q / 2 ^ n).
    { apply Z.div_le_lower_bound; lia. }
    assert (Hhi : q / 2 ^ n < 2 ^ (Zdigits2 q - n)).
    { apply Z.div_lt_upper_bound; lia. }
    apply Zdigits2_unique; lia.
Qed.

Lemma Zdigits2_le_lt x d : 0 <= x -> 0 <= d -> x < 2 ^ d -> Zdigits2 x <= d.
Proof.
  intros Hx Hd H. destruct (Z.eq_dec x 0) as [-> | ?]; [cbn; lia|].
  pose proof (Zdigits2_bounds x ltac:(lia)) as [Hl _].
  destruct (Z_le_gt_dec (Zdigits2 x) d); [assumption|]. exfalso.
  assert (2 ^ d <= 2 ^ (Zdigits2 x - 1)) by (apply Z.pow_le_mono_r; lia). lia.
Qed.

Lemma Zdigits2_ge x d : 2 ^ d <= x -> 0 <= d -> d + 1 <= Zdigits2 x.
Proof.
  intros H Hd. assert (0 < 2 ^ d) by (apply Z.pow_pos_nonneg; lia).
  pose proof (Zdigits2_bounds x ltac:(lia)) as [_ Hu].
  pose proof (Zdigits2_nonneg x).
  destruct (Z_le_gt_dec (d + 1) (Zdigits2 x)); [assumption|]. exfalso.
  assert (2 ^ Zdigits2 x <= 2 ^ d) by (apply Z.pow_le_mono_r; lia). lia.
Qed.

Lemma round_nearest_even_range m l :
  round_nearest_even m l = m \/ round_nearest_even m l = m + 1.
Proof. destruct l as [| [| |]]; cbn; auto. destruct (Z.even m); auto. Qed.

(** Rounding a mantissa that carries enough digits yields a valid float. *)
Lemma binary_round_aux_valid s m e l :
  0 <= m -> e <= fexp prec emax (Zdigits2 m + e) ->
  valid (binary_round_aux prec emax s m e l) = true.
Proof.
  intros Hm Hpre.
  unfold binary_round_aux, shr_fexp.
  set (E := fexp prec emax (Zdigits2 m + e)) in *.
  destruct (shr_div_spec m (shr_record_of_loc m l) e (E - e) Hm
              (shr_record_of_loc_m m l) ltac:(lia)) as [He1 Hm1].
  destruct (shr (shr_record_of_loc m l) e (E - e)) as [mrs1 e1].
  cbn [fst snd] in *.
  assert (He1' : e1 = E) by lia. clear He1. subst e1.
  set (m1 := shr_m mrs1) in *.
  assert (Hd1 : Zdigits2 m1 = Z.max (Zdigits2 m - (E - e)) 0).
  { rewrite Hm1. apply Zdigits2_div_pow2; lia. }
  assert (Hm1nn : 0 <= m1).
  { rewrite Hm1. apply Z.div_pos; [lia|]. apply Z.pow_pos_nonneg; lia. }
  pose proof (Zdigits2_nonneg m) as Hdm.
  assert (HE : E = Z.max (Zdigits2 m + e - 53) (-1074)) by reflexivity.
  set (m2 := round_nearest_even m1 (loc_of_shr_record mrs1)).
  assert (Hm2 : m2 = m1 \/ m2 = m1 + 1) by apply round_nearest_even_range.
  assert (Hm1lt : m1 < 2 ^ Zdigits2 m1).
  { destruct (Z.eq_dec m1 0) as [-> | ?]; [reflexivity|].
    apply Zdigits2_bounds; lia. }
  assert (Hm2nn : 0 <= m2) by lia.
(* the number of digits of the rounded mantissa *)
  assert (Hd2 : Zdigits2 m1 <= Zdigits2 m2 <= Zdigits2 m1 + 1 /\
                (Zdigits2 m2 = Zdigits2 m1 + 1 -> m2 = 2 ^ Zdigits2 m1)).
  { pose proof (Zdigits2_nonneg m1) as Hd1nn.
    destruct Hm2 as [-> | ->]; [lia|].
    destruct (Z.eq_dec (m1 + 1) (2 ^ Zdigits2 m1)) as [Eq | Ne].
    - rewrite Eq. rewrite (Zdigits2_unique (2 ^ Zdigits2 m1) (Zdigits2 m1 + 1)).
      + lia.
      + apply Z.pow_pos_nonneg; lia.
      + replace (Zdigits2 m1 + 1 - 1) with (Zdigits2 m1) by lia.
        rewrite Z.pow_add_r, Z.pow_1_r by lia.
        assert (0 < 2 ^ Zdigits2 m1) by (apply Z.pow_pos_nonneg; lia). lia.
    - assert (Zdigits2 (m1 + 1) = Zdigits2 m1); [|lia].
      destruct (Z.eq_dec m1 0) as [E0 | N0].
      { exfalso. rewrite E0 in Ne. cbn in Ne. lia. }
      apply Zdigits2_unique; [lia|].
      pose proof (Zdigits2_bounds m1 ltac:(lia)). lia. }
  destruct Hd2 as [Hd2 Hd2eq].
  set (n2 := fexp prec emax (Zdigits2 m2 + E) - E).
  assert (Hn2 : (n2 = 0 /\ (m2 = 0 \/ fexp prec emax (Zdigits2 m2 + E) = E)) \/
                (n2 = 1 /\ m2 = 2 ^ 53 /\ -1074 <= E)).
  { unfold n2, fexp, emin, prec, emax.
    destruct (Z.eq_dec (Zdigits2 m2) (Zdigits2 m1 + 1)) as [Eq | Ne].
    - specialize (Hd2eq Eq).
      destruct (Z_lt_le_dec (Zdigits2 m + e - 53) (-1074)).
      + left. split; [lia|]. right. lia.
      + right. assert (Zdigits2 m1 = 53) by lia.
        rewrite H in *. split; [lia|]. split; [assumption | lia].
    - left. split; [lia|]. right. lia. }
  destruct (shr_div_spec m2 (shr_record_of_loc m2 loc_Exact) E n2 Hm2nn
              (shr_record_of_loc_m m2 loc_Exact) ltac:(lia)) as [He3 Hm3].
  fold n2.
  destruct (shr (shr_record_of_loc m2 loc_Exact) E n2) as [mrs3 e3].
  cbn [fst snd] in *. subst e3.
  destruct (shr_m mrs3) as [| p | p] eqn:Em3; [reflexivity | | reflexivity].
  destruct (E + n2 <=? emax - prec) eqn:Hov; [| reflexivity].
  cbn [valid valid_binary]. unfold valid, valid_binary, bounded.
  rewrite Hov, andb_true_r. unfold canonical_mantissa. apply Z.eqb_eq.
  change (Zpos (digits2_pos p)) with (Zdigits2 (Zpos p)).
  destruct Hn2 as [[Hn0 Hc] | [Hn1 [Hm2e HE']]].
  - rewrite Hn0 in *. rewrite Z.pow_0_r, Z.div_1_r in Hm3.
    rewrite Z.add_0_r. rewrite Hm3.
    destruct Hc as [Hz | Hc]; [lia | exact Hc].
  - rewrite Hn1 in *. rewrite Hm2e in Hm3. change (2 ^ 53 / 2 ^ 1) with (2 ^ 52) in Hm3.
    rewrite Hm3. change (Zdigits2 (2 ^ 52)) with 53.
    unfold fexp, emin, prec, emax. lia.
Qed.

End FloatValid.

Module ParseFacts.
Import B64 FloatPred FloatFacts FloatValid.

Lemma fexp_mono a b : a <= b -> fexp prec emax a <= fexp prec emax b.
Proof. unfold fexp, emin, prec, emax. lia. Qed.

Lemma binary_round_valid s m e : valid (binary_round prec emax s m e) = true.
Proof.
  unfold binary_round.
  set (E := fexp prec emax (Zpos (digits2_pos m) + e)).
  destruct (Z_lt_le_dec E e) as [Hlt | Hge].
  - pose proof (shl_align_fst m e E ltac:(lia)) as Hv.
    assert (He : snd (shl_align m e E) = E).
    { unfold shl_align. destruct (E - e) eqn:Ed; try lia. reflexivity. }
    destruct (shl_align m e E) as [mz ez]. cbn [fst snd] in *. subst ez.
    apply binary_round_aux_valid; [lia|].
    assert (Hd : Zdigits2 (Zpos mz) = Zpos (digits2_pos m) + (e - E)).
    { apply Zdigits2_unique; [lia|]. rewrite Hv.
      pose proof (digits2_pos_lower m). pose proof (digits2_pos_upper m).
      assert (0 < 2 ^ (e - E)) by (apply Z.pow_pos_nonneg; lia).
      replace (Zpos (digits2_pos m) + (e - E) - 1)
        with ((Zpos (digits2_pos m) - 1) + (e - E)) by lia.
      rewrite !Z.pow_add_r by lia. split.
      - apply Z.mul_le_mono_nonneg_r; lia.
      - apply Z.mul_lt_mono_pos_r; lia. }
    rewrite Hd. replace (Zpos (digits2_pos m) + (e - E) + E)
      with (Zpos (digits2_pos m) + e) by lia.
    fold E. lia.
  - assert (Hs : shl_align m e E = (m, e)).
    { unfold shl_align. destruct (E - e) eqn:Ed; try lia; reflexivity. }
    rewrite Hs. apply binary_round_aux_valid; [lia|].
    cbn [Zdigits2]. fold E. exact Hge.
Qed.

(** The quotient computed by [SFdiv_core_binary] has the digits [fexp] asks
    for. *)
Lemma div_quotient_digits m1 m2 q r s :
  0 < m1 -> 0 < m2 -> 0 <= s -> 0 <= q -> 0 <= r < m2 ->
  m1 * 2 ^ s = q * m2 + r ->
  Zdigits2 m1 + s - Zdigits2 m2 <= Zdigits2 q.
Proof.
  intros H1 H2 Hs Hq Hr Heq.
  pose proof (Zdigits2_bounds m1 H1) as [Hl1 _].
  pose proof (Zdigits2_bounds m2 H2) as [_ Hu2].
  pose proof (Zdigits2_nonneg q) as Hdq.
  pose proof (Zdigits2_nonneg m2) as Hd2.
  assert (Hd1 : 0 < Zdigits2 m1) by (destruct m1; cbn; lia).
  set (t := Zdigits2 m1 - 1 + s - Zdigits2 m2).
  destruct (Z_lt_le_dec t 0) as [Hneg | Hpos]; [unfold t in Hneg; lia|].
  assert (HAB : 2 ^ (Zdigits2 m1 - 1) * 2 ^ s = 2 ^ t * 2 ^ Zdigits2 m2).
  { rewrite <- !Z.pow_add_r by lia. f_equal. unfold t. lia. }
  assert (H2s : 0 < 2 ^ s) by (apply Z.pow_pos_nonneg; lia).
  assert (H2t : 0 < 2 ^ t) by (apply Z.pow_pos_nonneg; lia).
  assert (Hlow : 2 ^ t * 2 ^ Zdigits2 m2 <= m1 * 2 ^ s).
  { rewrite <- HAB. apply Z.mul_le_mono_nonneg_r; lia. }
  assert (Hqt : 2 ^ t <= q).
  { destruct (Z_le_gt_dec (2 ^ t) q) as [|Hgt]; [assumption|]. exfalso.
    assert (q + 1 <= 2 ^ t) by lia.
    assert ((q + 1) * m2 <= 2 ^ t * m2) by (apply Z.mul_le_mono_nonneg_r; lia).
    assert (2 ^ t * m2 < 2 ^ t * 2 ^ Zdigits2 m2) by (apply Z.mul_lt_mono_pos_l; lia).
    lia. }
  pose proof (Zdigits2_ge q t Hqt Hpos). unfold t in *. lia.
Qed.

Lemma of_decimal_valid neg m e : valid (of_decimal neg m e) = true.
Proof.
  unfold of_decimal. destruct m as [| p | p]; try reflexivity.
  destruct (0 <=? e) eqn:He.
  - apply binary_round_valid.
  - apply Z.leb_gt in He.
    assert (Hpow : 0 < 10 ^ (- e)) by (apply Z.pow_pos_nonneg; lia).
    destruct (SFdiv_core_binary_spec (Zpos p) 0 (10 ^ (- e)) 0 ltac:(lia) Hpow)
      as (q & e' & l & r & Hcore & He' & Hfe & Heq & Hr & Hq & _).
    rewrite Hcore. apply binary_round_aux_valid; [exact Hq|].
    eapply Z.le_trans; [exact Hfe|]. apply fexp_mono.
    pose proof (div_quotient_digits (Zpos p) (10 ^ (- e)) q r (0 - 0 - e')
                  ltac:(lia) Hpow ltac:(lia) Hq Hr Heq).
    lia.
Qed.

Lemma parse_inf_nan_valid l f :
  FloatParse.parse_inf_nan l = Some f -> valid f = true.
Proof.
  unfold FloatParse.parse_inf_nan. destruct (FloatParse.parse_sign l) as [neg r].
  destruct (_ || _); [intros [= <-]; reflexivity|].
  destruct (FloatParse.list_eqb _ _); [intros [= <-]; reflexivity | discriminate].
Qed.

(** Every float read from a string is a valid binary64 value. *)
Lemma float_of_string_valid s f :
  FloatParse.float_of_string s = Some f -> valid f = true.
Proof.
  unfold FloatParse.float_of_string.
  destruct (FloatParse.underscores_ok _ _); [| discriminate].
  destruct (FloatParse.parse_decimal _) as [[[neg m] e] |].
  - intros [= <-]. apply of_decimal_valid.
  - apply parse_inf_nan_valid.
Qed.

Lemma sales_safe_float_valid v : valid (Sales.safe_float v) = true.
Proof.
  unfold Sales.safe_float. destruct v as [s |]; [| reflexivity].
  destruct (String.eqb _ _); [reflexivity|].
  destruct (FloatParse.float_of_string _) eqn:E; [| reflexivity].
  eapply float_of_string_valid; exact E.
Qed.

Lemma purchase_safe_float_valid v : valid (Purchase.safe_float v) = true.
Proof. exact (sales_safe_float_valid v). Qed.

End ParseFacts.

(** ** The float model on known values *)

Module FloatExamples.

(** [float('0.1')] is 0x1.999999999999ap-4. *)
Example parse_tenth :
  FloatParse.float_of_string "0.1" = Some (S754_finite false 7205759403792794 (-56)).
Proof. vm_compute. reflexivity. Qed.

(** [0.1 + 0.2] is 0.30000000000000004, the float after [0.3]. *)
Example tenth_plus_fifth :
  B64.add (B64.of_decimal false 1 (-1)) (B64.of_decimal false 2 (-1))
    = S754_finite false 5404319552844596 (-54) /\
  B64.of_decimal false 3 (-1) = S754_finite false 5404319552844595 (-54).
Proof. split; vm_compute; reflexivity. Qed.

(** Blanks, a sign, underscores and an exponent are read as [float] reads
    them; a comma is not. *)
Example parse_forms :
  FloatParse.float_of_string "  -1_0e1 " = Some (B64.of_Z (-100)) /\
  FloatParse.float_of_string "1,5" = None /\
  FloatParse.float_of_string "" = None /\
  FloatParse.float_of_string "1__0" = None /\
  FloatParse.float_of_string "Infinity" = Some (S754_infinity false) /\
  FloatParse.float_of_string "1e400" = Some (S754_infinity false).
Proof. repeat split; vm_compute; reflexivity. Qed.

(** [safe_float] on the same inputs. *)
Example safe_float_forms :
  Sales.safe_float (Some "1,5") = B64.of_decimal false 15 (-1) /\
  Sales.safe_float (Some "abc") = B64.zero /\
  Sales.safe_float None = B64.zero /\
  Purchase.safe_float (Some " 2,25 ") = B64.of_decimal false 225 (-2).
Proof. repeat split; vm_compute; reflexivity. Qed.

(** [round(2.675, 2)] is 2.67: the float nearest 2.675 lies below it. *)
Example round2_below_half :
  B64.round2 (B64.of_decimal false 2675 (-3)) = B64.of_decimal false 267 (-2).
Proof. vm_compute. reflexivity. Qed.

End FloatExamples.

(** ** The line calculators *)

Module LineFacts.
Import B64 FloatPred FloatFacts ParseFacts.

Lemma max_zero_not_below (x : num) : PyNum.ltb (PyNum.max x (PInt 0)) (PInt 0) = false.
Proof.
  unfold PyNum.max. destruct (PyNum.ltb x (PInt 0)) eqn:E; [reflexivity | exact E].
Qed.

Lemma ltb_float_zero (f : B64.float) :
  PyNum.ltb (PFloat f) (PInt 0) = B64.ltb f B64.zero.
Proof. reflexivity. Qed.

Lemma max_zero_keeps (f : B64.float) :
  nonneg_sign f -> PyNum.max (PFloat f) (PInt 0) = PFloat f.
Proof.
  intros H. unfold PyNum.max. rewrite ltb_float_zero.
  rewrite nonneg_sign_not_ltb by assumption. reflexivity.
Qed.

Lemma max_zero_clamps (f : B64.float) :
  B64.ltb f B64.zero = true -> PyNum.max (PFloat f) (PInt 0) = PInt 0.
Proof.
  intros H. unfold PyNum.max. rewrite ltb_float_zero, H. reflexivity.
Qed.

End LineFacts.

(** C1.  The function defined at lines 1610-1617 is the sales-style
    calculator of the claim: it returns the [safe_float] of its three
    arguments and [line_total = max(qty*rate*(1 - disc/100), 0)], computed
    in binary64 in that order; the maximum leaves the product as it is
    whenever the parsed quantity and rate are at least zero and the parsed
    discount lies between 0 and 100, and [line_total] is never below zero.
    But no call reaches that function: line 2098 binds the name
    [calculate_line] to the four-parameter function, so the call with three
    arguments that both sales-order handlers make raises [TypeError] for
    every input. *)
Theorem sales_calculator_shadowed :
  forall (qty rate disc : option string),
    let q := Sales.safe_float qty in
    let r := Sales.safe_float rate in
    let d := Sales.safe_float disc in
    let product :=
      B64.mul (B64.mul q r) (B64.sub B64.one (B64.div d B64.hundred)) in
    Sales.calculate_line qty rate disc
      = (q, r, d, PyNum.max (PFloat product) (PInt 0)) /\
    (B64.leb B64.zero q = true -> B64.leb B64.zero r = true ->
     B64.leb B64.zero d = true -> B64.leb d B64.hundred = true ->
     snd (Sales.calculate_line qty rate disc) = PFloat product) /\
    PyNum.ltb (snd (Sales.calculate_line qty rate disc)) (PInt 0) = false /\
    (B64.ltb product B64.zero = true ->
     snd (Sales.calculate_line qty rate disc) = PInt 0) /\
    Globals.call3 Globals.calculate_line qty rate disc = Raise TypeError.
Proof.
  intros qty rate disc q r d product.
  unfold Sales.calculate_line. fold q r d. unfold div100. fold product.
  cbn [snd].
  split; [reflexivity|]. split; [| split; [| split]].
  - intros Hq Hr Hd0 Hd1.
    apply LineFacts.max_zero_keeps.
    apply FloatFacts.mul_nonneg_sign.
    + apply FloatFacts.mul_nonneg_sign; apply FloatFacts.leb_zero_nonneg_sign;
        assumption.
    + apply FloatFacts.discount_factor_nonneg;
        [apply ParseFacts.sales_safe_float_valid | assumption | assumption].
  - apply LineFacts.max_zero_not_below.
  - intros Hlt. apply LineFacts.max_zero_clamps. exact Hlt.
  - reflexivity.
Qed.

(** Three units at 100 with a 10 percent discount: the function of lines
    1610-1617 would return 270, the call the handlers make raises. *)
Lemma sales_calculator_shadowed_witness :
  Sales.calculate_line (Some "3") (Some "100") (Some "10")
  = (S754_finite false 6755399441055744 (-51),
     S754_finite false 7036874417766400 (-46),
     S754_finite false 5629499534213120 (-49),
     PFloat (S754_finite false 4749890231992320 (-44))) /\
  Globals.call3 Globals.calculate_line (Some "3") (Some "100") (Some "10")
  = Raise TypeError.
Proof.
  destruct (sales_calculator_shadowed (Some "3") (Some "100") (Some "10"))
    as (E & _ & _ & _ & T).
  split; [rewrite E; vm_compute; reflexivity | exact T].
Defined.

(** C2, as stated, fails: for quantity 3, rate 1, no discount and 7 percent
    tax, all of them at least zero, the returned tax is
    0.21000000000000002 while [net*gst/100] is 0.21. *)
Lemma purchase_tax_counterexample :
  let l := Purchase.calculate_line (Some "3") (Some "1") (Some "0") (Some "7") in
  B64.leb B64.zero (Purchase.l_qty l) = true /\
  B64.leb B64.zero (Purchase.l_rate l) = true /\
  B64.leb B64.zero (Purchase.l_disc l) = true /\
  B64.leb B64.zero (Purchase.l_gst l) = true /\
  Purchase.l_tax l = PFloat (S754_finite false 7566047373982434 (-55)) /\
  Spec.purchase_tax (Purchase.l_net l) (Purchase.l_gst l)
    = PFloat (S754_finite false 7566047373982433 (-55)) /\
  Purchase.l_tax l <> Spec.purchase_tax (Purchase.l_net l) (Purchase.l_gst l).
Proof.
  vm_compute. repeat split; discriminate.
Qed.

(** C2, amended.  For every input the purchase-style calculator (lines
    2098-2109) returns [net = max(qty*rate - disc, 0)],
    [tax = net*(gst/100)] - the rate is divided by one hundred first, then
    multiplied by the net amount - and [line_total = net + tax], each step
    rounded to binary64; the returned quantity, rate, discount and tax rate
    are the [safe_float] of the raw inputs, and [net] is not below zero. *)
Theorem purchase_line_formula :
  forall (qty rate disc gst : option string),
    let l := Purchase.calculate_line qty rate disc gst in
    Purchase.l_qty l = Purchase.safe_float qty /\
    Purchase.l_rate l = Purchase.safe_float rate /\
    Purchase.l_disc l = Purchase.safe_float disc /\
    Purchase.l_gst l = Purchase.safe_float gst /\
    Purchase.l_net l =
      PyNum.max (PFloat (B64.sub (B64.mul (Purchase.l_qty l) (Purchase.l_rate l))
                                 (Purchase.l_disc l))) (PInt 0) /\
    Purchase.l_tax l =
      PyNum.mul (Purchase.l_net l)
                (PFloat (B64.div (Purchase.l_gst l) B64.hundred)) /\
    Purchase.l_line_total l = PyNum.add (Purchase.l_net l) (Purchase.l_tax l) /\
    PyNum.ltb (Purchase.l_net l) (PInt 0) = false.
Proof.
  intros qty rate disc gst l. subst l. unfold Purchase.calculate_line.
  cbn [Purchase.l_qty Purchase.l_rate Purchase.l_disc Purchase.l_gst
       Purchase.l_net Purchase.l_tax Purchase.l_line_total].
  repeat split. apply LineFacts.max_zero_not_below.
Qed.

(** ** Sales-order numbering *)

Module NumberFacts.
Import Db Handlers.

Lemma bind_ok {A B} (c : result A) (k : A -> result B) (b : B) :
  bind c k = Ok b -> exists a, c = Ok a /\ k a = Ok b.
Proof. destruct c as [a | e]; cbn; [eauto | discriminate]. Qed.

Lemma for_each_unchanged {S} (body : S -> nat -> result S) :
  (forall st i st', body st i = Ok st' -> st' = st) ->
  forall idx st st', for_each body idx st = Ok st' -> st' = st.
Proof.
  intros Hb idx. induction idx as [| i idx IH]; cbn; intros st st' H.
  - congruence.
  - apply bind_ok in H as (st1 & H1 & H2).
    apply Hb in H1. subst st1. apply IH; exact H2.
Qed.

(** A sales-order line with an item reference cannot be processed: the call
    passes three arguments to the four-parameter [calculate_line]. *)
Lemma so_line_ok so_id form st i st' :
  so_line so_id form st i = Ok st' -> st' = st.
Proof.
  unfold so_line. destruct st as [total d]. intros H.
  apply bind_ok in H as (item & _ & H).
  destruct (String.eqb item ""); [congruence|].
  apply bind_ok in H as (q & _ & H).
  apply bind_ok in H as (r & _ & H).
  apply bind_ok in H as (dsc & _ & H).
  apply bind_ok in H as (x & Hx & _). discriminate Hx.
Qed.

Lemma so_lines_ok so_id form idx st st' :
  for_each (so_line so_id form) idx st = Ok st' -> st' = st.
Proof. apply for_each_unchanged. apply so_line_ok. Qed.

Lemma fold_max_ge ids : forall seq, seq <= fold_left Z.max ids seq.
Proof.
  induction ids as [| a ids IH]; cbn; intros seq; [lia|].
  specialize (IH (Z.max seq a)). lia.
Qed.

Lemma fold_max_in ids : forall seq x, In x ids -> x <= fold_left Z.max ids seq.
Proof.
  induction ids as [| a ids IH]; cbn; intros seq x H; [contradiction|].
  destruct H as [-> | H].
  - pose proof (fold_max_ge ids (Z.max seq x)). lia.
  - apply IH; exact H.
Qed.

Lemma next_id_fresh seq ids x : In x ids -> x < next_id seq ids.
Proof. intros H. unfold next_id. pose proof (fold_max_in ids seq x H). lia. Qed.

Lemma next_id_above seq ids : seq < next_id seq ids.
Proof. unfold next_id. pose proof (fold_max_ge ids seq). lia. Qed.

Lemma lower_eqb_refl a : Ascii.eqb (PyStr.lower a) (PyStr.lower a) = true.
Proof. apply Ascii.eqb_refl. Qed.

Lemma iprefix_app p s : PyStr.iprefix p (p ++ s)%list = true.
Proof.
  induction p as [| a p IH]; cbn; [reflexivity|].
  rewrite lower_eqb_refl, IH. reflexivity.
Qed.

Lemma list_ascii_of_string_app a b :
  list_ascii_of_string (a ++ b) = (list_ascii_of_string a ++ list_ascii_of_string b)%list.
Proof. induction a as [| c a IH]; cbn; [reflexivity | rewrite IH; reflexivity]. Qed.

Lemma string_append_assoc (a b c : string) : (a ++ b) ++ c = a ++ (b ++ c).
Proof. induction a as [| x a IH]; cbn; [reflexivity | rewrite IH; reflexivity]. Qed.

Lemma like_prefix_app p s : PyStr.like_prefix p (p ++ s) = true.
Proof.
  unfold PyStr.like_prefix. rewrite list_ascii_of_string_app. apply iprefix_app.
Qed.

Lemma like_prefix_empty p : p <> "" -> PyStr.like_prefix p "" = false.
Proof. destruct p; [congruence | intros _; reflexivity]. Qed.

(** The map of an [UPDATE ... WHERE id = ?] leaves the rows of other ids. *)
Lemma map_other_ids (f : sales_order -> sales_order) id rows :
  (forall r, In r rows -> so_id r <> id) ->
  map (fun r => if so_id r =? id then f r else r) rows = rows.
Proof.
  intros H. induction rows as [| r rows IH]; cbn; [reflexivity|].
  destruct (Z.eqb_spec (so_id r) id) as [E | _].
  - exfalso. apply (H r); [left; reflexivity | exact E].
  - f_equal. apply IH. intros r' Hr'. apply H. right. exact Hr'.
Qed.

(** What a completed [salesorder_new] did to the table of orders. *)
Lemma salesorder_new_rows now form d id no d' :
  salesorder_new now form d = Ok (id, no, d') ->
  let prefix := "SO" ++ strftime_Ymd now ++ "-" in
  no = prefix ++ fmt_05d (1 + count_so_no_like prefix d) /\
  id = next_id (sales_orders_seq d) (map so_id (sales_orders d)) /\
  exists row,
    sales_orders d' = (sales_orders d ++ [row])%list /\
    so_id row = id /\ so_no row = Some no /\
    so_total row = PFloat B64.zero /\ so_grand_total row = PFloat B64.zero /\
    sales_order_items d' = sales_order_items d /\
    sales_orders_seq d' = id.
Proof.
  intros H prefix. unfold salesorder_new in H.
  apply bind_ok in H as ([id1 d1] & Hins & H).
  unfold insert_sales_order_placeholder in Hins.
  destruct (of_customer_id form) as [c |] eqn:Ec; [| discriminate].
  destruct (existsb _ (sales_orders d)) eqn:Ex; [discriminate|].
  injection Hins as <- <-.
  set (id1 := next_id (sales_orders_seq d) (map so_id (sales_orders d))) in *.
  set (row0 := {| so_id := id1; so_customer_id := Some c; so_no := Some "";
                  so_date := _; so_expected_delivery_date := _; so_notes := _;
                  so_total := PInt 0; so_grand_total := PInt 0 |}) in *.
  set (d1 := {| sales_orders := (sales_orders d ++ [row0])%list |}) in *.
  fold prefix in H.
  assert (Hcount : count_so_no_like prefix d1 = count_so_no_like prefix d).
  { unfold count_so_no_like, d1. cbn [sales_orders].
    rewrite filter_app, length_app. cbn [filter so_no row0].
    rewrite like_prefix_empty by (unfold prefix; discriminate).
    cbn [List.length]. lia. }
  rewrite Hcount in H.
  set (no1 := "SO" ++ strftime_Ymd now ++ "-" ++ fmt_05d (count_so_no_like prefix d + 1)) in *.
  apply bind_ok in H as (d2 & Hupd & H).
  apply bind_ok in H as ([total d3] & Hloop & H).
  apply so_lines_ok in Hloop. injection Hloop as -> ->.
  injection H as <- <- <-.
  assert (Hfresh : forall r, In r (sales_orders d) -> so_id r <> id1).
  { intros r Hr. pose proof (next_id_fresh (sales_orders_seq d) (map so_id (sales_orders d))
                               (so_id r) (in_map so_id _ _ Hr)).
    fold id1 in H. lia. }
  unfold update_so_no in Hupd.
  destruct (_ && _); [discriminate|]. injection Hupd as <-.
  split.
  { unfold no1, prefix. rewrite (Z.add_comm 1).
    rewrite !string_append_assoc. reflexivity. }
  split; [reflexivity|].
  eexists. split.
  { unfold update_so_totals, with_sales_orders, d1, row0. cbn [sales_orders].
    rewrite !map_app.
    rewrite (map_other_ids _ id1 (sales_orders d) Hfresh).
    rewrite (map_other_ids _ id1 (sales_orders d) Hfresh).
    cbn [map so_id]. rewrite Z.eqb_refl. cbn [so_id]. rewrite Z.eqb_refl.
    reflexivity. }
  cbn. repeat split; reflexivity.
Qed.

End NumberFacts.

(** C3, as stated, fails.  An order created on 4 January is saved from the
    edit form with the number [SO20250105]; the next order, created on
    5 January, receives [SO20250105-00001], although one persisted order
    already has a number that starts with [SO20250105], for which the claim
    announces [00002]. *)
Lemma so_number_counterexample :
  exists d1 d2 d3,
    Handlers.salesorder_new Examples.jan4 Examples.order_without_lines Db.empty
      = Ok (1, "SO20250104-00001", d1) /\
    Handlers.salesorder_edit 1 Examples.order_renumbered d1 = Ok d2 /\
    Handlers.salesorder_new Examples.jan5 Examples.order_without_lines d2
      = Ok (2, "SO20250105-00001", d3) /\
    Spec.count_so_no_startswith "SO20250105" d2 = 1 /\
    Spec.claimed_so_no Examples.jan5 d2 = "SO20250105-00002".
Proof.
  do 3 eexists. repeat split; vm_compute; reflexivity.
Qed.

(** C3, amended.  A sales order created on date [D] is numbered
    ['SO' + YYYYMMDD + '-' + sequence], the sequence being one more than the
    count of persisted orders whose number matches the SQL pattern
    ['SO' + YYYYMMDD + '-%'], that is, starts with ['SO' + YYYYMMDD + '-']
    without regard to ASCII case, written with at least five digits; the row
    being created, inserted with an empty number, is not counted.  The new
    row carries that number, and the count for the date goes up by one: when
    no order of the date exists, the order receives [00001] and the next one
    created on the same date receives [00002]. *)
Theorem so_number_assigned :
  forall now form d id no d',
    Handlers.salesorder_new now form d = Ok (id, no, d') ->
    let prefix := "SO" ++ Handlers.strftime_Ymd now ++ "-" in
    no = prefix ++ Handlers.fmt_05d (1 + Db.count_so_no_like prefix d) /\
    (exists row,
        Db.sales_orders d' = (Db.sales_orders d ++ [row])%list /\
        Db.so_id row = id /\ Db.so_no row = Some no) /\
    Db.count_so_no_like prefix d' = Db.count_so_no_like prefix d + 1 /\
    (Db.count_so_no_like prefix d = 0 ->
     no = prefix ++ "00001" /\
     forall form2 id2 no2 d'',
       Handlers.salesorder_new now form2 d' = Ok (id2, no2, d'') ->
       no2 = prefix ++ "00002").
Proof.
  intros now form d id no d' H prefix.
  destruct (NumberFacts.salesorder_new_rows now form d id no d' H)
    as (Hno & _ & row & Hrows & Hid & Hrno & _).
  fold prefix in Hno.
  assert (Hcount : Db.count_so_no_like prefix d' = Db.count_so_no_like prefix d + 1).
  { unfold Db.count_so_no_like. rewrite Hrows, filter_app, length_app.
    cbn [filter]. rewrite Hrno, Hno, NumberFacts.like_prefix_app.
    cbn [List.length]. lia. }
  split; [exact Hno|]. split; [exists row; auto|]. split; [exact Hcount|].
  intros H0. split.
  - rewrite Hno, H0. reflexivity.
  - intros form2 id2 no2 d'' H2.
    destruct (NumberFacts.salesorder_new_rows now form2 d' id2 no2 d'' H2) as (Hno2 & _).
    fold prefix in Hno2. rewrite Hno2, Hcount, H0. reflexivity.
Qed.

(** The first two orders of 5 January 2025. *)
Lemma so_number_assigned_witness :
  exists d1 d2,
    Handlers.salesorder_new Examples.jan5 Examples.order_without_lines Db.empty
      = Ok (1, "SO20250105-00001", d1) /\
    Handlers.salesorder_new Examples.jan5 Examples.order_without_lines d1
      = Ok (2, "SO20250105-00002", d2) /\
    forall form2 id2 no2 d'',
      Handlers.salesorder_new Examples.jan5 form2 d1 = Ok (id2, no2, d'') ->
      no2 = "SO20250105-00002".
Proof.
  eexists. eexists.
  split; [vm_compute; reflexivity|].
  split; [vm_compute; reflexivity|].
  refine (proj2 (proj2 (proj2 (proj2
    (so_number_assigned Examples.jan5 Examples.order_without_lines Db.empty
       1 "SO20250105-00001" _ _))) _)).
  - vm_compute. reflexivity.
  - vm_compute. reflexivity.
Defined.

(** ** Headers and their lines *)

Module TotalsFacts.
Import Db Handlers Totals NumberFacts.

Lemma filter_none {A} (p : A -> bool) l :
  (forall x, In x l -> p x = false) -> filter p l = [].
Proof.
  induction l as [| a l IH]; cbn; intros H; [reflexivity|].
  rewrite (H a (or_introl eq_refl)). apply IH. intros x Hx. apply H. right. exact Hx.
Qed.

Lemma filter_all {A} (p : A -> bool) l :
  (forall x, In x l -> p x = true) -> filter p l = l.
Proof.
  induction l as [| a l IH]; cbn; intros H; [reflexivity|].
  rewrite (H a (or_introl eq_refl)). f_equal. apply IH. intros x Hx. apply H. right. exact Hx.
Qed.

Lemma filter_negb_filter {A} (p : A -> bool) l :
  filter p (filter (fun x => negb (p x)) l) = [].
Proof.
  apply filter_none. intros x Hx. apply filter_In in Hx as [_ Hx].
  destruct (p x); [discriminate | reflexivity].
Qed.

Lemma existsb_false_id {A} (key : A -> Z) id l :
  existsb (fun r => key r =? id) l = false ->
  forall r, In r l -> key r <> id.
Proof.
  intros H r Hr E. assert (existsb (fun r => key r =? id) l = true); [| congruence].
  apply existsb_exists. exists r. split; [exact Hr | apply Z.eqb_eq; exact E].
Qed.

(** *** Sales orders *)

Lemma so_new_totals now form d id no d' :
  lines_issued d ->
  salesorder_new now form d = Ok (id, no, d') ->
  totals_match d' (SalesOrder id).
Proof.
  intros (Hiss & _ & _) H.
  destruct (salesorder_new_rows now form d id no d' H)
    as (_ & Hid & row & Hrows & Hrid & _ & _ & Hg & Hitems & _).
  cbn [totals_match]. intros h Hh Hhid.
  assert (Hl : so_lines_of d' id = []).
  { unfold so_lines_of. rewrite Hitems. apply filter_none.
    intros r Hr. apply Z.eqb_neq. specialize (Hiss r Hr). lia. }
  rewrite Hl. cbn.
  rewrite Hrows in Hh. apply in_app_or in Hh as [Hh | [<- | []]].
  - exfalso.
    pose proof (next_id_fresh (sales_orders_seq d) (map so_id (sales_orders d))
                  (so_id h) (in_map so_id _ _ Hh)). lia.
  - exact Hg.
Qed.

Lemma so_edit_totals id form d d' :
  salesorder_edit id form d = Ok d' -> totals_match d' (SalesOrder id).
Proof.
  unfold salesorder_edit. intros H. cbn [totals_match].
  destruct (existsb (fun r => so_id r =? id) (sales_orders d)) eqn:Ex; cbn [negb] in H.
  - apply bind_ok in H as ([total d1] & Hloop & H).
    apply so_lines_ok in Hloop. injection Hloop as -> ->.
    unfold update_sales_order in H. destruct (_ && _); [discriminate|].
    injection H as <-. intros h Hh Hid.
    unfold so_lines_of.
    cbn [with_sales_orders sales_order_items delete_sales_order_items
         with_sales_order_items].
    rewrite (filter_negb_filter (fun r => soi_sales_order_id r =? id)).
    cbn [map sum_from fold_left].
    cbn [with_sales_orders sales_orders] in Hh.
    apply in_map_iff in Hh as (r & <- & Hr).
    destruct (so_id r =? id) eqn:E; [reflexivity|].
    apply Z.eqb_neq in E. contradiction.
  - injection H as <-. intros h Hh Hid. exfalso.
    exact (existsb_false_id so_id id _ Ex h Hh Hid).
Qed.

(** *** Sales invoices *)

Lemma invoice_lines_spec form idx : forall t lis t' lis',
  for_each (invoice_line form) idx (t, lis) = Ok (t', lis') ->
  exists new, lis' = (lis ++ new)%list /\
              t' = fold_left PyNum.add (map li_total new) t.
Proof.
  induction idx as [| i idx IH]; cbn [for_each]; intros t lis t' lis' H.
  - injection H as <- <-. exists []. rewrite app_nil_r. split; reflexivity.
  - apply bind_ok in H as ([t1 lis1] & Hstep & H).
    unfold invoice_line in Hstep.
    apply bind_ok in Hstep as (q & _ & Hstep).
    apply bind_ok in Hstep as (qty & _ & Hstep).
    apply bind_ok in Hstep as (r & _ & Hstep).
    apply bind_ok in Hstep as (rate & _ & Hstep).
    apply bind_ok in Hstep as (dsc & _ & Hstep).
    apply bind_ok in Hstep as (disc & _ & Hstep).
    apply bind_ok in Hstep as (item & _ & Hstep).
    injection Hstep as <- <-.
    destruct (IH _ _ _ _ H) as (new & -> & ->).
    eexists (_ :: new). rewrite <- app_assoc. split; reflexivity.
Qed.

Lemma insert_invoice_lines_spec id lis : forall d,
  sales_invoice_items (insert_invoice_lines id lis d)
    = (sales_invoice_items d ++ map (li_row id) lis)%list /\
  sales_invoices (insert_invoice_lines id lis d) = sales_invoices d.
Proof.
  unfold insert_invoice_lines.
  induction lis as [| li lis IH]; cbn [fold_left map]; intros d.
  - rewrite app_nil_r. split; reflexivity.
  - destruct (IH (insert_sales_invoice_item (li_row id li) d)) as [H1 H2].
    destruct li as [[[[item qty] rate] disc] lt]. cbn [li_row] in *.
    rewrite H1, H2. cbn. rewrite <- app_assoc. split; reflexivity.
Qed.

Lemma li_row_total id lis :
  map sii_line_total (map (li_row id) lis) = map li_total lis.
Proof.
  rewrite map_map. apply map_ext. intros [[[[item qty] rate] disc] lt]. reflexivity.
Qed.

Lemma li_row_lines id lis :
  filter (fun r => sii_sales_invoice_id r =? id) (map (li_row id) lis)
  = map (li_row id) lis.
Proof.
  apply filter_all. intros r Hr. apply in_map_iff in Hr as ([[[[item qty] rate] disc] lt] & <- & _).
  cbn. apply Z.eqb_refl.
Qed.

(** An [INSERT] or [UPDATE] of an invoice that was accepted. *)
Lemma insert_step {B : Type} no so c dt due notes t g d
      (k : Z * db -> result B) r :
  bind (insert_sales_invoice no so c dt due notes t g d) k = Ok r ->
  c <> None /\
  existsb (fun h => String.eqb (si_invoice_no h) no) (sales_invoices d) = false /\
  k (add_sales_invoice no so c dt due notes t g d) = Ok r.
Proof.
  unfold insert_sales_invoice. destruct c as [c |]; [| discriminate].
  destruct (existsb _ _); [discriminate|]. cbn [bind].
  intros H. split; [discriminate|]. split; [reflexivity | exact H].
Qed.

Lemma update_step {B : Type} id no so c dt due notes t g d
      (k : Z * db -> result B) r :
  bind (d1 <- update_sales_invoice id no so c dt due notes t g d ;;
        Ok (id, delete_sales_invoice_items id d1)) k = Ok r ->
  (existsb (fun h => si_id h =? id) (sales_invoices d) = true ->
   c <> None /\ invoice_no_taken id no d = false) /\
  k (id, delete_sales_invoice_items id
           (set_sales_invoice id no so c dt due notes t g d)) = Ok r.
Proof.
  unfold update_sales_invoice.
  destruct (existsb (fun h => si_id h =? id) (sales_invoices d)) eqn:Ex;
    cbn [andb].
  - destruct c as [c |]; cbn [orb]; [| discriminate].
    destruct (invoice_no_taken id no d); [discriminate|]. cbn [bind].
    intros H. split; [| exact H]. intros _. split; [discriminate | reflexivity].
  - cbn [bind]. intros H. split; [discriminate | exact H].
Qed.

Lemma si_new_totals now form d id d' :
  lines_issued d ->
  save_invoice now d form None = Ok (id, d') ->
  totals_match d' (SalesInvoice id).
Proof.
  intros (_ & Hiss & _) H. unfold save_invoice in H.
  apply bind_ok in H as (no & _ & H).
  apply bind_ok in H as ([total lis] & Hloop & H).
  apply invoice_lines_spec in Hloop as (new & Hlis & Htot). cbn [app] in Hlis. subst lis.
  apply insert_step in H as (_ & _ & H).
  unfold add_sales_invoice in H. injection H as <- <-.
  set (id := next_id (sales_invoices_seq d) (map si_id (sales_invoices d))) in *.
  cbn [totals_match]. intros h Hh Hid.
  match goal with
  | |- context [insert_invoice_lines id new ?d0] =>
      destruct (insert_invoice_lines_spec id new d0) as [Hit Hhd]
  end.
  unfold si_lines_of. rewrite Hit. rewrite Hhd in Hh.
  cbn [with_sales_invoices sales_invoice_items sales_invoices] in *.
  rewrite filter_app, li_row_lines.
  rewrite (filter_none _ (sales_invoice_items d)).
  2:{ intros r Hr. apply Z.eqb_neq. specialize (Hiss r Hr). fold id in Hiss. lia. }
  cbn [app]. rewrite li_row_total. unfold sum_from. rewrite <- Htot.
  apply in_app_or in Hh as [Hh | [<- | []]].
  - exfalso.
    pose proof (next_id_fresh (sales_invoices_seq d) (map si_id (sales_invoices d))
                  (si_id h) (in_map si_id _ _ Hh)). fold id in H. lia.
  - reflexivity.
Qed.

Lemma si_edit_totals now form d id id' d' :
  save_invoice now d form (Some id) = Ok (id', d') ->
  totals_match d' (SalesInvoice id).
Proof.
  intros H. unfold save_invoice in H.
  apply bind_ok in H as (no & _ & H).
  apply bind_ok in H as ([total lis] & Hloop & H).
  apply invoice_lines_spec in Hloop as (new & Hlis & Htot). cbn [app] in Hlis. subst lis.
  apply update_step in H as (_ & H). injection H as <- <-.
  cbn [totals_match]. intros h Hh Hid.
  match goal with
  | |- context [insert_invoice_lines id new ?d0] =>
      destruct (insert_invoice_lines_spec id new d0) as [Hit Hhd]
  end.
  unfold si_lines_of. rewrite Hit. rewrite Hhd in Hh.
  cbn [delete_sales_invoice_items set_sales_invoice with_sales_invoice_items
       with_sales_invoices sales_invoice_items sales_invoices] in *.
  rewrite filter_app, li_row_lines.
  rewrite (filter_negb_filter (fun r => sii_sales_invoice_id r =? id)).
  cbn [app]. rewrite li_row_total. unfold sum_from. rewrite <- Htot.
  apply in_map_iff in Hh as (r & <- & Hr).
  destruct (si_id r =? id) eqn:E; [reflexivity|].
  apply Z.eqb_neq in E. contradiction.
Qed.

(** *** Purchase orders *)

(** What the line loop of a purchase order adds. *)
Lemma po_lines_spec id form idx : forall t d t' d',
  for_each (po_line id form) idx (t, d) = Ok (t', d') ->
  exists rows,
    purchase_order_items d' = (purchase_order_items d ++ rows)%list /\
    purchase_orders d' = purchase_orders d /\
    purchase_orders_seq d' = purchase_orders_seq d /\
    (forall r, In r rows ->
               poi_purchase_order_id r = id /\
               poi_line_total r = PyNum.add (poi_net r) (poi_tax r)) /\
    t_total t' = fold_left PyNum.add (map poi_net rows) (t_total t) /\
    t_tax_total t' = fold_left PyNum.add (map poi_tax rows) (t_tax_total t) /\
    t_grand_total t'
      = fold_left PyNum.add (map poi_line_total rows) (t_grand_total t).
Proof.
  induction idx as [| i idx IH]; cbn [for_each]; intros t d t' d' H.
  - injection H as <- <-. exists []. rewrite app_nil_r.
    repeat split; try reflexivity; contradiction.
  - apply bind_ok in H as ([t1 d1] & Hstep & H).
    destruct (IH _ _ _ _ H) as (rows & Hit & Hpo & Hseq & Hrows & Ht & Htt & Hg).
    unfold po_line in Hstep.
    apply bind_ok in Hstep as (item & _ & Hstep).
    destruct (String.eqb item "").
    + injection Hstep as <- <-. exists rows. repeat split; try assumption; apply Hrows; assumption.
    + apply bind_ok in Hstep as (q & _ & Hstep).
      apply bind_ok in Hstep as (r & _ & Hstep).
      apply bind_ok in Hstep as (dsc & _ & Hstep).
      apply bind_ok in Hstep as (g & _ & Hstep).
      apply bind_ok in Hstep as (l & Hl & Hstep).
      injection Hl as <-. injection Hstep as <- <-.
      eexists (_ :: rows).
      rewrite Hit, Hpo, Hseq, Ht, Htt, Hg.
      cbn [insert_purchase_order_item with_purchase_order_items
           purchase_order_items purchase_orders purchase_orders_seq
           t_total t_tax_total t_grand_total map fold_left
           poi_net poi_tax poi_line_total].
      rewrite <- app_assoc. cbn [app].
      repeat split; try reflexivity.
      * destruct H0 as [<- | Hr]; [reflexivity | apply Hrows; exact Hr].
      * destruct H0 as [<- | Hr]; [reflexivity | apply Hrows; exact Hr].
Qed.

Lemma po_rows_filter id rows :
  (forall r, In r rows -> poi_purchase_order_id r = id /\
                          poi_line_total r = PyNum.add (poi_net r) (poi_tax r)) ->
  filter (fun r => poi_purchase_order_id r =? id) rows = rows.
Proof.
  intros H. apply filter_all. intros r Hr. apply Z.eqb_eq. apply H. exact Hr.
Qed.

Lemma po_new_totals now form d id no d' :
  lines_issued d ->
  po_new now form d = Ok (id, no, d') ->
  totals_match d' (PurchaseOrder id).
Proof.
  intros (_ & _ & Hiss) H. unfold po_new in H.
  unfold insert_purchase_order_placeholder in H.
  set (id0 := next_id (purchase_orders_seq d) (map po_id (purchase_orders d))) in *.
  apply bind_ok in H as ([t d1] & Hloop & H).
  injection H as <- <- <-.
  apply po_lines_spec in Hloop as (rows & Hit & Hpo & Hseq & Hrows & Ht & Htt & Hg).
  cbn [update_po_no with_purchase_orders purchase_order_items purchase_orders
       purchase_orders_seq zero_totals t_total t_tax_total t_grand_total] in *.
  cbn [totals_match]. intros h Hh Hid.
  assert (Hl : po_lines_of (update_po_totals id0 (t_total t) (t_tax_total t)
                              (t_grand_total t) d1) id0 = rows).
  { unfold po_lines_of. cbn [update_po_totals with_purchase_orders purchase_order_items].
    rewrite Hit, filter_app, (po_rows_filter id0 rows Hrows).
    rewrite (filter_none _ (purchase_order_items d)); [reflexivity|].
    intros r Hr. apply Z.eqb_neq. specialize (Hiss r Hr). fold id0 in Hiss. lia. }
  rewrite Hl. unfold sum_from. rewrite <- Ht, <- Htt, <- Hg.
  cbn [update_po_totals with_purchase_orders purchase_orders] in Hh.
  apply in_map_iff in Hh as (r & <- & Hr).
  destruct (po_id r =? id0) eqn:E.
  - cbn. repeat split. intros r0 Hr0. apply Hrows. exact Hr0.
  - apply Z.eqb_neq in E. contradiction.
Qed.

Lemma po_edit_totals id form d d' :
  po_edit id form d = Ok d' -> totals_match d' (PurchaseOrder id).
Proof.
  unfold po_edit. intros H. cbn [totals_match].
  destruct (existsb (fun r => po_id r =? id) (purchase_orders d)) eqn:Ex; cbn [negb] in H.
  - apply bind_ok in H as ([t d1] & Hloop & H). injection H as <-.
    apply po_lines_spec in Hloop as (rows & Hit & Hpo & Hseq & Hrows & Ht & Htt & Hg).
    cbn [delete_purchase_order_items with_purchase_order_items purchase_order_items
         purchase_orders purchase_orders_seq zero_totals t_total t_tax_total
         t_grand_total] in *.
    intros h Hh Hid.
    assert (Hl : po_lines_of (update_purchase_order id (pf_supplier_id form)
                                (pf_po_no form) (pf_date form) (pf_notes form)
                                (t_total t) (t_tax_total t) (t_grand_total t) d1) id
                 = rows).
    { unfold po_lines_of.
      cbn [update_purchase_order with_purchase_orders purchase_order_items].
      rewrite Hit, filter_app, (po_rows_filter id rows Hrows).
      rewrite (filter_negb_filter (fun r => poi_purchase_order_id r =? id)).
      reflexivity. }
    rewrite Hl. unfold sum_from. rewrite <- Ht, <- Htt, <- Hg.
    cbn [update_purchase_order with_purchase_orders purchase_orders] in Hh.
    apply in_map_iff in Hh as (r & <- & Hr).
    destruct (po_id r =? id) eqn:E.
    + cbn. repeat split. intros r0 Hr0. apply Hrows. exact Hr0.
    + apply Z.eqb_neq in E. contradiction.
  - injection H as <-. intros h Hh Hid. exfalso.
    exact (existsb_false_id po_id id _ Ex h Hh Hid).
Qed.

End TotalsFacts.

(** C4, as stated, fails.  A purchase order of two lines, 1 at 1 and 1 at 2,
    both taxed at 5 percent, is persisted with [grand_total]
    3.1500000000000004, while [total + tax_total] is
    3.0 + 0.15000000000000002 = 3.15. *)
Lemma po_grand_total_counterexample :
  exists d' h,
    Handlers.po_new Examples.jan5 Examples.purchase_two_lines Db.empty
      = Ok (1, Some "PO20250105-00001", d') /\
    Db.purchase_orders d' = [h] /\ Db.po_id h = 1 /\
    Db.po_grand_total h = PFloat (S754_finite false 7093169413108532 (-51)) /\
    PyNum.add (Db.po_total h) (Db.po_tax_total h)
      = PFloat (S754_finite false 7093169413108531 (-51)) /\
    Db.po_grand_total h <> PyNum.add (Db.po_total h) (Db.po_tax_total h).
Proof.
  do 2 eexists. split; [vm_compute; reflexivity|].
  split; [reflexivity|]. vm_compute. repeat split; discriminate.
Qed.

(** C4, amended.  After a create or an edit of a document completes - on a
    database whose line rows all reference header ids already issued, in the
    case of a create - the persisted header's [grand_total] is the sum, taken
    from left to right in binary64, of the [line_total] of the document's
    persisted line rows; for a purchase order, [total] and [tax_total] are in
    the same way the sums of the lines' [net] and [tax], and each line's
    [line_total] is its [net + tax].  (Being three separate running sums,
    [grand_total] and [total + tax_total] agree only up to rounding.) *)
Theorem saved_totals_match :
  forall d x d', Totals.saved d x d' -> Totals.totals_match d' x.
Proof.
  intros d x d' H. destruct H.
  - eapply TotalsFacts.so_new_totals; eassumption.
  - eapply TotalsFacts.so_edit_totals; eassumption.
  - eapply TotalsFacts.si_new_totals; eassumption.
  - eapply TotalsFacts.si_edit_totals; eassumption.
  - eapply TotalsFacts.po_new_totals; eassumption.
  - eapply TotalsFacts.po_edit_totals; eassumption.
Qed.

Lemma lines_issued_empty : Totals.lines_issued Db.empty.
Proof. repeat split; intros r []. Qed.

(** The two-line purchase order created on an empty database. *)
Lemma saved_totals_match_witness :
  exists d',
    Handlers.po_new Examples.jan5 Examples.purchase_two_lines Db.empty
      = Ok (1, Some "PO20250105-00001", d') /\
    Totals.totals_match d' (Totals.PurchaseOrder 1).
Proof.
  eexists. split; [vm_compute; reflexivity|].
  apply (saved_totals_match Db.empty).
  eapply Totals.saved_po_new with (now := Examples.jan5)
                                  (form := Examples.purchase_two_lines).
  - exact lines_issued_empty.
  - vm_compute. reflexivity.
Defined.

(** ** Numeric parsing of line inputs *)

Module ParseLineFacts.
Import Handlers.

(** [safe_float] never raises: it is a total function, and it maps [None],
    blank strings and strings that [float] rejects to [0.0]. *)
Lemma safe_float_none : Sales.safe_float None = B64.zero.
Proof. reflexivity. Qed.

Lemma safe_float_blank s :
  PyStr.strip s = "" -> Sales.safe_float (Some s) = B64.zero.
Proof. intros H. unfold Sales.safe_float. rewrite H. reflexivity. Qed.

Lemma safe_float_rejected s :
  FloatParse.float_of_string (PyStr.replace "," "." s) = None ->
  Sales.safe_float (Some s) = B64.zero.
Proof.
  intros H. unfold Sales.safe_float. rewrite H.
  destruct (String.eqb _ _); reflexivity.
Qed.

(** A comma is read as the decimal point: ["1,5"] is 1.5. *)
Lemma safe_float_comma :
  Sales.safe_float (Some "1,5") = S754_finite false 6755399441055744 (-52) /\
  Sales.safe_float (Some "1.5") = S754_finite false 6755399441055744 (-52).
Proof. split; vm_compute; reflexivity. Qed.

Lemma purchase_safe_float_same v : Purchase.safe_float v = Sales.safe_float v.
Proof. reflexivity. Qed.

(** A purchase-order line without item reference leaves totals and rows as
    they are. *)
Lemma po_line_blank id form st i :
  nth_error (pf_item_ids form) i = Some "" -> po_line id form st i = Ok st.
Proof.
  intros H. unfold po_line, getitem. destruct st as [t d]. rewrite H. reflexivity.
Qed.

Lemma so_line_blank id form st i :
  nth_error (of_item_ids form) i = Some "" -> so_line id form st i = Ok st.
Proof.
  intros H. unfold so_line, getitem. destruct st as [t d]. rewrite H. reflexivity.
Qed.

End ParseLineFacts.

(** C5.  [save_invoice] parses the line inputs with [float(x or 0)] and not
    with [safe_float]: an invoice line whose quantity is written ["1,5"]
    makes it raise [ValueError], whereas [safe_float] reads 1.5 there and
    the same line in a purchase order is accepted. *)
Theorem save_invoice_rejects_comma :
  Handlers.save_invoice Examples.jan5 Db.empty Examples.invoice_comma_qty None
    = Raise ValueError /\
  Handlers.float_or_zero "1,5" = Raise ValueError /\
  Handlers.float_or_zero "abc" = Raise ValueError /\
  Sales.safe_float (Some "1,5") = S754_finite false 6755399441055744 (-52) /\
  Sales.safe_float (Some "abc") = B64.zero.
Proof. repeat split; vm_compute; reflexivity. Qed.

(** C6.  [save_invoice] has no test on the item reference: a submitted line
    whose item reference is empty is persisted as a line row and counted in
    the totals (10.0 here). *)
Theorem save_invoice_keeps_blank_item :
  exists d' h row,
    Handlers.save_invoice Examples.jan5 Db.empty Examples.invoice_blank_item None
      = Ok (1, d') /\
    Db.sales_invoices d' = [h] /\
    Db.sales_invoice_items d' = [row] /\
    Db.sii_sales_invoice_id row = 1 /\
    Db.sii_item_id row = "" /\
    Db.sii_line_total row = PFloat (S754_finite false 5629499534213120 (-49)) /\
    Db.si_grand_total h = PFloat (S754_finite false 5629499534213120 (-49)).
Proof.
  do 3 eexists. split; [vm_compute; reflexivity|].
  repeat split; reflexivity.
Qed.

(** ** Listings *)

Module ListingFacts.
Import Listing.

(** The ceiling of [total / per_page], as [-(-total // per_page)]. *)
Lemma ceil_bounds total per_page :
  0 < per_page ->
  (- ((- total) / per_page) - 1) * per_page < total
  <= - ((- total) / per_page) * per_page.
Proof.
  intros H. pose proof (Z.div_mod (- total) per_page ltac:(lia)) as E.
  pose proof (Z.mod_pos_bound (- total) per_page H) as B. nia.
Qed.

Lemma ceil_alt total per_page :
  0 < per_page ->
  (total + per_page - 1) / per_page = - ((- total) / per_page).
Proof.
  intros H. pose proof (ceil_bounds total per_page H) as [B1 B2].
  symmetry. apply Z.div_unique with (r := total + per_page - 1
                                            - per_page * - ((- total) / per_page)).
  - left. nia.
  - ring.
Qed.

Lemma int64_true z :
  -9223372036854775808 <= z <= 9223372036854775807 -> int64 z = true.
Proof.
  intros [Hl Hu]. unfold int64.
  apply andb_true_intro. split; apply Z.leb_le; assumption.
Qed.

Lemma int64_false z :
  z < -9223372036854775808 \/ 9223372036854775807 < z -> int64 z = false.
Proof.
  intros H. unfold int64. apply andb_false_iff.
  destruct H as [H | H]; [left | right]; apply Z.leb_gt; exact H.
Qed.

Lemma int64_cases z :
  (int64 z = true /\ -9223372036854775808 <= z <= 9223372036854775807) \/
  (int64 z = false /\
   (z < -9223372036854775808 \/ 9223372036854775807 < z)).
Proof.
  destruct (Z_le_gt_dec (-9223372036854775808) z) as [Hl | Hl];
    [destruct (Z_le_gt_dec z 9223372036854775807) as [Hu | Hu] |].
  - left. split; [apply int64_true; lia | lia].
  - right. split; [apply int64_false; lia | lia].
  - right. split; [apply int64_false; lia | lia].
Qed.

Section Rows.

Variable row : Type.

Lemma limit_offset_bound limit offset (rows : list row) :
  int64 limit = true -> int64 offset = true ->
  limit_offset row limit offset rows = Ok (window row limit offset rows).
Proof. intros Hl Ho. unfold limit_offset. rewrite Hl, Ho. reflexivity. Qed.

Lemma limit_offset_limit_refused limit offset (rows : list row) :
  int64 limit = false ->
  limit_offset row limit offset rows = Raise OverflowError.
Proof. intros Hl. unfold limit_offset. rewrite Hl. reflexivity. Qed.

Lemma limit_offset_offset_refused limit offset (rows : list row) :
  int64 offset = false ->
  limit_offset row limit offset rows = Raise OverflowError.
Proof.
  intros Ho. unfold limit_offset. rewrite Ho, andb_false_r. reflexivity.
Qed.

End Rows.

End ListingFacts.

(** C7, as stated, fails in two ways.  Page 0 of a customer listing of
    three rows, two per page, is not rejected and is not empty either: it
    shows the rows of the first page.  And a page far beyond the page count
    is rejected: for page [2^62 + 1] the offset is [2^63], which [sqlite3]
    cannot bind, and the request ends in [OverflowError]. *)
Lemma page_out_of_range_counterexample :
  Listing.customer_list nat [1%nat; 2%nat; 3%nat] 2 0
  = Ok {| Listing.pv_total := 3; Listing.pv_pages := 2;
          Listing.pv_rows := [1%nat; 2%nat] |} /\
  Listing.customer_list nat [1%nat; 2%nat; 3%nat] 2 4611686018427387905
  = Raise OverflowError.
Proof. split; reflexivity. Qed.

(** The supplier listing announces no page at all when nothing matches. *)
Lemma supplier_list_no_rows :
  Listing.supplier_list nat [] 20 1
  = Ok {| Listing.pv_total := 0; Listing.pv_pages := 0; Listing.pv_rows := [] |}.
Proof. reflexivity. Qed.

(** C7, amended.  For a listing of [total] matching rows and a page size
    from one up to the largest signed 64-bit integer, the customer listing
    computes [pages = ceil(total / per_page)], and 1 when [total] is 0; the
    supplier listing computes the same ceiling when [total] is positive.
    Both fetch the rows at [LIMIT per_page OFFSET (page-1)*per_page].  A page
    number is rejected only when that offset does not fit a signed 64-bit
    integer, with [OverflowError] from the parameter binding.  Every other
    page is answered: a page beyond the page count yields zero rows, and a
    page below 1 yields the rows of the first page, since the database
    reads a negative offset as zero. *)
Theorem listing_pages :
  forall (row : Type) (matching : list row) (per_page page : Z),
    1 <= per_page <= 9223372036854775807 ->
    let total := Z.of_nat (List.length matching) in
    let offset := (page - 1) * per_page in
    (-9223372036854775808 <= offset <= 9223372036854775807 ->
     exists pages spages rows,
       Listing.customer_list row matching per_page page
         = Ok {| Listing.pv_total := total; Listing.pv_pages := pages;
                 Listing.pv_rows := rows |} /\
       Listing.supplier_list row matching per_page page
         = Ok {| Listing.pv_total := total; Listing.pv_pages := spages;
                 Listing.pv_rows := rows |} /\
       (total = 0 -> pages = 1) /\
       (0 < total -> (pages - 1) * per_page < total <= pages * per_page) /\
       (0 < total -> spages = pages) /\
       rows = firstn (Z.to_nat per_page) (skipn (Z.to_nat offset) matching) /\
       (pages < page -> rows = []) /\
       (page < 1 -> rows = firstn (Z.to_nat per_page) matching)) /\
    (offset < -9223372036854775808 \/ 9223372036854775807 < offset ->
     Listing.customer_list row matching per_page page = Raise OverflowError /\
     Listing.supplier_list row matching per_page page = Raise OverflowError).
Proof.
  intros row matching per_page page Hpp total offset.
  assert (Hnz : (per_page =? 0) = false) by (apply Z.eqb_neq; lia).
  assert (Hlim : (per_page <? 0) = false) by (apply Z.ltb_ge; lia).
  assert (Hpp64 : Listing.int64 per_page = true)
    by (apply ListingFacts.int64_true; lia).
  split.
  - intros Hoff.
    pose proof (ListingFacts.ceil_bounds total per_page ltac:(lia)) as [B1 B2].
    pose proof (ListingFacts.ceil_alt total per_page ltac:(lia)) as Halt.
    assert (Ht : 0 <= total) by (unfold total; lia).
    set (c := - ((- total) / per_page)) in *.
    exists (Z.max 1 c), ((total + per_page - 1) / per_page),
      (firstn (Z.to_nat per_page) (skipn (Z.to_nat offset) matching)).
    assert (Hfetch : Listing.limit_offset row per_page offset matching
                     = Ok (firstn (Z.to_nat per_page)
                             (skipn (Z.to_nat offset) matching))).
    { rewrite ListingFacts.limit_offset_bound;
        [| exact Hpp64 | apply ListingFacts.int64_true; exact Hoff].
      unfold Listing.window. rewrite Hlim. reflexivity. }
    split.
    { unfold Listing.customer_list, Listing.floordiv.
      rewrite Hnz. cbn [bind]. fold total. fold offset. rewrite Hfetch.
      reflexivity. }
    split.
    { unfold Listing.supplier_list, Listing.floordiv.
      rewrite Hnz. cbn [bind]. fold total. fold offset. rewrite Hfetch.
      reflexivity. }
    split.
    { intros H0. rewrite H0 in *. assert (c <= 0) by nia. lia. }
    split.
    { intros Hpos. assert (1 <= c) by nia. rewrite Z.max_r by lia. lia. }
    split.
    { intros Hpos. assert (1 <= c) by nia. rewrite Z.max_r by lia. exact Halt. }
    split; [reflexivity|].
    split.
    + intros Hbeyond. rewrite skipn_all2; [apply firstn_nil|].
      assert (total <= (page - 1) * per_page) by nia.
      unfold total, offset in *. lia.
    + intros Hbelow.
      replace (Z.to_nat offset) with 0%nat by (unfold offset; nia).
      reflexivity.
  - intros Hoff.
    assert (Hfetch : Listing.limit_offset row per_page offset matching
                     = Raise OverflowError).
    { apply ListingFacts.limit_offset_offset_refused.
      apply ListingFacts.int64_false. exact Hoff. }
    unfold Listing.customer_list, Listing.supplier_list, Listing.floordiv.
    rewrite Hnz. cbn [bind]. fold offset. rewrite Hfetch. split; reflexivity.
Qed.

(** Three rows, two per page: page 2 holds the last row, page 3 none. *)
Lemma listing_pages_witness :
  exists pages spages rows,
    Listing.customer_list nat [1%nat; 2%nat; 3%nat] 2 3
      = Ok {| Listing.pv_total := 3; Listing.pv_pages := pages;
              Listing.pv_rows := rows |} /\
    Listing.supplier_list nat [1%nat; 2%nat; 3%nat] 2 3
      = Ok {| Listing.pv_total := 3; Listing.pv_pages := spages;
              Listing.pv_rows := rows |} /\
    (pages < 3 -> rows = []).
Proof.
  destruct (proj1 (listing_pages nat [1%nat; 2%nat; 3%nat] 2 3 ltac:(lia))
              ltac:(cbn; lia))
    as (pages & spages & rows & H1 & H2 & _ & _ & _ & _ & H3 & _).
  exists pages, spages, rows. auto.
Defined.

(** ** Amount in words *)

Module WordsFacts.
Import Words.

(** On a negative number the converter never returns: the crore part of a
    negative number is negative again, so every call makes another one until
    the interpreter gives up. *)
Lemma negative_never_returns fuel :
  forall n, n < 0 -> _inr_number_to_words fuel n = Raise RecursionError.
Proof.
  induction fuel as [| fuel IH]; intros n Hn; [reflexivity|].
  cbn [_inr_number_to_words].
  assert (Hn0 : (n =? 0) = false) by (apply Z.eqb_neq; lia). rewrite Hn0.
  assert (Hc : n / 10000000 < 0) by (apply Z.div_lt_upper_bound; lia).
  assert (Hc0 : (n / 10000000 =? 0) = false) by (apply Z.eqb_neq; lia).
  rewrite Hc0, (IH _ Hc). reflexivity.
Qed.

(** With at least one call allowed, zero is spelled out. *)
Lemma zero_words fuel : _inr_number_to_words (S fuel) 0 = Ok "zero".
Proof. reflexivity. Qed.

(** Without the [num2words] package: zero, [None], the empty string and any
    string that [float] rejects all give the zero phrase. *)
Lemma inr_words_zero fuel :
  inr_words None (S fuel) (VInt 0) = Ok "zero rupees only" /\
  inr_words None (S fuel) VNone = Ok "zero rupees only" /\
  inr_words None (S fuel) (VStr "") = Ok "zero rupees only".
Proof. repeat split. Qed.

Lemma inr_words_unparseable fuel s :
  FloatParse.float_of_string s = None ->
  inr_words None (S fuel) (VStr s) = Ok "zero rupees only".
Proof.
  intros H. unfold inr_words.
  destruct (truthy (VStr s)); cbn [to_float]; [rewrite H|]; reflexivity.
Qed.

Lemma inr_words_hundred fuel :
  inr_words None (S (S fuel)) (VInt 100) = Ok "one hundred rupees only".
Proof. reflexivity. Qed.

End WordsFacts.

(** ** The converter returns on amounts that are not negative *)

Module WordsTotal.
Import Words.
Local Open Scope Z_scope.

Lemma index_ok l i :
  0 <= i < Z.of_nat (List.length l) -> exists w, index l i = Ok w.
Proof.
  intros H. unfold index.
  assert (E : ((0 <=? i) && (i <? Z.of_nat (List.length l)))%bool = true).
  { apply andb_true_iff. split; [apply Z.leb_le | apply Z.ltb_lt]; lia. }
  rewrite E. unfold getitem.
  destruct (nth_error l (Z.to_nat i)) as [w |] eqn:N; [eauto|].
  apply nth_error_None in N. lia.
Qed.

Lemma two_digits_ok n : 0 <= n < 100 -> exists w, two_digits n = Ok w.
Proof.
  intros H. unfold two_digits.
  destruct (Z.ltb_spec n 20) as [L | L].
  - apply index_ok. cbn. lia.
  - destruct (index_ok tens (n / 10)) as (ts & ->).
    { cbn. split; [apply Z.div_pos; lia | apply Z.div_lt_upper_bound; lia]. }
    cbn [bind].
    destruct (n mod 10 =? 0); cbn [bind]; [eauto|].
    destruct (index_ok ones (n mod 10)) as (os & ->).
    { cbn. pose proof (Z.mod_pos_bound n 10). lia. }
    cbn [bind]. eauto.
Qed.

Lemma three_digits_ok n : 0 <= n < 1000 -> exists w, three_digits n = Ok w.
Proof.
  intros H. unfold three_digits.
  assert (exists p1, (if n / 100 =? 0 then Ok []
                      else (w <- index ones (n / 100) ;; Ok [w ++ " hundred"]%string))%py
                     = Ok p1) as (p1 & ->).
  { destruct (n / 100 =? 0); [eauto|].
    destruct (index_ok ones (n / 100)) as (w & ->); [| cbn [bind]; eauto].
    cbn. split; [apply Z.div_pos; lia | apply Z.div_lt_upper_bound; lia]. }
  cbn [bind].
  assert (exists p2, (if n mod 100 =? 0 then Ok []
                      else (w <- two_digits (n mod 100) ;; Ok [w]))%py
                     = Ok p2) as (p2 & ->).
  { destruct (n mod 100 =? 0); [eauto|].
    destruct (two_digits_ok (n mod 100)) as (w & ->); [| cbn [bind]; eauto].
    apply Z.mod_pos_bound. lia. }
  cbn [bind]. eauto.
Qed.

(** With [k + 2] nested calls allowed the converter returns on every
    [0 <= n < 10^(7k+3)]. *)
Lemma number_to_words_ok k : forall fuel n,
  (k + 2 <= fuel)%nat -> 0 <= n < 1000 * 10000000 ^ Z.of_nat k ->
  exists w, _inr_number_to_words fuel n = Ok w.
Proof.
  induction k as [| k IH]; intros fuel n Hf Hn.
  - destruct fuel as [| [| fuel]]; try lia.
    change (10000000 ^ Z.of_nat 0) with 1 in Hn.
    cbn [_inr_number_to_words].
    destruct (n =? 0); [eauto|].
    rewrite (Z.div_small n 10000000), (Z.mod_small n 10000000) by lia.
    change (0 =? 0) with true. cbv iota. cbn [bind].
    rewrite (Z.div_small n 100000), (Z.mod_small n 100000) by lia.
    change (0 =? 0) with true. cbv iota. cbn [bind].
    rewrite (Z.div_small n 1000), (Z.mod_small n 1000) by lia.
    change (0 =? 0) with true. cbv iota. cbn [bind].
    destruct (n =? 0); cbn [bind]; [eauto|].
    destruct (three_digits_ok n) as (w & ->); [lia|]. cbn [bind]. eauto.
  - destruct fuel as [| fuel]; [lia|].
    assert (Hp : 0 < 10000000 ^ Z.of_nat k) by (apply Z.pow_pos_nonneg; lia).
    assert (Small : forall m, 0 <= m < 1000 ->
              exists w, _inr_number_to_words fuel m = Ok w).
    { intros m Hm. apply (IH fuel m); [lia | nia]. }
    rewrite Nat2Z.inj_succ, Z.pow_succ_r in Hn by lia.
    cbn [_inr_number_to_words].
    destruct (n =? 0); [eauto|].
    pose proof (Z.mod_pos_bound n 10000000 ltac:(lia)) as Hr.
    set (r := n mod 10000000) in *.
    assert (exists p1, (if n / 10000000 =? 0 then Ok []
              else (w <- _inr_number_to_words fuel (n / 10000000) ;;
                    Ok [w ++ " crore"]%string))%py = Ok p1) as (p1 & ->).
    { destruct (n / 10000000 =? 0); [eauto|].
      destruct (IH fuel (n / 10000000)) as (w & ->); [lia | | cbn [bind]; eauto].
      split; [apply Z.div_pos; lia | apply Z.div_lt_upper_bound; lia]. }
    cbn [bind].
    assert (exists p2, (if r / 100000 =? 0 then Ok []
              else (w <- _inr_number_to_words fuel (r / 100000) ;;
                    Ok [w ++ " lakh"]%string))%py = Ok p2) as (p2 & ->).
    { destruct (r / 100000 =? 0); [eauto|].
      destruct (Small (r / 100000)) as (w & ->); [| cbn [bind]; eauto].
      split; [apply Z.div_pos; lia | apply Z.div_lt_upper_bound; lia]. }
    cbn [bind].
    pose proof (Z.mod_pos_bound r 100000 ltac:(lia)) as Hr2.
    set (r2 := r mod 100000) in *.
    assert (exists p3, (if r2 / 1000 =? 0 then Ok []
              else (w <- _inr_number_to_words fuel (r2 / 1000) ;;
                    Ok [w ++ " thousand"]%string))%py = Ok p3) as (p3 & ->).
    { destruct (r2 / 1000 =? 0); [eauto|].
      destruct (Small (r2 / 1000)) as (w & ->); [| cbn [bind]; eauto].
      split; [apply Z.div_pos; lia | apply Z.div_lt_upper_bound; lia]. }
    cbn [bind].
    pose proof (Z.mod_pos_bound r2 1000 ltac:(lia)) as Hr3.
    destruct (r2 mod 1000 =? 0); cbn [bind]; [eauto|].
    destruct (three_digits_ok (r2 mod 1000)) as (w & ->); [lia|].
    cbn [bind]. eauto.
Qed.

End WordsTotal.

(** C8.  Without the [num2words] package, [inr_words(0)] is
    ["zero rupees only"] and so is [inr_words] of a string that is no number;
    but a negative amount is not treated as 0: for [-5], whatever recursion
    depth the interpreter allows, the converter exhausts it and
    [RecursionError] is raised. *)
Theorem inr_words_negative_raises :
  forall fuel,
    Words.inr_words None fuel (Words.VInt (-5)) = Raise RecursionError /\
    Words.inr_words None fuel (Words.VFloat (B64.of_decimal true 5 (-1)))
      = Raise RecursionError /\
    Words.inr_words None (S fuel) (Words.VInt 0) = Ok "zero rupees only" /\
    Words.inr_words None (S fuel) (Words.VStr "abc") = Ok "zero rupees only".
Proof.
  intros fuel. split; [| split; [| split]].
  - unfold Words.inr_words.
    change (Words.truthy (Words.VInt (-5))) with true. cbv iota.
    change (Words.to_float (Words.VInt (-5)))
      with (@Ok B64.float (S754_finite true 5629499534213120 (-50))).
    cbv iota.
    change (B64.round2 (S754_finite true 5629499534213120 (-50)))
      with (S754_finite true 5629499534213120 (-50)).
    change (B64.trunc (S754_finite true 5629499534213120 (-50))) with (@Ok Z (-5)).
    cbn [bind].
    change (B64.round_int _) with (@Ok Z 0).
    cbn [bind].
    rewrite WordsFacts.negative_never_returns by lia. reflexivity.
  - unfold Words.inr_words.
    change (Words.truthy (Words.VFloat (B64.of_decimal true 5 (-1)))) with true.
    cbv iota.
    change (Words.to_float (Words.VFloat (B64.of_decimal true 5 (-1))))
      with (@Ok B64.float (S754_finite true 4503599627370496 (-53))).
    cbv iota.
    change (B64.round2 (S754_finite true 4503599627370496 (-53)))
      with (S754_finite true 4503599627370496 (-53)).
    change (B64.trunc (S754_finite true 4503599627370496 (-53))) with (@Ok Z 0).
    cbn [bind].
    change (B64.round_int _) with (@Ok Z (-50)).
    cbn [bind].
    destruct fuel as [| fuel]; [reflexivity|].
    change (Words._inr_number_to_words (S fuel) 0) with (@Ok string "zero").
    cbn [bind].
    change (-50 =? 0) with false. cbv iota.
    rewrite WordsFacts.negative_never_returns by lia. reflexivity.
  - reflexivity.
  - reflexivity.
Qed.

(** ** The shrink loop *)

Module BarcodeFacts.
Import Barcode.

Section Loop.

Variable textsize : string -> font -> Z.
Variable max_width : Z.

(** Every execution of the body lowers the size by two, from a size above
    twelve. *)
Lemma shrink_step_decreases name st st' :
  shrink_step textsize max_width name st = Ok (Some st') ->
  exists s, fst st = TrueType s /\ 12 < s /\ fst st' = TrueType (s - 2) /\
            snd st' = textsize name (TrueType (s - 2)) /\ max_width < snd st.
Proof.
  unfold shrink_step. destruct st as [f w].
  destruct (w >? max_width) eqn:Ew; [| discriminate].
  destruct f as [s |]; cbn [font_size bind]; [| discriminate].
  destruct (s >? 12) eqn:Es; [| discriminate].
  intros [= <-]. exists s. cbn. repeat split; lia.
Qed.

(** More fuel does not change the outcome of a loop that has finished. *)
Lemma shrink_loop_more_fuel name : forall n st r,
  shrink_loop textsize max_width n name st = Some r ->
  forall m, (n <= m)%nat -> shrink_loop textsize max_width m name st = Some r.
Proof.
  induction n as [| n IH]; intros st r H m Hm.
  - destruct m as [| m]; [exact H|]. cbn [shrink_loop] in *.
    destruct (shrink_step textsize max_width name st) as [[st' |] | e];
      [discriminate | exact H | exact H].
  - destruct m as [| m]; [lia|]. cbn [shrink_loop] in *.
    destruct (shrink_step textsize max_width name st) as [[st' |] | e];
      [| exact H | exact H].
    apply IH; [exact H | lia].
Qed.

(** From a TrueType font of size at most [12 + 2k] the loop finishes within
    [k] executions of its body, on a TrueType font that is not larger. *)
Lemma shrink_loop_finishes name : forall k s w,
  s <= 12 + 2 * Z.of_nat k ->
  exists n s' w',
    (n <= k)%nat /\
    shrink_loop textsize max_width n name (TrueType s, w)
      = Some (Ok (TrueType s', w')) /\
    s' = s - 2 * Z.of_nat n /\
    (w' <= max_width \/ s' <= 12).
Proof.
  induction k as [| k IH]; intros s w Hs.
  - exists 0%nat, s, w. split; [lia|].
    cbn [shrink_loop shrink_step font_size bind].
    destruct (w >? max_width) eqn:Ew.
    + assert (Es : (s >? 12) = false) by lia. rewrite Es.
      repeat split; try reflexivity; lia.
    + repeat split; try reflexivity; lia.
  - destruct (w >? max_width) eqn:Ew.
    + destruct (s >? 12) eqn:Es.
      * destruct (IH (s - 2) (textsize name (TrueType (s - 2))) ltac:(lia))
          as (n & s' & w' & Hn & Hloop & Hs' & Hexit).
        exists (S n), s', w'. split; [lia|].
        cbn [shrink_loop shrink_step font_size bind]. rewrite Ew, Es.
        repeat split; [exact Hloop | lia | exact Hexit].
      * exists 0%nat, s, w. split; [lia|].
        cbn [shrink_loop shrink_step font_size bind]. rewrite Ew, Es.
        repeat split; try reflexivity; lia.
    + exists 0%nat, s, w. split; [lia|].
      cbn [shrink_loop shrink_step font_size bind]. rewrite Ew.
      repeat split; try reflexivity; lia.
Qed.

End Loop.

End BarcodeFacts.

(** C9.  The font-shrink loop terminates whatever the item name, the text
    measure and the cell width are.  Each execution of its body lowers the
    font size by two, from a size above the floor of twelve; from a TrueType
    font of size [s] the loop finishes after at most [(s - 11) / 2]
    executions of the body (three for the size 18 the sheet starts from), on
    a size not above the one it started from, either because the name fits or
    because the size is at most twelve; with the built-in bitmap font it
    finishes at once, normally or with the [AttributeError] of the missing
    size. *)
Theorem shrink_loop_terminates :
  forall (textsize : string -> Barcode.font -> Z) (max_width : Z)
         (name : string) (font_text : Barcode.font),
    (forall st st',
        Barcode.shrink_step textsize max_width name st = Ok (Some st') ->
        exists s, fst st = Barcode.TrueType s /\ 12 < s /\
                  fst st' = Barcode.TrueType (s - 2)) /\
    exists n r,
      (n <= match font_text with
            | Barcode.TrueType s => Z.to_nat ((s - 11) / 2)
            | Barcode.Bitmap => 0
            end)%nat /\
      (forall fuel, (n <= fuel)%nat ->
                    Barcode.fit_name textsize max_width fuel font_text name
                    = Some r) /\
      match font_text, r with
      | Barcode.TrueType s, Ok (Barcode.TrueType s', w') =>
          s' = s - 2 * Z.of_nat n /\ (w' <= max_width \/ s' <= 12)
      | Barcode.TrueType _, _ => False
      | Barcode.Bitmap, Ok (f', w') =>
          f' = Barcode.Bitmap /\ w' <= max_width
      | Barcode.Bitmap, Raise e =>
          e = AttributeError /\ max_width < textsize name Barcode.Bitmap
      end.
Proof.
  intros textsize max_width name font_text. split.
  - intros st st' H.
    destruct (BarcodeFacts.shrink_step_decreases textsize max_width name st st' H)
      as (s & H1 & H2 & H3 & _).
    exists s. auto.
  - unfold Barcode.fit_name. destruct font_text as [s |].
    + set (w := textsize name (Barcode.TrueType s)).
      destruct (BarcodeFacts.shrink_loop_finishes textsize max_width name
                  (Z.to_nat ((s - 11) / 2)) s w) as (n & s' & w' & Hn & Hloop & Hs' & Hex).
      { pose proof (Z.div_mod (s - 11) 2 ltac:(lia)).
        pose proof (Z.mod_pos_bound (s - 11) 2 ltac:(lia)). lia. }
      exists n, (Ok (Barcode.TrueType s', w')). split; [exact Hn|]. split.
      * intros fuel Hf.
        eapply BarcodeFacts.shrink_loop_more_fuel; [exact Hloop | exact Hf].
      * split; assumption.
    + set (w := textsize name Barcode.Bitmap).
      destruct (w >? max_width) eqn:Ew.
      * exists 0%nat, (Raise AttributeError). split; [lia|]. split.
        -- intros fuel _. destruct fuel; cbn [Barcode.shrink_loop Barcode.shrink_step
                                               Barcode.font_size bind];
             rewrite Ew; reflexivity.
        -- split; [reflexivity | lia].
      * exists 0%nat, (Ok (Barcode.Bitmap, w)). split; [lia|]. split.
        -- intros fuel _. destruct fuel; cbn [Barcode.shrink_loop Barcode.shrink_step];
             rewrite Ew; reflexivity.
        -- split; [reflexivity | lia].
Qed.

(** ** Invoice numbers *)

Module InvoiceFacts.
Import Db Handlers Totals TotalsFacts NumberFacts.








End InvoiceFacts.




(** ** The precondition of the totals is an invariant *)

Module ReachFacts.
Import Db Handlers Totals NumberFacts TotalsFacts.

Lemma fold_max_mono ids : forall a b, a <= b -> fold_left Z.max ids a <= fold_left Z.max ids b.
Proof.
  induction ids as [| x ids IH]; cbn; intros a b H; [exact H|].
  apply IH. lia.
Qed.

Lemma next_id_grows seq ids x :
  next_id seq ids <= x -> x < next_id x (ids ++ [x])%list.
Proof.
  intros _. unfold next_id. rewrite fold_left_app. cbn.
  pose proof (fold_max_ge ids x). lia.
Qed.

Lemma next_id_grows_le seq ids x :
  x = next_id seq ids -> next_id seq ids <= next_id x (ids ++ [x])%list.
Proof.
  intros E. pose proof (next_id_grows seq ids x ltac:(lia)). lia.
Qed.

Lemma same_orders_refl d : same_orders d d.
Proof. repeat split. Qed.

Lemma same_invoices_refl d : same_invoices d d.
Proof. repeat split. Qed.

Lemma same_purchases_refl d : same_purchases d d.
Proof. repeat split. Qed.

Lemma map_id_update {R} (key : R -> Z) (f : R -> R) id rows :
  (forall r, key r = id -> key (f r) = id) ->
  map key (map (fun r => if key r =? id then f r else r) rows) = map key rows.
Proof.
  intros H. rewrite map_map. apply map_ext. intros r.
  destruct (Z.eqb_spec (key r) id) as [E | _]; [| reflexivity].
  rewrite (H r E). symmetry. exact E.
Qed.

(** *** Sales orders *)

Lemma so_new_frame now form d id no d' :
  salesorder_new now form d = Ok (id, no, d') ->
  same_invoices d d' /\ same_purchases d d'.
Proof.
  intros H. unfold salesorder_new in H.
  apply bind_ok in H as ([id1 d1] & Hins & H).
  unfold insert_sales_order_placeholder in Hins.
  destruct (of_customer_id form); [| discriminate].
  destruct (existsb _ (sales_orders d)); [discriminate|].
  injection Hins as <- <-.
  apply bind_ok in H as (d2 & Hupd & H).
  apply bind_ok in H as ([total d3] & Hloop & H).
  apply so_lines_ok in Hloop. injection Hloop as -> ->.
  injection H as <- <- <-.
  unfold update_so_no in Hupd. destruct (_ && _); [discriminate|].
  injection Hupd as <-. repeat split.
Qed.

Lemma so_new_issued now form d id no d' :
  lines_issued d -> salesorder_new now form d = Ok (id, no, d') ->
  lines_issued d'.
Proof.
  intros (Hso & Hsi & Hpo) H.
  destruct (so_new_frame now form d id no d' H)
    as ((Ei1 & Ei2 & Ei3) & (Ep1 & Ep2 & Ep3)).
  destruct (salesorder_new_rows now form d id no d' H)
    as (_ & Hid & row & Hrows & Hrid & _ & _ & _ & Hitems & Hseq).
  split; [| split].
  - intros r Hr. rewrite Hitems in Hr. specialize (Hso r Hr).
    rewrite Hrows, Hseq, map_app. cbn [map]. rewrite Hrid.
    pose proof (next_id_grows_le (sales_orders_seq d) (map so_id (sales_orders d)) id Hid).
    lia.
  - intros r Hr. rewrite Ei1, Ei2. rewrite Ei3 in Hr. apply Hsi. exact Hr.
  - intros r Hr. rewrite Ep1, Ep2. rewrite Ep3 in Hr. apply Hpo. exact Hr.
Qed.

Lemma so_edit_issued id form d d' :
  lines_issued d -> salesorder_edit id form d = Ok d' -> lines_issued d'.
Proof.
  intros (Hso & Hsi & Hpo) H. unfold salesorder_edit in H.
  destruct (existsb (fun r => so_id r =? id) (sales_orders d)); cbn [negb] in H.
  - apply bind_ok in H as ([total d1] & Hloop & H).
    apply so_lines_ok in Hloop. injection Hloop as -> ->.
    unfold update_sales_order in H. destruct (_ && _); [discriminate|].
    injection H as <-.
    split; [| split]; cbn [with_sales_orders delete_sales_order_items
                             with_sales_order_items sales_orders sales_orders_seq
                             sales_order_items sales_invoices sales_invoices_seq
                             sales_invoice_items purchase_orders purchase_orders_seq
                             purchase_order_items].
    + intros r Hr. apply filter_In in Hr as [Hr _].
      rewrite (map_id_update so_id _ id (sales_orders d)) by (intros; reflexivity).
      apply Hso. exact Hr.
    + exact Hsi.
    + exact Hpo.
  - injection H as <-. repeat split; assumption.
Qed.

(** *** Sales invoices *)

Lemma insert_invoice_lines_frame id lis : forall d,
  same_orders d (insert_invoice_lines id lis d) /\
  same_purchases d (insert_invoice_lines id lis d) /\
  sales_invoices_seq (insert_invoice_lines id lis d) = sales_invoices_seq d.
Proof.
  unfold insert_invoice_lines.
  induction lis as [| li lis IH]; cbn [fold_left]; intros d.
  - repeat split.
  - destruct (IH (insert_sales_invoice_item (li_row id li) d))
      as ((A1 & A2 & A3) & (B1 & B2 & B3) & C).
    destruct li as [[[[item qty] rate] disc] lt]. cbn [li_row] in *.
    unfold same_orders, same_purchases.
    rewrite A1, A2, A3, B1, B2, B3, C. repeat split.
Qed.

Lemma si_issued now form d id id' d' :
  lines_issued d ->
  (id = None \/ exists i, id = Some i /\ In i (map si_id (sales_invoices d))) ->
  save_invoice now d form id = Ok (id', d') ->
  lines_issued d'.
Proof.
  intros (Hso & Hsi & Hpo) Hid H. unfold save_invoice in H.
  apply bind_ok in H as (no & _ & H).
  apply bind_ok in H as ([total lis] & _ & H).
  destruct id as [i |].
  - destruct Hid as [Hid | (i' & [= <-] & Hin)]; [discriminate|].
    apply TotalsFacts.update_step in H as (_ & H). injection H as <- <-.
    match goal with
    | |- lines_issued (insert_invoice_lines i lis ?d0) =>
        destruct (insert_invoice_lines_frame i lis d0)
          as ((A1 & A2 & A3) & (B1 & B2 & B3) & C);
        destruct (insert_invoice_lines_spec i lis d0) as [Hit Hhd]
    end.
    cbn [delete_sales_invoice_items set_sales_invoice with_sales_invoice_items
         with_sales_invoices sales_orders sales_orders_seq sales_order_items
         sales_invoices sales_invoices_seq sales_invoice_items purchase_orders
         purchase_orders_seq purchase_order_items] in *.
    split; [| split].
    + intros r Hr. rewrite A1, A2. rewrite A3 in Hr. apply Hso. exact Hr.
    + intros r Hr. rewrite Hhd, C.
      rewrite (map_id_update si_id _ i (sales_invoices d)) by (intros; reflexivity).
      rewrite Hit in Hr. apply in_app_or in Hr as [Hr | Hr].
      * apply filter_In in Hr as [Hr _]. apply Hsi. exact Hr.
      * apply in_map_iff in Hr as ([[[[item qty] rate] disc] lt] & <- & _).
        cbn [li_row sii_sales_invoice_id].
        apply next_id_fresh. exact Hin.
    + intros r Hr. rewrite B1, B2. rewrite B3 in Hr. apply Hpo. exact Hr.
  - apply TotalsFacts.insert_step in H as (_ & _ & H).
    unfold add_sales_invoice in H. injection H as <- <-.
    set (id0 := next_id (sales_invoices_seq d) (map si_id (sales_invoices d))) in *.
    match goal with
    | |- lines_issued (insert_invoice_lines id0 lis ?d0) =>
        destruct (insert_invoice_lines_frame id0 lis d0)
          as ((A1 & A2 & A3) & (B1 & B2 & B3) & C);
        destruct (insert_invoice_lines_spec id0 lis d0) as [Hit Hhd]
    end.
    cbn [with_sales_invoice_items
         with_sales_invoices sales_orders sales_orders_seq sales_order_items
         sales_invoices sales_invoices_seq sales_invoice_items purchase_orders
         purchase_orders_seq purchase_order_items] in *.
    pose proof (next_id_grows (sales_invoices_seq d) (map si_id (sales_invoices d))
                  id0 ltac:(unfold id0; lia)) as Hg.
    split; [| split].
    + intros r Hr. rewrite A1, A2. rewrite A3 in Hr. apply Hso. exact Hr.
    + intros r Hr. rewrite Hhd, C, map_app. cbn [map si_id].
      rewrite Hit in Hr. apply in_app_or in Hr as [Hr | Hr].
      * specialize (Hsi r Hr). fold id0 in Hsi. lia.
      * apply in_map_iff in Hr as ([[[[item qty] rate] disc] lt] & <- & _).
        cbn [li_row sii_sales_invoice_id]. exact Hg.
    + intros r Hr. rewrite B1, B2. rewrite B3 in Hr. apply Hpo. exact Hr.
Qed.

(** *** Purchase orders *)

Lemma po_lines_frame id form idx : forall t d t' d',
  for_each (po_line id form) idx (t, d) = Ok (t', d') ->
  same_orders d d' /\ same_invoices d d'.
Proof.
  induction idx as [| i idx IH]; cbn [for_each]; intros t d t' d' H.
  - injection H as <- <-. repeat split.
  - apply bind_ok in H as ([t1 d1] & Hstep & H).
    destruct (IH _ _ _ _ H) as ((A1 & A2 & A3) & (B1 & B2 & B3)).
    unfold po_line in Hstep.
    apply bind_ok in Hstep as (item & _ & Hstep).
    destruct (String.eqb item "").
    + injection Hstep as <- <-. repeat split; assumption.
    + apply bind_ok in Hstep as (q & _ & Hstep).
      apply bind_ok in Hstep as (r & _ & Hstep).
      apply bind_ok in Hstep as (dsc & _ & Hstep).
      apply bind_ok in Hstep as (g & _ & Hstep).
      apply bind_ok in Hstep as (l & _ & Hstep).
      injection Hstep as <- <-.
      unfold same_orders, same_invoices.
      rewrite A1, A2, A3, B1, B2, B3. repeat split.
Qed.

Lemma po_new_issued now form d id no d' :
  lines_issued d -> po_new now form d = Ok (id, no, d') -> lines_issued d'.
Proof.
  intros (Hso & Hsi & Hpo) H. unfold po_new in H.
  unfold insert_purchase_order_placeholder in H.
  set (id0 := next_id (purchase_orders_seq d) (map po_id (purchase_orders d))) in *.
  apply bind_ok in H as ([t d1] & Hloop & H).
  injection H as <- <- <-.
  pose proof (po_lines_frame _ _ _ _ _ _ _ Hloop) as ((A1 & A2 & A3) & (B1 & B2 & B3)).
  apply po_lines_spec in Hloop as (rows & Hit & Hpo' & Hseq & Hrows & _).
  cbn [update_po_no update_po_totals with_purchase_orders sales_orders
       sales_orders_seq sales_order_items sales_invoices sales_invoices_seq
       sales_invoice_items purchase_order_items purchase_orders
       purchase_orders_seq] in *.
  pose proof (next_id_grows (purchase_orders_seq d) (map po_id (purchase_orders d))
                id0 ltac:(unfold id0; lia)) as Hg.
  split; [| split];
    cbn [update_po_no update_po_totals with_purchase_orders sales_orders
         sales_orders_seq sales_order_items sales_invoices sales_invoices_seq
         sales_invoice_items purchase_order_items purchase_orders
         purchase_orders_seq].
  - intros r Hr. rewrite A1, A2. rewrite A3 in Hr. apply Hso. exact Hr.
  - intros r Hr. rewrite B1, B2. rewrite B3 in Hr. apply Hsi. exact Hr.
  - intros r Hr. rewrite Hpo', Hseq.
    rewrite (map_id_update po_id _ id0) by (intros; assumption).
    rewrite (map_id_update po_id _ id0) by (intros; assumption).
    rewrite map_app. cbn [map po_id].
    rewrite Hit in Hr. apply in_app_or in Hr as [Hr | Hr].
    + specialize (Hpo r Hr). fold id0 in Hpo. lia.
    + destruct (Hrows r Hr) as [E _]. rewrite E. exact Hg.
Qed.

Lemma existsb_true_in {R} (key : R -> Z) id rows :
  existsb (fun r => key r =? id) rows = true -> In id (map key rows).
Proof.
  intros H. apply existsb_exists in H as (r & Hr & E).
  apply Z.eqb_eq in E. subst id. apply in_map. exact Hr.
Qed.

Lemma po_edit_issued id form d d' :
  lines_issued d -> po_edit id form d = Ok d' -> lines_issued d'.
Proof.
  intros (Hso & Hsi & Hpo) H. unfold po_edit in H.
  destruct (existsb (fun r => po_id r =? id) (purchase_orders d)) eqn:Ex;
    cbn [negb] in H.
  - apply bind_ok in H as ([t d1] & Hloop & H). injection H as <-.
    pose proof (po_lines_frame _ _ _ _ _ _ _ Hloop) as ((A1 & A2 & A3) & (B1 & B2 & B3)).
    apply po_lines_spec in Hloop as (rows & Hit & Hpo' & Hseq & Hrows & _).
    cbn [delete_purchase_order_items with_purchase_order_items sales_orders
         sales_orders_seq sales_order_items sales_invoices sales_invoices_seq
         sales_invoice_items purchase_order_items purchase_orders
         purchase_orders_seq] in *.
    split; [| split];
      cbn [update_purchase_order with_purchase_orders sales_orders
           sales_orders_seq sales_order_items sales_invoices sales_invoices_seq
           sales_invoice_items purchase_order_items purchase_orders
           purchase_orders_seq].
    + intros r Hr. rewrite A1, A2. rewrite A3 in Hr. apply Hso. exact Hr.
    + intros r Hr. rewrite B1, B2. rewrite B3 in Hr. apply Hsi. exact Hr.
    + intros r Hr. rewrite Hpo', Hseq.
      rewrite (map_id_update po_id _ id) by (intros; reflexivity).
      rewrite Hit in Hr. apply in_app_or in Hr as [Hr | Hr].
      * apply filter_In in Hr as [Hr _]. apply Hpo. exact Hr.
      * destruct (Hrows r Hr) as [E _]. rewrite E.
        apply next_id_fresh. apply (existsb_true_in po_id). exact Ex.
  - injection H as <-. repeat split; assumption.
Qed.

Lemma step_issued d d' : lines_issued d -> step d d' -> lines_issued d'.
Proof.
  intros Hd Hs. destruct Hs.
  - eapply so_new_issued; eassumption.
  - eapply so_edit_issued; eassumption.
  - eapply si_issued; [exact Hd | left; reflexivity | eassumption].
  - eapply si_issued; [exact Hd | right; eauto | eassumption].
  - eapply po_new_issued; eassumption.
  - eapply po_edit_issued; eassumption.
Qed.

End ReachFacts.

(** Every database reached from the empty one by completed creates and by
    edits of existing documents has all its line rows on header ids already
    issued: the precondition under which the totals of a newly created
    document are established. *)
Lemma reachable_lines_issued d : Totals.reachable d -> Totals.lines_issued d.
Proof.
  induction 1 as [| d d' _ IH Hs].
  - repeat split; intros r [].
  - eapply ReachFacts.step_issued; eassumption.
Qed.

(** ** Documents over sequences of requests *)

Module LifecycleFacts.
Import Db Handlers Deletes Totals Lifecycle NumberFacts TotalsFacts ReachFacts.

Lemma in_map_filter_other {R} (key : R -> Z) id x rows :
  In x (map key rows) -> x <> id ->
  In x (map key (filter (fun r => negb (key r =? id)) rows)).
Proof.
  intros H Hx. apply in_map_iff in H as (r & <- & Hr).
  apply in_map. apply filter_In. split; [exact Hr|].
  apply negb_true_iff. apply Z.eqb_neq. exact Hx.
Qed.

Lemma in_filter_other {R} (key : R -> Z) id r rows :
  In r (filter (fun r => negb (key r =? id)) rows) ->
  In r rows /\ key r <> id.
Proof.
  intros H. apply filter_In in H as [Hr Hk]. split; [exact Hr|].
  apply negb_true_iff in Hk. apply Z.eqb_neq. exact Hk.
Qed.

Lemma in_map_app_l {A B} (f : A -> B) x l l' :
  In x (map f l) -> In x (map f (l ++ l')).
Proof. intros H. rewrite map_app. apply in_or_app. left. exact H. Qed.

Lemma no_orphans_issued d : no_orphans d -> lines_issued d.
Proof.
  intros (Hso & Hsi & Hpo). split; [| split]; intros r Hr;
    apply next_id_fresh; auto.
Qed.

Lemma so_new_keeps now form d id no d' :
  no_orphans d -> salesorder_new now form d = Ok (id, no, d') -> no_orphans d'.
Proof.
  intros (Hso & Hsi & Hpo) H.
  destruct (so_new_frame now form d id no d' H)
    as ((Ei1 & Ei2 & Ei3) & (Ep1 & Ep2 & Ep3)).
  destruct (salesorder_new_rows now form d id no d' H)
    as (_ & Hid & row & Hrows & Hrid & _ & _ & _ & Hitems & Hseq).
  split; [| split]; intros r Hr.
  - rewrite Hitems in Hr. rewrite Hrows. apply in_map_app_l. auto.
  - rewrite Ei1. rewrite Ei3 in Hr. auto.
  - rewrite Ep1. rewrite Ep3 in Hr. auto.
Qed.

Lemma so_edit_keeps id form d d' :
  no_orphans d -> salesorder_edit id form d = Ok d' -> no_orphans d'.
Proof.
  intros (Hso & Hsi & Hpo) H. unfold salesorder_edit in H.
  destruct (existsb (fun r => so_id r =? id) (sales_orders d)); cbn [negb] in H.
  - apply bind_ok in H as ([total d1] & Hloop & H).
    apply so_lines_ok in Hloop. injection Hloop as -> ->.
    unfold update_sales_order in H. destruct (_ && _); [discriminate|].
    injection H as <-.
    split; [| split]; cbn [with_sales_orders delete_sales_order_items
                             with_sales_order_items sales_orders sales_orders_seq
                             sales_order_items sales_invoices sales_invoices_seq
                             sales_invoice_items purchase_orders purchase_orders_seq
                             purchase_order_items].
    + intros r Hr. apply filter_In in Hr as [Hr _].
      rewrite (map_id_update so_id _ id (sales_orders d)) by (intros; reflexivity).
      auto.
    + exact Hsi.
    + exact Hpo.
  - injection H as <-. repeat split; assumption.
Qed.

Lemma so_delete_keeps id d : no_orphans d -> no_orphans (salesorder_delete id d).
Proof.
  intros (Hso & Hsi & Hpo). split; [| split]; cbn; [| exact Hsi | exact Hpo].
  intros r Hr. apply in_filter_other in Hr as [Hr Hk].
  apply in_map_filter_other; auto.
Qed.

Lemma si_delete_keeps id d : no_orphans d -> no_orphans (salesinvoice_delete id d).
Proof.
  intros (Hso & Hsi & Hpo). split; [| split]; cbn; [exact Hso | | exact Hpo].
  intros r Hr. apply in_filter_other in Hr as [Hr Hk].
  apply in_map_filter_other; auto.
Qed.

Lemma po_delete_keeps id d : no_orphans d -> no_orphans (po_delete id d).
Proof.
  intros (Hso & Hsi & Hpo). split; [| split]; cbn; [exact Hso | exact Hsi |].
  intros r Hr. apply in_filter_other in Hr as [Hr Hk].
  apply in_map_filter_other; auto.
Qed.

(** What [save_invoice] leaves in the two invoice tables. *)
Lemma save_invoice_rows now d form id id' d' :
  save_invoice now d form id = Ok (id', d') ->
  exists no total lis,
    for_each (invoice_line form) (range (List.length (if_item_ids form)))
             (PInt 0, []) = Ok (total, lis) /\
    same_orders d d' /\ same_purchases d d' /\
    match id with
    | None =>
        id' = next_id (sales_invoices_seq d) (map si_id (sales_invoices d)) /\
        exists row,
          sales_invoices d' = (sales_invoices d ++ [row])%list /\
          si_id row = id' /\ si_invoice_no row = no /\
          si_total row = total /\ si_grand_total row = total /\
          sales_invoice_items d'
          = (sales_invoice_items d ++ map (li_row id') lis)%list
    | Some i =>
        id' = i /\
        map si_id (sales_invoices d') = map si_id (sales_invoices d) /\
        (~ In i (map si_id (sales_invoices d)) ->
         sales_invoices d' = sales_invoices d) /\
        (forall h, In h (sales_invoices d') -> si_id h = i ->
                   si_total h = total /\ si_grand_total h = total) /\
        sales_invoice_items d'
        = (filter (fun r => negb (sii_sales_invoice_id r =? i))
                  (sales_invoice_items d) ++ map (li_row i) lis)%list
    end.
Proof.
  intros H. unfold save_invoice in H.
  apply bind_ok in H as (no & _ & H).
  apply bind_ok in H as ([total lis] & Hloop & H).
  exists no, total, lis. split; [exact Hloop|].
  destruct id as [i |].
  - apply TotalsFacts.update_step in H as (_ & H). injection H as <- <-.
    match goal with
    | |- context [insert_invoice_lines i lis ?d0] =>
        destruct (insert_invoice_lines_frame i lis d0)
          as (A & B & C);
        destruct (insert_invoice_lines_spec i lis d0) as [Hit Hhd]
    end.
    split; [exact A|]. split; [exact B|]. split; [reflexivity|].
    rewrite Hit, Hhd.
    cbn [delete_sales_invoice_items set_sales_invoice with_sales_invoice_items
         with_sales_invoices sales_invoices sales_invoice_items].
    split; [| split; [| split]].
    + apply (map_id_update si_id). intros; reflexivity.
    + intros Hn. rewrite <- (map_id (sales_invoices d)) at 2.
      apply map_ext_in. intros r Hr.
      destruct (Z.eqb_spec (si_id r) i) as [E | _]; [| reflexivity].
      exfalso. apply Hn. rewrite <- E. apply in_map. exact Hr.
    + intros h Hh Eh. apply in_map_iff in Hh as (r & Hr & _).
      destruct (si_id r =? i) eqn:E.
      * subst h. cbn. split; reflexivity.
      * subst h. apply Z.eqb_neq in E. contradiction.
    + reflexivity.
  - apply TotalsFacts.insert_step in H as (_ & _ & H).
    unfold add_sales_invoice in H. injection H as <- <-.
    set (id0 := next_id (sales_invoices_seq d) (map si_id (sales_invoices d))).
    match goal with
    | |- context [insert_invoice_lines id0 lis ?d0] =>
        destruct (insert_invoice_lines_frame id0 lis d0)
          as (A & B & C);
        destruct (insert_invoice_lines_spec id0 lis d0) as [Hit Hhd]
    end.
    split; [exact A|]. split; [exact B|]. split; [reflexivity|].
    eexists. rewrite Hit, Hhd.
    cbn [with_sales_invoices sales_invoices sales_invoice_items].
    split; [reflexivity|]. cbn. repeat split.
Qed.

Lemma li_row_id id li : sii_sales_invoice_id (li_row id li) = id.
Proof. destruct li as [[[[item qty] rate] disc] lt]. reflexivity. Qed.

Lemma si_keeps now form d id id' d' :
  no_orphans d ->
  match id with
  | None => True
  | Some i => In i (map si_id (sales_invoices d))
  end ->
  save_invoice now d form id = Ok (id', d') -> no_orphans d'.
Proof.
  intros (Hso & Hsi & Hpo) Hid H.
  destruct (save_invoice_rows _ _ _ _ _ _ H)
    as (no & total & lis & _ & (A1 & A2 & A3) & (B1 & B2 & B3) & Hrows).
  split; [| split]; intros r Hr.
  - rewrite A1. rewrite A3 in Hr. auto.
  - destruct id as [i |].
    + destruct Hrows as (-> & Hids & _ & _ & Hit).
      rewrite Hids. rewrite Hit in Hr. apply in_app_or in Hr as [Hr | Hr].
      * apply filter_In in Hr as [Hr _]. auto.
      * apply in_map_iff in Hr as (li & <- & _). rewrite li_row_id. exact Hid.
    + destruct Hrows as (_ & row & Hh & Hrid & _ & _ & _ & Hit).
      rewrite Hh, map_app. apply in_or_app.
      rewrite Hit in Hr. apply in_app_or in Hr as [Hr | Hr].
      * left. auto.
      * right. apply in_map_iff in Hr as (li & <- & _). rewrite li_row_id.
        cbn. left. exact Hrid.
  - rewrite B1. rewrite B3 in Hr. auto.
Qed.

(** What [po_new] leaves in the two purchase-order tables. *)
Lemma po_new_rows now form d id no d' :
  po_new now form d = Ok (id, no, d') ->
  let prefix := "PO" ++ strftime_Ymd now ++ "-" in
  no = (if falsy (pf_po_no form)
        then Some (prefix ++ fmt_05d (count_po_no_like prefix d + 1))
        else pf_po_no form) /\
  id = next_id (purchase_orders_seq d) (map po_id (purchase_orders d)) /\
  same_orders d d' /\ same_invoices d d' /\
  exists row rows,
    purchase_orders d' = (purchase_orders d ++ [row])%list /\
    po_id row = id /\ po_no row = no /\
    purchase_order_items d' = (purchase_order_items d ++ rows)%list /\
    (forall r, In r rows -> poi_purchase_order_id r = id) /\
    po_total row = fold_left PyNum.add (map poi_net rows) (PFloat B64.zero).
Proof.
  intros H prefix. unfold po_new in H.
  unfold insert_purchase_order_placeholder in H.
  set (id0 := next_id (purchase_orders_seq d) (map po_id (purchase_orders d))) in *.
  apply bind_ok in H as ([t d1] & Hloop & H).
  injection H as <- <- <-.
  pose proof (po_lines_frame _ _ _ _ _ _ _ Hloop) as (A & B).
  apply po_lines_spec in Hloop
    as (rows & Hit & Hpo' & Hseq & Hrows & Ht & _ & _).
  assert (Hc : forall row seq,
            po_no row = Some "" ->
            count_po_no_like prefix
              (with_purchase_orders d (purchase_orders d ++ [row]) seq)
            = count_po_no_like prefix d).
  { intros row seq E. unfold count_po_no_like.
    cbn [with_purchase_orders purchase_orders]. rewrite filter_app.
    cbn [filter]. rewrite E.
    rewrite (like_prefix_empty prefix) by discriminate.
    rewrite app_nil_r. reflexivity. }
  subst prefix.
  split.
  { destruct (falsy (pf_po_no form)); [| reflexivity].
    rewrite Hc by reflexivity. rewrite !string_append_assoc. reflexivity. }
  split; [reflexivity|].
  split; [exact A|]. split; [exact B|].
  cbn [update_po_no update_po_totals with_purchase_orders
       purchase_order_items purchase_orders purchase_orders_seq] in *.
  rewrite Hpo'. rewrite !map_app. cbn [map].
  assert (Hold : forall f g : purchase_order -> purchase_order,
            map (fun r => if po_id r =? id0 then g r else r)
                (map (fun r => if po_id r =? id0 then f r else r)
                     (purchase_orders d)) = purchase_orders d).
  { intros f g. rewrite map_map. rewrite <- (map_id (purchase_orders d)) at 2.
    apply map_ext_in. intros r Hr.
    assert (po_id r <> id0).
    { pose proof (next_id_fresh (purchase_orders_seq d) _ _ (in_map po_id _ _ Hr)).
      fold id0 in H. lia. }
    destruct (Z.eqb_spec (po_id r) id0); [contradiction|].
    destruct (Z.eqb_spec (po_id r) id0); [contradiction|]. reflexivity. }
  rewrite Hold. cbn [po_id]. rewrite Z.eqb_refl. cbn [po_id]. rewrite Z.eqb_refl.
  eexists. exists rows. split; [reflexivity|].
  cbn. repeat split; try assumption.
  - intros r Hr. apply Hrows. exact Hr.
Qed.

Lemma po_new_keeps now form d id no d' :
  no_orphans d -> po_new now form d = Ok (id, no, d') -> no_orphans d'.
Proof.
  intros (Hso & Hsi & Hpo) H.
  destruct (po_new_rows _ _ _ _ _ _ H)
    as (_ & _ & (A1 & A2 & A3) & (B1 & B2 & B3) & row & rows
        & Hh & Hrid & _ & Hit & Hrows & _).
  split; [| split]; intros r Hr.
  - rewrite A1. rewrite A3 in Hr. auto.
  - rewrite B1. rewrite B3 in Hr. auto.
  - rewrite Hh, map_app. apply in_or_app.
    rewrite Hit in Hr. apply in_app_or in Hr as [Hr | Hr].
    + left. auto.
    + right. rewrite (Hrows r Hr). cbn. left. exact Hrid.
Qed.

Lemma po_edit_keeps id form d d' :
  no_orphans d -> po_edit id form d = Ok d' -> no_orphans d'.
Proof.
  intros (Hso & Hsi & Hpo) H. unfold po_edit in H.
  destruct (existsb (fun r => po_id r =? id) (purchase_orders d)) eqn:Ex;
    cbn [negb] in H.
  - apply bind_ok in H as ([t d1] & Hloop & H). injection H as <-.
    pose proof (po_lines_frame _ _ _ _ _ _ _ Hloop) as ((A1 & A2 & A3) & (B1 & B2 & B3)).
    apply po_lines_spec in Hloop as (rows & Hit & Hpo' & Hseq & Hrows & _).
    cbn [delete_purchase_order_items with_purchase_order_items sales_orders
         sales_orders_seq sales_order_items sales_invoices sales_invoices_seq
         sales_invoice_items purchase_order_items purchase_orders
         purchase_orders_seq] in *.
    split; [| split];
      cbn [update_purchase_order with_purchase_orders sales_orders
           sales_orders_seq sales_order_items sales_invoices sales_invoices_seq
           sales_invoice_items purchase_order_items purchase_orders
           purchase_orders_seq]; intros r Hr.
    + rewrite A1. rewrite A3 in Hr. auto.
    + rewrite B1. rewrite B3 in Hr. auto.
    + rewrite Hpo'.
      rewrite (map_id_update po_id _ id) by (intros; reflexivity).
      rewrite Hit in Hr. apply in_app_or in Hr as [Hr | Hr].
      * apply filter_In in Hr as [Hr _]. auto.
      * destruct (Hrows r Hr) as [E _]. rewrite E.
        apply (existsb_true_in po_id). exact Ex.
  - injection H as <-. repeat split; assumption.
Qed.

Lemma request_keeps d d' : no_orphans d -> request d d' -> no_orphans d'.
Proof.
  intros Hd Hs. destruct Hs.
  - eapply so_new_keeps; eassumption.
  - eapply so_edit_keeps; eassumption.
  - apply so_delete_keeps; assumption.
  - apply (si_keeps now form d None id d' Hd I). assumption.
  - apply (si_keeps now form d (Some id) id' d' Hd); assumption.
  - apply si_delete_keeps; assumption.
  - eapply po_new_keeps; eassumption.
  - eapply po_edit_keeps; eassumption.
  - apply po_delete_keeps; assumption.
Qed.

End LifecycleFacts.

(** X1.  On every database reached from the empty one by creating,
    editing and deleting sales orders, sales invoices and purchase orders
    (the invoice edit taken on stored invoices), every line row belongs to a
    stored header: no request leaves lines behind without their document. *)
Theorem reached_no_orphans :
  forall d, Lifecycle.reached d -> Lifecycle.no_orphans d.
Proof.
  induction 1 as [| d d' _ IH Hs].
  - repeat split; intros r [].
  - eapply LifecycleFacts.request_keeps; eassumption.
Qed.

Module RoundTripFacts.
Import Db Handlers Deletes Totals Lifecycle NumberFacts TotalsFacts ReachFacts
       LifecycleFacts.

Lemma filter_other_all {R} (key : R -> Z) id rows :
  (forall r, In r rows -> key r <> id) ->
  filter (fun r => negb (key r =? id)) rows = rows.
Proof.
  intros H. apply filter_all. intros r Hr.
  apply negb_true_iff. apply Z.eqb_neq. auto.
Qed.

Lemma filter_other_none {R} (key : R -> Z) id rows :
  (forall r, In r rows -> key r = id) ->
  filter (fun r => negb (key r =? id)) rows = [].
Proof.
  intros H. apply filter_none. intros r Hr.
  apply negb_false_iff. apply Z.eqb_eq. auto.
Qed.

Lemma fresh_headers {R} (key : R -> Z) seq rows :
  forall r, In r rows -> key r <> next_id seq (map key rows).
Proof.
  intros r Hr.
  pose proof (next_id_fresh seq _ _ (in_map key _ _ Hr)). lia.
Qed.

Lemma fresh_lines {L} (ref : L -> Z) seq ids lines :
  (forall r, In r lines -> In (ref r) ids) ->
  forall r, In r lines -> ref r <> next_id seq ids.
Proof.
  intros H r Hr. pose proof (next_id_fresh seq _ _ (H r Hr)). lia.
Qed.

Lemma so_new_then_delete now form d id no d' :
  no_orphans d -> salesorder_new now form d = Ok (id, no, d') ->
  same_rows d (salesorder_delete id d').
Proof.
  intros (Hso & _ & _) H.
  destruct (so_new_frame now form d id no d' H)
    as ((Ei1 & Ei2 & Ei3) & (Ep1 & Ep2 & Ep3)).
  destruct (salesorder_new_rows now form d id no d' H)
    as (_ & Hid & row & Hrows & Hrid & _ & _ & _ & Hitems & Hseq).
  unfold same_rows, salesorder_delete.
  cbn [with_sales_orders delete_sales_order_items with_sales_order_items
       sales_orders sales_order_items sales_invoices sales_invoice_items
       purchase_orders purchase_order_items].
  rewrite Hrows, Hitems, Ei1, Ei3, Ep1, Ep3.
  repeat split.
  - rewrite filter_app.
    rewrite (filter_other_all so_id)
      by (rewrite Hid; apply fresh_headers).
    rewrite (filter_other_none so_id id [row])
      by (intros r [<- | []]; exact Hrid).
    apply app_nil_r.
  - apply (filter_other_all soi_sales_order_id).
    rewrite Hid. apply fresh_lines. exact Hso.
Qed.

Lemma si_new_then_delete now form d id d' :
  no_orphans d -> save_invoice now d form None = Ok (id, d') ->
  same_rows d (salesinvoice_delete id d').
Proof.
  intros (_ & Hsi & _) H.
  destruct (save_invoice_rows _ _ _ _ _ _ H)
    as (no & total & lis & _ & (A1 & A2 & A3) & (B1 & B2 & B3)
        & Hid & row & Hh & Hrid & _ & _ & _ & Hit).
  unfold same_rows, salesinvoice_delete.
  cbn [with_sales_invoices delete_sales_invoice_items with_sales_invoice_items
       sales_orders sales_order_items sales_invoices sales_invoice_items
       purchase_orders purchase_order_items].
  rewrite Hh, Hit, A1, A3, B1, B3.
  repeat split.
  - rewrite filter_app.
    rewrite (filter_other_all si_id)
      by (rewrite Hid; apply fresh_headers).
    rewrite (filter_other_none si_id id [row])
      by (intros r [<- | []]; exact Hrid).
    apply app_nil_r.
  - rewrite filter_app.
    rewrite (filter_other_all sii_sales_invoice_id)
      by (rewrite Hid; apply fresh_lines; exact Hsi).
    rewrite (filter_other_none sii_sales_invoice_id)
      by (intros r Hr; apply in_map_iff in Hr as (li & <- & _);
          apply li_row_id).
    apply app_nil_r.
Qed.

Lemma po_new_then_delete now form d id no d' :
  no_orphans d -> po_new now form d = Ok (id, no, d') ->
  same_rows d (po_delete id d').
Proof.
  intros (_ & _ & Hpo) H.
  destruct (po_new_rows _ _ _ _ _ _ H)
    as (_ & Hid & (A1 & A2 & A3) & (B1 & B2 & B3) & row & rows
        & Hh & Hrid & _ & Hit & Hrows & _).
  unfold same_rows, po_delete.
  cbn [with_purchase_orders delete_purchase_order_items
       with_purchase_order_items
       sales_orders sales_order_items sales_invoices sales_invoice_items
       purchase_orders purchase_order_items].
  rewrite Hh, Hit, A1, A3, B1, B3.
  repeat split.
  - rewrite filter_app.
    rewrite (filter_other_all po_id)
      by (rewrite Hid; apply fresh_headers).
    rewrite (filter_other_none po_id id [row])
      by (intros r [<- | []]; exact Hrid).
    apply app_nil_r.
  - rewrite filter_app.
    rewrite (filter_other_all poi_purchase_order_id)
      by (rewrite Hid; apply fresh_lines; exact Hpo).
    rewrite (filter_other_none poi_purchase_order_id) by exact Hrows.
    apply app_nil_r.
Qed.

(** The first loop of [save_invoice] collects one line per index. *)
Lemma invoice_lines_length form idx : forall t lis t' lis',
  for_each (invoice_line form) idx (t, lis) = Ok (t', lis') ->
  List.length lis' = (List.length lis + List.length idx)%nat.
Proof.
  induction idx as [| i idx IH]; cbn [for_each]; intros t lis t' lis' H.
  - injection H as <- <-. cbn. lia.
  - apply bind_ok in H as ([t1 lis1] & Hstep & H).
    apply IH in H. rewrite H. cbn [List.length].
    unfold invoice_line in Hstep.
    apply bind_ok in Hstep as (q & _ & Hstep).
    apply bind_ok in Hstep as (qty & _ & Hstep).
    apply bind_ok in Hstep as (r & _ & Hstep).
    apply bind_ok in Hstep as (rate & _ & Hstep).
    apply bind_ok in Hstep as (dsc & _ & Hstep).
    apply bind_ok in Hstep as (disc & _ & Hstep).
    apply bind_ok in Hstep as (item & _ & Hstep).
    injection Hstep as <- <-. rewrite length_app. cbn. lia.
Qed.

End RoundTripFacts.

(** X2.  Creating a document and then deleting it restores the rows of
    all six tables, provided no line row was without a header before: the
    delete removes exactly the header and the lines the create added (only
    the id counter has moved on). *)
Theorem create_then_delete :
  forall d x d',
    Lifecycle.no_orphans d -> Lifecycle.created d x d' ->
    Lifecycle.same_rows d (Lifecycle.delete x d').
Proof.
  intros d x d' Hd H. destruct H; cbn [Lifecycle.delete].
  - eapply RoundTripFacts.so_new_then_delete; eassumption.
  - eapply RoundTripFacts.si_new_then_delete; eassumption.
  - eapply RoundTripFacts.po_new_then_delete; eassumption.
Qed.

(** The two-line purchase order, created on the empty database and
    deleted again. *)
Lemma create_then_delete_witness :
  exists d',
    Handlers.po_new Examples.jan5 Examples.purchase_two_lines Db.empty
      = Ok (1, Some "PO20250105-00001", d') /\
    Lifecycle.same_rows Db.empty (Deletes.po_delete 1 d').
Proof.
  eexists. split; [vm_compute; reflexivity|].
  apply (create_then_delete Db.empty (Totals.PurchaseOrder 1)).
  - repeat split; intros r [].
  - eapply Lifecycle.created_po with (now := Examples.jan5)
                                      (form := Examples.purchase_two_lines).
    vm_compute. reflexivity.
Defined.

(** The purchase order just created on the empty database is a reached
    database. *)
Lemma reached_no_orphans_witness :
  exists d,
    Handlers.po_new Examples.jan5 Examples.purchase_two_lines Db.empty
      = Ok (1, Some "PO20250105-00001", d) /\
    Lifecycle.no_orphans d.
Proof.
  eexists. split; [vm_compute; reflexivity|].
  apply reached_no_orphans.
  eapply Lifecycle.reached_request; [apply Lifecycle.reached_empty|].
  eapply Lifecycle.po_created with (now := Examples.jan5)
                                    (form := Examples.purchase_two_lines).
  vm_compute. reflexivity.
Defined.

(** X3.  The invoice edit route does not look the invoice up: saving the
    edit form of an id that is not stored changes no header and persists
    one line row per submitted line under that id, so any submitted line is
    left without a header. *)
Theorem invoice_edit_missing_orphans :
  forall now d form id id' d',
    ~ In id (map Db.si_id (Db.sales_invoices d)) ->
    Handlers.save_invoice now d form (Some id) = Ok (id', d') ->
    Db.sales_invoices d' = Db.sales_invoices d /\
    List.length (Totals.si_lines_of d' id)
      = List.length (Handlers.if_item_ids form) /\
    (Handlers.if_item_ids form <> [] -> ~ Lifecycle.no_orphans d').
Proof.
  intros now d form id id' d' Hn H.
  destruct (LifecycleFacts.save_invoice_rows _ _ _ _ _ _ H)
    as (no & total & lis & Hloop & _ & _ & _ & Hids & Hsame & _ & Hit).
  apply RoundTripFacts.invoice_lines_length in Hloop.
  cbn [List.length Nat.add] in Hloop.
  unfold range in Hloop. rewrite length_seq in Hloop.
  assert (Hlines : Totals.si_lines_of d' id = map (Totals.li_row id) lis).
  { unfold Totals.si_lines_of. rewrite Hit, filter_app.
    rewrite TotalsFacts.filter_negb_filter, TotalsFacts.li_row_lines.
    reflexivity. }
  split; [exact (Hsame Hn)|]. split.
  - rewrite Hlines, length_map. exact Hloop.
  - intros Hne (_ & Hsi & _).
    destruct lis as [| li lis].
    { destruct (Handlers.if_item_ids form); [congruence | discriminate]. }
    apply Hn. rewrite <- (Hsame Hn).
    rewrite <- (LifecycleFacts.li_row_id id li). apply Hsi.
    rewrite Hit. apply in_or_app. right. left. reflexivity.
Qed.

Lemma invoice_edit_missing_orphans_witness :
  exists d',
    Handlers.save_invoice Examples.jan5 Db.empty
      (Examples.invoice_numbered (Some "A/2")) (Some 9) = Ok (9, d') /\
    Db.sales_invoices d' = [] /\
    List.length (Totals.si_lines_of d' 9) = 1%nat.
Proof.
  eexists. split; [vm_compute; reflexivity|].
  destruct (invoice_edit_missing_orphans Examples.jan5 Db.empty
              (Examples.invoice_numbered (Some "A/2")) 9 9 _
              ltac:(intros [])
              ltac:(vm_compute; reflexivity)) as (A & B & _).
  split; [exact A | exact B].
Defined.

(** ** Which submitted lines let a request complete *)

Module LineLoopFacts.
Import Db Handlers Deletes Totals Lifecycle NumberFacts TotalsFacts ReachFacts.

Lemma getitem_ok {A} (l : list A) i x :
  getitem l i = Ok x <-> nth_error l i = Some x.
Proof.
  unfold getitem. destruct (nth_error l i); split; intros H;
    try discriminate; injection H as <-; reflexivity.
Qed.

Lemma getitem_in_range {A} (l : list A) i :
  (i < List.length l)%nat -> exists x, getitem l i = Ok x.
Proof.
  intros H. unfold getitem.
  destruct (nth_error l i) eqn:E; [eauto|].
  apply nth_error_None in E. lia.
Qed.

Lemma getitem_out_of_range {A} (l : list A) i :
  (List.length l <= i)%nat -> getitem l i = Raise IndexError.
Proof.
  intros H. unfold getitem.
  destruct (nth_error l i) eqn:E; [| reflexivity].
  assert (nth_error l i <> None) by congruence.
  apply nth_error_Some in H0. lia.
Qed.

Lemma getitem_cases {A} (l : list A) i :
  (exists x, getitem l i = Ok x /\ (i < List.length l)%nat) \/
  (getitem l i = Raise IndexError /\ (List.length l <= i)%nat).
Proof.
  destruct (Nat.lt_ge_cases i (List.length l)) as [H | H].
  - left. destruct (getitem_in_range l i H) as (x & E). eauto.
  - right. split; [apply getitem_out_of_range|]; assumption.
Qed.

Lemma string_eqb_false a b : String.eqb a b = false <-> a <> b.
Proof. apply String.eqb_neq. Qed.

(** A sales-order line is passed over only when its item reference is
    blank. *)
Lemma so_line_passes_blank so_id form st i st' :
  so_line so_id form st i = Ok st' ->
  nth_error (of_item_ids form) i = Some ""%string.
Proof.
  unfold so_line. destruct st as [total d]. intros H.
  apply bind_ok in H as (item & Hitem & H).
  apply getitem_ok in Hitem.
  destruct (String.eqb_spec item "") as [-> | _]; [exact Hitem|].
  apply bind_ok in H as (q & _ & H).
  apply bind_ok in H as (r & _ & H).
  apply bind_ok in H as (dsc & _ & H).
  apply bind_ok in H as (x & Hx & _). discriminate Hx.
Qed.

Lemma so_loop_passes_blank so_id form idx : forall st st',
  for_each (so_line so_id form) idx st = Ok st' ->
  forall i, In i idx -> nth_error (of_item_ids form) i = Some ""%string.
Proof.
  induction idx as [| j idx IH]; cbn [for_each]; intros st st' H i Hi;
    [contradiction|].
  apply bind_ok in H as (st1 & Hstep & H).
  destruct Hi as [<- | Hi].
  - eapply so_line_passes_blank; eassumption.
  - eapply IH; eassumption.
Qed.

Lemma all_blank (l : list string) :
  (forall i, In i (range (List.length l)) -> nth_error l i = Some ""%string) ->
  Forall (fun item => item = ""%string) l.
Proof.
  intros H. apply Forall_forall. intros x Hx.
  apply In_nth_error in Hx as (i & Hi).
  assert (Hlt : (i < List.length l)%nat).
  { apply nth_error_Some. congruence. }
  specialize (H i). unfold range in H. rewrite in_seq in H.
  rewrite H in Hi by lia. congruence.
Qed.

(** *** The purchase-order loop *)

Lemma po_line_cases id form st i :
  (i < List.length (pf_item_ids form))%nat ->
  (exists st', po_line id form st i = Ok st' /\ line_complete form i) \/
  (po_line id form st i = Raise IndexError /\ ~ line_complete form i).
Proof.
  intros Hi. unfold po_line. destruct st as [t d].
  destruct (getitem_in_range _ _ Hi) as (item & Hitem).
  rewrite Hitem. cbn [bind]. apply getitem_ok in Hitem.
  destruct (String.eqb_spec item "") as [-> | Hne].
  { left. eexists. split; [reflexivity|].
    intros item' E Hne'. congruence. }
  destruct (getitem_cases (pf_qtys form) i) as [(q & -> & Hq) | [-> Hq]];
    cbn [bind];
    [| right; split; [reflexivity|];
       intros C; destruct (C item Hitem Hne) as (? & ? & ? & ?); lia].
  destruct (getitem_cases (pf_rates form) i) as [(r & -> & Hr) | [-> Hr]];
    cbn [bind];
    [| right; split; [reflexivity|];
       intros C; destruct (C item Hitem Hne) as (? & ? & ? & ?); lia].
  destruct (getitem_cases (pf_discounts form) i) as [(x & -> & Hx) | [-> Hx]];
    cbn [bind];
    [| right; split; [reflexivity|];
       intros C; destruct (C item Hitem Hne) as (? & ? & ? & ?); lia].
  destruct (getitem_cases (pf_gst_rates form) i) as [(g & -> & Hg) | [-> Hg]];
    cbn [bind];
    [| right; split; [reflexivity|];
       intros C; destruct (C item Hitem Hne) as (? & ? & ? & ?); lia].
  left. eexists. split; [reflexivity|].
  intros item' _ _. repeat split; assumption.
Qed.

Lemma po_loop_cases id form idx : forall st,
  (forall i, In i idx -> (i < List.length (pf_item_ids form))%nat) ->
  (exists st', for_each (po_line id form) idx st = Ok st' /\
               forall i, In i idx -> line_complete form i) \/
  (for_each (po_line id form) idx st = Raise IndexError /\
   exists i, In i idx /\ ~ line_complete form i).
Proof.
  induction idx as [| j idx IH]; cbn [for_each]; intros st Hidx.
  - left. eexists. split; [reflexivity|]. intros i [].
  - destruct (po_line_cases id form st j (Hidx j (or_introl eq_refl)))
      as [(st1 & -> & Hc) | [-> Hc]]; cbn [bind].
    + destruct (IH st1 (fun i Hi => Hidx i (or_intror Hi)))
        as [(st' & -> & Hall) | (-> & i & Hi & Hbad)].
      * left. eexists. split; [reflexivity|].
        intros i [<- | Hi]; auto.
      * right. split; [reflexivity|]. exists i. split; [right|]; assumption.
    + right. split; [reflexivity|]. exists j. split; [left; reflexivity | exact Hc].
Qed.

Lemma complete_lines_range form :
  complete_lines form <->
  forall i, In i (range (List.length (pf_item_ids form))) -> line_complete form i.
Proof.
  split.
  - intros C i _. exact (C i).
  - intros C i item Hitem Hne.
    assert (Hi : In i (range (List.length (pf_item_ids form)))).
    { unfold range. apply in_seq.
      assert (i < List.length (pf_item_ids form))%nat
        by (apply nth_error_Some; congruence).
      lia. }
    exact (C i Hi item Hitem Hne).
Qed.

Lemma po_loop_result id form st :
  (exists st', for_each (po_line id form)
                 (range (List.length (pf_item_ids form))) st = Ok st' /\
               complete_lines form) \/
  (for_each (po_line id form)
     (range (List.length (pf_item_ids form))) st = Raise IndexError /\
   ~ complete_lines form).
Proof.
  destruct (po_loop_cases id form (range (List.length (pf_item_ids form))) st)
    as [(st' & E & Hall) | (E & i & Hi & Hbad)].
  - intros i Hi. unfold range in Hi. apply in_seq in Hi. lia.
  - left. exists st'. split; [exact E|]. apply complete_lines_range. exact Hall.
  - right. split; [exact E|]. intros C. apply Hbad.
    apply (proj1 (complete_lines_range form) C). exact Hi.
Qed.

End LineLoopFacts.

(** X4.  A sales order is never saved with lines: whenever the create
    route, or the edit route on a stored order, completes, every submitted
    item reference was blank.  (A line with an item reference calls
    [calculate_line] with three arguments, and that name is bound to the
    four-parameter function of line 2098.) *)
Theorem sales_order_saved_without_lines :
  forall form,
    (exists now d r, Handlers.salesorder_new now form d = Ok r) \/
    (exists id d d',
        In id (map Db.so_id (Db.sales_orders d)) /\
        Handlers.salesorder_edit id form d = Ok d') ->
    Forall (fun item => item = ""%string) (Handlers.of_item_ids form).
Proof.
  intros form [(now & d & [[id no] d'] & H) | (id & d & d' & Hin & H)];
    apply LineLoopFacts.all_blank.
  - unfold Handlers.salesorder_new in H.
    apply NumberFacts.bind_ok in H as ([id1 d1] & _ & H).
    apply NumberFacts.bind_ok in H as (d2 & _ & H).
    apply NumberFacts.bind_ok in H as ([total d3] & Hloop & _).
    eapply LineLoopFacts.so_loop_passes_blank. exact Hloop.
  - unfold Handlers.salesorder_edit in H.
    assert (Ex : existsb (fun r => Db.so_id r =? id) (Db.sales_orders d) = true).
    { apply in_map_iff in Hin as (r & Er & Hr).
      apply existsb_exists. exists r. split; [exact Hr|].
      apply Z.eqb_eq. exact Er. }
    rewrite Ex in H. cbn [negb] in H.
    apply NumberFacts.bind_ok in H as ([total d3] & Hloop & _).
    eapply LineLoopFacts.so_loop_passes_blank. exact Hloop.
Qed.

Lemma sales_order_saved_without_lines_witness :
  Forall (fun item => item = ""%string)
         (Handlers.of_item_ids Examples.order_without_lines).
Proof.
  apply sales_order_saved_without_lines. left.
  exists Examples.jan5, Db.empty. eexists. vm_compute. reflexivity.
Defined.

(** X5.  Creating a purchase order completes exactly when every submitted
    line that carries an item reference also has a quantity, a rate, a
    discount and a tax rate at its position; whatever the texts are, no
    parse can fail.  Otherwise the request raises [IndexError] and nothing
    is committed.  The same holds for the edit of a stored purchase
    order. *)
Theorem po_completes_iff_lines_complete :
  forall now id form d,
    (Lifecycle.complete_lines form <->
     exists r, Handlers.po_new now form d = Ok r) /\
    (~ Lifecycle.complete_lines form ->
     Handlers.po_new now form d = Raise IndexError) /\
    (In id (map Db.po_id (Db.purchase_orders d)) ->
     (Lifecycle.complete_lines form <->
      exists d', Handlers.po_edit id form d = Ok d') /\
     (~ Lifecycle.complete_lines form ->
      Handlers.po_edit id form d = Raise IndexError)).
Proof.
  intros now id form d.
  assert (Hnew :
            (Lifecycle.complete_lines form /\
             exists r, Handlers.po_new now form d = Ok r) \/
            (~ Lifecycle.complete_lines form /\
             Handlers.po_new now form d = Raise IndexError)).
  { unfold Handlers.po_new.
    destruct (Db.insert_purchase_order_placeholder _ _ _ d) as [po_id d1].
    match goal with
    | |- context [for_each (Handlers.po_line po_id form) _ ?st] =>
        destruct (LineLoopFacts.po_loop_result po_id form st)
          as [([t d2] & -> & C) | (-> & C)]
    end; cbn [bind].
    - left. split; [exact C | eauto].
    - right. split; [exact C | reflexivity]. }
  split; [| split].
  - destruct Hnew as [(C & r & E) | (C & E)]; split; intros H; eauto.
    + contradiction.
    + destruct H as (r & Er). congruence.
  - intros C. destruct Hnew as [(C' & _) | (_ & E)]; [contradiction | exact E].
  - intros Hin.
    assert (Ex : existsb (fun r => Db.po_id r =? id) (Db.purchase_orders d) = true).
    { apply in_map_iff in Hin as (r & Er & Hr).
      apply existsb_exists. exists r. split; [exact Hr|].
      apply Z.eqb_eq. exact Er. }
    unfold Handlers.po_edit. rewrite Ex. cbn [negb].
    match goal with
    | |- context [for_each (Handlers.po_line id form) _ ?st] =>
        destruct (LineLoopFacts.po_loop_result id form st)
          as [([t d2] & -> & C) | (-> & C)]
    end; cbn [bind].
    + split; [split; eauto | contradiction].
    + split; [split; [contradiction | intros (d' & E); discriminate E]
             | reflexivity].
Qed.

(** ** Numbers after a deletion *)

Module RenumberFacts.
Import Db Handlers Deletes Totals Lifecycle NumberFacts TotalsFacts ReachFacts
       LifecycleFacts RoundTripFacts.

Lemma count_so_app prefix d rows seq items :
  count_so_no_like prefix
    {| sales_orders := rows; sales_orders_seq := seq;
       sales_order_items := items;
       sales_invoices := sales_invoices d;
       sales_invoices_seq := sales_invoices_seq d;
       sales_invoice_items := sales_invoice_items d;
       purchase_orders := purchase_orders d;
       purchase_orders_seq := purchase_orders_seq d;
       purchase_order_items := purchase_order_items d |}
  = Z.of_nat (List.length
       (filter (fun r => match so_no r with
                         | Some s => PyStr.like_prefix prefix s
                         | None => false
                         end) rows)).
Proof. reflexivity. Qed.

Lemma count_rows_app {R} (p : R -> bool) rows row :
  Z.of_nat (List.length (filter p (rows ++ [row])))
  = Z.of_nat (List.length (filter p rows)) + (if p row then 1 else 0).
Proof.
  rewrite filter_app, length_app. cbn [filter].
  destruct (p row); cbn [List.length]; lia.
Qed.

(** What a completed [salesorder_new] found in the table. *)
Lemma salesorder_new_pre now form d r :
  salesorder_new now form d = Ok r ->
  of_customer_id form <> None /\
  existsb (fun r => opt_eqb (so_no r) "") (sales_orders d) = false.
Proof.
  intros H. unfold salesorder_new in H.
  apply bind_ok in H as ([id1 d1] & Hins & _).
  unfold insert_sales_order_placeholder in Hins.
  destruct (of_customer_id form); [| discriminate].
  destruct (existsb _ (sales_orders d)); [discriminate|].
  split; [discriminate | reflexivity].
Qed.

(** A new order whose number is already taken is refused by the [UNIQUE]
    constraint on [so_no]. *)
Lemma so_new_collides now form d row :
  let prefix := "SO" ++ strftime_Ymd now ++ "-" in
  of_customer_id form <> None ->
  existsb (fun r => opt_eqb (so_no r) "") (sales_orders d) = false ->
  In row (sales_orders d) ->
  so_no row = Some (prefix ++ fmt_05d (count_so_no_like prefix d + 1)) ->
  salesorder_new now form d = Raise IntegrityError.
Proof.
  intros prefix Hc Hex Hin Hno. unfold salesorder_new.
  unfold insert_sales_order_placeholder.
  destruct (of_customer_id form) as [c |]; [| congruence].
  rewrite Hex. cbn [bind].
  set (id1 := next_id (sales_orders_seq d) (map so_id (sales_orders d))).
  fold prefix.
  rewrite count_so_app, count_rows_app. cbn [so_no].
  rewrite like_prefix_empty by (unfold prefix; discriminate).
  rewrite Z.add_0_r.
  change (Z.of_nat (List.length (filter _ (sales_orders d))))
    with (count_so_no_like prefix d).
  replace ("SO" ++ strftime_Ymd now ++ "-"
             ++ fmt_05d (count_so_no_like prefix d + 1))
    with (prefix ++ fmt_05d (count_so_no_like prefix d + 1))
    by (unfold prefix; rewrite !string_append_assoc; reflexivity).
  set (no := prefix ++ fmt_05d (count_so_no_like prefix d + 1)) in *.
  unfold update_so_no. cbn [sales_orders].
  assert (E1 : existsb (fun r => so_id r =? id1)
                 (sales_orders d ++
                  [{| so_id := id1; so_customer_id := Some c;
                      so_no := Some "";
                      so_date := if falsy (of_date form)
                                 then Some (strftime_Y_m_d now)
                                 else of_date form;
                      so_expected_delivery_date :=
                        of_expected_delivery_date form;
                      so_notes := of_notes form;
                      so_total := PInt 0; so_grand_total := PInt 0 |}])
               = true).
  { rewrite existsb_app. cbn [existsb so_id]. rewrite Z.eqb_refl.
    apply orb_true_r. }
  rewrite E1. cbn [andb so_no_taken sales_orders].
  assert (E2 : existsb (fun r => negb (so_id r =? id1) && opt_eqb (so_no r) no)
                 (sales_orders d ++
                  [{| so_id := id1; so_customer_id := Some c;
                      so_no := Some "";
                      so_date := if falsy (of_date form)
                                 then Some (strftime_Y_m_d now)
                                 else of_date form;
                      so_expected_delivery_date :=
                        of_expected_delivery_date form;
                      so_notes := of_notes form;
                      so_total := PInt 0; so_grand_total := PInt 0 |}])
               = true).
  { rewrite existsb_app. apply orb_true_iff. left.
    apply existsb_exists. exists row. split; [exact Hin|].
    apply andb_true_iff. split.
    - apply negb_true_iff. apply Z.eqb_neq. unfold id1.
      apply fresh_headers. exact Hin.
    - rewrite Hno. cbn [opt_eqb]. apply String.eqb_refl. }
  rewrite E2. reflexivity.
Qed.

End RenumberFacts.

(** X6.  Deleting an earlier sales order of the day blocks the numbering
    for that day: after two orders were created on the same date and the
    first of them was deleted, every further creation on that date raises
    [IntegrityError], because the count-based sequence now repeats the
    number of the second order and [so_no] is [UNIQUE]. *)
Theorem so_number_blocked_after_delete :
  forall now f1 f2 f3 d id1 no1 d1 id2 no2 d2,
    Handlers.salesorder_new now f1 d = Ok (id1, no1, d1) ->
    Handlers.salesorder_new now f2 d1 = Ok (id2, no2, d2) ->
    Handlers.of_customer_id f3 <> None ->
    Handlers.salesorder_new now f3 (Deletes.salesorder_delete id1 d2)
      = Raise IntegrityError.
Proof.
  intros now f1 f2 f3 d id1 no1 d1 id2 no2 d2 H1 H2 Hc.
  destruct (RenumberFacts.salesorder_new_pre _ _ _ _ H1) as [_ Hex].
  destruct (NumberFacts.salesorder_new_rows _ _ _ _ _ _ H1)
    as (Hno1 & Hid1 & row1 & Hrows1 & Hrid1 & Hrno1 & _ & _ & Hit1 & Hseq1).
  destruct (NumberFacts.salesorder_new_rows _ _ _ _ _ _ H2)
    as (Hno2 & Hid2 & row2 & Hrows2 & Hrid2 & Hrno2 & _ & _ & Hit2 & Hseq2).
  cbv zeta in Hno1, Hno2.
  set (prefix := "SO" ++ Handlers.strftime_Ymd now ++ "-") in *.
  assert (Hne : id2 <> id1).
  { rewrite Hid2, Hseq1.
    pose proof (NumberFacts.next_id_above id1 (map Db.so_id (Db.sales_orders d1))).
    lia. }
  assert (Hrows3 : Db.sales_orders (Deletes.salesorder_delete id1 d2)
                   = (Db.sales_orders d ++ [row2])%list).
  { unfold Deletes.salesorder_delete.
    cbn [Db.with_sales_orders Db.delete_sales_order_items
         Db.with_sales_order_items Db.sales_orders].
    rewrite Hrows2, Hrows1, !filter_app.
    rewrite (RoundTripFacts.filter_other_all Db.so_id)
      by (rewrite Hid1; apply RoundTripFacts.fresh_headers).
    rewrite (RoundTripFacts.filter_other_none Db.so_id id1 [row1])
      by (intros r [<- | []]; exact Hrid1).
    rewrite (RoundTripFacts.filter_other_all Db.so_id id1 [row2])
      by (intros r [<- | []]; rewrite Hrid2; exact Hne).
    rewrite app_nil_r. reflexivity. }
  assert (Hcount1 : Db.count_so_no_like prefix d1
                    = Db.count_so_no_like prefix d + 1).
  { unfold Db.count_so_no_like. rewrite Hrows1.
    rewrite RenumberFacts.count_rows_app. rewrite Hrno1, Hno1.
    rewrite NumberFacts.like_prefix_app. reflexivity. }
  assert (Hcount3 : Db.count_so_no_like prefix (Deletes.salesorder_delete id1 d2)
                    = Db.count_so_no_like prefix d + 1).
  { unfold Db.count_so_no_like. rewrite Hrows3.
    rewrite RenumberFacts.count_rows_app. rewrite Hrno2, Hno2.
    rewrite NumberFacts.like_prefix_app. reflexivity. }
  apply (RenumberFacts.so_new_collides now f3 _ row2).
  - exact Hc.
  - rewrite Hrows3, existsb_app, Hex. cbn [existsb orb].
    rewrite Hrno2, Hno2. cbn [Db.opt_eqb]. rewrite orb_false_r.
    apply String.eqb_neq. unfold prefix. discriminate.
  - rewrite Hrows3. apply in_or_app. right. left. reflexivity.
  - fold prefix. rewrite Hrno2, Hno2, Hcount3, Hcount1.
    do 3 f_equal. lia.
Qed.

(** Two orders on 5 January, the first deleted, a third attempted. *)
Lemma so_number_blocked_after_delete_witness :
  exists d1 d2,
    Handlers.salesorder_new Examples.jan5 Examples.order_without_lines Db.empty
      = Ok (1, "SO20250105-00001", d1) /\
    Handlers.salesorder_new Examples.jan5 Examples.order_without_lines d1
      = Ok (2, "SO20250105-00002", d2) /\
    Handlers.salesorder_new Examples.jan5 Examples.order_without_lines
      (Deletes.salesorder_delete 1 d2) = Raise IntegrityError.
Proof.
  do 2 eexists. split; [vm_compute; reflexivity|].
  split; [vm_compute; reflexivity|].
  eapply (so_number_blocked_after_delete Examples.jan5
            Examples.order_without_lines Examples.order_without_lines
            Examples.order_without_lines Db.empty).
  - vm_compute. reflexivity.
  - vm_compute. reflexivity.
  - discriminate.
Defined.

Module PoNumberFacts.
Import Db Handlers Deletes Totals Lifecycle NumberFacts TotalsFacts ReachFacts
       LifecycleFacts RoundTripFacts RenumberFacts.

Lemma count_po_rows prefix d :
  count_po_no_like prefix d
  = Z.of_nat (List.length
       (filter (fun r => match po_no r with
                         | Some s => PyStr.like_prefix prefix s
                         | None => false
                         end) (purchase_orders d))).
Proof. reflexivity. Qed.

(** An automatically numbered purchase order raises the day's count by
    one. *)
Lemma po_new_counted now form d id no d' :
  let prefix := "PO" ++ strftime_Ymd now ++ "-" in
  falsy (pf_po_no form) = true ->
  po_new now form d = Ok (id, no, d') ->
  no = Some (prefix ++ fmt_05d (count_po_no_like prefix d + 1)) /\
  count_po_no_like prefix d' = count_po_no_like prefix d + 1.
Proof.
  intros prefix Hf H.
  destruct (po_new_rows _ _ _ _ _ _ H)
    as (Hno & _ & _ & _ & row & rows & Hh & _ & Hrno & _).
  cbv zeta in Hno. fold prefix in Hno. rewrite Hf in Hno.
  split; [exact Hno|].
  rewrite !count_po_rows, Hh, count_rows_app, Hrno, Hno.
  rewrite like_prefix_app. reflexivity.
Qed.

End PoNumberFacts.

(** X7.  A purchase order created without a number is stored under
    ['PO' + YYYYMMDD + '-' + sequence], the sequence padded with zeros to at
    least five digits and equal to one plus the count of stored purchase
    orders whose number is [LIKE 'PO' + YYYYMMDD + '-%']; creating it raises
    that count by one.  A submitted number is stored as it is.  The number
    reported back is the one in the stored header. *)
Theorem po_number_assigned :
  forall now form d id no d',
    Handlers.po_new now form d = Ok (id, no, d') ->
    let prefix := "PO" ++ Handlers.strftime_Ymd now ++ "-" in
    no = (if Handlers.falsy (Handlers.pf_po_no form)
          then Some (prefix
                       ++ Handlers.fmt_05d (Db.count_po_no_like prefix d + 1))
          else Handlers.pf_po_no form) /\
    (exists row, In row (Db.purchase_orders d') /\
                 Db.po_id row = id /\ Db.po_no row = no) /\
    (Handlers.falsy (Handlers.pf_po_no form) = true ->
     Db.count_po_no_like prefix d' = Db.count_po_no_like prefix d + 1).
Proof.
  intros now form d id no d' H prefix.
  destruct (LifecycleFacts.po_new_rows _ _ _ _ _ _ H)
    as (Hno & _ & _ & _ & row & rows & Hh & Hrid & Hrno & _).
  split; [exact Hno|]. split.
  - exists row. rewrite Hh. split; [| split; assumption].
    apply in_or_app. right. left. reflexivity.
  - intros Hf.
    exact (proj2 (PoNumberFacts.po_new_counted now form d id no d' Hf H)).
Qed.

Lemma po_number_assigned_witness :
  exists d',
    Handlers.po_new Examples.jan5 Examples.purchase_two_lines Db.empty
      = Ok (1, Some "PO20250105-00001", d') /\
    Db.count_po_no_like "PO20250105-" d' = 1.
Proof.
  eexists. split; [vm_compute; reflexivity|].
  destruct (po_number_assigned Examples.jan5 Examples.purchase_two_lines
              Db.empty 1 (Some "PO20250105-00001") _
              ltac:(vm_compute; reflexivity)) as (_ & _ & C).
  exact (C eq_refl).
Defined.

(** X8.  Purchase-order numbers are not protected against reuse: after
    two automatically numbered orders were created on the same date and the
    first of them was deleted, the next automatically numbered order of that
    date is stored under the number of the second one, so two stored
    purchase orders carry the same number. *)
Theorem po_number_repeats_after_delete :
  forall now f1 f2 f3 d id1 no1 d1 id2 no2 d2 id3 no3 d3,
    Handlers.falsy (Handlers.pf_po_no f1) = true ->
    Handlers.falsy (Handlers.pf_po_no f2) = true ->
    Handlers.falsy (Handlers.pf_po_no f3) = true ->
    Handlers.po_new now f1 d = Ok (id1, no1, d1) ->
    Handlers.po_new now f2 d1 = Ok (id2, no2, d2) ->
    Handlers.po_new now f3 (Deletes.po_delete id1 d2) = Ok (id3, no3, d3) ->
    no3 = no2 /\ id3 <> id2 /\
    exists r2 r3,
      In r2 (Db.purchase_orders d3) /\ In r3 (Db.purchase_orders d3) /\
      Db.po_id r2 = id2 /\ Db.po_id r3 = id3 /\
      Db.po_no r2 = no2 /\ Db.po_no r3 = no2.
Proof.
  intros now f1 f2 f3 d id1 no1 d1 id2 no2 d2 id3 no3 d3 F1 F2 F3 H1 H2 H3.
  set (prefix := "PO" ++ Handlers.strftime_Ymd now ++ "-").
  destruct (PoNumberFacts.po_new_counted now f1 d id1 no1 d1 F1 H1)
    as [Hno1 Hc1].
  destruct (PoNumberFacts.po_new_counted now f2 d1 id2 no2 d2 F2 H2)
    as [Hno2 Hc2].
  destruct (PoNumberFacts.po_new_counted now f3 _ id3 no3 d3 F3 H3)
    as [Hno3 _].
  fold prefix in Hno1, Hc1, Hno2, Hc2, Hno3.
  destruct (LifecycleFacts.po_new_rows _ _ _ _ _ _ H1)
    as (_ & Hid1 & _ & _ & row1 & rows1 & Hh1 & Hrid1 & Hrno1 & _).
  destruct (LifecycleFacts.po_new_rows _ _ _ _ _ _ H2)
    as (_ & Hid2 & _ & _ & row2 & rows2 & Hh2 & Hrid2 & Hrno2 & _).
  destruct (LifecycleFacts.po_new_rows _ _ _ _ _ _ H3)
    as (_ & Hid3 & _ & _ & row3 & rows3 & Hh3 & Hrid3 & Hrno3 & _).
  assert (Hne : id2 <> id1).
  { assert (id1 < id2); [| lia].
    rewrite Hid2. apply NumberFacts.next_id_fresh.
    rewrite Hh1, map_app. apply in_or_app. right. left. exact Hrid1. }
  assert (Hrows : Db.purchase_orders (Deletes.po_delete id1 d2)
                  = (Db.purchase_orders d ++ [row2])%list).
  { unfold Deletes.po_delete.
    cbn [Db.with_purchase_orders Db.delete_purchase_order_items
         Db.with_purchase_order_items Db.purchase_orders].
    rewrite Hh2, Hh1, !filter_app.
    rewrite (RoundTripFacts.filter_other_all Db.po_id)
      by (rewrite Hid1; apply RoundTripFacts.fresh_headers).
    rewrite (RoundTripFacts.filter_other_none Db.po_id id1 [row1])
      by (intros r [<- | []]; exact Hrid1).
    rewrite (RoundTripFacts.filter_other_all Db.po_id id1 [row2])
      by (intros r [<- | []]; rewrite Hrid2; exact Hne).
    rewrite app_nil_r. reflexivity. }
  assert (Hcount : Db.count_po_no_like prefix (Deletes.po_delete id1 d2)
                   = Db.count_po_no_like prefix d + 1).
  { rewrite !PoNumberFacts.count_po_rows, Hrows, RenumberFacts.count_rows_app.
    rewrite Hrno2, Hno2, NumberFacts.like_prefix_app. reflexivity. }
  assert (E : no3 = no2).
  { rewrite Hno3, Hno2, Hcount, Hc1. reflexivity. }
  split; [exact E|]. split.
  - assert (id2 < id3); [| lia].
    rewrite Hid3. apply NumberFacts.next_id_fresh.
    rewrite Hrows, map_app. apply in_or_app. right. left. exact Hrid2.
  - exists row2, row3. rewrite Hh3, Hrows.
    repeat split; try assumption.
    + apply in_or_app. left. apply in_or_app. right. left. reflexivity.
    + apply in_or_app. right. left. reflexivity.
    + rewrite Hrno3. exact E.
Qed.

Lemma po_number_repeats_after_delete_witness :
  exists d1 d2 d3,
    Handlers.po_new Examples.jan5 Examples.purchase_two_lines Db.empty
      = Ok (1, Some "PO20250105-00001", d1) /\
    Handlers.po_new Examples.jan5 Examples.purchase_two_lines d1
      = Ok (2, Some "PO20250105-00002", d2) /\
    Handlers.po_new Examples.jan5 Examples.purchase_two_lines
      (Deletes.po_delete 1 d2) = Ok (3, Some "PO20250105-00002", d3) /\
    (3 <> 2).
Proof.
  do 3 eexists. split; [vm_compute; reflexivity|].
  split; [vm_compute; reflexivity|].
  split; [vm_compute; reflexivity|].
  destruct (po_number_repeats_after_delete Examples.jan5
              Examples.purchase_two_lines Examples.purchase_two_lines
              Examples.purchase_two_lines Db.empty
              1 (Some "PO20250105-00001") _ 2 (Some "PO20250105-00002") _
              3 (Some "PO20250105-00002") _
              eq_refl eq_refl eq_refl
              ltac:(vm_compute; reflexivity) ltac:(vm_compute; reflexivity)
              ltac:(vm_compute; reflexivity)) as (_ & C & _).
  exact C.
Defined.

(** ** Totals are not below zero *)

Module SignFacts.
Import B64 FloatPred FloatFacts Db Handlers Totals NumberFacts TotalsFacts
       ReachFacts LifecycleFacts RoundTripFacts.

Lemma not_ltb_nonneg_sign f : B64.ltb f B64.zero = false -> nonneg_sign f.
Proof.
  destruct f as [s | [|] | | [|] m e]; cbn; auto; discriminate.
Qed.

Lemma add_nonneg_sign a b :
  nonneg_sign a -> nonneg_sign b -> nonneg_sign (B64.add a b).
Proof.
  unfold B64.add, SFadd.
  destruct a as [sa | sa | | sa ma ea], b as [sb | sb | | sb mb eb];
    cbn [nonneg_sign]; intros Ha Hb; subst; cbn [Bool.eqb nonneg_sign];
    auto.
  - destruct sa, sb; exact I.
  - cbn [cond_Zopp]. apply binary_normalize_sign. lia.
Qed.

Lemma of_Z_nonneg_sign z : 0 <= z -> nonneg_sign (B64.of_Z z).
Proof. intros H. apply binary_normalize_sign. exact H. Qed.

Lemma num_nonneg_sign x :
  PyNum.ltb x (PInt 0) = false -> nonneg_sign (PyNum.to_float x).
Proof.
  destruct x as [z | f]; cbn [PyNum.ltb PyNum.to_float]; intros H.
  - apply of_Z_nonneg_sign. apply Z.ltb_ge. exact H.
  - apply not_ltb_nonneg_sign. exact H.
Qed.

Lemma add_not_below a b :
  PyNum.ltb a (PInt 0) = false -> PyNum.ltb b (PInt 0) = false ->
  PyNum.ltb (PyNum.add a b) (PInt 0) = false.
Proof.
  intros Ha Hb.
  assert (Hf : PyNum.ltb (PFloat (B64.add (PyNum.to_float a) (PyNum.to_float b)))
                         (PInt 0) = false).
  { rewrite LineFacts.ltb_float_zero. apply nonneg_sign_not_ltb.
    apply add_nonneg_sign; apply num_nonneg_sign; assumption. }
  destruct a as [x | fa], b as [y | fb]; try exact Hf.
  cbn [PyNum.add PyNum.ltb] in *.
  apply Z.ltb_ge. apply Z.ltb_ge in Ha, Hb. lia.
Qed.

Lemma invoice_total_not_below form idx : forall t lis t' lis',
  for_each (invoice_line form) idx (t, lis) = Ok (t', lis') ->
  PyNum.ltb t (PInt 0) = false -> PyNum.ltb t' (PInt 0) = false.
Proof.
  induction idx as [| i idx IH]; cbn [for_each]; intros t lis t' lis' H Ht.
  - injection H as <- <-. exact Ht.
  - apply bind_ok in H as ([t1 lis1] & Hstep & H).
    apply (IH _ _ _ _ H).
    unfold invoice_line in Hstep.
    apply bind_ok in Hstep as (q & _ & Hstep).
    apply bind_ok in Hstep as (qty & _ & Hstep).
    apply bind_ok in Hstep as (r & _ & Hstep).
    apply bind_ok in Hstep as (rate & _ & Hstep).
    apply bind_ok in Hstep as (dsc & _ & Hstep).
    apply bind_ok in Hstep as (disc & _ & Hstep).
    apply bind_ok in Hstep as (item & _ & Hstep).
    injection Hstep as <- <-.
    apply add_not_below; [exact Ht | apply LineFacts.max_zero_not_below].
Qed.

Lemma po_total_not_below id form idx : forall t d t' d',
  for_each (po_line id form) idx (t, d) = Ok (t', d') ->
  PyNum.ltb (t_total t) (PInt 0) = false ->
  PyNum.ltb (t_total t') (PInt 0) = false.
Proof.
  induction idx as [| i idx IH]; cbn [for_each]; intros t d t' d' H Ht.
  - injection H as <- <-. exact Ht.
  - apply bind_ok in H as ([t1 d1] & Hstep & H).
    apply (IH _ _ _ _ H).
    unfold po_line in Hstep.
    apply bind_ok in Hstep as (item & _ & Hstep).
    destruct (String.eqb item "").
    + injection Hstep as <- <-. exact Ht.
    + apply bind_ok in Hstep as (q & _ & Hstep).
      apply bind_ok in Hstep as (r & _ & Hstep).
      apply bind_ok in Hstep as (dsc & _ & Hstep).
      apply bind_ok in Hstep as (g & _ & Hstep).
      apply bind_ok in Hstep as (l & Hl & Hstep).
      injection Hstep as <- <-. cbn [t_total].
      injection Hl as <-.
      apply add_not_below; [exact Ht | apply LineFacts.max_zero_not_below].
Qed.

(** The [total] column of the header a completed [po_new] wrote. *)
Lemma po_new_total now form d id no d' h :
  po_new now form d = Ok (id, no, d') ->
  In h (purchase_orders d') -> po_id h = id ->
  PyNum.ltb (po_total h) (PInt 0) = false.
Proof.
  intros H Hh Eh. unfold po_new in H.
  unfold insert_purchase_order_placeholder in H.
  set (id0 := next_id (purchase_orders_seq d) (map po_id (purchase_orders d))) in *.
  apply bind_ok in H as ([t d1] & Hloop & H).
  injection H as <- <- <-.
  pose proof (po_total_not_below _ _ _ _ _ _ _ Hloop eq_refl) as Ht.
  apply po_lines_spec in Hloop as (rows & _ & Hpo' & _).
  cbn [update_po_totals with_purchase_orders purchase_orders] in Hh.
  apply in_map_iff in Hh as (r & Er & Hr).
  destruct (Z.eqb_spec (po_id r) id0) as [E | E].
  - subst h. exact Ht.
  - subst h. contradiction.
Qed.

Lemma po_edit_total id form d d' h :
  po_edit id form d = Ok d' ->
  In id (map po_id (purchase_orders d)) ->
  In h (purchase_orders d') -> po_id h = id ->
  PyNum.ltb (po_total h) (PInt 0) = false.
Proof.
  intros H Hin Hh Eh. unfold po_edit in H.
  assert (Ex : existsb (fun r => po_id r =? id) (purchase_orders d) = true).
  { apply in_map_iff in Hin as (r & Er & Hr).
    apply existsb_exists. exists r. split; [exact Hr|].
    apply Z.eqb_eq. exact Er. }
  rewrite Ex in H. cbn [negb] in H.
  apply bind_ok in H as ([t d1] & Hloop & H). injection H as <-.
  pose proof (po_total_not_below _ _ _ _ _ _ _ Hloop eq_refl) as Ht.
  cbn [update_purchase_order with_purchase_orders purchase_orders] in Hh.
  apply in_map_iff in Hh as (r & Er & Hr).
  destruct (Z.eqb_spec (po_id r) id) as [E | E].
  - subst h. exact Ht.
  - subst h. contradiction.
Qed.

End SignFacts.

(** X9.  Whatever quantities, rates and discounts are submitted, the
    [total] and [grand_total] stored for a saved sales invoice are not below
    zero: every line contributes [max(..., 0)]. *)
Theorem invoice_total_not_negative :
  forall now d form id id' d' h,
    Handlers.save_invoice now d form id = Ok (id', d') ->
    In h (Db.sales_invoices d') -> Db.si_id h = id' ->
    PyNum.ltb (Db.si_total h) (PInt 0) = false /\
    PyNum.ltb (Db.si_grand_total h) (PInt 0) = false.
Proof.
  intros now d form id id' d' h H Hh Eh.
  destruct (LifecycleFacts.save_invoice_rows _ _ _ _ _ _ H)
    as (no & total & lis & Hloop & _ & _ & Hrows).
  pose proof (SignFacts.invoice_total_not_below _ _ _ _ _ _ Hloop eq_refl)
    as Ht.
  destruct id as [i |].
  - destruct Hrows as (-> & _ & _ & Htot & _).
    destruct (Htot h Hh Eh) as [-> ->]. split; exact Ht.
  - destruct Hrows as (Hid & row & Hrows & Hrid & _ & Et & Eg & _).
    rewrite Hrows in Hh. apply in_app_or in Hh as [Hh | [<- | []]].
    + exfalso. rewrite Hid in Eh.
      exact (RoundTripFacts.fresh_headers Db.si_id _ _ h Hh Eh).
    + rewrite Et, Eg. split; exact Ht.
Qed.

Lemma invoice_total_not_negative_witness :
  exists d' h,
    Handlers.save_invoice Examples.jan5 Db.empty
      (Examples.invoice_numbered None) None = Ok (1, d') /\
    Db.sales_invoices d' = [h] /\
    PyNum.ltb (Db.si_grand_total h) (PInt 0) = false.
Proof.
  do 2 eexists. split; [vm_compute; reflexivity|].
  split; [vm_compute; reflexivity|].
  refine (proj2 (invoice_total_not_negative Examples.jan5 Db.empty
                   (Examples.invoice_numbered None) None 1 _ _
                   ltac:(vm_compute; reflexivity) _ _)).
  - vm_compute. left. reflexivity.
  - reflexivity.
Defined.

(** X10.  The [total] stored for a purchase order, the sum of the lines'
    net amounts, is not below zero after a create or after an edit of a
    stored order, whatever is submitted.  The same does not hold for
    [grand_total]: a negative tax rate takes it below zero. *)
Theorem po_net_total_not_negative :
  (forall now form d id no d' h,
      Handlers.po_new now form d = Ok (id, no, d') ->
      In h (Db.purchase_orders d') -> Db.po_id h = id ->
      PyNum.ltb (Db.po_total h) (PInt 0) = false) /\
  (forall id form d d' h,
      Handlers.po_edit id form d = Ok d' ->
      In id (map Db.po_id (Db.purchase_orders d)) ->
      In h (Db.purchase_orders d') -> Db.po_id h = id ->
      PyNum.ltb (Db.po_total h) (PInt 0) = false) /\
  (exists d' h,
      Handlers.po_new Examples.jan5 Examples.purchase_negative_tax Db.empty
        = Ok (1, Some "PO20250105-00001", d') /\
      Db.purchase_orders d' = [h] /\
      PyNum.ltb (Db.po_grand_total h) (PInt 0) = true).
Proof.
  split; [| split].
  - intros. eapply SignFacts.po_new_total; eassumption.
  - intros. eapply SignFacts.po_edit_total; eassumption.
  - do 2 eexists. split; [vm_compute; reflexivity|].
    split; vm_compute; reflexivity.
Qed.

(** ** Walking the pages of a listing *)

Module WalkFacts.
Import Listing Listings ListingFacts.

Section Rows.

Variable row : Type.

Lemma firstn_add (a b : nat) (l : list row) :
  firstn (a + b) l = (firstn a l ++ firstn b (skipn a l))%list.
Proof.
  rewrite <- (firstn_skipn a (firstn (a + b) l)) at 1.
  rewrite firstn_firstn, Nat.min_l by lia.
  rewrite <- firstn_skipn_comm. reflexivity.
Qed.

(** Page [k + 1] of a listing with [c >= 1] rows per page. *)
Lemma page_rows (c : Z) (k : nat) (l : list row) :
  1 <= c ->
  window row c ((Z.of_nat (S k) - 1) * c) l
  = firstn (Z.to_nat c) (skipn (k * Z.to_nat c) l).
Proof.
  intros Hc. unfold window.
  assert (Hlim : (c <? 0) = false) by (apply Z.ltb_ge; lia).
  rewrite Hlim. do 2 f_equal. nia.
Qed.

Lemma walk_from (c : Z) (l : list row) (n : nat) :
  1 <= c ->
  List.concat (map (fun p => window row c ((Z.of_nat p - 1) * c) l)
                   (seq 1 n))
  = firstn (n * Z.to_nat c) l.
Proof.
  intros Hc. induction n as [| n IH].
  - reflexivity.
  - rewrite seq_S, map_app, concat_app, IH. cbn [map List.concat].
    rewrite app_nil_r. change (1 + n)%nat with (S n).
    rewrite (page_rows c n l Hc).
    replace (S n * Z.to_nat c)%nat with (n * Z.to_nat c + Z.to_nat c)%nat by lia.
    symmetry. apply firstn_add.
Qed.

(** Fetching the pages [1 .. pages] in turn shows every row once, in
    order, as soon as [pages * c] reaches the number of rows and every one
    of these pages is answered. *)
Lemma walk_all (fetch : Z -> list row) (c pages : Z) (l : list row) :
  1 <= c -> Z.of_nat (List.length l) <= pages * c ->
  (forall p, 1 <= p <= pages -> fetch p = window row c ((p - 1) * c) l) ->
  walk row fetch pages = l.
Proof.
  intros Hc Hp Hfetch. unfold walk.
  rewrite (map_ext_in _ (fun p => window row c ((Z.of_nat p - 1) * c) l)).
  - rewrite (walk_from c l _ Hc). apply firstn_all2. nia.
  - intros p Hin. apply in_seq in Hin. apply Hfetch. lia.
Qed.

Lemma window_size (c off : Z) (l : list row) :
  0 <= c -> Z.of_nat (List.length (window row c off l)) <= c.
Proof.
  intros Hc. unfold window.
  assert (Hlim : (c <? 0) = false) by (apply Z.ltb_ge; lia).
  rewrite Hlim. rewrite length_firstn. lia.
Qed.

(** A page that is answered holds at most [c] rows. *)
Lemma page_size (c off : Z) (l rows : list row) :
  0 <= c -> limit_offset row c off l = Ok rows ->
  Z.of_nat (List.length rows) <= c.
Proof.
  intros Hc H. unfold limit_offset in H.
  destruct (int64 c && int64 off); [| discriminate].
  injection H as <-. apply window_size. exact Hc.
Qed.

Lemma ceil_covers (total c : Z) :
  1 <= c -> total <= (total + c - 1) / c * c.
Proof.
  intros Hc. rewrite ceil_alt by lia.
  pose proof (ceil_bounds total c ltac:(lia)). lia.
Qed.

(** The pages up to the last one that holds rows are all answered. *)
Lemma walked_page_bound (c pages p : Z) (l : list row) :
  1 <= c <= 9223372036854775807 ->
  Z.of_nat (List.length l) <= 9223372036854775807 ->
  (pages - 1) * c <= Z.of_nat (List.length l) ->
  1 <= p <= pages ->
  limit_offset row c ((p - 1) * c) l = Ok (window row c ((p - 1) * c) l).
Proof.
  intros Hc Hl Hpages Hp.
  apply limit_offset_bound; apply int64_true; [lia|].
  assert (0 <= (p - 1) * c) by nia.
  assert ((p - 1) * c <= (pages - 1) * c) by nia.
  lia.
Qed.

(** What a listing shows, whether it was answered or not, fits the page. *)
Lemma shown_size (c off : Z) (l : list row)
      (k : list row -> result (page_view row)) :
  0 <= c ->
  (forall rows v, k rows = Ok v -> pv_rows row v = rows) ->
  Z.of_nat (List.length (shown row (bind (limit_offset row c off l) k))) <= c.
Proof.
  intros Hc Hk.
  destruct (limit_offset row c off l) as [rows | e] eqn:E; cbn [bind shown];
    [| cbn; lia].
  destruct (k rows) as [v | e] eqn:Ek; cbn [shown]; [| cbn; lia].
  rewrite (Hk rows v Ek). exact (page_size c off l rows Hc E).
Qed.

End Rows.

End WalkFacts.

(** X11.  With a page size from one up to the largest signed 64-bit
    integer and no more matching rows than that, fetching the pages
    [1 .. pages] of a listing in turn, [pages] being the page count the
    listing announces, shows every matching row exactly once and in order,
    and no page holds more than [per_page] rows.  This holds for the
    customer, supplier and item listings, for the sales-order listing (page
    size 10) and, over the invoices whose customer exists, for the
    sales-invoice listing (page size 20). *)
Theorem listing_walk_shows_all :
  forall (row : Type) (has_customer : row -> bool)
         (matching : list row) (per_page : Z),
    1 <= per_page <= 9223372036854775807 ->
    Z.of_nat (List.length matching) <= 9223372036854775807 ->
    Listings.walk row
      (fun p => Listings.shown row (Listing.customer_list row matching per_page p))
      (Listings.announced row (Listing.customer_list row matching per_page 1))
      = matching /\
    Listings.walk row
      (fun p => Listings.shown row (Listing.supplier_list row matching per_page p))
      (Listings.announced row (Listing.supplier_list row matching per_page 1))
      = matching /\
    Listings.walk row
      (fun p => Listings.shown row (Listings.items_list row matching per_page p))
      (Listings.announced row (Listings.items_list row matching per_page 1))
      = matching /\
    Listings.walk row
      (fun p => Listings.shown row (Listings.salesorder_list row matching p))
      (Listings.announced row (Listings.salesorder_list row matching 1))
      = matching /\
    Listings.walk row
      (fun p => Listings.shown row
                  (Listings.salesinvoice_list row has_customer matching p))
      (Listings.announced row
         (Listings.salesinvoice_list row has_customer matching 1))
      = filter has_customer matching /\
    (forall p,
        Z.of_nat (List.length
          (Listings.shown row (Listing.customer_list row matching per_page p)))
        <= per_page /\
        Z.of_nat (List.length
          (Listings.shown row (Listing.supplier_list row matching per_page p)))
        <= per_page /\
        Z.of_nat (List.length
          (Listings.shown row (Listings.items_list row matching per_page p)))
        <= per_page /\
        Z.of_nat (List.length
          (Listings.shown row (Listings.salesorder_list row matching p)))
        <= 10 /\
        Z.of_nat (List.length
          (Listings.shown row
             (Listings.salesinvoice_list row has_customer matching p)))
        <= 20).
Proof.
  intros row has_customer matching per_page Hpp Hlen.
  assert (Hnz : (per_page =? 0) = false) by (apply Z.eqb_neq; lia).
  set (total := Z.of_nat (List.length matching)) in *.
  assert (Ht : 0 <= total) by (unfold total; lia).
  pose proof (ListingFacts.ceil_bounds total per_page ltac:(lia)) as [B1 B].
  pose proof (ListingFacts.ceil_alt total per_page ltac:(lia)) as Halt.
  pose proof (WalkFacts.ceil_covers total per_page ltac:(lia)) as B2.
  pose proof (ListingFacts.ceil_bounds total 10 ltac:(lia)) as [C1 _].
  pose proof (ListingFacts.ceil_alt total 10 ltac:(lia)) as Calt.
  pose proof (WalkFacts.ceil_covers total 10 ltac:(lia)) as C2.
  pose proof (filter_length_le has_customer matching) as Hfl.
  pose proof (ListingFacts.ceil_bounds total 20 ltac:(lia)) as [D1 _].
  pose proof (ListingFacts.ceil_alt total 20 ltac:(lia)) as Dalt.
  pose proof (WalkFacts.ceil_covers total 20 ltac:(lia)) as D2.
  assert (Hfirst : forall c l, 1 <= c <= 9223372036854775807 ->
            Listing.limit_offset row c ((1 - 1) * c) l
            = Ok (Listing.window row c ((1 - 1) * c) l)).
  { intros c l Hc.
    apply ListingFacts.limit_offset_bound; apply ListingFacts.int64_true; lia. }
  unfold Listing.customer_list, Listing.supplier_list, Listings.items_list,
    Listings.salesorder_list, Listings.salesinvoice_list, Listing.floordiv.
  rewrite Hnz. cbn [bind]. fold total.
  rewrite !Hfirst by lia.
  cbn [bind Listings.announced Listing.pv_pages].
  split; [| split; [| split; [| split; [| split]]]].
  - apply (WalkFacts.walk_all row _ per_page); [lia | fold total; nia |].
    intros p Hp.
    rewrite (WalkFacts.walked_page_bound row per_page
               (Z.max 1 (- (- total / per_page))) p matching);
      [reflexivity | lia | exact Hlen | fold total; nia | exact Hp].
  - apply (WalkFacts.walk_all row _ per_page); [lia | fold total; exact B2 |].
    intros p Hp.
    rewrite (WalkFacts.walked_page_bound row per_page
               ((total + per_page - 1) / per_page) p matching);
      [reflexivity | lia | exact Hlen | fold total; rewrite Halt; nia | exact Hp].
  - apply (WalkFacts.walk_all row _ per_page); [lia | fold total; nia |].
    intros p Hp.
    rewrite (WalkFacts.walked_page_bound row per_page
               (Z.max 1 (- (- total / per_page))) p matching);
      [reflexivity | lia | exact Hlen | fold total; nia | exact Hp].
  - apply (WalkFacts.walk_all row _ 10); [lia | fold total; exact C2 |].
    intros p Hp.
    rewrite (WalkFacts.walked_page_bound row 10
               ((total + 10 - 1) / 10) p matching);
      [reflexivity | lia | exact Hlen | fold total; rewrite Calt; lia | exact Hp].
  - apply (WalkFacts.walk_all row _ 20); [lia | lia |].
    intros p Hp.
    destruct (Z_le_gt_dec ((p - 1) * 20)
                (Z.of_nat (List.length (filter has_customer matching))))
      as [Hin | Hout].
    + rewrite ListingFacts.limit_offset_bound;
        [reflexivity | reflexivity | apply ListingFacts.int64_true; lia].
    + rewrite ListingFacts.limit_offset_bound;
        [reflexivity | reflexivity |].
      apply ListingFacts.int64_true. rewrite Dalt in Hp. lia.
  - intros p. repeat split.
    + apply WalkFacts.shown_size; [lia|]. intros rows v [= <-]. reflexivity.
    + apply WalkFacts.shown_size; [lia|]. intros rows v [= <-]. reflexivity.
    + apply WalkFacts.shown_size; [lia|]. intros rows v [= <-]. reflexivity.
    + apply WalkFacts.shown_size; [lia|]. intros rows v [= <-]. reflexivity.
    + apply WalkFacts.shown_size; [lia|]. intros rows v [= <-]. reflexivity.
Qed.

Lemma listing_walk_shows_all_witness :
  Listings.walk nat
    (fun p => Listings.shown nat
                (Listing.customer_list nat [1; 2; 3; 4; 5]%nat 2 p))
    (Listings.announced nat
       (Listing.customer_list nat [1; 2; 3; 4; 5]%nat 2 1))
  = [1; 2; 3; 4; 5]%nat.
Proof.
  exact (proj1 (listing_walk_shows_all nat (fun _ => true)
                  [1; 2; 3; 4; 5]%nat 2 ltac:(lia) ltac:(cbn; lia))).
Defined.

(** X12.  The page size is not checked.  A page size of zero makes the
    customer, supplier and item listings raise [ZeroDivisionError]; a
    negative page size that fits a signed 64-bit integer switches paging
    off, page 1 then returning every matching row; a page size below that
    range ends in [OverflowError] from the parameter binding. *)
Theorem listing_page_size_unchecked :
  forall (row : Type) (matching : list row) (per_page page : Z),
    (per_page = 0 ->
     Listing.customer_list row matching per_page page = Raise ZeroDivisionError /\
     Listing.supplier_list row matching per_page page = Raise ZeroDivisionError /\
     Listings.items_list row matching per_page page = Raise ZeroDivisionError) /\
    (-9223372036854775808 <= per_page < 0 ->
     Listings.shown row (Listing.customer_list row matching per_page 1) = matching /\
     Listings.shown row (Listing.supplier_list row matching per_page 1) = matching /\
     Listings.shown row (Listings.items_list row matching per_page 1) = matching) /\
    (per_page < -9223372036854775808 ->
     Listing.customer_list row matching per_page page = Raise OverflowError /\
     Listing.supplier_list row matching per_page page = Raise OverflowError /\
     Listings.items_list row matching per_page page = Raise OverflowError).
Proof.
  intros row matching per_page page. split; [| split].
  - intros ->. repeat split.
  - intros Hneg.
    assert (Hnz : (per_page =? 0) = false) by (apply Z.eqb_neq; lia).
    assert (Hlim : (per_page <? 0) = true) by (apply Z.ltb_lt; lia).
    assert (Hfetch : Listing.limit_offset row per_page ((1 - 1) * per_page) matching
                     = Ok matching).
    { rewrite ListingFacts.limit_offset_bound;
        [| apply ListingFacts.int64_true; lia
         | apply ListingFacts.int64_true; lia].
      unfold Listing.window. rewrite Hlim. reflexivity. }
    unfold Listing.customer_list, Listing.supplier_list, Listings.items_list,
      Listing.floordiv.
    rewrite Hnz. cbn [bind]. rewrite Hfetch. cbn. repeat split.
  - intros Hlow.
    assert (Hnz : (per_page =? 0) = false) by (apply Z.eqb_neq; lia).
    assert (Hfetch : Listing.limit_offset row per_page ((page - 1) * per_page)
                       matching = Raise OverflowError).
    { apply ListingFacts.limit_offset_limit_refused.
      apply ListingFacts.int64_false. left. exact Hlow. }
    unfold Listing.customer_list, Listing.supplier_list, Listings.items_list,
      Listing.floordiv.
    rewrite Hnz. cbn [bind]. rewrite Hfetch. repeat split.
Qed.

(** ** The pager line *)

Module PagerFacts.
Import Pagination.

Section Pager.

Variable s : t.
Variables le lc rc re : Z.

Lemma in_zrange lo n x : In x (zrange lo n) <-> lo <= x < lo + Z.of_nat n.
Proof.
  revert lo. induction n as [| n IH]; intros lo; cbn [zrange In].
  - lia.
  - rewrite IH. lia.
Qed.

Lemma iter_from_spec n : forall lo last,
  last < lo ->
  gapped last (iter_from s le lc rc re last (zrange lo n)) /\
  (forall x, In (Some x) (iter_from s le lc rc re last (zrange lo n)) <->
             In x (zrange lo n) /\ listed s le lc rc re x = true).
Proof.
  induction n as [| n IH]; intros lo last Hlast; cbn [zrange iter_from].
  - split; [constructor|]. intros x. cbn. tauto.
  - destruct (listed s le lc rc re lo) eqn:L.
    + destruct (IH (lo + 1) lo ltac:(lia)) as [G M].
      split.
      * destruct (Z.eqb_spec (last + 1) lo) as [E | E]; cbn [app].
        -- subst lo. apply gapped_next. exact G.
        -- apply gapped_skip; [lia | exact G].
      * intros x. rewrite in_app_iff, M. cbn [In].
        split.
        -- intros [H | H]; [| tauto].
           assert (Some lo = Some x).
           { destruct (last + 1 =? lo); cbn in H;
               destruct H as [H | H]; try discriminate; try contradiction;
               try exact H.
             destruct H as [H | []]. exact H. }
           injection H0 as <-. tauto.
        -- intros [[<- | H] Hl]; [| tauto].
           left. destruct (last + 1 =? lo); cbn; tauto.
    + destruct (IH (lo + 1) last ltac:(lia)) as [G M].
      split; [exact G|].
      intros x. rewrite M. cbn [In]. split; [tauto|].
      intros [[<- | H] Hl]; [congruence | tauto].
Qed.

End Pager.

End PagerFacts.

(** X13.  The pager line of the purchase-order listing, for every current
    page and page count and every choice of the four widths: a page number
    is listed exactly when it lies in [1 .. pages] and is among the first
    [left_edge] pages, within [left_current] before and [right_current]
    after the current page, or among the last [right_edge] pages; the
    numbers come in increasing order, and exactly one [None] stands wherever
    numbers are left out (never last, never doubled).  With [left_edge] at
    least one, as by default, the line of a non-empty listing starts with
    page 1. *)
Theorem iter_pages_line :
  forall (s : Pagination.t) (left_edge left_current right_current right_edge : Z),
    let line := Pagination.iter_pages s left_edge left_current
                                      right_current right_edge in
    Pagination.gapped 0 line /\
    (forall n,
        In (Some n) line <->
        1 <= n <= Pagination.pages s /\
        (n <= left_edge \/
         Pagination.page s - left_current <= n <= Pagination.page s + right_current \/
         Pagination.pages s - right_edge < n)) /\
    (1 <= left_edge -> 1 <= Pagination.pages s ->
     exists rest, line = Some 1 :: rest).
Proof.
  intros s le lc rc re line. unfold line, Pagination.iter_pages.
  destruct (PagerFacts.iter_from_spec s le lc rc re
              (Z.to_nat (Pagination.pages s)) 1 0 ltac:(lia)) as [G M].
  split; [exact G|]. split.
  - intros n. rewrite M, PagerFacts.in_zrange. unfold Pagination.listed.
    rewrite !orb_true_iff, andb_true_iff, !Z.leb_le, Z.gtb_lt. lia.
  - intros Hle Hp.
    destruct (Z.to_nat (Pagination.pages s)) as [| k] eqn:E; [lia|].
    cbn [Pagination.zrange Pagination.iter_from].
    assert (L : Pagination.listed s le lc rc re 1 = true).
    { unfold Pagination.listed. apply orb_true_iff. left.
      apply orb_true_iff. left. apply Z.leb_le. exact Hle. }
    rewrite L. cbn. eauto.
Qed.

(** ** The label sheet *)

Module SheetFacts.
Import Sheet.

Lemma constants : CELL_W = 452 /\ ROWS = 9 /\ per_page = 45.
Proof. repeat split. Qed.

Lemma cell_position i :
  0 <= i < per_page ->
  exists row col,
    0 <= row < 9 /\ 0 <= col < 5 /\ i = 5 * row + col /\
    cell i = (50 + col * 482, 50 + row * 360).
Proof.
  intros Hi. change per_page with 45 in Hi.
  exists (i / 5), (i mod 5).
  pose proof (Z.div_mod i 5 ltac:(lia)) as E.
  pose proof (Z.mod_pos_bound i 5 ltac:(lia)) as B.
  assert (0 <= i / 5) by (apply Z.div_pos; lia).
  assert (i / 5 < 9) by (apply Z.div_lt_upper_bound; lia).
  repeat split; lia.
Qed.

End SheetFacts.

(** X14.  On a label sheet every one of the 45 cells of a page lies
    within the page margins, two different cells of a page never overlap,
    and a text that is not wider than a cell is centred inside the cell's
    width. *)
Theorem sheet_cells_fit :
  Sheet.per_page = 45 /\
  (forall i x y,
      0 <= i < Sheet.per_page -> Sheet.cell i = (x, y) ->
      Sheet.MARGIN_X <= x /\
      x + Sheet.CELL_W <= Sheet.PAGE_W - Sheet.MARGIN_X /\
      Sheet.MARGIN_Y <= y /\
      y + Sheet.CELL_H <= Sheet.PAGE_H - Sheet.MARGIN_Y) /\
  (forall i j xi yi xj yj,
      0 <= i < Sheet.per_page -> 0 <= j < Sheet.per_page -> i <> j ->
      Sheet.cell i = (xi, yi) -> Sheet.cell j = (xj, yj) ->
      xi + Sheet.CELL_W <= xj \/ xj + Sheet.CELL_W <= xi \/
      yi + Sheet.CELL_H <= yj \/ yj + Sheet.CELL_H <= yi) /\
  (forall x w,
      0 <= w <= Sheet.CELL_W ->
      x <= Sheet.text_x x w /\ Sheet.text_x x w + w <= x + Sheet.CELL_W).
Proof.
  assert (HW : Sheet.CELL_W = 452) by reflexivity.
  split; [reflexivity|]. split; [| split].
  - intros i x y Hi E.
    destruct (SheetFacts.cell_position i Hi) as (r & c & Hr & Hc & _ & Ecell).
    rewrite Ecell in E.
    pose proof (f_equal fst E) as Ex. pose proof (f_equal snd E) as Ey.
    cbn [fst snd] in Ex, Ey. subst x y.
    rewrite HW.
    unfold Sheet.MARGIN_X, Sheet.MARGIN_Y, Sheet.CELL_H, Sheet.PAGE_W,
      Sheet.PAGE_H. lia.
  - intros i j xi yi xj yj Hi Hj Hne Ei Ej.
    destruct (SheetFacts.cell_position i Hi) as (ri & ci & Hri & Hci & Ii & Eci).
    destruct (SheetFacts.cell_position j Hj) as (rj & cj & Hrj & Hcj & Ij & Ecj).
    rewrite Eci in Ei. rewrite Ecj in Ej.
    pose proof (f_equal fst Ei) as Exi. pose proof (f_equal snd Ei) as Eyi.
    pose proof (f_equal fst Ej) as Exj. pose proof (f_equal snd Ej) as Eyj.
    cbn [fst snd] in Exi, Eyi, Exj, Eyj. subst xi yi xj yj.
    rewrite HW. unfold Sheet.CELL_H. lia.
  - intros x w Hw. unfold Sheet.text_x.
    rewrite HW in *.
    pose proof (Z.div_mod (452 - w) 2 ltac:(lia)) as E.
    pose proof (Z.mod_pos_bound (452 - w) 2 ltac:(lia)) as B. lia.
Qed.

Lemma sheet_cells_fit_witness :
  Sheet.cell 44 = (1978, 2930) /\
  1978 + Sheet.CELL_W <= Sheet.PAGE_W - Sheet.MARGIN_X /\
  2930 + Sheet.CELL_H <= Sheet.PAGE_H - Sheet.MARGIN_Y.
Proof.
  split; [reflexivity|].
  destruct sheet_cells_fit as (_ & H & _).
  destruct (H 44 1978 2930 ltac:(vm_compute; split; [discriminate | reflexivity])
              eq_refl) as (_ & A & _ & B).
  split; assumption.
Defined.

(** ** The customer and item forms *)

Module FormFacts.
Import Web Customers Items NumberFacts RoundTripFacts.

Lemma redirect_registered e :
  existsb (String.eqb e) endpoints = true -> redirect e = Done (Redirect e).
Proof. intros H. unfold redirect, url_for. rewrite H. reflexivity. Qed.

Lemma or_none_falsy v : Handlers.falsy v = true -> or_none v = None.
Proof.
  destruct v as [s |]; cbn; [| reflexivity].
  intros ->. reflexivity.
Qed.

Lemma or_none_given v :
  Handlers.falsy v = false -> exists s, v = Some s /\ or_none v = Some s /\ s <> ""%string.
Proof.
  destruct v as [s |]; cbn; [| discriminate].
  intros E. rewrite E. exists s. repeat split.
  apply String.eqb_neq. exact E.
Qed.

Lemma no_sku_taken_fresh id d :
  (forall r, In r (items d) -> it_id r <> id) ->
  forall sku, sku_taken id sku d
              = match sku with
                | None => false
                | Some s => existsb (fun r => Db.opt_eqb (it_sku r) s) (items d)
                end.
Proof.
  intros H [s |]; [| reflexivity]. cbn [sku_taken].
  induction (items d) as [| r l IH]; [reflexivity|]. cbn [existsb].
  rewrite IH by (intros x Hx; apply H; right; exact Hx).
  assert (it_id r <> id) by (apply H; left; reflexivity).
  destruct (Z.eqb_spec (it_id r) id); [contradiction|]. reflexivity.
Qed.

End FormFacts.

(** X15.  The customer form.  A new customer whose name is blank after
    stripping is not stored, but the request fails with [BuildError]: the
    redirect names the endpoint [customers_new], which is not registered.
    Any other submission stores exactly one new row, with a fresh id and
    the stripped values.  Editing an id that is not stored fails the same
    way (endpoint [customers_list]); editing a stored customer replaces its
    row by the submitted values without any check, a blank name included.
    All other endpoints that the module redirects to are registered. *)
Theorem customer_form_outcomes :
  forall form d,
    (Web.get_strip (Customers.cf_name form) "" = ""%string ->
     Customers.customer_new form d = (Web.Fails Web.BuildError, d)) /\
    (Web.get_strip (Customers.cf_name form) "" <> ""%string ->
     exists c,
       Customers.customer_new form d
       = (Web.Done (Web.Redirect "customer_list"),
          {| Customers.customers := (Customers.customers d ++ [c])%list;
             Customers.customers_seq := Customers.c_id c |}) /\
       c = Customers.row_of (Customers.c_id c) form /\
       (forall c', In c' (Customers.customers d) ->
                   Customers.c_id c' <> Customers.c_id c)) /\
    (forall id,
        ~ In id (map Customers.c_id (Customers.customers d)) ->
        Customers.customer_edit id form d = (Web.Fails Web.BuildError, d)) /\
    (forall id,
        In id (map Customers.c_id (Customers.customers d)) ->
        exists d',
          Customers.customer_edit id form d
          = (Web.Done (Web.Redirect "customer_list"), d') /\
          map Customers.c_id (Customers.customers d')
          = map Customers.c_id (Customers.customers d) /\
          forall c, In c (Customers.customers d') -> Customers.c_id c = id ->
                    c = Customers.row_of id form) /\
    (forall e, In e Web.redirect_targets ->
               e <> "customers_new"%string -> e <> "customers_list"%string ->
               Web.url_for e = Web.Done e).
Proof.
  intros form d. split; [| split; [| split; [| split]]].
  - intros E. unfold Customers.customer_new. rewrite E. reflexivity.
  - intros E. unfold Customers.customer_new.
    apply String.eqb_neq in E. rewrite E.
    exists (Customers.row_of
              (Db.next_id (Customers.customers_seq d)
                          (map Customers.c_id (Customers.customers d))) form).
    split; [reflexivity|]. split; [reflexivity|].
    intros c' Hc'. cbn [Customers.row_of Customers.c_id].
    apply RoundTripFacts.fresh_headers. exact Hc'.
  - intros id Hn. unfold Customers.customer_edit.
    destruct (existsb _ (Customers.customers d)) eqn:Ex; [| reflexivity].
    exfalso. apply Hn. apply (ReachFacts.existsb_true_in Customers.c_id).
    exact Ex.
  - intros id Hin. unfold Customers.customer_edit.
    assert (Ex : existsb (fun c => Customers.c_id c =? id)
                         (Customers.customers d) = true).
    { apply in_map_iff in Hin as (r & Er & Hr).
      apply existsb_exists. exists r. split; [exact Hr|].
      apply Z.eqb_eq. exact Er. }
    rewrite Ex. cbn [negb]. eexists. split; [reflexivity|].
    cbn [Customers.customers]. split.
    + apply (ReachFacts.map_id_update Customers.c_id). intros; reflexivity.
    + intros c Hc Ec. apply in_map_iff in Hc as (r & Er & Hr).
      destruct (Z.eqb_spec (Customers.c_id r) id) as [E | E].
      * symmetry. exact Er.
      * subst c. contradiction.
  - intros e He N1 N2. cbn in He.
    repeat (destruct He as [<- | He]; [try reflexivity; congruence|]).
    contradiction.
Qed.

Lemma customer_form_outcomes_witness :
  Customers.customer_new FormExamples.blank_customer FormExamples.no_customers
  = (Web.Fails Web.BuildError, FormExamples.no_customers).
Proof.
  exact (proj1 (customer_form_outcomes FormExamples.blank_customer
                  FormExamples.no_customers) eq_refl).
Defined.

(** X16.  The item form.  Given a name field, [item_new] never fails and
    leaves the table either untouched or longer by exactly one item, in
    which case it answers with the redirect to the item list; the stored
    item has a fresh id, the stripped and non-blank name, and a SKU that is
    never missing: the submitted one, or ['ITEM'] followed by the id padded
    to at least four digits when none was submitted. *)
Theorem item_new_outcome :
  forall form d n,
    Items.f_name form = Some n ->
    let id := Db.next_id (Items.items_seq d) (map Items.it_id (Items.items d)) in
    (exists a, Items.item_new form d = (Web.Done a, d) /\
               a <> Web.Redirect "items_list") \/
    (exists r sku,
        Items.item_new form d
        = (Web.Done (Web.Redirect "items_list"),
           {| Items.items := (Items.items d ++ [r])%list;
              Items.items_seq := id |}) /\
        Items.it_id r = id /\
        Items.it_name r = PyStr.strip n /\ Items.it_name r <> ""%string /\
        Items.it_sku r = Some sku /\ sku <> ""%string /\
        (if Handlers.falsy (Items.f_sku form)
         then sku = ("ITEM" ++ Items.fmt_04d id)%string
         else Items.f_sku form = Some sku)).
Proof.
  intros form d n Hn id. unfold Items.item_new. rewrite Hn.
  destruct (String.eqb_spec (PyStr.strip n) "") as [E | E].
  { left. eexists. split; [reflexivity | discriminate]. }
  unfold Items.item_new_statements, Items.insert_item. fold id.
  destruct (Items.sku_taken id _ d) eqn:T1; cbn [Web.then_].
  { left. eexists. split; [reflexivity | discriminate]. }
  destruct (Handlers.falsy (Items.f_sku form)) eqn:F.
  - unfold Items.update_sku.
    cbn [Items.items Items.items_seq].
    destruct (_ && _) eqn:T2.
    { left. eexists. split; [reflexivity | discriminate]. }
    right. cbn [Items.answer].
    rewrite map_app. cbn [map Items.row_of Items.it_id].
    rewrite Z.eqb_refl.
    assert (Hold : map (fun r => if Items.it_id r =? id
                                 then Items.with_sku
                                        (Some ("ITEM" ++ Items.fmt_04d id)%string) r
                                 else r) (Items.items d) = Items.items d).
    { rewrite <- (map_id (Items.items d)) at 2. apply map_ext_in.
      intros r Hr.
      pose proof (RoundTripFacts.fresh_headers Items.it_id
                    (Items.items_seq d) _ r Hr) as Hf. fold id in Hf.
      destruct (Z.eqb_spec (Items.it_id r) id); [contradiction | reflexivity]. }
    rewrite Hold.
    eexists. exists ("ITEM" ++ Items.fmt_04d id)%string.
    split; [reflexivity|]. cbn. repeat split; try assumption.
    discriminate.
  - right. cbn [Items.answer].
    destruct (FormFacts.or_none_given _ F) as (s & Es & Eo & Hs).
    eexists. exists s. split; [reflexivity|].
    cbn [Items.row_of Items.it_id Items.it_name Items.it_sku].
    repeat split; assumption.
Qed.

Lemma item_new_outcome_witness :
  exists r,
    Items.item_new (FormExamples.item_named " Silk " None) FormExamples.no_items
    = (Web.Done (Web.Redirect "items_list"),
       {| Items.items := [r]; Items.items_seq := 1 |}) /\
    Items.it_name r = "Silk"%string /\ Items.it_sku r = Some "ITEM0001"%string.
Proof.
  destruct (item_new_outcome (FormExamples.item_named " Silk " None)
              FormExamples.no_items " Silk " eq_refl)
    as [(a & E & _) | (r & sku & E & _ & _ & _ & _ & _ & _)].
  - vm_compute in E. discriminate E.
  - exists r.
    vm_compute in E. injection E as E. subst r.
    vm_compute. repeat split.
Defined.

(** X17.  An item entered by hand under the SKU that the automatic
    numbering will form for the next id blocks the form: every later
    [item_new] without a SKU shows the form again and stores nothing, and
    since nothing is stored the next attempt meets the same id. *)
Theorem item_auto_sku_blocked :
  forall form d n r,
    Items.f_name form = Some n -> PyStr.strip n <> ""%string ->
    Handlers.falsy (Items.f_sku form) = true ->
    In r (Items.items d) ->
    Items.it_sku r
    = Some ("ITEM" ++ Items.fmt_04d
              (Db.next_id (Items.items_seq d)
                          (map Items.it_id (Items.items d))))%string ->
    Items.item_new form d
    = (Web.Done (Web.Render "items/form.html" None), d).
Proof.
  intros form d n r Hn Hname F Hr Hsku.
  unfold Items.item_new. rewrite Hn.
  apply String.eqb_neq in Hname. rewrite Hname.
  unfold Items.item_new_statements, Items.insert_item.
  set (id := Db.next_id (Items.items_seq d) (map Items.it_id (Items.items d)))
    in *.
  cbn [Items.row_of Items.it_sku].
  rewrite (FormFacts.or_none_falsy _ F). cbn [Items.sku_taken Web.then_].
  rewrite F. unfold Items.update_sku. cbn [Items.items].
  assert (E1 : existsb (fun x => Items.it_id x =? id)
                 (Items.items d ++ [Items.row_of id (PyStr.strip n) form])
               = true).
  { rewrite existsb_app. cbn [existsb Items.row_of Items.it_id].
    rewrite Z.eqb_refl. apply orb_true_r. }
  rewrite E1. cbn [andb Items.sku_taken Items.items].
  assert (E2 : existsb
                 (fun x => negb (Items.it_id x =? id)
                           && Db.opt_eqb (Items.it_sku x)
                                ("ITEM" ++ Items.fmt_04d id))
                 (Items.items d ++ [Items.row_of id (PyStr.strip n) form])
               = true).
  { rewrite existsb_app. apply orb_true_iff. left.
    apply existsb_exists. exists r. split; [exact Hr|].
    apply andb_true_iff. split.
    - apply negb_true_iff, Z.eqb_neq.
      apply (RoundTripFacts.fresh_headers Items.it_id). exact Hr.
    - rewrite Hsku. cbn [Db.opt_eqb]. apply String.eqb_refl. }
  rewrite E2. reflexivity.
Qed.

Lemma item_auto_sku_blocked_witness :
  Items.item_new (FormExamples.item_named "Silk" None)
                 FormExamples.items_with_ITEM0002
  = (Web.Done (Web.Render "items/form.html" None),
     FormExamples.items_with_ITEM0002).
Proof.
  refine (item_auto_sku_blocked (FormExamples.item_named "Silk" None)
            FormExamples.items_with_ITEM0002 "Silk"
            (Items.row_of 1 "Thread"
               (FormExamples.item_named "Thread" (Some "ITEM0002")))
            eq_refl _ eq_refl _ _).
  - vm_compute. discriminate.
  - vm_compute. left. reflexivity.
  - vm_compute. reflexivity.
Defined.

(** X18.  The edit form does not number: saving a stored item with an
    empty SKU field always succeeds and leaves the item without a SKU
    ([NULL]), where the create form would have assigned one.  The name is
    stored stripped but unchecked. *)
Theorem item_edit_blank_sku :
  forall id form d n,
    In id (map Items.it_id (Items.items d)) ->
    Items.f_name form = Some n ->
    Handlers.falsy (Items.f_sku form) = true ->
    exists d',
      Items.item_edit id form d
      = (Web.Done (Web.Redirect "items_list"), d') /\
      map Items.it_id (Items.items d') = map Items.it_id (Items.items d) /\
      forall r, In r (Items.items d') -> Items.it_id r = id ->
                Items.it_sku r = None /\ Items.it_name r = PyStr.strip n.
Proof.
  intros id form d n Hin Hn F. unfold Items.item_edit.
  assert (Ex : existsb (fun r => Items.it_id r =? id) (Items.items d) = true).
  { apply in_map_iff in Hin as (r & Er & Hr).
    apply existsb_exists. exists r. split; [exact Hr|].
    apply Z.eqb_eq. exact Er. }
  rewrite Ex. cbn [negb].
  unfold Items.item_edit_statements. rewrite Hn.
  unfold Items.update_item. rewrite Ex.
  rewrite (FormFacts.or_none_falsy _ F). cbn [Items.sku_taken andb].
  eexists. split; [reflexivity|]. cbn [Items.items]. split.
  - apply (ReachFacts.map_id_update Items.it_id). intros; reflexivity.
  - intros r Hr Er. apply in_map_iff in Hr as (x & Ex' & Hx).
    destruct (Z.eqb_spec (Items.it_id x) id) as [E | E].
    + subst r. cbn [Items.row_of Items.it_sku Items.it_name].
      rewrite (FormFacts.or_none_falsy _ F). split; reflexivity.
    + subst r. contradiction.
Qed.

Lemma item_edit_blank_sku_witness :
  exists d',
    Items.item_edit 1 (FormExamples.item_named "Thread" None)
                    FormExamples.items_with_ITEM0002
    = (Web.Done (Web.Redirect "items_list"), d') /\
    forall r, In r (Items.items d') -> Items.it_id r = 1 ->
              Items.it_sku r = None /\ Items.it_name r = "Thread"%string.
Proof.
  destruct (item_edit_blank_sku 1 (FormExamples.item_named "Thread" None)
              FormExamples.items_with_ITEM0002 "Thread"
              ltac:(vm_compute; left; reflexivity) eq_refl eq_refl)
    as (d' & E & _ & H).
  exists d'. split; [exact E|]. exact H.
Defined.

(** ** Reading a sequence number back *)

Module DecodeFacts.

(** The value of a string of decimal digits. *)
Lemma digits_value_zero s :
  option_map Z.of_uint (NilEmpty.uint_of_string (String "0" s))
  = option_map Z.of_uint (NilEmpty.uint_of_string s).
Proof.
  cbn [NilEmpty.uint_of_string].
  destruct (NilEmpty.uint_of_string s) as [d |]; reflexivity.
Qed.

Lemma digits_value_zeros k s :
  option_map Z.of_uint
    (NilEmpty.uint_of_string
       (string_of_list_ascii (repeat "0"%char k) ++ s))
  = option_map Z.of_uint (NilEmpty.uint_of_string s).
Proof.
  induction k as [| k IH]; [reflexivity|].
  cbn [repeat string_of_list_ascii String.append].
  rewrite digits_value_zero. exact IH.
Qed.

Lemma digits_value_of_Z n :
  0 <= n ->
  option_map Z.of_uint (NilEmpty.uint_of_string (PyStr.of_Z n)) = Some n.
Proof.
  intros Hn. unfold PyStr.of_Z.
  destruct n as [| p | p]; [reflexivity | | lia].
  cbn [Z.to_int NilZero.string_of_int].
  assert (E : NilZero.string_of_uint (Pos.to_uint p)
              = NilEmpty.string_of_uint (Pos.to_uint p)).
  { pose proof (DecimalPos.Unsigned.to_uint_nonnil p) as Hnil.
    unfold NilZero.string_of_uint.
    destruct (Pos.to_uint p); [contradiction | reflexivity ..]. }
  rewrite E, NilEmpty.usu. cbn [option_map]. f_equal.
  unfold Z.of_uint. rewrite DecimalPos.Unsigned.of_to. reflexivity.
Qed.

Lemma zfill_value w n :
  0 <= n ->
  option_map Z.of_uint
    (NilEmpty.uint_of_string (PyStr.zfill w (PyStr.of_Z n))) = Some n.
Proof.
  intros Hn. unfold PyStr.zfill.
  rewrite digits_value_zeros. apply digits_value_of_Z. exact Hn.
Qed.

Lemma zfill_inj w n m :
  0 <= n -> 0 <= m ->
  PyStr.zfill w (PyStr.of_Z n) = PyStr.zfill w (PyStr.of_Z m) -> n = m.
Proof.
  intros Hn Hm E.
  pose proof (zfill_value w n Hn) as A.
  rewrite E, (zfill_value w m Hm) in A. congruence.
Qed.

Lemma append_inj_l (p a b : string) : (p ++ a = p ++ b)%string -> a = b.
Proof.
  induction p as [| c p IH]; cbn; intros H; [exact H|].
  injection H as H. auto.
Qed.

Lemma string_length_app (a b : string) :
  String.length (a ++ b) = (String.length a + String.length b)%nat.
Proof. induction a as [| c a IH]; cbn; [reflexivity | rewrite IH; reflexivity]. Qed.

Lemma length_zeros k :
  String.length (string_of_list_ascii (repeat "0"%char k)) = k.
Proof. induction k as [| k IH]; cbn; [reflexivity | rewrite IH; reflexivity]. Qed.

Lemma zfill_length w s : (w <= String.length (PyStr.zfill w s))%nat.
Proof.
  unfold PyStr.zfill. rewrite string_length_app, length_zeros. lia.
Qed.

End DecodeFacts.

(** X19.  The zero-padded sequence of an order number or of an automatic
    SKU determines the sequence: two numbers built with the same prefix from
    two different non-negative sequences are different, beyond 99999 (or
    9999) as well, where the field grows instead of wrapping.  The sequence
    field is at least five (four) characters long. *)
Theorem sequence_reads_back :
  forall (prefix : string) (n m : Z),
    0 <= n -> 0 <= m ->
    ((prefix ++ Handlers.fmt_05d n = prefix ++ Handlers.fmt_05d m)%string ->
     n = m) /\
    ((prefix ++ Items.fmt_04d n = prefix ++ Items.fmt_04d m)%string ->
     n = m) /\
    (5 <= String.length (Handlers.fmt_05d n))%nat /\
    (4 <= String.length (Items.fmt_04d n))%nat.
Proof.
  intros prefix n m Hn Hm. repeat split.
  - intros E. apply DecodeFacts.append_inj_l in E.
    exact (DecodeFacts.zfill_inj 5 n m Hn Hm E).
  - intros E. apply DecodeFacts.append_inj_l in E.
    exact (DecodeFacts.zfill_inj 4 n m Hn Hm E).
  - apply DecodeFacts.zfill_length.
  - apply DecodeFacts.zfill_length.
Qed.

Lemma sequence_reads_back_witness :
  Handlers.fmt_05d 100000 = "100000"%string /\
  (5 <= String.length (Handlers.fmt_05d 7))%nat.
Proof.
  split; [reflexivity|].
  exact (proj1 (proj2 (proj2 (sequence_reads_back "SO20250105-" 7 7
                                ltac:(lia) ltac:(lia))))).
Defined.

(** ** Registration and login *)

Module AuthFacts.
Import Web Auth.

Lemma find_none_existsb {A} (p : A -> bool) l :
  find p l = None -> existsb p l = false.
Proof.
  induction l as [| x l IH]; cbn; [reflexivity|].
  destruct (p x); [discriminate | exact IH].
Qed.

Lemma find_none_not_in email d :
  find_by_email email d = None -> ~ In email (map u_email (users d)).
Proof.
  unfold find_by_email. intros H Hin.
  apply in_map_iff in Hin as (u & Eu & Hu).
  pose proof (find_none _ _ H u Hu) as N. cbn in N.
  rewrite Eu, String.eqb_refl in N. discriminate.
Qed.

Lemma find_last {A} (p : A -> bool) l x :
  find p l = None -> p x = true -> find p (l ++ [x]) = Some x.
Proof.
  induction l as [| y l IH]; cbn; intros H Hx.
  - rewrite Hx. reflexivity.
  - destruct (p y); [discriminate|]. auto.
Qed.

Section Library.

Variable generate_password_hash : string -> result string.

(** The outcomes of [register]. *)
Lemma register_cases form d :
  (exists msg, register generate_password_hash form d
               = (Done (Render "register.html" (Some msg)), d)) \/
  (exists e, register generate_password_hash form d
             = (Fails (LibraryError e), d) /\
             exists p, rf_password form = Some p /\
                       generate_password_hash p = Raise e) \/
  (exists u p,
      register generate_password_hash form d
      = (Done (Redirect "login"),
         {| users := (users d ++ [u])%list; users_seq := u_id u |}) /\
      u_id u = Db.next_id (users_seq d) (map u_id (users d)) /\
      u_name u = get_strip (rf_name form) "" /\ u_name u <> ""%string /\
      u_email u = get_strip (rf_email form) "" /\ u_email u <> ""%string /\
      rf_password form = Some p /\ rf_confirm form = Some p /\
      p <> ""%string /\
      generate_password_hash p = Ok (u_password_hash u) /\
      find_by_email (u_email u) d = None).
Proof.
  unfold register.
  destruct (String.eqb_spec (get_strip (rf_name form) "") "") as [En | En];
    cbn [orb]; [left; eexists; reflexivity|].
  destruct (String.eqb_spec (get_strip (rf_email form) "") "") as [Ee | Ee];
    cbn [orb]; [left; eexists; reflexivity|].
  destruct (rf_password form) as [p |]; [| left; eexists; reflexivity].
  destruct (String.eqb_spec p "") as [Ep | Ep]; cbn [orb]; [left; eexists; reflexivity|].
  destruct (rf_confirm form) as [c |]; [| left; eexists; reflexivity].
  destruct (String.eqb_spec c "") as [Ec | Ec]; cbn [orb]; [left; eexists; reflexivity|].
  destruct (String.eqb_spec p c) as [Epc | Epc]; cbn [negb]; [| left; eexists; reflexivity].
  subst c.
  destruct (find_by_email _ d) eqn:Ef; [left; eexists; reflexivity|].
  destruct (generate_password_hash p) as [h | e] eqn:Eg; cbn [library].
  - right. right. unfold insert_user.
    rewrite (find_none_existsb _ _ Ef).
    exists {| u_id := Db.next_id (users_seq d) (map u_id (users d));
              u_name := get_strip (rf_name form) "";
              u_email := get_strip (rf_email form) "";
              u_password_hash := h |}, p.
    split; [reflexivity|]. cbn [u_id u_name u_email u_password_hash].
    repeat split; try assumption; reflexivity.
  - right. left. exists e. split; [reflexivity|]. eauto.
Qed.

End Library.

End AuthFacts.

(** X20.  Registration.  A submission is stored only when name and e-mail
    are non-blank after stripping, the password is non-empty and equal to
    its confirmation and the e-mail is not registered yet; then exactly one
    user is added, with a fresh id, under the stripped name and e-mail and
    the hash the library returned.  Every other submission is answered with
    the form and a message and changes nothing.  The [UNIQUE] constraint on
    the e-mail is never hit: the only failure is one of the hashing call
    itself.  E-mail addresses that were pairwise different stay so. *)
Theorem register_outcome :
  forall (generate_password_hash : string -> result string) form d,
    Auth.emails_unique d ->
    let r := Auth.register generate_password_hash form d in
    Auth.emails_unique (snd r) /\
    ((exists msg, r = (Web.Done (Web.Render "register.html" (Some msg)), d)) \/
     (exists e p, r = (Web.Fails (Web.LibraryError e), d) /\
                  generate_password_hash p = Raise e) \/
     (exists u p,
         r = (Web.Done (Web.Redirect "login"),
              {| Auth.users := (Auth.users d ++ [u])%list;
                 Auth.users_seq := Auth.u_id u |}) /\
         (forall u', In u' (Auth.users d) ->
                     Auth.u_id u' <> Auth.u_id u /\
                     Auth.u_email u' <> Auth.u_email u) /\
         Auth.u_name u = Web.get_strip (Auth.rf_name form) "" /\
         Auth.u_name u <> ""%string /\
         Auth.u_email u = Web.get_strip (Auth.rf_email form) "" /\
         Auth.u_email u <> ""%string /\
         Auth.rf_password form = Some p /\ Auth.rf_confirm form = Some p /\
         p <> ""%string /\
         generate_password_hash p = Ok (Auth.u_password_hash u))).
Proof.
  intros gen form d Hu r. unfold r.
  destruct (AuthFacts.register_cases gen form d)
    as [(msg & E) | [(e & E & p & _ & Eg) | (u & p & E & Hid & Hn & Hn0 & He
                                             & He0 & Hp & Hc & Hp0 & Hg & Hf)]];
    rewrite E; cbn [snd].
  - split; [exact Hu|]. left. eauto.
  - split; [exact Hu|]. right. left. eauto.
  - split.
    + unfold Auth.emails_unique. cbn [Auth.users]. rewrite map_app.
      cbn [map]. apply NoDup_app; [exact Hu | | ].
      * constructor; [intros [] | constructor].
      * intros x Hx [<- | []].
        exact (AuthFacts.find_none_not_in _ _ Hf Hx).
    + right. right. exists u, p. split; [reflexivity|].
      repeat split; try assumption.
      * rewrite Hid. apply (RoundTripFacts.fresh_headers Auth.u_id).
        assumption.
      * intros Ee. apply (AuthFacts.find_none_not_in _ _ Hf).
        rewrite <- Ee. apply in_map. assumption.
Qed.

Lemma register_outcome_witness :
  Auth.emails_unique
    (snd (Auth.register FormExamples.tag_hash FormExamples.registration
            FormExamples.no_users)) /\
  Auth.register FormExamples.tag_hash FormExamples.registration
    FormExamples.no_users
  = (Web.Done (Web.Redirect "login"),
     {| Auth.users := [{| Auth.u_id := 1; Auth.u_name := "Asha";
                          Auth.u_email := "asha@example.com";
                          Auth.u_password_hash := "tag$s3cret" |}];
        Auth.users_seq := 1 |}).
Proof.
  split; [| vm_compute; reflexivity].
  exact (proj1 (register_outcome FormExamples.tag_hash
                  FormExamples.registration FormExamples.no_users
                  (NoDup_nil _))).
Defined.

(** X21.  A registered user can log in, provided the library accepts the
    hash it produced: after a registration that was stored, logging in with
    the stripped e-mail and the same password redirects to the dashboard and
    opens a session for the new user; with that session a view wrapped in
    [login_required] runs and [home] leads to the dashboard, and after
    [logout] the same view answers with the redirect to the login page. *)
Theorem login_after_register :
  forall (generate_password_hash : string -> result string)
         (check_password_hash : string -> string -> result bool)
         form d d' s0,
    (forall p h, generate_password_hash p = Ok h ->
                 check_password_hash h p = Ok true) ->
    Auth.register generate_password_hash form d
      = (Web.Done (Web.Redirect "login"), d') ->
    exists id,
      let s := Some (id, Web.get_strip (Auth.rf_name form) "") in
      Auth.login check_password_hash
        {| Auth.lf_email := Some (Web.get_strip (Auth.rf_email form) "");
           Auth.lf_password := Auth.rf_password form |} d' s0
      = (Web.Done (Web.Redirect "dashboard"), s) /\
      Auth.home s = Web.Done (Web.Redirect "dashboard") /\
      (forall (A : Type) (view : A -> Web.outcome Web.response) (a : A),
          Auth.login_required view s a = view a /\
          Auth.login_required view (snd (Auth.logout s)) a
          = Web.Done (Web.Redirect "login")).
Proof.
  intros gen chk form d d' s0 Hlib H.
  destruct (AuthFacts.register_cases gen form d)
    as [(msg & E) | [(e & E & _) | (u & p & E & Hid & Hn & Hn0 & He
                                    & He0 & Hp & Hc & Hp0 & Hg & Hf)]];
    rewrite E in H; try discriminate.
  injection H as <-.
  exists (Auth.u_id u). cbv zeta. split; [| split].
  - unfold Auth.login. cbn [Auth.lf_email Auth.lf_password].
    rewrite Hp. unfold Auth.find_by_email. cbn [Auth.users].
    rewrite <- He.
    rewrite (AuthFacts.find_last _ _ u Hf (String.eqb_refl _)).
    rewrite (Hlib p _ Hg). cbn [Auth.library]. rewrite Hn. reflexivity.
  - reflexivity.
  - intros A view a. split; reflexivity.
Qed.

Lemma login_after_register_witness :
  exists id,
    Auth.login FormExamples.tag_check
      {| Auth.lf_email := Some "asha@example.com"%string;
         Auth.lf_password := Some "s3cret"%string |}
      (snd (Auth.register FormExamples.tag_hash FormExamples.registration
              FormExamples.no_users)) None
    = (Web.Done (Web.Redirect "dashboard"), Some (id, "Asha"%string)).
Proof.
  destruct (login_after_register FormExamples.tag_hash FormExamples.tag_check
              FormExamples.registration FormExamples.no_users
              (snd (Auth.register FormExamples.tag_hash
                      FormExamples.registration FormExamples.no_users))
              None
              ltac:(intros p h [= <-]; unfold FormExamples.tag_check;
                    rewrite String.eqb_refl; reflexivity)
              ltac:(vm_compute; reflexivity)) as (id & E & _).
  exists id. exact E.
Defined.


(** X22.  On amounts that are not negative the fallback converter always
    returns: for [0 <= n < 10^(7k+3)] it needs no more than [k + 2] nested
    calls, so 46 frames suffice for every integer part a binary64 amount
    can have (below [10^309]), far within the interpreter's recursion
    limit. *)
Theorem words_converter_returns :
  forall (k fuel : nat) (n : Z),
    (k + 2 <= fuel)%nat -> 0 <= n < 1000 * 10000000 ^ Z.of_nat k ->
    exists w, Words._inr_number_to_words fuel n = Ok w.
Proof.
  intros k fuel n Hf Hn. exact (WordsTotal.number_to_words_ok k fuel n Hf Hn).
Qed.

Lemma words_converter_returns_witness :
  exists w, Words._inr_number_to_words 3 12345678 = Ok w.
Proof.
  apply (words_converter_returns 1 3 12345678); [lia|].
  split; [lia | reflexivity].
Defined.

Example words_converter_value :
  Words._inr_number_to_words 3 12345678
  = Ok "one crore twenty three lakh forty five thousand six hundred seventy eight"%string.
Proof. vm_compute. reflexivity. Qed.

(** ** The ceiling of a rounded quotient *)

Module CeilFacts.
Import B64 PyMath FloatFacts FloatValid.

Lemma shr_1_fields m r s :
  0 <= m ->
  shr_1 {| shr_m := m; shr_r := r; shr_s := s |}
  = {| shr_m := m / 2; shr_r := Z.odd m; shr_s := r || s |}.
Proof.
  intros Hm. destruct m as [| [p | p |] | p]; try lia; cbn [shr_1].
  - reflexivity.
  - f_equal. rewrite (Pos2Z.inj_xI p).
    apply (Z.div_unique _ 2 _ 1); lia.
  - f_equal. rewrite (Pos2Z.inj_xO p).
    apply (Z.div_unique _ 2 _ 0); lia.
  - reflexivity.
Qed.

Lemma loc_of_record_of_loc m l :
  loc_of_shr_record (shr_record_of_loc m l) = l.
Proof. destruct l as [| [| |]]; reflexivity. Qed.

Lemma round_up_needs_round_bit m m' r s :
  round_nearest_even m
    (loc_of_shr_record {| shr_m := m'; shr_r := r; shr_s := s |}) = m \/
  (round_nearest_even m
     (loc_of_shr_record {| shr_m := m'; shr_r := r; shr_s := s |}) = m + 1 /\
   r = true).
Proof. destruct r, s; cbn; auto. destruct (Z.even m); auto. Qed.

Lemma round_up_above_half m m' :
  round_nearest_even m
    (loc_of_shr_record {| shr_m := m'; shr_r := true; shr_s := true |}) = m + 1.
Proof. reflexivity. Qed.

Lemma new_location_exact m r : new_location m r = loc_Exact -> r = 0.
Proof.
  unfold new_location, new_location_even, new_location_odd.
  destruct r as [| p | p]; [reflexivity | |];
    destruct (Z.even m); cbn; discriminate.
Qed.

Lemma Zdigits2_lt q t : 0 <= t -> 0 < q < 2 ^ t -> Zdigits2 q <= t.
Proof.
  intros Ht [Hq Hlt]. pose proof (Zdigits2_bounds q Hq) as [Hl _].
  destruct (Z_le_gt_dec (Zdigits2 q) t) as [|Hgt]; [assumption|]. exfalso.
  assert (2 ^ t <= 2 ^ (Zdigits2 q - 1)) by (apply Z.pow_le_mono_r; lia). lia.
Qed.

(** The ceiling of [v / d]. *)
Lemma neg_div_neg v d K : 0 < d -> (K - 1) * d < v <= K * d -> - ((- v) / d) = K.
Proof.
  intros Hd H. assert (E : (- v) / d = - K); [|lia].
  symmetry. apply (Z.div_unique _ d _ (K * d - v)); lia.
Qed.

Lemma ceil_finite m t K :
  0 <= t -> (K - 1) * 2 ^ t < Zpos m <= K * 2 ^ t ->
  ceil (S754_finite false m (- t)) = Ok K.
Proof.
  intros Ht H. unfold ceil. f_equal.
  destruct t as [| p | p]; try lia; cbn [Z.opp].
  - rewrite Z.pow_0_r in *. lia.
  - change (Z.neg m) with (- Z.pos m).
    apply neg_div_neg; [apply Z.pow_pos_nonneg; lia | exact H].
Qed.

Lemma binary_round_aux_eq sx mx ex lx :
  binary_round_aux prec emax sx mx ex lx
  = let r1 := shr_fexp prec emax mx ex lx in
    let r2 := shr_fexp prec emax
                (round_nearest_even (shr_m (fst r1)) (loc_of_shr_record (fst r1)))
                (snd r1) loc_Exact in
    match shr_m (fst r2) with
    | 0 => S754_zero sx
    | Zpos m => if snd r2 <=? emax - prec then S754_finite sx m (snd r2)
                else S754_infinity sx
    | Zneg _ => S754_nan
    end.
Proof.
  unfold binary_round_aux.
  destruct (shr_fexp prec emax mx ex lx) as [mrs1 e1]. cbn [fst snd].
  destruct (shr_fexp prec emax _ e1 loc_Exact) as [mrs2 e2]. reflexivity.
Qed.

Lemma fexp_normal d e : -1074 <= d + e - 53 -> fexp prec emax (d + e) = d + e - 53.
Proof. unfold fexp, emin, prec, emax. lia. Qed.

(** The second rounding step leaves a 53-bit mantissa as it is, or halves
    [2^53]; either way the ceiling is the one of [m2 * 2^(-t)]. *)
Lemma ceil_renormalised m2 t K :
  2 ^ 52 <= m2 <= 2 ^ 53 -> 0 <= t <= 1074 -> K < 2 ^ 53 ->
  (K - 1) * 2 ^ t < m2 <= K * 2 ^ t ->
  let r2 := shr_fexp prec emax m2 (- t) loc_Exact in
  ceil match shr_m (fst r2) with
       | 0 => S754_zero false
       | Zpos m => if snd r2 <=? emax - prec then S754_finite false m (snd r2)
                   else S754_infinity false
       | Zneg _ => S754_nan
       end = Ok K.
Proof.
  intros Hm Ht HK HKm. cbv zeta. unfold shr_fexp.
  assert (P52 : 2 ^ 52 = 4503599627370496) by reflexivity.
  assert (P53 : 2 ^ 53 = 9007199254740992) by reflexivity.
  destruct (Z.eq_dec m2 (2 ^ 53)) as [E | NE].
  - assert (Hd : Zdigits2 m2 = 54) by (rewrite E; reflexivity).
    rewrite Hd, fexp_normal by lia.
    replace (54 + - t - 53 - - t) with 1 by lia.
    cbn [shr iter_pos fst snd shr_record_of_loc].
    rewrite shr_1_fields by lia. cbn [shr_m].
    assert (Hh : m2 / 2 = 2 ^ 52).
    { rewrite E, P53, P52. reflexivity. }
    rewrite Hh, P52.
    replace (- t + 1 <=? emax - prec) with true
      by (symmetry; apply Z.leb_le; unfold emax, prec; lia).
    destruct (Z.eq_dec t 0) as [-> | Ht0].
    + exfalso. rewrite Z.pow_0_r in HKm. lia.
    + replace (- t + 1) with (- (t - 1)) by lia.
      apply ceil_finite; [lia|].
      assert (E2 : 2 ^ t = 2 * 2 ^ (t - 1)).
      { rewrite <- Z.pow_succ_r by lia. f_equal. lia. }
      rewrite E2, E, P53 in HKm. lia.
  - assert (Hd : Zdigits2 m2 = 53).
    { apply Zdigits2_unique; [lia|]. change (53 - 1) with 52. lia. }
    rewrite Hd, fexp_normal by lia.
    replace (53 + - t - 53 - - t) with 0 by lia.
    cbn [shr fst snd]. rewrite shr_record_of_loc_m.
    destruct m2 as [| p | p]; try lia.
    replace (- t <=? emax - prec) with true
      by (symmetry; apply Z.leb_le; unfold emax, prec; lia).
    apply ceil_finite; [lia | exact HKm].
Qed.

(** Rounding the quotient [q * 2^(-s)], of 53 or 54 bits, does not move it
    across an integer [K] it does not exceed, nor down to [K - 1]. *)
Lemma ceil_rounded q s l K :
  1 <= s <= 1074 -> 2 ^ 52 <= q < 2 ^ 54 -> K < 2 ^ 53 ->
  (K - 1) * 2 ^ s < q <= K * 2 ^ s ->
  (l <> loc_Exact -> q < K * 2 ^ s) ->
  (l = loc_Exact -> q <> (K - 1) * 2 ^ s + 1) ->
  ceil (binary_round_aux prec emax false q (- s) l) = Ok K.
Proof.
  intros Hs Hq HK HKq Hin Hex.
  assert (P52 : 2 ^ 52 = 4503599627370496) by reflexivity.
  assert (P53 : 2 ^ 53 = 9007199254740992) by reflexivity.
  assert (P54 : 2 ^ 54 = 18014398509481984) by reflexivity.
  assert (H2s : 0 < 2 ^ s) by (apply Z.pow_pos_nonneg; lia).
  rewrite binary_round_aux_eq.
  destruct (Z_lt_le_dec q (2 ^ 53)) as [Hlt | Hge].
  - (* 53 bits: no shift *)
    assert (Hd : Zdigits2 q = 53).
    { apply Zdigits2_unique; [lia|]. change (53 - 1) with 52. lia. }
    assert (E1 : shr_fexp prec emax q (- s) l = (shr_record_of_loc q l, - s)).
    { unfold shr_fexp. rewrite Hd, fexp_normal by lia.
      replace (53 + - s - 53 - - s) with 0 by lia. reflexivity. }
    rewrite E1. cbv zeta. cbn [fst snd].
    rewrite shr_record_of_loc_m, loc_of_record_of_loc.
    apply (ceil_renormalised (round_nearest_even q l) s K); [| lia | exact HK |].
    + pose proof (round_nearest_even_range q l) as [-> | ->]; lia.
    + pose proof (round_nearest_even_range q l) as [E | E]; rewrite E; [lia|].
      assert (l <> loc_Exact).
      { intros ->. cbn in E. lia. }
      specialize (Hin H). lia.
  - (* 54 bits: one shift *)
    assert (Hd : Zdigits2 q = 54).
    { apply Zdigits2_unique; [lia|]. change (54 - 1) with 53. lia. }
    assert (E1 : shr_fexp prec emax q (- s) l
                 = (shr_1 (shr_record_of_loc q l), - s + 1)).
    { unfold shr_fexp. rewrite Hd, fexp_normal by lia.
      replace (54 + - s - 53 - - s) with 1 by lia. reflexivity. }
    rewrite E1. cbv zeta. cbn [fst snd].
    destruct (shr_record_of_loc q l) as [m0 r0 s0] eqn:Erec.
    assert (Hm0 : m0 = q).
    { pose proof (shr_record_of_loc_m q l) as H. rewrite Erec in H. exact H. }
    subst m0. rewrite shr_1_fields by lia. cbn [shr_m].
    assert (E2 : 2 ^ s = 2 * 2 ^ (s - 1)).
    { rewrite <- Z.pow_succ_r by lia. f_equal. lia. }
    assert (H2s1 : 0 < 2 ^ (s - 1)) by (apply Z.pow_pos_nonneg; lia).
    pose proof (Z.div_mod q 2 ltac:(lia)) as Hdm.
    pose proof (Z.mod_pos_bound q 2 ltac:(lia)) as Hmb.
    replace (- s + 1) with (- (s - 1)) by lia.
    apply (ceil_renormalised
             (round_nearest_even (q / 2)
                (loc_of_shr_record
                   {| shr_m := q / 2; shr_r := Z.odd q; shr_s := r0 || s0 |}))
             (s - 1) K); [| lia | exact HK |].
    + pose proof (round_nearest_even_range (q / 2)
        (loc_of_shr_record {| shr_m := q / 2; shr_r := Z.odd q; shr_s := r0 || s0 |}))
        as [-> | ->]; lia.
    + rewrite E2 in HKq.
      destruct (Z.odd q) eqn:Hodd.
      * (* the round bit is set *)
        assert (Hq1 : q mod 2 = 1).
        { rewrite Zmod_odd, Hodd. reflexivity. }
        destruct (Z.eq_dec (q / 2) ((K - 1) * 2 ^ (s - 1))) as [Eq | Ne].
        -- (* just above [K - 1]: the sticky bit decides *)
           assert (Hl : l <> loc_Exact).
           { intros El. apply (Hex El). rewrite E2. lia. }
           assert (Hst : r0 || s0 = true).
           { destruct l as [| [| |]]; [congruence | | |];
               cbn in Erec; inversion Erec; reflexivity. }
           rewrite Hst, round_up_above_half. lia.
        -- destruct (round_up_needs_round_bit (q / 2) (q / 2) true (r0 || s0))
             as [E | [E _]]; rewrite E; lia.
      * assert (Hq0 : q mod 2 = 0).
        { rewrite Zmod_odd, Hodd. reflexivity. }
        destruct (round_up_needs_round_bit (q / 2) (q / 2) false (r0 || s0))
          as [E | [_ E]]; [rewrite E; lia | discriminate].
Qed.

Lemma div_eucl_div_mod a b : Z.div_eucl a b = (a / b, a mod b).
Proof. unfold Z.div, Z.modulo. destruct (Z.div_eucl a b). reflexivity. Qed.

(** The quotient [SFdiv_core_binary] hands to the rounding, for two
    integers below [2^53]. *)
Lemma div_core_small a b :
  0 < a < 2 ^ 53 -> 0 < b < 2 ^ 53 ->
  let s := 53 + Zdigits2 b - Zdigits2 a in
  1 <= s <= 105 /\ b < 2 ^ s /\
  2 ^ 52 <= a * 2 ^ s / b < 2 ^ 54 /\
  SFdiv_core_binary prec emax a 0 b 0
  = (a * 2 ^ s / b, - s, new_location b ((a * 2 ^ s) mod b)).
Proof.
  intros Ha Hb s.
  pose proof (Zdigits2_lt a 53 ltac:(lia) Ha) as Hda.
  pose proof (Zdigits2_lt b 53 ltac:(lia) Hb) as Hdb.
  pose proof (Zdigits2_bounds a ltac:(lia)) as [Hla Hua].
  pose proof (Zdigits2_bounds b ltac:(lia)) as [Hlb Hub].
  assert (Hda1 : 1 <= Zdigits2 a) by (destruct a; cbn; lia).
  assert (Hdb1 : 1 <= Zdigits2 b) by (destruct b; cbn; lia).
  assert (Hs : 1 <= s <= 105) by (unfold s; lia).
  assert (H2s : 0 < 2 ^ s) by (apply Z.pow_pos_nonneg; lia).
  split; [exact Hs|]. split.
  { eapply Z.lt_le_trans; [exact Hub|]. apply Z.pow_le_mono_r; unfold s; lia. }
  split.
  { split.
    - apply Z.div_le_lower_bound; [lia|].
      assert (E : 2 ^ (Zdigits2 a - 1) * 2 ^ s = 2 ^ 52 * 2 ^ Zdigits2 b).
      { rewrite <- !Z.pow_add_r by lia. f_equal. unfold s. lia. }
      assert (2 ^ (Zdigits2 a - 1) * 2 ^ s <= a * 2 ^ s)
        by (apply Z.mul_le_mono_nonneg_r; lia).
      assert (0 < 2 ^ 52) by reflexivity. nia.
    - apply Z.div_lt_upper_bound; [lia|].
      assert (E : 2 ^ Zdigits2 a * 2 ^ s = 2 ^ 54 * 2 ^ (Zdigits2 b - 1)).
      { rewrite <- !Z.pow_add_r by lia. f_equal. unfold s. lia. }
      assert (a * 2 ^ s < 2 ^ Zdigits2 a * 2 ^ s)
        by (apply Z.mul_lt_mono_pos_r; lia).
      assert (0 < 2 ^ 54) by reflexivity. nia. }
  unfold SFdiv_core_binary.
  replace (Z.min (fexp prec emax (Zdigits2 a + 0 - (Zdigits2 b + 0))) (0 - 0))
    with (- s) by (unfold fexp, emin, prec, emax, s; lia).
  replace (0 - 0 - - s) with s by lia.
  destruct s as [| p | p] eqn:Es; try lia.
  rewrite Z.shiftl_mul_pow2 by lia. rewrite div_eucl_div_mod. reflexivity.
Qed.

(** [ceil(a / b)] is the integer ceiling as long as both operands are
    below [2^53]. *)
Lemma ceil_div_exact a b :
  0 <= a < 2 ^ 53 -> 1 <= b < 2 ^ 53 ->
  ceil_div a b = Ok ((a + b - 1) / b).
Proof.
  intros Ha Hb. unfold ceil_div, int_truediv.
  replace (b =? 0) with false by (symmetry; apply Z.eqb_neq; lia).
  destruct (Z.eqb_spec a 0) as [-> | Ha0].
  { cbn [bind ceil]. rewrite Z.div_small by lia. reflexivity. }
  rewrite (Z.abs_eq a), (Z.abs_eq b) by lia.
  replace (a <? 0) with false by (symmetry; apply Z.ltb_ge; lia).
  replace (b <? 0) with false by (symmetry; apply Z.ltb_ge; lia).
  cbn [xorb].
  destruct (div_core_small a b ltac:(lia) ltac:(lia)) as (Hs & Hbs & Hq & ->).
  set (s := 53 + Zdigits2 b - Zdigits2 a) in *.
  set (T := 2 ^ s) in *.
  set (K := (a + b - 1) / b).
  pose proof (Z.div_mod (a + b - 1) b ltac:(lia)) as HK. fold K in HK.
  pose proof (Z.mod_pos_bound (a + b - 1) b ltac:(lia)) as HKr.
  pose proof (Z.div_mod (a * T) b ltac:(lia)) as Hdm.
  pose proof (Z.mod_pos_bound (a * T) b ltac:(lia)) as Hr.
  set (q := a * T / b) in *. set (r := (a * T) mod b) in *.
  set (rho := (a + b - 1) mod b) in *.
  assert (HT : 0 < T) by (apply Z.pow_pos_nonneg; lia).
  assert (HKa : (K - 1) * b + 1 <= a <= K * b) by lia.
  assert (HK1 : 1 <= K) by nia.
  assert (HKle : K <= a) by nia.
  assert (Hlow : (K - 1) * T < q).
  { destruct (Z_lt_le_dec ((K - 1) * T) q) as [|Hle]; [assumption|]. exfalso.
    assert (q * b <= (K - 1) * T * b) by (apply Z.mul_le_mono_nonneg_r; lia).
    assert ((K - 1) * b * T + T <= a * T) by nia.
    nia. }
  assert (Hup : q <= K * T).
  { destruct (Z_le_gt_dec q (K * T)) as [|Hgt]; [assumption|]. exfalso.
    assert (a * T <= K * b * T) by (apply Z.mul_le_mono_nonneg_r; lia).
    assert ((K * T + 1) * b <= q * b) by (apply Z.mul_le_mono_nonneg_r; lia).
    nia. }
  assert (Hfin : forall f, ceil f = Ok K -> 
            bind (if is_finite f then Ok f else Raise OverflowError) ceil = Ok K).
  { intros f Hf. destruct f; cbn in *; congruence. }
  apply Hfin. apply ceil_rounded; try lia.
  - intros Hl. apply new_location_inexact in Hl.
    destruct (Z_lt_le_dec q (K * T)) as [|Hge]; [assumption|]. exfalso.
    assert (a * T <= K * b * T) by (apply Z.mul_le_mono_nonneg_r; lia).
    assert (K * T * b <= q * b) by (apply Z.mul_le_mono_nonneg_r; lia).
    nia.
  - intros Hl Eq. apply new_location_exact in Hl.
    assert (a * T = (K - 1) * b * T + b) by nia.
    assert (T * (a - (K - 1) * b) = b) by nia.
    assert (T * 1 <= T * (a - (K - 1) * b)) by (apply Z.mul_le_mono_nonneg_l; lia).
    lia.
Qed.

End CeilFacts.

(** X23.  [po_list] counts its pages in floating point,
    [ceil(total_count / per_page)]; with fewer than [2^53] matching orders
    and a page size from 1 to below [2^53] the rounding never shows.  Every
    page whose offset [(page-1)*per_page] fits a signed 64-bit integer is
    answered: the pager holds exactly the integer ceiling of
    [total_count / per_page], the page has no more than [per_page] rows, and
    the pager offers a next page exactly when rows remain behind the
    current one; a page whose offset does not fit ends in [OverflowError]
    from the parameter binding.  Fetching the pages [1 .. pages] in turn
    shows every matching order once and in order.  A page size of zero
    raises [ZeroDivisionError]. *)
Theorem po_list_pages :
  forall (row : Type) (matching : list row) (per_page : Z),
    Z.of_nat (List.length matching) < 2 ^ 53 -> 1 <= per_page < 2 ^ 53 ->
    let total := Z.of_nat (List.length matching) in
    let pages := (total + per_page - 1) / per_page in
    (forall page,
        -9223372036854775808 <= (page - 1) * per_page <= 9223372036854775807 ->
        exists v,
          PurchaseListing.po_list row matching per_page page = Ok v /\
          PurchaseListing.pagination row v
          = {| Pagination.page := page; Pagination.pages := pages |} /\
          Z.of_nat (List.length (PurchaseListing.purchase_orders row v))
          <= per_page /\
          (Pagination.has_next (PurchaseListing.pagination row v) = true
           <-> page * per_page < total)) /\
    (forall page,
        (page - 1) * per_page < -9223372036854775808 \/
        9223372036854775807 < (page - 1) * per_page ->
        PurchaseListing.po_list row matching per_page page
        = Raise OverflowError) /\
    Listings.walk row
      (fun p => PurchaseListing.shown row
                  (PurchaseListing.po_list row matching per_page p))
      pages = matching /\
    (forall page,
        PurchaseListing.po_list row matching 0 page = Raise ZeroDivisionError).
Proof.
  intros row matching per_page Hn Hpp total pages.
  assert (P53 : 2 ^ 53 = 9007199254740992) by reflexivity.
  rewrite P53 in Hn, Hpp.
  assert (Hc : PyMath.ceil_div total per_page = Ok pages).
  { apply CeilFacts.ceil_div_exact; rewrite P53; unfold total; lia. }
  pose proof (WalkFacts.ceil_covers total per_page ltac:(lia)) as Hcov.
  fold pages in Hcov.
  assert (Hfetch : forall page,
            -9223372036854775808 <= (page - 1) * per_page <= 9223372036854775807 ->
            PurchaseListing.po_list row matching per_page page
            = Ok {| PurchaseListing.purchase_orders :=
                      Listing.window row per_page ((page - 1) * per_page) matching;
                    PurchaseListing.pagination :=
                      {| Pagination.page := page; Pagination.pages := pages |} |}).
  { intros page Hoff. unfold PurchaseListing.po_list.
    rewrite ListingFacts.limit_offset_bound
      by (apply ListingFacts.int64_true; lia).
    cbn [bind]. fold total. rewrite Hc. reflexivity. }
  split; [| split; [| split]].
  - intros page Hoff. rewrite (Hfetch page Hoff). eexists. split; [reflexivity|].
    cbn [PurchaseListing.pagination PurchaseListing.purchase_orders].
    split; [reflexivity|]. split; [apply WalkFacts.window_size; lia|].
    unfold Pagination.has_next. cbn [Pagination.page Pagination.pages].
    rewrite Z.ltb_lt. split.
    + intros Hlt.
      pose proof (Z.mul_div_le (total + per_page - 1) per_page ltac:(lia)) as Hle.
      fold pages in Hle. nia.
    + intros Hlt. assert (page + 1 <= pages); [| lia].
      unfold pages. apply Z.div_le_lower_bound; lia.
  - intros page Hoff. unfold PurchaseListing.po_list.
    rewrite ListingFacts.limit_offset_offset_refused
      by (apply ListingFacts.int64_false; exact Hoff).
    reflexivity.
  - apply (WalkFacts.walk_all row _ per_page); [lia | fold total; exact Hcov |].
    intros p Hp.
    assert (Hlast : (pages - 1) * per_page < total).
    { pose proof (Z.div_mod (total + per_page - 1) per_page ltac:(lia)) as E.
      pose proof (Z.mod_pos_bound (total + per_page - 1) per_page ltac:(lia)) as M.
      fold pages in E. nia. }
    rewrite Hfetch; [reflexivity|].
    assert (0 <= (p - 1) * per_page) by nia.
    assert ((p - 1) * per_page <= (pages - 1) * per_page) by nia.
    unfold total in *. lia.
  - intros page. unfold PurchaseListing.po_list.
    rewrite Z.mul_0_r. reflexivity.
Qed.

Lemma po_list_pages_witness :
  Listings.walk nat
    (fun p => PurchaseListing.shown nat
                (PurchaseListing.po_list nat [1; 2; 3; 4; 5]%nat 2 p))
    ((5 + 2 - 1) / 2)
  = [1; 2; 3; 4; 5]%nat.
Proof.
  exact (proj1 (proj2 (proj2 (po_list_pages nat [1; 2; 3; 4; 5]%nat 2
                         ltac:(reflexivity) ltac:(split; [lia | reflexivity]))))).
Defined.

Module SheetPagesFacts.
Import Sheet.

Section Labels.

Variable A : Type.

Lemma page_slice_chunk (barcodes : list A) (i : nat) :
  page_slice barcodes (Z.of_nat i)
  = firstn 45 (skipn (i * 45) barcodes).
Proof.
  unfold page_slice. change per_page with 45.
  replace (Z.to_nat (Z.of_nat i * 45)) with (i * 45)%nat by lia.
  set (rest := skipn (i * 45) barcodes).
  assert (Hrest : List.length rest
                  = (List.length barcodes - i * 45)%nat) by apply length_skipn.
  destruct (Z_le_gt_dec (Z.of_nat i * 45 + 45) (Z.of_nat (List.length barcodes)))
    as [Hle | Hgt].
  - rewrite Z.min_l by lia. f_equal. lia.
  - rewrite Z.min_r by lia.
    rewrite (firstn_all2 (n := 45) rest) by lia.
    apply firstn_all2. lia.
Qed.

Lemma chunks_concat (barcodes : list A) (n : nat) :
  List.concat (map (fun i => firstn 45 (skipn (i * 45) barcodes)) (seq 0 n))
  = firstn (n * 45) barcodes.
Proof.
  induction n as [| n IH].
  - reflexivity.
  - rewrite seq_S, map_app, concat_app, IH. cbn [map List.concat Nat.add].
    rewrite app_nil_r.
    replace (S n * 45)%nat with (n * 45 + 45)%nat by lia.
    symmetry. apply WalkFacts.firstn_add.
Qed.

Lemma chunk_length (barcodes : list A) (i : nat) :
  List.length (firstn 45 (skipn (i * 45) barcodes))
  = Nat.min 45 (List.length barcodes - i * 45).
Proof. rewrite length_firstn, length_skipn. reflexivity. Qed.

End Labels.

End SheetPagesFacts.

(** X24.  The label sheet splits the labels over
    [math.ceil(len(barcodes) / per_page)] pages of 45; with fewer than
    [2^53] labels the floating-point page count is the integer ceiling, and
    the pages, read in order, are exactly the labels: none is lost or drawn
    twice, no page is empty, none holds more than 45 labels, and every page
    before the last is full. *)
Theorem label_sheets_partition :
  forall (A : Type) (barcodes : list A),
    Z.of_nat (List.length barcodes) < 2 ^ 53 ->
    exists sheets,
      Sheets.pages barcodes = Ok sheets /\
      List.concat sheets = barcodes /\
      Z.of_nat (List.length sheets)
      = (Z.of_nat (List.length barcodes) + 44) / 45 /\
      (forall i labels,
          nth_error sheets i = Some labels ->
          (1 <= List.length labels <= 45)%nat /\
          ((S i < List.length sheets)%nat -> List.length labels = 45%nat)).
Proof.
  intros A barcodes Hn.
  set (n := Z.of_nat (List.length barcodes)) in *.
  set (P := (n + 44) / 45).
  assert (Hc : PyMath.ceil_div n Sheet.per_page = Ok P).
  { rewrite CeilFacts.ceil_div_exact;
      [| unfold n; lia
       | change Sheet.per_page with 45; split; [lia | reflexivity]].
    change Sheet.per_page with 45. unfold P. do 2 f_equal. lia. }
  pose proof (Z.div_mod (n + 44) 45 ltac:(lia)) as Hdm. fold P in Hdm.
  pose proof (Z.mod_pos_bound (n + 44) 45 ltac:(lia)) as Hmb.
  assert (HP : 0 <= P) by (apply Z.div_pos; unfold n; lia).
  unfold Sheets.pages. fold n. rewrite Hc. cbn [bind]. eexists.
  split; [reflexivity|]. unfold range.
  rewrite (map_ext _ (fun i => firstn 45 (skipn (i * 45) barcodes)))
    by (intros i; apply SheetPagesFacts.page_slice_chunk).
  split; [| split].
  - rewrite SheetPagesFacts.chunks_concat. apply firstn_all2. unfold n in *. lia.
  - rewrite length_map, length_seq. lia.
  - intros i labels Hi. rewrite length_map, length_seq.
    rewrite nth_error_map in Hi.
    destruct (nth_error (seq 0 (Z.to_nat P)) i) as [j |] eqn:Ej; [| discriminate].
    cbn [option_map] in Hi.
    assert (El : labels = firstn 45 (skipn (j * 45) barcodes)) by congruence.
    clear Hi. subst labels.
    assert (Hlt : (i < List.length (seq 0 (Z.to_nat P)))%nat)
      by (apply nth_error_Some; congruence).
    rewrite length_seq in Hlt.
    pose proof (nth_error_nth _ _ 0%nat Ej) as Hj.
    rewrite seq_nth in Hj by exact Hlt. cbn [Nat.add] in Hj. subst j.
    rewrite SheetPagesFacts.chunk_length. unfold n in *. lia.
Qed.

Lemma label_sheets_partition_witness :
  exists sheets,
    Sheets.pages (repeat "label"%string 46) = Ok sheets /\
    List.concat sheets = repeat "label"%string 46 /\
    Z.of_nat (List.length sheets)
    = (Z.of_nat (List.length (repeat "label"%string 46)) + 44) / 45 /\
    (forall i labels,
        nth_error sheets i = Some labels ->
        (1 <= List.length labels <= 45)%nat /\
        ((S i < List.length sheets)%nat -> List.length labels = 45%nat)).
Proof.
  apply (label_sheets_partition string (repeat "label"%string 46)).
  reflexivity.
Defined.

(** Beyond 53 bits the quotient is rounded before the ceiling is taken. *)
Example ceil_div_beyond_53_bits :
  PyMath.ceil_div (2 ^ 53 + 1) 1 = Ok (2 ^ 53).
Proof. vm_compute. reflexivity. Qed.

(** ** The item import *)

Module ImportFacts.
Import Web Items ItemImport.

(** The name under which a row is imported, if it is. *)
Definition name_of (row : csv_row) : option string :=
  match c_name row with
  | None => None
  | Some name => if String.eqb name "" then None else Some name
  end.

Definition count_named (rows : list csv_row) : Z :=
  Z.of_nat (List.length (filter (fun row => match name_of row with
                                            | Some _ => true
                                            | None => false
                                            end) rows)).

(** The last row of [rows] that is imported onto the item [it]. *)
Fixpoint last_for (it : item) (rows : list csv_row)
  : option (string * csv_row) :=
  match rows with
  | [] => None
  | row :: rest =>
      match last_for it rest with
      | Some x => Some x
      | None =>
          match name_of row with
          | Some name => if conflicts row it then Some (name, row) else None
          | None => None
          end
      end
  end.

Definition settle (rows : list csv_row) (it : item) : item :=
  match last_for it rows with
  | Some (name, row) => bound (it_id it) (it_supplier_id it) name row
  | None => it
  end.

Definition bounded (d : items_db) : Prop :=
  forall id, In id (map it_id (items d)) -> id <= items_seq d.

Lemma import_row_eq c d row :
  import_row (c, d) row
  = match name_of row with
    | Some name => (c + 1, upsert name row d)
    | None => (c, d)
    end.
Proof.
  unfold import_row, name_of. destruct (c_name row) as [name |]; [| reflexivity].
  destruct (String.eqb name ""); reflexivity.
Qed.

Lemma count_named_cons row rows :
  count_named (row :: rows)
  = (match name_of row with Some _ => 1 | None => 0 end) + count_named rows.
Proof.
  unfold count_named. cbn [filter]. destruct (name_of row); cbn [List.length]; lia.
Qed.

Lemma count_named_nonneg rows : 0 <= count_named rows.
Proof. unfold count_named. lia. Qed.

Lemma import_count rows : forall c d,
  fst (fold_left import_row rows (c, d)) = c + count_named rows.
Proof.
  induction rows as [| row rows IH]; intros c d; cbn [fold_left].
  - unfold count_named. cbn. lia.
  - rewrite import_row_eq, count_named_cons.
    destruct (name_of row); rewrite IH; lia.
Qed.

Lemma import_nothing rows : forall c d,
  count_named rows = 0 -> snd (fold_left import_row rows (c, d)) = d.
Proof.
  induction rows as [| row rows IH]; intros c d H; cbn [fold_left]; [reflexivity|].
  rewrite import_row_eq. rewrite count_named_cons in H.
  pose proof (count_named_nonneg rows).
  destruct (name_of row); [lia|]. apply IH. lia.
Qed.

Lemma conflicts_same_sku row a b :
  it_sku a = it_sku b -> conflicts row a = conflicts row b.
Proof. unfold conflicts. intros ->. reflexivity. Qed.

Lemma conflicts_bound row id sup name :
  c_sku row <> None -> conflicts row (bound id sup name row) = true.
Proof.
  unfold conflicts. cbn [bound it_sku]. destruct (c_sku row) as [s |]; [| congruence].
  intros _. cbn [Db.opt_eqb]. apply String.eqb_refl.
Qed.

Lemma conflicts_sku row it :
  conflicts row it = true -> it_sku it = c_sku row /\ c_sku row <> None.
Proof.
  unfold conflicts. destruct (c_sku row) as [s |]; [| discriminate].
  destruct (it_sku it) as [a |]; cbn [Db.opt_eqb]; [| discriminate].
  intros H. apply String.eqb_eq in H. subst a. split; congruence.
Qed.

Lemma conflicts_no_sku row it : it_sku it = None -> conflicts row it = false.
Proof. unfold conflicts. intros ->. destruct (c_sku row); reflexivity. Qed.

(** The update leaves the SKU of every item as it is. *)
Lemma update_keeps_sku name row it :
  it_sku (if conflicts row it
          then bound (it_id it) (it_supplier_id it) name row else it)
  = it_sku it.
Proof.
  destruct (conflicts row it) eqn:E; [| reflexivity].
  apply conflicts_sku in E as [E _]. cbn [bound it_sku]. congruence.
Qed.

Lemma update_keeps_id name row it :
  it_id (if conflicts row it
         then bound (it_id it) (it_supplier_id it) name row else it)
  = it_id it.
Proof. destruct (conflicts row it); reflexivity. Qed.

Lemma last_for_same_sku a b rows :
  it_sku a = it_sku b -> last_for a rows = last_for b rows.
Proof.
  intros E. induction rows as [| row rows IH]; cbn [last_for]; [reflexivity|].
  rewrite IH, (conflicts_same_sku row a b E). reflexivity.
Qed.

Lemma last_for_app it rows2 : forall rows1,
  last_for it (rows1 ++ rows2)
  = match last_for it rows2 with
    | Some x => Some x
    | None => last_for it rows1
    end.
Proof.
  induction rows1 as [| row rows1 IH]; cbn [app last_for].
  - destruct (last_for it rows2); reflexivity.
  - rewrite IH. destruct (last_for it rows2); reflexivity.
Qed.

Lemma last_for_no_sku it rows : it_sku it = None -> last_for it rows = None.
Proof.
  intros E. induction rows as [| row rows IH]; cbn [last_for]; [reflexivity|].
  rewrite IH, (conflicts_no_sku row it E). destruct (name_of row); reflexivity.
Qed.

(** One statement keeps every item settled on the rows met so far. *)
Lemma upsert_settled done name row d :
  name_of row = Some name ->
  (forall it, In it (items d) -> settle done it = it) ->
  forall it, In it (items (upsert name row d)) ->
             settle (done ++ [row]) it = it.
Proof.
  intros Hname Hdone it Hin.
  assert (Hsnoc : forall x,
    settle (done ++ [row]) x
    = if conflicts row x then bound (it_id x) (it_supplier_id x) name row
      else settle done x).
  { intros x. unfold settle. rewrite last_for_app. cbn [last_for].
    rewrite Hname. destruct (conflicts row x); reflexivity. }
  rewrite Hsnoc. unfold upsert in Hin.
  destruct (existsb (conflicts row) (items d)) eqn:Ex; cbn [items] in Hin.
  - apply in_map_iff in Hin as (it0 & <- & Hin0).
    destruct (conflicts row it0) eqn:E0.
    + apply conflicts_sku in E0 as [_ Hs].
      rewrite conflicts_bound by exact Hs. reflexivity.
    + rewrite E0. apply Hdone. exact Hin0.
  - apply in_app_iff in Hin as [Hin | [<- | []]].
    + assert (E0 : conflicts row it = false).
      { destruct (conflicts row it) eqn:E0; [| reflexivity].
        assert (existsb (conflicts row) (items d) = true)
          by (apply existsb_exists; eauto).
        congruence. }
      rewrite E0. apply Hdone. exact Hin.
    + set (new := bound _ None name row).
      destruct (conflicts row new) eqn:E0; [reflexivity|].
      unfold settle. rewrite last_for_no_sku; [reflexivity|].
      destruct (c_sku row) as [s |] eqn:Es; [| exact Es].
      exfalso. unfold new in E0. rewrite conflicts_bound in E0 by congruence.
      discriminate.
Qed.

Lemma import_settled rows : forall done c d,
  (forall it, In it (items d) -> settle done it = it) ->
  forall it, In it (items (snd (fold_left import_row rows (c, d)))) ->
             settle (done ++ rows) it = it.
Proof.
  induction rows as [| row rows IH]; intros done c d Hdone it Hin;
    cbn [fold_left] in Hin.
  - rewrite app_nil_r. apply Hdone. exact Hin.
  - rewrite import_row_eq in Hin.
    replace (done ++ row :: rows)%list with ((done ++ [row]) ++ rows)%list
      by (rewrite <- app_assoc; reflexivity).
    destruct (name_of row) as [name |] eqn:Hname.
    + eapply IH; [| exact Hin].
      apply upsert_settled; assumption.
    + eapply IH; [| exact Hin].
      intros x Hx. unfold settle. rewrite last_for_app. cbn [last_for].
      rewrite Hname. apply Hdone. exact Hx.
Qed.

(** A SKU that is stored stays stored. *)
Lemma upsert_keeps_present row0 name row d :
  existsb (conflicts row0) (items d) = true ->
  existsb (conflicts row0) (items (upsert name row d)) = true.
Proof.
  intros H. apply existsb_exists in H as (it & Hin & Hc).
  apply existsb_exists. unfold upsert.
  destruct (existsb (conflicts row) (items d)); cbn [items].
  - eexists. split; [apply in_map; exact Hin|].
    rewrite <- Hc. apply conflicts_same_sku. apply update_keeps_sku.
  - exists it. split; [apply in_app_iff; left; exact Hin | exact Hc].
Qed.

Lemma import_keeps_present row0 rows : forall c d,
  existsb (conflicts row0) (items d) = true ->
  existsb (conflicts row0)
          (items (snd (fold_left import_row rows (c, d)))) = true.
Proof.
  induction rows as [| row rows IH]; intros c d H; cbn [fold_left]; [exact H|].
  rewrite import_row_eq. destruct (name_of row) as [name |].
  - apply IH. apply upsert_keeps_present. exact H.
  - apply IH. exact H.
Qed.

Lemma upsert_present name row d :
  c_sku row <> None ->
  existsb (conflicts row) (items (upsert name row d)) = true.
Proof.
  intros Hs. destruct (existsb (conflicts row) (items d)) eqn:Ex.
  - apply upsert_keeps_present. exact Ex.
  - unfold upsert. rewrite Ex. cbn [items]. rewrite existsb_app.
    cbn [existsb]. rewrite (conflicts_bound row _ None name Hs).
    rewrite orb_true_r. reflexivity.
Qed.

(** After the import the SKU of every imported row is stored. *)
Lemma import_present rows : forall c d row name,
  In row rows -> name_of row = Some name -> c_sku row <> None ->
  existsb (conflicts row)
          (items (snd (fold_left import_row rows (c, d)))) = true.
Proof.
  induction rows as [| r rows IH]; intros c d row name Hin Hname Hs;
    [contradiction|].
  cbn [fold_left]. rewrite import_row_eq. destruct Hin as [-> | Hin].
  - rewrite Hname. apply import_keeps_present. apply upsert_present. exact Hs.
  - destruct (name_of r); eapply IH; eassumption.
Qed.

(** On a table that stores the SKU of every row, the import settles each
    item on the last of its rows. *)
Lemma import_all_present rows : forall c d,
  (forall row name, In row rows -> name_of row = Some name ->
                    existsb (conflicts row) (items d) = true) ->
  items (snd (fold_left import_row rows (c, d))) = map (settle rows) (items d).
Proof.
  induction rows as [| row rows IH]; intros c d Hp; cbn [fold_left].
  - cbn [snd]. symmetry. erewrite map_ext; [apply map_id|]. reflexivity.
  - rewrite import_row_eq. destruct (name_of row) as [name |] eqn:Hname.
    + rewrite IH.
      * unfold upsert. rewrite (Hp row name (or_introl eq_refl) Hname).
        cbn [items]. rewrite map_map. apply map_ext. intros it.
        unfold settle. cbn [last_for]. rewrite Hname.
        rewrite (last_for_same_sku _ it rows (update_keeps_sku name row it)).
        destruct (last_for it rows) as [[n r] |].
        -- rewrite update_keeps_id.
           destruct (conflicts row it); reflexivity.
        -- destruct (conflicts row it); reflexivity.
      * intros r n Hin Hn. apply upsert_keeps_present.
        apply (Hp r n); [right; exact Hin | exact Hn].
    + rewrite IH.
      * apply map_ext. intros it. unfold settle. cbn [last_for].
        rewrite Hname. destruct (last_for it rows); reflexivity.
      * intros r n Hin Hn. apply (Hp r n); [right; exact Hin | exact Hn].
Qed.

Lemma fold_max_bounded ids : forall seq,
  (forall id, In id ids -> id <= seq) -> fold_left Z.max ids seq = seq.
Proof.
  induction ids as [| a ids IH]; intros seq H; cbn [fold_left]; [reflexivity|].
  rewrite Z.max_l by (apply H; left; reflexivity).
  apply IH. intros id Hid. apply H. right. exact Hid.
Qed.

Lemma upsert_ids name row d :
  map it_id (items (upsert name row d)) = map it_id (items d) \/
  map it_id (items (upsert name row d))
  = (map it_id (items d) ++ [items_seq (upsert name row d)])%list.
Proof.
  unfold upsert. destruct (existsb (conflicts row) (items d)); cbn [items items_seq].
  - left. rewrite map_map. apply map_ext. intros it. apply update_keeps_id.
  - right. rewrite map_app. reflexivity.
Qed.

Lemma upsert_seq name row d :
  items_seq (upsert name row d)
  = Db.next_id (items_seq d) (map it_id (items d)).
Proof. unfold upsert. destruct (existsb _ _); reflexivity. Qed.

Lemma upsert_bounded name row d : bounded (upsert name row d).
Proof.
  unfold bounded. intros id Hid. rewrite upsert_seq.
  destruct (upsert_ids name row d) as [E | E]; rewrite E in Hid.
  - pose proof (NumberFacts.next_id_fresh (items_seq d) _ id Hid). lia.
  - apply in_app_iff in Hid as [Hid | [<- | []]].
    + pose proof (NumberFacts.next_id_fresh (items_seq d) _ id Hid). lia.
    + rewrite upsert_seq. lia.
Qed.

Lemma import_seq rows : forall c d,
  bounded d ->
  items_seq (snd (fold_left import_row rows (c, d)))
  = items_seq d + count_named rows.
Proof.
  induction rows as [| row rows IH]; intros c d Hb; cbn [fold_left].
  - unfold count_named. cbn. lia.
  - rewrite import_row_eq, count_named_cons.
    destruct (name_of row) as [name |].
    + rewrite IH by apply upsert_bounded. rewrite upsert_seq.
      unfold Db.next_id. rewrite fold_max_bounded by exact Hb. lia.
    + rewrite IH by exact Hb. lia.
Qed.

Lemma import_bounded rows : forall c d,
  bounded d \/ 0 < count_named rows ->
  bounded (snd (fold_left import_row rows (c, d))).
Proof.
  induction rows as [| row rows IH]; intros c d H; cbn [fold_left].
  - destruct H as [H | H]; [exact H|]. unfold count_named in H. cbn in H. lia.
  - rewrite import_row_eq. rewrite count_named_cons in H.
    destruct (name_of row) as [name |].
    + apply IH. left. apply upsert_bounded.
    + apply IH. destruct H as [H | H]; [left; exact H | right; lia].
Qed.

(** The rows of the table before the import keep their place and id, and
    at most one item is added per row. *)
Lemma import_grows rows : forall c d,
  exists added,
    map it_id (items (snd (fold_left import_row rows (c, d))))
    = (map it_id (items d) ++ added)%list /\
    Z.of_nat (List.length added) <= count_named rows.
Proof.
  induction rows as [| row rows IH]; intros c d; cbn [fold_left].
  - exists []. rewrite app_nil_r. split; [reflexivity|].
    unfold count_named. cbn. lia.
  - rewrite import_row_eq, count_named_cons.
    destruct (name_of row) as [name |].
    + destruct (IH (c + 1) (upsert name row d)) as (added & E & L).
      destruct (upsert_ids name row d) as [E1 | E1]; rewrite E1 in E.
      * exists added. split; [exact E | lia].
      * eexists. rewrite <- app_assoc in E. split; [exact E|].
        cbn [app List.length]. lia.
    + destruct (IH c d) as (added & E & L).
      exists added. split; [exact E | lia].
Qed.

(** An item whose SKU no imported row carries is left as it is. *)
Lemma import_untouched rows : forall c d it,
  In it (items d) ->
  (forall row name, In row rows -> name_of row = Some name ->
                    conflicts row it = false) ->
  In it (items (snd (fold_left import_row rows (c, d)))).
Proof.
  induction rows as [| row rows IH]; intros c d it Hin Hno; cbn [fold_left];
    [exact Hin|].
  rewrite import_row_eq. destruct (name_of row) as [name |] eqn:Hname.
  - apply IH.
    + unfold upsert. destruct (existsb (conflicts row) (items d)); cbn [items].
      * apply in_map_iff. exists it. split; [| exact Hin].
        rewrite (Hno row name (or_introl eq_refl) Hname). reflexivity.
      * apply in_app_iff. left. exact Hin.
    + intros r n Hr Hn. apply (Hno r n); [right; exact Hr | exact Hn].
  - apply IH; [exact Hin|].
    intros r n Hr Hn. apply (Hno r n); [right; exact Hr | exact Hn].
Qed.

(** Rows without a SKU are inserted, each of them. *)
Lemma import_no_sku rows : forall c d,
  (forall row, In row rows -> c_sku row = None) ->
  exists added,
    items (snd (fold_left import_row rows (c, d))) = (items d ++ added)%list /\
    Z.of_nat (List.length added) = count_named rows /\
    Forall (fun it => it_sku it = None) added.
Proof.
  induction rows as [| row rows IH]; intros c d Hs; cbn [fold_left].
  - exists []. rewrite app_nil_r. split; [reflexivity|].
    split; [unfold count_named; cbn; lia | constructor].
  - rewrite import_row_eq, count_named_cons.
    assert (Hrest : forall r, In r rows -> c_sku r = None)
      by (intros r Hr; apply Hs; right; exact Hr).
    destruct (name_of row) as [name |].
    + assert (Ex : existsb (conflicts row) (items d) = false).
      { destruct (existsb (conflicts row) (items d)) eqn:Ex; [| reflexivity].
        apply existsb_exists in Ex as (x & _ & Hx). unfold conflicts in Hx.
        rewrite (Hs row (or_introl eq_refl)) in Hx. discriminate. }
      destruct (IH (c + 1) (upsert name row d) Hrest) as (added & E & L & F).
      rewrite E. unfold upsert. rewrite Ex. cbn [items].
      rewrite <- app_assoc.
      eexists. split; [reflexivity|]. split.
      * cbn [app List.length]. lia.
      * constructor; [| exact F]. cbn [bound it_sku].
        apply Hs. left. reflexivity.
    + destruct (IH c d Hrest) as (added & E & L & F).
      exists added. split; [exact E|]. split; [lia | exact F].
Qed.

End ImportFacts.

Module ImportSpecFacts.
Import Web Items ItemImport ImportFacts.

Lemma name_of_falsy row :
  Handlers.falsy (c_name row) = match name_of row with
                                | Some _ => false
                                | None => true
                                end.
Proof.
  unfold Handlers.falsy, name_of. destruct (c_name row) as [n |]; [| reflexivity].
  destruct (String.eqb n ""); reflexivity.
Qed.

Lemma name_of_some row name :
  c_name row = Some name -> name <> "" -> name_of row = Some name.
Proof.
  intros E Hne. unfold name_of. rewrite E.
  destruct (String.eqb_spec name ""); [contradiction | reflexivity].
Qed.

Lemma count_named_falsy rows :
  count_named rows
  = Z.of_nat (List.length
                (filter (fun row => negb (Handlers.falsy (c_name row))) rows)).
Proof.
  unfold count_named. do 2 f_equal. apply filter_ext. intros row.
  rewrite name_of_falsy. destruct (name_of row); reflexivity.
Qed.

Lemma last_for_none it rows :
  (forall r name, In r rows -> name_of r = Some name -> conflicts r it = false) ->
  last_for it rows = None.
Proof.
  induction rows as [| r rows IH]; intros H; cbn [last_for]; [reflexivity|].
  rewrite IH by (intros r0 n Hr Hn; apply (H r0 n); [right; exact Hr | exact Hn]).
  destruct (name_of r) as [n |] eqn:Hn; [| reflexivity].
  rewrite (H r n (or_introl eq_refl) Hn). reflexivity.
Qed.

End ImportSpecFacts.

(** X25.  What an import of CSV rows leaves in the items table.  The count
    it reports is the number of rows with a non-empty name.  For a SKU
    cell [s] of such a row, an empty cell included, the table afterwards
    holds an item with SKU [s], and every item with that SKU holds the
    values of the last named row of the file that carries [s], whatever
    stood in the table or earlier in the file; only its id and supplier
    are kept.  The items stored before keep their place and id, at most one
    item is added per reported row, and an item whose SKU no named row
    carries is left as it was. *)
Theorem import_last_row_wins :
  forall (rows : list ItemImport.csv_row) (d : Items.items_db),
    let count := fst (ItemImport.items_import rows d) in
    let d' := snd (ItemImport.items_import rows d) in
    count
    = Z.of_nat (List.length
        (filter (fun row => negb (Handlers.falsy (ItemImport.c_name row))) rows)) /\
    (forall before row after name s,
        rows = (before ++ row :: after)%list ->
        ItemImport.c_name row = Some name -> name <> "" ->
        ItemImport.c_sku row = Some s ->
        (forall r, In r after -> ItemImport.c_sku r = Some s ->
                   Handlers.falsy (ItemImport.c_name r) = true) ->
        (exists it, In it (Items.items d') /\ Items.it_sku it = Some s) /\
        (forall it, In it (Items.items d') -> Items.it_sku it = Some s ->
                    it = ItemImport.bound (Items.it_id it)
                           (Items.it_supplier_id it) name row)) /\
    (exists added,
        map Items.it_id (Items.items d')
        = (map Items.it_id (Items.items d) ++ added)%list /\
        Z.of_nat (List.length added) <= count) /\
    (forall it,
        In it (Items.items d) ->
        (forall row, In row rows ->
                     Handlers.falsy (ItemImport.c_name row) = false ->
                     ItemImport.conflicts row it = false) ->
        In it (Items.items d')).
Proof.
  intros rows d count d'. unfold count, d', ItemImport.items_import.
  rewrite ImportFacts.import_count, Z.add_0_l.
  split; [apply ImportSpecFacts.count_named_falsy|]. split; [| split].
  - intros before row after name s -> Hname Hne Hsku Hafter.
    pose proof (ImportSpecFacts.name_of_some row name Hname Hne) as Hn.
    split.
    + assert (Hp : existsb (ItemImport.conflicts row)
                     (Items.items (snd (fold_left ItemImport.import_row
                                          (before ++ row :: after) (0, d)))) = true).
      { apply (ImportFacts.import_present _ 0 d row name);
          [apply in_elt | exact Hn | congruence]. }
      apply existsb_exists in Hp as (it & Hin & Hc).
      exists it. split; [exact Hin|].
      apply ImportFacts.conflicts_sku in Hc as [Hc _]. congruence.
    + intros it Hin Hs.
      pose proof (ImportFacts.import_settled (before ++ row :: after) [] 0 d
                    (fun x _ => eq_refl) it Hin) as Hset.
      cbn [app] in Hset. unfold ImportFacts.settle in Hset.
      rewrite ImportFacts.last_for_app in Hset.
      assert (Hc : ItemImport.conflicts row it = true).
      { unfold ItemImport.conflicts. rewrite Hsku, Hs. cbn [Db.opt_eqb].
        apply String.eqb_refl. }
      assert (Hlast : ImportFacts.last_for it (row :: after) = Some (name, row)).
      { cbn [ImportFacts.last_for].
        rewrite ImportSpecFacts.last_for_none, Hn, Hc; [reflexivity|].
        intros r n Hr Hrn.
        destruct (ItemImport.conflicts r it) eqn:E; [| reflexivity]. exfalso.
        apply ImportFacts.conflicts_sku in E as [E _].
        assert (Hf : Handlers.falsy (ItemImport.c_name r) = true)
          by (apply Hafter; [exact Hr | congruence]).
        rewrite ImportSpecFacts.name_of_falsy, Hrn in Hf. discriminate. }
      rewrite Hlast in Hset. symmetry. exact Hset.
  - destruct (ImportFacts.import_grows rows 0 d) as (added & E & L).
    exists added. split; [exact E | exact L].
  - intros it Hin Hno. apply ImportFacts.import_untouched; [exact Hin|].
    intros row name Hr Hn. apply Hno; [exact Hr|].
    rewrite ImportSpecFacts.name_of_falsy, Hn. reflexivity.
Qed.

(** X26.  When every named row of the file has a SKU cell, importing the
    file a second time changes no item: the table holds the same items in
    the same order.  The second import reports the same count and uses up
    as many ids as it reports rows, although it adds nothing. *)
Theorem import_twice_same_items :
  forall (rows : list ItemImport.csv_row) (d : Items.items_db),
    (forall row, In row rows ->
                 Handlers.falsy (ItemImport.c_name row) = false ->
                 ItemImport.c_sku row <> None) ->
    let once := ItemImport.items_import rows d in
    let twice := ItemImport.items_import rows (snd once) in
    Items.items (snd twice) = Items.items (snd once) /\
    fst twice = fst once /\
    Items.items_seq (snd twice) = Items.items_seq (snd once) + fst once.
Proof.
  intros rows d Hkeyed once twice. unfold twice, once, ItemImport.items_import.
  rewrite !ImportFacts.import_count.
  set (d1 := snd (fold_left ItemImport.import_row rows (0, d))).
  split; [| split; [reflexivity|]].
  - rewrite ImportFacts.import_all_present.
    + erewrite map_ext_in; [apply map_id|].
      intros it Hin.
      exact (ImportFacts.import_settled rows [] 0 d (fun x _ => eq_refl) it Hin).
    + intros row name Hr Hn. unfold d1.
      apply (ImportFacts.import_present rows 0 d row name Hr Hn).
      apply Hkeyed; [exact Hr|].
      rewrite ImportSpecFacts.name_of_falsy, Hn. reflexivity.
  - rewrite Z.add_0_l.
    destruct (Z.eq_dec (ImportFacts.count_named rows) 0) as [E0 | N0].
    + rewrite ImportFacts.import_nothing by exact E0. lia.
    + apply ImportFacts.import_seq. unfold d1.
      apply ImportFacts.import_bounded. right.
      pose proof (ImportFacts.count_named_nonneg rows). lia.
Qed.

(** X27.  When the file has no SKU column, no row meets a conflict: every
    named row adds an item without SKU behind the stored ones, so an
    import run twice stores every row twice. *)
Theorem import_without_sku_adds_rows :
  forall (rows : list ItemImport.csv_row) (d : Items.items_db),
    (forall row, In row rows -> ItemImport.c_sku row = None) ->
    let once := ItemImport.items_import rows d in
    let twice := ItemImport.items_import rows (snd once) in
    (exists added,
        Items.items (snd once) = (Items.items d ++ added)%list /\
        Z.of_nat (List.length added) = fst once /\
        Forall (fun it => Items.it_sku it = None) added) /\
    Z.of_nat (List.length (Items.items (snd twice)))
    = Z.of_nat (List.length (Items.items d)) + 2 * fst once.
Proof.
  intros rows d Hs once twice. unfold twice, once, ItemImport.items_import.
  rewrite !ImportFacts.import_count, Z.add_0_l.
  destruct (ImportFacts.import_no_sku rows 0 d Hs) as (added & E & L & F).
  split; [exists added; split; [exact E | split; [exact L | exact F]]|].
  destruct (ImportFacts.import_no_sku rows 0
              (snd (fold_left ItemImport.import_row rows (0, d))) Hs)
    as (added2 & E2 & L2 & _).
  rewrite E2, E, !length_app. lia.
Qed.

Lemma import_twice_same_items_witness :
  let once := ItemImport.items_import ImportExamples.price_list FormExamples.no_items in
  let twice := ItemImport.items_import ImportExamples.price_list (snd once) in
  Items.items (snd twice) = Items.items (snd once) /\
  fst twice = fst once /\
  Items.items_seq (snd twice) = Items.items_seq (snd once) + fst once.
Proof.
  apply (import_twice_same_items ImportExamples.price_list FormExamples.no_items).
  intros row Hin _.
  destruct Hin as [<- | [<- | [<- | []]]]; discriminate.
Defined.

Lemma import_without_sku_adds_rows_witness :
  let once := ItemImport.items_import ImportExamples.names_only FormExamples.no_items in
  let twice := ItemImport.items_import ImportExamples.names_only (snd once) in
  (exists added,
      Items.items (snd once) = (Items.items FormExamples.no_items ++ added)%list /\
      Z.of_nat (List.length added) = fst once /\
      Forall (fun it => Items.it_sku it = None) added) /\
  Z.of_nat (List.length (Items.items (snd twice)))
  = Z.of_nat (List.length (Items.items FormExamples.no_items)) + 2 * fst once.
Proof.
  apply (import_without_sku_adds_rows ImportExamples.names_only FormExamples.no_items).
  intros row Hin.
  destruct Hin as [<- | [<- | []]]; reflexivity.
Defined.

(** Three rows, two of them with an empty SKU cell: the import reports
    three items and stores two, the later of the two rows under the empty
    SKU. *)
Example import_blank_sku_cells :
  fst (ItemImport.items_import ImportExamples.blank_skus FormExamples.no_items) = 3 /\
  map (fun it => (Items.it_id it, Items.it_sku it, Items.it_name it))
      (Items.items (snd (ItemImport.items_import ImportExamples.blank_skus
                           FormExamples.no_items)))
  = [(1, Some "", "Lace"); (3, Some "B-1", "Button")].
Proof. vm_compute. split; reflexivity. Qed.
